(** * The DNS request engine of lib/dns/request.c

    A shallow embedding of the request state machine and of the two request
    factories ([dns_request_createraw], [dns_request_createvia]).

    The C code runs every handler with the request's shard lock held, so a
    handler is modelled as one atomic step on a [world]: the request manager,
    the request under consideration and the chronological trace of the calls
    made to the external services (task scheduler, sockets, timers, dispatch).
    Results that the external services hand back are read from an [Env] of
    oracles that see the trace so far.  A failed REQUIRE / INSIST, a NULL
    dereference and an undefined arithmetic operation abort the step
    ([None]). *)

From Stdlib Require Import ZArith List Bool Lia.
Import ListNotations.
Open Scope Z_scope.

(** ** Result codes *)

Inductive isc_result_t : Type :=
| ISC_R_SUCCESS
| ISC_R_NOMEMORY
| ISC_R_TIMEDOUT
| ISC_R_CANCELED
| ISC_R_SHUTTINGDOWN
| ISC_R_FAILURE
| ISC_R_NOSPACE
| ISC_R_NOTIMPLEMENTED
| ISC_R_FAMILYNOSUPPORT
| ISC_R_FAMILYMISMATCH
| ISC_R_RANGE
| ISC_R_ADDRINUSE
| ISC_R_NOMORE
| DNS_R_BLACKHOLED
| DNS_R_FORMERR
| DNS_R_USETCP
| ISC_R_UNEXPECTED.

Definition is_success (r : isc_result_t) : bool :=
  match r with ISC_R_SUCCESS => true | _ => false end.

Definition is_usetcp (r : isc_result_t) : bool :=
  match r with DNS_R_USETCP => true | _ => false end.

(** ** Machine integers *)

Definition UINT_MOD : Z := 2 ^ 32.
Definition INT32_MAX : Z := 2147483647.

(** [unsigned int] arithmetic wraps. *)
Definition u32 (x : Z) : Z := x mod UINT_MOD.

(** The cast [(uint16_t)x]. *)
Definition u16 (x : Z) : Z := x mod 65536.

(** The store of a value into an [unsigned char]. *)
Definition u8 (x : Z) : Z := x mod 256.

(** Unsigned division; dividing by zero is undefined. *)
Definition udiv (a b : Z) : option Z :=
  if b =? 0 then None else Some (a / b).

(** ** Request flags (the DNS_REQUEST_F_ constants of the source) *)

Definition DNS_REQUEST_F_CONNECTING : Z := 0x0001.
Definition DNS_REQUEST_F_SENDING : Z := 0x0002.
Definition DNS_REQUEST_F_CANCELED : Z := 0x0004.
Definition DNS_REQUEST_F_TIMEDOUT : Z := 0x0008.
Definition DNS_REQUEST_F_TCP : Z := 0x0010.

(** [(flags & m) != 0] *)
Definition has_flag (f m : Z) : bool := negb (Z.land f m =? 0).
(** [flags |= m] *)
Definition set_flag (f m : Z) : Z := Z.lor f m.
(** [flags &= ~m] *)
Definition clear_flag (f m : Z) : Z := Z.land f (Z.lnot m).

(** ** Addresses, dispatches, buffers *)

Inductive pf_t : Type := PF_INET | PF_INET6 | PF_UNSPEC.

Definition pf_eqb (a b : pf_t) : bool :=
  match a, b with
  | PF_INET, PF_INET | PF_INET6, PF_INET6 | PF_UNSPEC, PF_UNSPEC => true
  | _, _ => false
  end.

Record isc_sockaddr_t : Type := mk_sockaddr {
  sa_pf : pf_t;
  sa_addr : Z;
  sa_port : Z
}.

Definition isc_sockaddr_pf (a : isc_sockaddr_t) : pf_t := sa_pf a.

(** What the engine observes of a dispatch: whether it carries the
    DNS_DISPATCHATTR_EXCLUSIVE attribute and which socket
    [dns_dispatch_getsocket] yields. *)
Record dns_dispatch_t : Type := mk_dispatch {
  disp_id : Z;
  disp_exclusive : bool;
  disp_socket : option Z
}.

(** A response slot; [de_socket] is what [dns_dispatch_getentrysocket]
    yields. *)
Record dns_dispentry_t : Type := mk_dispentry {
  de_id : Z;
  de_socket : option Z
}.

(** An [isc_buffer_t]: capacity and the used region. *)
Record isc_buffer_t : Type := mk_buffer {
  buf_length : Z;
  buf_used : list Z
}.

Definition isc_buffer_allocate (length : Z) : isc_buffer_t :=
  mk_buffer length [].

Definition isc_buffer_usedregion (b : isc_buffer_t) : list Z := buf_used b.

Definition isc_buffer_availablelength (b : isc_buffer_t) : Z :=
  buf_length b - Z.of_nat (length (buf_used b)).

(** [isc_buffer_putuint16]: two bytes, most significant first; the macro
    REQUIREs two bytes of room. *)
Definition isc_buffer_putuint16 (b : isc_buffer_t) (val : Z) : option isc_buffer_t :=
  if 2 <=? isc_buffer_availablelength b
  then Some (mk_buffer (buf_length b)
               (buf_used b ++ [u8 (Z.shiftr val 8); u8 val]))
  else None.

(** [isc_buffer_copyregion]: ISC_R_NOSPACE when the region does not fit. *)
Definition isc_buffer_copyregion (b : isc_buffer_t) (r : list Z)
  : isc_result_t * isc_buffer_t :=
  if Z.of_nat (length r) <=? isc_buffer_availablelength b
  then (ISC_R_SUCCESS, mk_buffer (buf_length b) (buf_used b ++ r))
  else (ISC_R_NOSPACE, b).

(** ** Events and the trace of external calls *)

Inductive isc_timertype_t : Type :=
| isc_timertype_once
| isc_timertype_limited
| isc_timertype_inactive.

Inductive timer_eventtype : Type :=
| ISC_TIMEREVENT_TICK
| ISC_TIMEREVENT_IDLE
| ISC_TIMEREVENT_LIFE.

Definition is_tick (t : timer_eventtype) : bool :=
  match t with ISC_TIMEREVENT_TICK => true | _ => false end.

Inductive sockcancel_t : Type := ISC_SOCKCANCEL_CONNECT | ISC_SOCKCANCEL_SEND.

(** The completion event of a request ([dns_requestevent_t]): the task it is
    bound to and the result it carries. *)
Record dns_requestevent_t : Type := mk_requestevent {
  ev_sender : Z;
  ev_result : isc_result_t
}.

Inductive action : Type :=
| A_task_send_ctlevent (task : Z)
| A_task_sendanddetach (task : Z) (result : isc_result_t)
| A_task_shutdown_event (task : Z) (event : Z)
| A_task_attach (task : Z)
| A_task_detach (task : Z)
| A_event_allocate (task : Z)
| A_event_free
| A_socket_create (pf : pf_t) (result : isc_result_t)
| A_socket_bind (sock : Z) (addr : isc_sockaddr_t) (result : isc_result_t)
| A_socket_dscp (sock : Z) (dscp : Z)
| A_socket_detach (sock : Z)
| A_socket_connect (sock : option Z) (addr : isc_sockaddr_t) (result : isc_result_t)
| A_socket_sendto (sock : option Z) (data : list Z) (addr : option isc_sockaddr_t)
                  (dscp : option Z)
| A_socket_cancel (sock : Z) (how : sockcancel_t)
| A_timer_create (result : isc_result_t)
| A_timer_reset (timer : Z) (type : isc_timertype_t) (expires : Z) (interval : Z)
                (result : isc_result_t)
| A_timer_detach (timer : Z)
| A_dispatch_gettcp (pending_too : bool) (result : isc_result_t) (connected : bool)
| A_dispatch_createtcp (sock : Z) (result : isc_result_t)
| A_dispatch_getudp (result : isc_result_t)
| A_dispatch_attach (disp : Z)
| A_dispatch_addresponse (disp : Z) (fixedid : bool) (result : isc_result_t) (id : Z)
| A_dispatch_removeresponse (entry : Z)
| A_dispatch_detach (disp : Z)
| A_dispatch_starttcp (disp : Z)
| A_message_render (id : Z) (result : isc_result_t)
| A_message_renderreset
| A_lock_mgr
| A_unlock_mgr
| A_mgr_destroy.

Definition is_ctlevent_post (a : action) : bool :=
  match a with A_task_send_ctlevent _ => true | _ => false end.

Definition is_completion (a : action) : bool :=
  match a with A_task_sendanddetach _ _ => true | _ => false end.

Definition is_socket_action (a : action) : bool :=
  match a with
  | A_socket_create _ _ | A_socket_bind _ _ _ | A_socket_dscp _ _
  | A_socket_detach _ | A_socket_connect _ _ _ | A_socket_sendto _ _ _ _
  | A_socket_cancel _ _ => true
  | _ => false
  end.

Definition completions (l : list action) : list action := filter is_completion l.
Definition ctlevent_posts (l : list action) : list action := filter is_ctlevent_post l.

(** ** The request and its manager *)

(** ISC_MAGIC('R', 'q', 'u', '!') *)
Definition REQUEST_MAGIC : Z := 0x52717521.

(** ISC_MAGIC('R', 'q', 'u', 'M') *)
Definition REQUESTMGR_MAGIC : Z := 0x5271754d.

Definition DNS_REQUEST_NLOCKS : Z := 7.

Record dns_request_t : Type := mk_request {
  magic : Z;
  req_hash : Z;
  flags : Z;
  query : option isc_buffer_t;
  answer : option isc_buffer_t;
  event : option dns_requestevent_t;
  dispatch : option dns_dispatch_t;
  dispentry : option dns_dispentry_t;
  timer : option Z;
  requestmgr : bool;          (* request->requestmgr != NULL *)
  tsig : option (list Z);
  tsigkey : option Z;
  canceling : bool;           (* ctlevent outstanding *)
  destaddr : isc_sockaddr_t;
  udpcount : Z;
  dscp : Z
}.

(** The manager.  [mgr_magic] is REQUESTMGR_MAGIC from
    [dns_requestmgr_create] until [mgr_destroy] clears it.  The functions
    of the request level are run on a manager to which their caller, or the
    request itself, holds a reference, hence on a manager that was not
    destroyed; the test VALID_REQUESTMGR is made by the functions of the
    manager itself ([grequire_valid]). *)
Record dns_requestmgr_t : Type := mk_requestmgr {
  mgr_magic : Z;                 (* requestmgr->magic *)
  eref : Z;
  iref : Z;
  dispatchv4 : option dns_dispatch_t;
  dispatchv6 : option dns_dispatch_t;
  exiting : bool;
  whenshutdown : list (Z * Z);   (* (task, event) *)
  mgr_hash : Z;
  requests : list Z              (* addresses of the linked requests *)
}.

Record world : Type := mk_world {
  w_mgr : dns_requestmgr_t;
  w_req : dns_request_t;
  w_log : list action
}.

Definition VALID_REQUEST (r : dns_request_t) : bool := magic r =? REQUEST_MAGIC.
Definition DNS_REQUEST_CANCELED (r : dns_request_t) : bool :=
  has_flag (flags r) DNS_REQUEST_F_CANCELED.
Definition DNS_REQUEST_CONNECTING (r : dns_request_t) : bool :=
  has_flag (flags r) DNS_REQUEST_F_CONNECTING.
Definition DNS_REQUEST_SENDING (r : dns_request_t) : bool :=
  has_flag (flags r) DNS_REQUEST_F_SENDING.
Definition DNS_REQUEST_TIMEDOUT (r : dns_request_t) : bool :=
  has_flag (flags r) DNS_REQUEST_F_TIMEDOUT.

Definition dns_request_usedtcp (r : dns_request_t) : option bool :=
  if VALID_REQUEST r then Some (has_flag (flags r) DNS_REQUEST_F_TCP) else None.

Definition is_some {A : Type} (o : option A) : bool :=
  match o with Some _ => true | None => false end.

(** Field updates. *)
Definition with_flags (f : Z) (r : dns_request_t) : dns_request_t :=
  mk_request (magic r) (req_hash r) f (query r) (answer r) (event r) (dispatch r)
    (dispentry r) (timer r) (requestmgr r) (tsig r) (tsigkey r) (canceling r)
    (destaddr r) (udpcount r) (dscp r).
Definition with_event (e : option dns_requestevent_t) (r : dns_request_t) : dns_request_t :=
  mk_request (magic r) (req_hash r) (flags r) (query r) (answer r) e (dispatch r)
    (dispentry r) (timer r) (requestmgr r) (tsig r) (tsigkey r) (canceling r)
    (destaddr r) (udpcount r) (dscp r).
Definition with_canceling (c : bool) (r : dns_request_t) : dns_request_t :=
  mk_request (magic r) (req_hash r) (flags r) (query r) (answer r) (event r) (dispatch r)
    (dispentry r) (timer r) (requestmgr r) (tsig r) (tsigkey r) c
    (destaddr r) (udpcount r) (dscp r).
Definition with_timer (t : option Z) (r : dns_request_t) : dns_request_t :=
  mk_request (magic r) (req_hash r) (flags r) (query r) (answer r) (event r) (dispatch r)
    (dispentry r) t (requestmgr r) (tsig r) (tsigkey r) (canceling r)
    (destaddr r) (udpcount r) (dscp r).
Definition with_dispatch (d : option dns_dispatch_t) (r : dns_request_t) : dns_request_t :=
  mk_request (magic r) (req_hash r) (flags r) (query r) (answer r) (event r) d
    (dispentry r) (timer r) (requestmgr r) (tsig r) (tsigkey r) (canceling r)
    (destaddr r) (udpcount r) (dscp r).
Definition with_dispentry (d : option dns_dispentry_t) (r : dns_request_t) : dns_request_t :=
  mk_request (magic r) (req_hash r) (flags r) (query r) (answer r) (event r) (dispatch r)
    d (timer r) (requestmgr r) (tsig r) (tsigkey r) (canceling r)
    (destaddr r) (udpcount r) (dscp r).
Definition with_answer (a : option isc_buffer_t) (r : dns_request_t) : dns_request_t :=
  mk_request (magic r) (req_hash r) (flags r) (query r) a (event r) (dispatch r)
    (dispentry r) (timer r) (requestmgr r) (tsig r) (tsigkey r) (canceling r)
    (destaddr r) (udpcount r) (dscp r).
Definition with_query (q : option isc_buffer_t) (r : dns_request_t) : dns_request_t :=
  mk_request (magic r) (req_hash r) (flags r) q (answer r) (event r) (dispatch r)
    (dispentry r) (timer r) (requestmgr r) (tsig r) (tsigkey r) (canceling r)
    (destaddr r) (udpcount r) (dscp r).
Definition with_udpcount (n : Z) (r : dns_request_t) : dns_request_t :=
  mk_request (magic r) (req_hash r) (flags r) (query r) (answer r) (event r) (dispatch r)
    (dispentry r) (timer r) (requestmgr r) (tsig r) (tsigkey r) (canceling r)
    (destaddr r) n (dscp r).
Definition with_dscp (n : Z) (r : dns_request_t) : dns_request_t :=
  mk_request (magic r) (req_hash r) (flags r) (query r) (answer r) (event r) (dispatch r)
    (dispentry r) (timer r) (requestmgr r) (tsig r) (tsigkey r) (canceling r)
    (destaddr r) (udpcount r) n.
Definition with_destaddr (a : isc_sockaddr_t) (r : dns_request_t) : dns_request_t :=
  mk_request (magic r) (req_hash r) (flags r) (query r) (answer r) (event r) (dispatch r)
    (dispentry r) (timer r) (requestmgr r) (tsig r) (tsigkey r) (canceling r)
    a (udpcount r) (dscp r).
Definition with_tsig (t : option (list Z)) (r : dns_request_t) : dns_request_t :=
  mk_request (magic r) (req_hash r) (flags r) (query r) (answer r) (event r) (dispatch r)
    (dispentry r) (timer r) (requestmgr r) t (tsigkey r) (canceling r)
    (destaddr r) (udpcount r) (dscp r).
Definition with_tsigkey (t : option Z) (r : dns_request_t) : dns_request_t :=
  mk_request (magic r) (req_hash r) (flags r) (query r) (answer r) (event r) (dispatch r)
    (dispentry r) (timer r) (requestmgr r) (tsig r) t (canceling r)
    (destaddr r) (udpcount r) (dscp r).
Definition with_requestmgr (b : bool) (r : dns_request_t) : dns_request_t :=
  mk_request (magic r) (req_hash r) (flags r) (query r) (answer r) (event r) (dispatch r)
    (dispentry r) (timer r) b (tsig r) (tsigkey r) (canceling r)
    (destaddr r) (udpcount r) (dscp r).
Definition with_req_hash (h : Z) (r : dns_request_t) : dns_request_t :=
  mk_request (magic r) h (flags r) (query r) (answer r) (event r) (dispatch r)
    (dispentry r) (timer r) (requestmgr r) (tsig r) (tsigkey r) (canceling r)
    (destaddr r) (udpcount r) (dscp r).
Definition with_magic (m : Z) (r : dns_request_t) : dns_request_t :=
  mk_request m (req_hash r) (flags r) (query r) (answer r) (event r) (dispatch r)
    (dispentry r) (timer r) (requestmgr r) (tsig r) (tsigkey r) (canceling r)
    (destaddr r) (udpcount r) (dscp r).

(** ** The step monad *)

Definition M (A : Type) : Type := world -> option (A * world).

Definition ret {A : Type} (a : A) : M A := fun w => Some (a, w).
Definition abort {A : Type} : M A := fun _ => None.
Definition bind {A B : Type} (m : M A) (k : A -> M B) : M B :=
  fun w => match m w with
           | Some (a, w') => k a w'
           | None => None
           end.

Declare Scope step_scope.
Delimit Scope step_scope with step.
Notation "x <- m ;; k" := (bind m (fun x => k))
  (at level 61, m at next level, right associativity) : step_scope.
Notation "m ;; k" := (bind m (fun _ => k))
  (at level 61, right associativity) : step_scope.
Notation "' pat <- m ;; k" := (bind m (fun x => match x with pat => k end))
  (at level 61, pat pattern, m at next level, right associativity) : step_scope.
Open Scope step_scope.

Definition get_req : M dns_request_t := fun w => Some (w_req w, w).
Definition get_mgr : M dns_requestmgr_t := fun w => Some (w_mgr w, w).
Definition get_log : M (list action) := fun w => Some (w_log w, w).
Definition modify_req (f : dns_request_t -> dns_request_t) : M unit :=
  fun w => Some (tt, mk_world (w_mgr w) (f (w_req w)) (w_log w)).
Definition put_mgr (m : dns_requestmgr_t) : M unit :=
  fun w => Some (tt, mk_world m (w_req w) (w_log w)).
Definition emit (a : action) : M unit :=
  fun w => Some (tt, mk_world (w_mgr w) (w_req w) (w_log w ++ [a])).
(** REQUIRE / INSIST *)
Definition require (b : bool) : M unit := if b then ret tt else abort.
Definition when (b : bool) (m : M unit) : M unit := if b then m else ret tt.

(** ** The external services

    Each oracle receives the trace so far, so that two calls of the same
    service may answer differently. *)

Record Env : Type := mk_env {
  (* dns_dispatchmgr_getblackhole, and dns_acl_match on that ACL:
     (result, match) *)
  e_blackhole : option (isc_sockaddr_t -> isc_result_t * Z);
  (* isc_socket_socketevent returned a non-NULL event *)
  e_socketevent : list action -> bool;
  (* isc_mem_get: the address of the new request *)
  e_mem_get : list action -> Z;
  e_timer_create : list action -> isc_result_t * Z;
  (* dns_dispatch_gettcp (dest, src, connected != NULL):
     (result, *connected, dispatch) *)
  e_gettcp : list action -> isc_sockaddr_t -> option isc_sockaddr_t -> bool ->
             isc_result_t * bool * dns_dispatch_t;
  e_socket_create : list action -> pf_t -> isc_result_t * Z;
  e_socket_bind : list action -> Z -> isc_result_t;
  e_createtcp : list action -> Z -> isc_result_t * dns_dispatch_t;
  e_getudp : list action -> isc_sockaddr_t -> isc_result_t * dns_dispatch_t;
  (* dns_dispatch_addresponse (dispatch, FIXEDID?, *idp): (result, id, entry) *)
  e_addresponse : list action -> dns_dispatch_t -> bool -> Z ->
                  isc_result_t * Z * dns_dispentry_t;
  (* isc_time_nowplusinterval (seconds): (result, expires) *)
  e_nowplusinterval : list action -> Z -> isc_result_t * Z;
  e_timer_reset : list action -> isc_result_t;
  e_socket_connect : list action -> isc_result_t;
  e_settsigkey : list action -> isc_result_t;
  e_compress_init : list action -> isc_result_t;
  (* dns_message_renderbegin .. dns_message_renderend into the 65535 byte
     buffer, for the message carrying the given id; case sensitive or not *)
  e_render : list action -> Z -> bool -> isc_result_t * list Z;
  e_getquerytsig : list action -> isc_result_t * option (list Z)
}.

Section Engine.

Variable env : Env.

(** ** Private: request *)

Definition req_getsocket : M (option Z) :=
  r <- get_req ;;
  match dispatch r with
  | None => abort                        (* dns_dispatch_getattributes (NULL) *)
  | Some d =>
      if disp_exclusive d then
        match dispentry r with
        | None => abort                  (* INSIST(request->dispentry != NULL) *)
        | Some e => ret (de_socket e)
        end
      else ret (disp_socket d)
  end.

Definition req_send (address : option isc_sockaddr_t) : M isc_result_t :=
  r <- get_req ;;
  require (VALID_REQUEST r) ;;
  sock <- req_getsocket ;;
  match query r with
  | None => abort
  | Some q =>
      h <- get_log ;;
      if e_socketevent env h then
        modify_req (fun r => with_flags (set_flag (flags r) DNS_REQUEST_F_SENDING) r) ;;
        emit (A_socket_sendto sock (isc_buffer_usedregion q) address
                (if dscp r =? -1 then None else Some (dscp r))) ;;
        ret ISC_R_SUCCESS
      else ret ISC_R_NOMEMORY
  end.

(** [isc_task_sendanddetach] takes the event over and clears the caller's
    pointer: afterwards [request->event == NULL]. *)
Definition req_sendevent (result : isc_result_t) : M unit :=
  r <- get_req ;;
  require (VALID_REQUEST r) ;;
  match event r with
  | None => abort
  | Some ev =>
      emit (A_task_sendanddetach (ev_sender ev) result) ;;
      modify_req (with_event None)
  end.

Definition send_if_done (result : isc_result_t) : M unit :=
  r <- get_req ;;
  if is_some (event r) && negb (canceling r)
  then req_sendevent result
  else ret tt.

Definition req_cancel : M unit :=
  r <- get_req ;;
  require (VALID_REQUEST r) ;;
  modify_req (fun r => with_flags (set_flag (flags r) DNS_REQUEST_F_CANCELED) r) ;;
  match timer r with
  | Some t => emit (A_timer_detach t) ;; modify_req (with_timer None)
  | None => ret tt
  end ;;
  r <- get_req ;;
  match dispatch r with
  | None => abort                        (* dns_dispatch_getattributes (NULL) *)
  | Some d =>
      (if DNS_REQUEST_CONNECTING r || DNS_REQUEST_SENDING r then
         let sock :=
           if disp_exclusive d then
             match dispentry r with
             | Some e => de_socket e
             | None => None
             end
           else disp_socket d in
         match sock with
         | Some s =>
             when (DNS_REQUEST_CONNECTING r)
                  (emit (A_socket_cancel s ISC_SOCKCANCEL_CONNECT)) ;;
             when (DNS_REQUEST_SENDING r)
                  (emit (A_socket_cancel s ISC_SOCKCANCEL_SEND))
         | None => ret tt
         end
       else ret tt) ;;
      match dispentry r with
      | Some e =>
          emit (A_dispatch_removeresponse (de_id e)) ;;
          modify_req (with_dispentry None)
      | None => ret tt
      end ;;
      emit (A_dispatch_detach (disp_id d)) ;;
      modify_req (with_dispatch None)
  end.

(** Handle the control event. *)
Definition do_cancel : M unit :=
  modify_req (with_canceling false) ;;
  r <- get_req ;;
  when (negb (DNS_REQUEST_CANCELED r)) req_cancel ;;
  send_if_done ISC_R_CANCELED.

Definition dns_request_cancel : M unit :=
  r <- get_req ;;
  require (VALID_REQUEST r) ;;
  if negb (canceling r) && negb (DNS_REQUEST_CANCELED r) then
    match event r with
    | None => abort                      (* request->event->ev_sender *)
    | Some ev =>
        emit (A_task_send_ctlevent (ev_sender ev)) ;;
        modify_req (with_canceling true)
    end
  else ret tt.

Definition req_connected (sevent_result : isc_result_t) : M unit :=
  r <- get_req ;;
  require (VALID_REQUEST r) ;;
  require (DNS_REQUEST_CONNECTING r) ;;
  modify_req (fun r => with_flags (clear_flag (flags r) DNS_REQUEST_F_CONNECTING) r) ;;
  r <- get_req ;;
  if DNS_REQUEST_CANCELED r then
    (* Send delayed event. *)
    if DNS_REQUEST_TIMEDOUT r
    then send_if_done ISC_R_TIMEDOUT
    else send_if_done ISC_R_CANCELED
  else
    match dispatch r with
    | None => abort
    | Some d =>
        emit (A_dispatch_starttcp (disp_id d)) ;;
        result <- (if is_success sevent_result
                   then req_send None
                   else ret sevent_result) ;;
        if is_success result then ret tt
        else req_cancel ;; send_if_done ISC_R_CANCELED
    end.

Definition req_senddone (sevent_result : isc_result_t) : M unit :=
  r <- get_req ;;
  require (VALID_REQUEST r) ;;
  require (DNS_REQUEST_SENDING r) ;;
  modify_req (fun r => with_flags (clear_flag (flags r) DNS_REQUEST_F_SENDING) r) ;;
  r <- get_req ;;
  if DNS_REQUEST_CANCELED r then
    (* Send delayed event. *)
    if DNS_REQUEST_TIMEDOUT r
    then send_if_done ISC_R_TIMEDOUT
    else send_if_done ISC_R_CANCELED
  else if negb (is_success sevent_result) then
    req_cancel ;; send_if_done ISC_R_CANCELED
  else ret tt.

Definition req_response (devent_result : isc_result_t) (buffer : list Z) : M unit :=
  r <- get_req ;;
  require (VALID_REQUEST r) ;;
  result <- (if is_success devent_result then
               (* Copy buffer to request. *)
               require (negb (is_some (answer r))) ;;
               let (res, b) :=
                 isc_buffer_copyregion
                   (isc_buffer_allocate (Z.of_nat (length buffer))) buffer in
               modify_req (with_answer (if is_success res then Some b else None)) ;;
               ret res
             else ret devent_result) ;;
  match dispentry r with
  | None => abort                        (* dns_dispatch_removeresponse (NULL) *)
  | Some e =>
      emit (A_dispatch_removeresponse (de_id e)) ;;
      modify_req (with_dispentry None)
  end ;;
  req_cancel ;;
  send_if_done result.

Definition req_timeout (ev_type : timer_eventtype) : M unit :=
  r <- get_req ;;
  require (VALID_REQUEST r) ;;
  (* event->ev_type == ISC_TIMEREVENT_TICK && request->udpcount-- != 0 *)
  guard <- (if is_tick ev_type then
              modify_req (with_udpcount (u32 (udpcount r - 1))) ;;
              ret (negb (udpcount r =? 0))
            else ret false) ;;
  if guard then
    r <- get_req ;;
    if negb (DNS_REQUEST_SENDING r) then
      result <- req_send (Some (destaddr r)) ;;
      if is_success result then ret tt
      else req_cancel ;; send_if_done result
    else ret tt
  else
    modify_req (fun r => with_flags (set_flag (flags r) DNS_REQUEST_F_TIMEDOUT) r) ;;
    req_cancel ;;
    send_if_done ISC_R_TIMEDOUT.

(** ** Events delivered to one request *)

Inductive req_event : Type :=
| E_cancel                                   (* the caller runs dns_request_cancel *)
| E_control                                  (* the posted ctlevent is dispatched *)
| E_connect (result : isc_result_t)
| E_senddone (result : isc_result_t)
| E_response (result : isc_result_t) (buffer : list Z)
| E_timer (ev_type : timer_eventtype).

Definition handle (e : req_event) : M unit :=
  match e with
  | E_cancel => dns_request_cancel
  | E_control => do_cancel
  | E_connect res => req_connected res
  | E_senddone res => req_senddone res
  | E_response res buf => req_response res buf
  | E_timer ty => req_timeout ty
  end.

Fixpoint run (es : list req_event) : M unit :=
  match es with
  | [] => ret tt
  | e :: es' => handle e ;; run es'
  end.

(** ** Private: request manager *)

Definition with_mgr_magic (v : Z) (m : dns_requestmgr_t) : dns_requestmgr_t :=
  mk_requestmgr v (eref m) (iref m) (dispatchv4 m) (dispatchv6 m) (exiting m)
    (whenshutdown m) (mgr_hash m) (requests m).
Definition with_eref (n : Z) (m : dns_requestmgr_t) : dns_requestmgr_t :=
  mk_requestmgr (mgr_magic m) n (iref m) (dispatchv4 m) (dispatchv6 m) (exiting m)
    (whenshutdown m) (mgr_hash m) (requests m).
Definition with_iref (n : Z) (m : dns_requestmgr_t) : dns_requestmgr_t :=
  mk_requestmgr (mgr_magic m) (eref m) n (dispatchv4 m) (dispatchv6 m) (exiting m)
    (whenshutdown m) (mgr_hash m) (requests m).
Definition with_dispatchv4 (d : option dns_dispatch_t) (m : dns_requestmgr_t)
  : dns_requestmgr_t :=
  mk_requestmgr (mgr_magic m) (eref m) (iref m) d (dispatchv6 m) (exiting m)
    (whenshutdown m) (mgr_hash m) (requests m).
Definition with_dispatchv6 (d : option dns_dispatch_t) (m : dns_requestmgr_t)
  : dns_requestmgr_t :=
  mk_requestmgr (mgr_magic m) (eref m) (iref m) (dispatchv4 m) d (exiting m)
    (whenshutdown m) (mgr_hash m) (requests m).
Definition with_exiting (b : bool) (m : dns_requestmgr_t) : dns_requestmgr_t :=
  mk_requestmgr (mgr_magic m) (eref m) (iref m) (dispatchv4 m) (dispatchv6 m) b
    (whenshutdown m) (mgr_hash m) (requests m).
Definition with_mgr_hash (h : Z) (m : dns_requestmgr_t) : dns_requestmgr_t :=
  mk_requestmgr (mgr_magic m) (eref m) (iref m) (dispatchv4 m) (dispatchv6 m) (exiting m)
    (whenshutdown m) h (requests m).
Definition with_requests (l : list Z) (m : dns_requestmgr_t) : dns_requestmgr_t :=
  mk_requestmgr (mgr_magic m) (eref m) (iref m) (dispatchv4 m) (dispatchv6 m) (exiting m)
    (whenshutdown m) (mgr_hash m) l.
Definition with_whenshutdown (l : list (Z * Z)) (m : dns_requestmgr_t) : dns_requestmgr_t :=
  mk_requestmgr (mgr_magic m) (eref m) (iref m) (dispatchv4 m) (dispatchv6 m) (exiting m)
    l (mgr_hash m) (requests m).

Definition modify_mgr (f : dns_requestmgr_t -> dns_requestmgr_t) : M unit :=
  m <- get_mgr ;; put_mgr (f m).

(** Locked by caller.  [iref] is an [int32_t]: incrementing INT32_MAX is
    undefined. *)
Definition requestmgr_attach : M unit :=
  m <- get_mgr ;;
  require (negb (exiting m)) ;;
  require (iref m <? INT32_MAX) ;;
  put_mgr (with_iref (iref m + 1) m) ;;
  modify_req (with_requestmgr true).

(** Locked by caller. *)
Definition mgr_gethash : M Z :=
  m <- get_mgr ;;
  let h := u32 (mgr_hash m + 1) in
  put_mgr (with_mgr_hash h m) ;;
  ret (h mod DNS_REQUEST_NLOCKS).

(** Caller must be holding the manager lock. *)
Definition send_shutdown_events : M unit :=
  m <- get_mgr ;;
  (fix loop (l : list (Z * Z)) : M unit :=
     match l with
     | [] => ret tt
     | (etask, ev) :: l' => emit (A_task_shutdown_event etask ev) ;; loop l'
     end) (whenshutdown m) ;;
  modify_mgr (with_whenshutdown []).

(** [mgr_destroy] (request.c 384-406).  [A_mgr_destroy] is the destruction
    of the manager's locks; the references to the two dispatches are given
    up after it, and the magic is cleared before the memory is returned. *)
Definition mgr_destroy : M unit :=
  m <- get_mgr ;;
  require (eref m =? 0) ;;
  require (iref m =? 0) ;;
  emit A_mgr_destroy ;;
  match dispatchv4 m with
  | Some d => emit (A_dispatch_detach (disp_id d)) ;; modify_mgr (with_dispatchv4 None)
  | None => ret tt
  end ;;
  match dispatchv6 m with
  | Some d => emit (A_dispatch_detach (disp_id d)) ;; modify_mgr (with_dispatchv6 None)
  | None => ret tt
  end ;;
  modify_mgr (with_mgr_magic 0).

(** [requestmgr_detach] (request.c 288-317) *)
Definition requestmgr_detach : M unit :=
  emit A_lock_mgr ;;
  m <- get_mgr ;;
  require (0 <? iref m) ;;
  put_mgr (with_iref (iref m - 1) m) ;;
  m <- get_mgr ;;
  need_destroy <-
    (if (iref m =? 0) && exiting m then
       require (match requests m with [] => true | _ => false end) ;;
       send_shutdown_events ;;
       ret (eref m =? 0)
     else ret false) ;;
  emit A_unlock_mgr ;;
  when need_destroy mgr_destroy ;;
  modify_req (with_requestmgr false).

Definition req_destroy : M unit :=
  r <- get_req ;;
  require (VALID_REQUEST r) ;;
  modify_req (with_magic 0) ;;
  modify_req (with_query None) ;;
  modify_req (with_answer None) ;;
  when (is_some (event r)) (emit A_event_free ;; modify_req (with_event None)) ;;
  match dispentry r with
  | Some e => emit (A_dispatch_removeresponse (de_id e)) ;; modify_req (with_dispentry None)
  | None => ret tt
  end ;;
  match dispatch r with
  | Some d => emit (A_dispatch_detach (disp_id d)) ;; modify_req (with_dispatch None)
  | None => ret tt
  end ;;
  match timer r with
  | Some t => emit (A_timer_detach t) ;; modify_req (with_timer None)
  | None => ret tt
  end ;;
  modify_req (with_tsig None) ;;
  modify_req (with_tsigkey None) ;;
  when (requestmgr r) requestmgr_detach.

(** ** Request creation *)

(** The option word, kept as the four tests the code performs on it
    (DNS_REQUESTOPT_TCP, _CASE, _FIXEDID, _SHARE; their bit values are in
    dns/request.h). *)
Record options_t : Type := mk_options {
  opt_tcp : bool;
  opt_case : bool;
  opt_fixedid : bool;
  opt_share : bool
}.

(** [options |= DNS_REQUESTOPT_TCP] *)
Definition options_set_tcp (o : options_t) : options_t :=
  mk_options true (opt_case o) (opt_fixedid o) (opt_share o).

Definition DNS_MESSAGE_HEADERLEN : Z := 12.

Definition unset_sockaddr : isc_sockaddr_t := mk_sockaddr PF_UNSPEC 0 0.

(** The structure as [new_request] leaves it. *)
Definition new_request : dns_request_t :=
  mk_request REQUEST_MAGIC 0 0 None None None None None None false None None
    false unset_sockaddr 0 (-1).

Definition isblackholed (destaddr : isc_sockaddr_t) : bool :=
  match e_blackhole env with
  | Some acl_match =>
      let (result, mtch) := acl_match destaddr in
      is_success result && (0 <? mtch)
  | None => false
  end.

(** The tail of [create_tcp_dispatch]: a new socket, bound, wrapped into a
    new TCP dispatch. *)
Definition create_tcp_socket_dispatch (srcaddr : option isc_sockaddr_t)
  (destaddr : isc_sockaddr_t) (dscp : Z) : M isc_result_t :=
  h <- get_log ;;
  let (result, sock) := e_socket_create env h (isc_sockaddr_pf destaddr) in
  emit (A_socket_create (isc_sockaddr_pf destaddr) result) ;;
  if negb (is_success result) then ret result
  else
    let bind_addr :=
      match srcaddr with
      | None => mk_sockaddr (isc_sockaddr_pf destaddr) 0 0
      | Some src => mk_sockaddr (sa_pf src) (sa_addr src) 0
      end in
    h <- get_log ;;
    let result := e_socket_bind env h sock in
    emit (A_socket_bind sock bind_addr result) ;;
    if negb (is_success result) then
      emit (A_socket_detach sock) ;; ret result
    else
      emit (A_socket_dscp sock dscp) ;;
      h <- get_log ;;
      let (result, d) := e_createtcp env h sock in
      emit (A_dispatch_createtcp sock result) ;;
      when (is_success result) (modify_req (with_dispatch (Some d))) ;;
      emit (A_socket_detach sock) ;;
      ret result.

(** Yields the result and the value left in [*connected]. *)
Definition create_tcp_dispatch (newtcp share : bool) (srcaddr : option isc_sockaddr_t)
  (destaddr : isc_sockaddr_t) (dscp : Z) (connected : bool)
  : M (isc_result_t * bool) :=
  if negb newtcp && share then
    h <- get_log ;;
    let '(result, conn, d) := e_gettcp env h destaddr srcaddr true in
    emit (A_dispatch_gettcp true result conn) ;;
    if is_success result then
      modify_req (with_dispatch (Some d)) ;; ret (result, conn)
    else
      result <- create_tcp_socket_dispatch srcaddr destaddr dscp ;;
      ret (result, connected)
  else if negb newtcp then
    h <- get_log ;;
    let '(result, _, d) := e_gettcp env h destaddr srcaddr false in
    emit (A_dispatch_gettcp false result true) ;;
    if is_success result then
      modify_req (with_dispatch (Some d)) ;; ret (result, true)
    else
      result <- create_tcp_socket_dispatch srcaddr destaddr dscp ;;
      ret (result, connected)
  else
    result <- create_tcp_socket_dispatch srcaddr destaddr dscp ;;
    ret (result, connected).

Definition find_udp_dispatch (srcaddr : option isc_sockaddr_t)
  (destaddr : isc_sockaddr_t) : M isc_result_t :=
  match srcaddr with
  | None =>
      m <- get_mgr ;;
      match isc_sockaddr_pf destaddr with
      | PF_UNSPEC => ret ISC_R_NOTIMPLEMENTED
      | pf =>
          match (match pf with PF_INET => dispatchv4 m | _ => dispatchv6 m end) with
          | None => ret ISC_R_FAMILYNOSUPPORT
          | Some d =>
              emit (A_dispatch_attach (disp_id d)) ;;
              modify_req (with_dispatch (Some d)) ;;
              ret ISC_R_SUCCESS
          end
      end
  | Some src =>
      match isc_sockaddr_pf src with
      | PF_UNSPEC => ret ISC_R_NOTIMPLEMENTED
      | _ =>
          h <- get_log ;;
          let (result, d) := e_getudp env h src in
          emit (A_dispatch_getudp result) ;;
          when (is_success result) (modify_req (with_dispatch (Some d))) ;;
          ret result
      end
  end.

Definition get_dispatch (tcp newtcp share : bool) (srcaddr : option isc_sockaddr_t)
  (destaddr : isc_sockaddr_t) (dscp : Z) (connected : bool)
  : M (isc_result_t * bool) :=
  if tcp then create_tcp_dispatch newtcp share srcaddr destaddr dscp connected
  else
    result <- find_udp_dispatch srcaddr destaddr ;;
    ret (result, connected).

Definition set_timer (timeout udpresend : Z) : M isc_result_t :=
  r <- get_req ;;
  h <- get_log ;;
  let (result, expires) := e_nowplusinterval env h timeout in
  let timertype := if negb (udpresend =? 0)
                   then isc_timertype_limited else isc_timertype_once in
  if is_success result then
    match timer r with
    | None => abort
    | Some t =>
        let result := e_timer_reset env h in
        emit (A_timer_reset t timertype expires udpresend result) ;;
        ret result
    end
  else ret result.

(** The derivation of the UDP resend period that opens both factories
    (request.c 728-733 and 919-924): [timeout / (udpretries + 1)] in
    [unsigned int], raised to 1 when it is 0. *)
Definition derive_udptimeout (timeout udptimeout udpretries : Z) : option Z :=
  if (udptimeout =? 0) && negb (udpretries =? 0) then
    match udiv timeout (u32 (udpretries + 1)) with
    | Some q => Some (if q =? 0 then 1 else q)
    | None => None
    end
  else Some udptimeout.

(** Overwrite two bytes at offset [off]. *)
Fixpoint poke2 (off : nat) (b0 b1 : Z) (l : list Z) : list Z :=
  match off, l with
  | O, _ :: _ :: rest => b0 :: b1 :: rest
  | O, _ => l
  | S n, x :: rest => x :: poke2 n b0 b1 rest
  | S _, [] => []
  end.

(** The query buffer of [dns_request_createraw] (request.c 794-809): the
    length prefix on TCP, the message, and the message id stored over the
    first two bytes of the header. *)
Definition raw_build_query (tcp : bool) (r : list Z) (id : Z)
  : option (isc_result_t * isc_buffer_t) :=
  let len := Z.of_nat (length r) in
  let q := isc_buffer_allocate (len + (if tcp then 2 else 0)) in
  match (if tcp then isc_buffer_putuint16 q (u16 len) else Some q) with
  | None => None
  | Some q =>
      let (result, q) := isc_buffer_copyregion q r in
      if is_success result then
        Some (result,
              mk_buffer (buf_length q)
                (poke2 (if tcp then 2 else 0)
                   (Z.land (Z.shiftr id 8) 0xff) (Z.land id 0xff) (buf_used q)))
      else Some (result, q)
  end.

(** The registration block shared by both factories (request.c 811-820 and
    996-1005), entered with the manager lock taken. *)
Definition register_request (self : Z) : M isc_result_t :=
  emit A_lock_mgr ;;
  m <- get_mgr ;;
  if exiting m then
    emit A_unlock_mgr ;; ret ISC_R_SHUTTINGDOWN
  else
    requestmgr_attach ;;
    h <- mgr_gethash ;;
    modify_req (with_req_hash h) ;;
    modify_mgr (fun m => with_requests (requests m ++ [self]) m) ;;
    emit A_unlock_mgr ;;
    ret ISC_R_SUCCESS.

Definition Z_neqb (a b : Z) : bool := negb (a =? b).

(** The label [unlink]. *)
Definition unlink_request (self : Z) : M unit :=
  emit A_lock_mgr ;;
  modify_mgr (fun m => with_requests (filter (Z_neqb self) (requests m)) m) ;;
  emit A_unlock_mgr.

(** The label [cleanup]. *)
Definition cleanup (tclone : bool) (task : Z) (result : isc_result_t)
  : M isc_result_t :=
  when tclone (emit (A_task_detach task)) ;;
  req_destroy ;;
  ret result.

(** Connect or send (request.c 827-840 and 1012-1025). *)
Definition start_request (tcp connected : bool) (destaddr : isc_sockaddr_t)
  (sock : option Z) : M isc_result_t :=
  modify_req (with_destaddr destaddr) ;;
  if tcp && negb connected then
    h <- get_log ;;
    let result := e_socket_connect env h in
    emit (A_socket_connect sock destaddr result) ;;
    if is_success result then
      modify_req (fun r => with_flags
        (set_flag (flags r) (Z.lor DNS_REQUEST_F_CONNECTING DNS_REQUEST_F_TCP)) r) ;;
      ret ISC_R_SUCCESS
    else ret result
  else
    req_send (if connected then None else Some destaddr).

(** From the registration to the end, common to both factories. *)
Definition admit_and_start (self : Z) (task : Z) (tcp connected : bool)
  (destaddr : isc_sockaddr_t) (sock : option Z) (timeout udptimeout : Z)
  : M isc_result_t :=
  result <- register_request self ;;
  if negb (is_success result) then cleanup true task result
  else
    result <- set_timer timeout (if tcp then 0 else udptimeout) ;;
    if negb (is_success result) then
      unlink_request self ;; cleanup true task result
    else
      result <- start_request tcp connected destaddr sock ;;
      if negb (is_success result) then
        unlink_request self ;; cleanup true task result
      else ret ISC_R_SUCCESS.

(** Allocation of the request, its timer and its completion event
    (request.c 722-753 and 913-947); yields the address of the request.
    [new_request] cannot fail.  The derivation of the resend period, which
    the source performs between [new_request] and the store of [udpcount],
    reads and writes only the arguments; the factories below evaluate it
    just before this block. *)
Definition allocate_request (task : Z) (dscp udpretries : Z)
  : M (isc_result_t * Z) :=
  h <- get_log ;;
  let self := e_mem_get env h in
  modify_req (fun _ => new_request) ;;
  modify_req (with_udpcount udpretries) ;;
  modify_req (with_dscp dscp) ;;
  (* Create timer now.  We will set it below once. *)
  let (result, t) := e_timer_create env h in
  emit (A_timer_create result) ;;
  if negb (is_success result) then ret (result, self)
  else
    modify_req (with_timer (Some t)) ;;
    emit (A_event_allocate task) ;;
    emit (A_task_attach task) ;;
    modify_req (with_event (Some (mk_requestevent task ISC_R_FAILURE))) ;;
    ret (ISC_R_SUCCESS, self).

(** One pass from the label [again] of [dns_request_createraw]:
    (result, connected, id, whether the code jumps back to [again]). *)
Definition raw_pass (options : options_t) (tcp newtcp share : bool)
  (srcaddr : option isc_sockaddr_t) (destaddr : isc_sockaddr_t) (dscp : Z)
  (r : list Z) (connected : bool) (id : Z)
  : M (isc_result_t * bool * Z * bool) :=
  '(result, connected) <- get_dispatch tcp newtcp share srcaddr destaddr dscp connected ;;
  if negb (is_success result) then ret (result, connected, id, false)
  else
    let id := if opt_fixedid options
              then u16 (Z.lor (Z.shiftl (nth 0 r 0) 8) (nth 1 r 0))
              else id in
    rq <- get_req ;;
    match dispatch rq with
    | None => abort
    | Some d =>
        h <- get_log ;;
        let '(result, newid, e) := e_addresponse env h d (opt_fixedid options) id in
        (* with DNS_DISPATCHOPT_FIXEDID the dispatch keeps the caller's id *)
        let newid := if opt_fixedid options then id else newid in
        emit (A_dispatch_addresponse (disp_id d) (opt_fixedid options) result newid) ;;
        if is_success result then
          modify_req (with_dispentry (Some e)) ;;
          ret (result, connected, newid, false)
        else if opt_fixedid options && negb newtcp then
          emit (A_dispatch_detach (disp_id d)) ;;
          modify_req (with_dispatch None) ;;
          ret (result, false, id, true)
        else ret (result, connected, id, false)
    end.

(** The loop at the label [again]: entered with [newtcp] and [connected]
    false; the jump back sets [newtcp], which bars a second jump. *)
Definition raw_again (options : options_t) (tcp share : bool)
  (srcaddr : option isc_sockaddr_t) (destaddr : isc_sockaddr_t) (dscp : Z)
  (r : list Z) : M (isc_result_t * bool * Z) :=
  '(result, connected, id, again) <-
    raw_pass options tcp false share srcaddr destaddr dscp r false 0 ;;
  if again then
    '(result, connected, id, _) <-
      raw_pass options tcp true share srcaddr destaddr dscp r connected id ;;
    ret (result, connected, id)
  else ret (result, connected, id).

Definition dns_request_createraw (msgbuf : option isc_buffer_t)
  (srcaddr destaddr : option isc_sockaddr_t) (dscp : Z) (options : options_t)
  (timeout udptimeout udpretries : Z) (task action : option Z)
  (requestp : option (option Z)) : M isc_result_t :=
  match msgbuf, destaddr, task, action, requestp with
  | Some msgbuf, Some destaddr, Some task, Some _, Some None =>
      require (0 <? timeout) ;;
      require (match srcaddr with
               | Some src => pf_eqb (isc_sockaddr_pf src) (isc_sockaddr_pf destaddr)
               | None => true
               end) ;;
      if isblackholed destaddr then ret DNS_R_BLACKHOLED
      else
        match derive_udptimeout timeout udptimeout udpretries with
        | None => abort
        | Some udptimeout =>
            '(result, self) <- allocate_request task dscp udpretries ;;
            if negb (is_success result) then cleanup false task result
            else
              let r := isc_buffer_usedregion msgbuf in
              let len := Z.of_nat (length r) in
              if (len <? DNS_MESSAGE_HEADERLEN) || (65535 <? len)
              then cleanup true task DNS_R_FORMERR
              else
                let tcp := opt_tcp options || (512 <? len) in
                let share := opt_share options in
                '(result, connected, id) <-
                  raw_again options tcp share srcaddr destaddr dscp r ;;
                if negb (is_success result) then cleanup true task result
                else
                  sock <- req_getsocket ;;
                  require (is_some sock) ;;
                  match raw_build_query tcp r id with
                  | None => abort
                  | Some (result, q) =>
                      modify_req (with_query (Some q)) ;;
                      if negb (is_success result) then cleanup true task result
                      else admit_and_start self task tcp connected destaddr sock
                             timeout udptimeout
                  end
        end
  | _, _, _, _, _ => abort
  end.

(** [req_render], for the message carrying [id]. *)
Definition req_render (id : Z) (options : options_t) : M isc_result_t :=
  rq <- get_req ;;
  require (negb (is_some (query rq))) ;;
  h <- get_log ;;
  let result := e_compress_init env h in
  if negb (is_success result) then ret result
  else
    let (result, rendered) := e_render env h id (opt_case options) in
    (* the buffer being rendered into holds at most 65535 bytes *)
    let result := if is_success result && (65535 <? Z.of_nat (length rendered))
                  then ISC_R_NOSPACE else result in
    emit (A_message_render id result) ;;
    if negb (is_success result) then
      emit A_message_renderreset ;; ret result
    else
      let len := Z.of_nat (length rendered) in
      let tcp := opt_tcp options in
      if negb tcp && (512 <? len) then
        emit A_message_renderreset ;; ret DNS_R_USETCP
      else
        let buf2 := isc_buffer_allocate (len + (if tcp then 2 else 0)) in
        match (if tcp then isc_buffer_putuint16 buf2 (u16 len) else Some buf2) with
        | None => abort
        | Some buf2 =>
            let (result, buf2) := isc_buffer_copyregion buf2 rendered in
            if is_success result then
              modify_req (with_query (Some buf2)) ;; ret ISC_R_SUCCESS
            else emit A_message_renderreset ;; ret result
        end.

(** One pass from the label [use_tcp] of [dns_request_createvia]:
    (result, connected, tcp, socket, whether the code jumps back). *)
Definition via_pass (options : options_t) (settsigkey : bool)
  (srcaddr : option isc_sockaddr_t) (destaddr : isc_sockaddr_t) (dscp : Z)
  (connected : bool) : M (isc_result_t * bool * bool * option Z * bool) :=
  let tcp := opt_tcp options in
  let share := opt_share options in
  '(result, connected) <- get_dispatch tcp false share srcaddr destaddr dscp connected ;;
  if negb (is_success result) then ret (result, connected, tcp, None, false)
  else
    rq <- get_req ;;
    match dispatch rq with
    | None => abort
    | Some d =>
        h <- get_log ;;
        let '(result, id, e) := e_addresponse env h d false 0 in
        emit (A_dispatch_addresponse (disp_id d) false result id) ;;
        if negb (is_success result) then ret (result, connected, tcp, None, false)
        else
          modify_req (with_dispentry (Some e)) ;;
          sock <- req_getsocket ;;
          require (is_some sock) ;;
          h <- get_log ;;
          let result := if settsigkey then e_settsigkey env h else ISC_R_SUCCESS in
          if negb (is_success result) then ret (result, connected, tcp, sock, false)
          else
            result <- req_render id options ;;
            if is_usetcp result && negb (opt_tcp options) then
              (* Try again using TCP. *)
              emit A_message_renderreset ;;
              emit (A_dispatch_removeresponse (de_id e)) ;;
              modify_req (with_dispentry None) ;;
              emit (A_dispatch_detach (disp_id d)) ;;
              modify_req (with_dispatch None) ;;
              ret (result, connected, tcp, None, true)
            else ret (result, connected, tcp, sock, false)
    end.

(** The loop at the label [use_tcp]: entered with [settsigkey] true and
    [connected] false; the jump back sets DNS_REQUESTOPT_TCP, which bars a
    second jump. *)
Definition via_use_tcp (options : options_t)
  (srcaddr : option isc_sockaddr_t) (destaddr : isc_sockaddr_t) (dscp : Z)
  : M (isc_result_t * bool * bool * option Z) :=
  '(result, connected, tcp, sock, again) <-
    via_pass options true srcaddr destaddr dscp false ;;
  if again then
    '(result, connected, tcp, sock, _) <-
      via_pass (options_set_tcp options) false srcaddr destaddr dscp connected ;;
    ret (result, connected, tcp, sock)
  else ret (result, connected, tcp, sock).

Definition dns_request_createvia (message : option Z)
  (srcaddr destaddr : option isc_sockaddr_t) (dscp : Z) (options : options_t)
  (key : option Z) (timeout udptimeout udpretries : Z) (task action : option Z)
  (requestp : option (option Z)) : M isc_result_t :=
  match message, destaddr, task, action, requestp with
  | Some _, Some destaddr, Some task, Some _, Some None =>
      require (0 <? timeout) ;;
      if match srcaddr with
         | Some src => negb (pf_eqb (isc_sockaddr_pf src) (isc_sockaddr_pf destaddr))
         | None => false
         end
      then ret ISC_R_FAMILYMISMATCH
      else if isblackholed destaddr then ret DNS_R_BLACKHOLED
      else
        match derive_udptimeout timeout udptimeout udpretries with
        | None => abort
        | Some udptimeout =>
            '(result, self) <- allocate_request task dscp udpretries ;;
            if negb (is_success result) then cleanup false task result
            else
              modify_req (with_tsigkey key) ;;
              '(result, connected, tcp, sock) <-
                via_use_tcp options srcaddr destaddr dscp ;;
              if negb (is_success result) then cleanup true task result
              else
                h <- get_log ;;
                let (result, qtsig) := e_getquerytsig env h in
                if negb (is_success result) then cleanup true task result
                else
                  modify_req (with_tsig qtsig) ;;
                  admit_and_start self task tcp connected destaddr sock
                    timeout udptimeout
        end
  | _, _, _, _, _ => abort
  end.

(** [dns_request_create] *)
Definition dns_request_create (message : option Z) (address : option isc_sockaddr_t)
  (options : options_t) (key : option Z) (timeout : Z) (task action : option Z)
  (requestp : option (option Z)) : M isc_result_t :=
  dns_request_createvia message None address (-1) options key timeout 0 0
    task action requestp.

End Engine.

Arguments has_flag : simpl never.
Arguments set_flag : simpl never.
Arguments clear_flag : simpl never.
Arguments u32 : simpl never.
Arguments u16 : simpl never.
Arguments u8 : simpl never.

(** The mask with the single bit [k]. *)
Definition bit (k : Z) : Z := 2 ^ k.
Arguments bit : simpl never.

(** ** Vocabulary of the statements *)

(** The calls by which [req_cancel] tears a request down. *)
Definition is_teardown (a : action) : bool :=
  match a with
  | A_timer_detach _ | A_socket_cancel _ _ | A_dispatch_removeresponse _
  | A_dispatch_detach _ => true
  | _ => false
  end.

Definition is_sendto (a : action) : bool :=
  match a with A_socket_sendto _ _ _ _ => true | _ => false end.

(** A cancel was requested or carried out. *)
Definition cancel_seen (r : dns_request_t) : bool :=
  canceling r || DNS_REQUEST_CANCELED r.

Definition is_cancel_call (e : req_event) : bool :=
  match e with E_cancel => true | _ => false end.

(** Keeps the first call of [dns_request_cancel] and drops the later ones. *)
Fixpoint dedup_cancel (es : list req_event) : list req_event :=
  match es with
  | [] => []
  | E_cancel :: es' => E_cancel :: filter (fun e => negb (is_cancel_call e)) es'
  | e :: es' => e :: dedup_cancel es'
  end.

(** What the completion looks like when [send_if_done result] runs on [r]. *)
Definition delivery (r : dns_request_t) (result : isc_result_t) : list action :=
  match event r with
  | Some ev => if canceling r then [] else [A_task_sendanddetach (ev_sender ev) result]
  | None => []
  end.

(** What every handler other than [dns_request_cancel] leaves alone, and the
    one way in which it may complete the request. *)
Definition handler_frame (w w' : world) : Prop :=
  let r := w_req w in
  let r' := w_req w' in
  magic r' = magic r /\
  w_mgr w' = w_mgr w /\
  ctlevent_posts (w_log w') = ctlevent_posts (w_log w) /\
  has_flag (flags r') DNS_REQUEST_F_TCP = has_flag (flags r) DNS_REQUEST_F_TCP /\
  (DNS_REQUEST_CANCELED r = true -> DNS_REQUEST_CANCELED r' = true) /\
  (canceling r' = true -> canceling r = true) /\
  (cancel_seen r = true -> cancel_seen r' = true) /\
  ((event r' = event r /\ completions (w_log w') = completions (w_log w)) \/
   (exists ev result,
      event r = Some ev /\ event r' = None /\
      completions (w_log w') =
        completions (w_log w) ++ [A_task_sendanddetach (ev_sender ev) result])).

(** The calls made while a request is being prepared: allocation, the
    search for a dispatch, the registration of the response slot, the
    rendering. *)
Definition is_prep (a : action) : bool :=
  match a with
  | A_timer_create _ | A_event_allocate _ | A_task_attach _
  | A_socket_create _ _ | A_socket_bind _ _ _ | A_socket_dscp _ _
  | A_socket_detach _
  | A_dispatch_gettcp _ _ _ | A_dispatch_createtcp _ _ | A_dispatch_getudp _
  | A_dispatch_attach _ | A_dispatch_addresponse _ _ _ _
  | A_dispatch_removeresponse _ | A_dispatch_detach _
  | A_message_render _ _ | A_message_renderreset => true
  | _ => false
  end.

(** The calls by which [cleanup] releases a request that was not admitted. *)
Definition is_release (a : action) : bool :=
  match a with
  | A_task_detach _ | A_event_free | A_dispatch_removeresponse _
  | A_dispatch_detach _ | A_timer_detach _ => true
  | _ => false
  end.

Definition is_timer_reset (a : action) : bool :=
  match a with A_timer_reset _ _ _ _ _ => true | _ => false end.

Definition is_addresponse (a : action) : bool :=
  match a with A_dispatch_addresponse _ _ _ _ => true | _ => false end.

Definition is_failed_addresponse (a : action) : bool :=
  match a with
  | A_dispatch_addresponse _ _ result _ => negb (is_success result)
  | _ => false
  end.

Definition is_gettcp (a : action) : bool :=
  match a with A_dispatch_gettcp _ _ _ => true | _ => false end.

Definition is_socket_create (a : action) : bool :=
  match a with A_socket_create _ _ => true | _ => false end.

Definition is_connect (a : action) : bool :=
  match a with A_socket_connect _ _ _ => true | _ => false end.

Definition is_mgr_lock (a : action) : bool :=
  match a with A_lock_mgr => true | _ => false end.

(** The calls that set up a new TCP connection. *)
Definition is_newconn (a : action) : bool :=
  match a with
  | A_socket_create _ _ | A_socket_bind _ _ _ | A_socket_dscp _ _
  | A_socket_detach _ | A_dispatch_createtcp _ _ => true
  | _ => false
  end.

(** The dispatch came from [dns_dispatch_gettcp], already connected. *)
Definition is_attach_connected (a : action) : bool :=
  match a with
  | A_dispatch_gettcp _ result connected => is_success result && connected
  | _ => false
  end.

(** A preparation step: the manager is untouched, only preparation calls
    are made, and of the request only the dispatch, the response slot and
    the query buffer may change. *)
Definition prep_frame (w w' : world) : Prop :=
  w_mgr w' = w_mgr w /\
  (exists delta, w_log w' = w_log w ++ delta /\ forallb is_prep delta = true) /\
  w_req w' =
    with_query (query (w_req w'))
      (with_dispentry (dispentry (w_req w'))
         (with_dispatch (dispatch (w_req w')) (w_req w))).

(** The source address, when given, is of the family of the destination. *)
Definition same_family (srcaddr : option isc_sockaddr_t) (destaddr : isc_sockaddr_t)
  : bool :=
  match srcaddr with
  | Some src => pf_eqb (isc_sockaddr_pf src) (isc_sockaddr_pf destaddr)
  | None => true
  end.

(** The request was not admitted: the manager is as before and the request
    structure is dead. *)
Definition unadmitted (w w' : world) : Prop :=
  w_mgr w' = w_mgr w /\ VALID_REQUEST (w_req w') = false /\ event (w_req w') = None.

(** The outcome of a creation attempted on a manager that is shutting
    down: the call fails and leaves the manager as it was; no completion
    event is sent; and if the registration block was reached (the manager
    lock shows in the trace), the result is ISC_R_SHUTTINGDOWN, only
    releases follow the block, and the request is dead with its event
    freed. *)
Definition exiting_outcome (w w' : world) (res : isc_result_t) : Prop :=
  is_success res = false /\
  w_mgr w' = w_mgr w /\
  exists delta,
    w_log w' = w_log w ++ delta /\
    completions delta = [] /\
    (existsb is_mgr_lock delta = true ->
     res = ISC_R_SHUTTINGDOWN /\
     VALID_REQUEST (w_req w') = false /\
     event (w_req w') = None /\
     exists pre post,
       delta = pre ++ A_lock_mgr :: A_unlock_mgr :: post /\
       forallb is_prep pre = true /\
       forallb is_release post = true).

(** The two bytes of [isc_buffer_putuint16 (uint16_t)len]. *)
Definition tcp_length_prefix (len : Z) : list Z :=
  [u8 (Z.shiftr (u16 len) 8); u8 (u16 len)].

(** The timer type [set_timer] asks for. *)
Definition timer_type_for (udpresend : Z) : isc_timertype_t :=
  if udpresend =? 0 then isc_timertype_once else isc_timertype_limited.

(** [req_render], entered after the trace [h] for the message carrying
    [id] and a request without query buffer, returns [res]. *)
Definition renders (env : Env) (options : options_t) (h : list action) (id : Z)
  (res : isc_result_t) : Prop :=
  forall v, w_log v = h -> query (w_req v) = None ->
            exists v', req_render env id options v = Some (res, v').

Arguments req_cancel : simpl never.
Arguments req_destroy : simpl never.
Arguments is_success !r : simpl nomatch.
Arguments is_usetcp !r : simpl nomatch.

(** ** Concrete instances, for the examples *)

(** An environment in which every service succeeds: no blackhole ACL, a
    cached TCP connection that is already connected, ids assigned as 0x1234. *)
Definition env_ok : Env :=
  mk_env None
    (fun _ => true)
    (fun _ => 4096)
    (fun _ => (ISC_R_SUCCESS, 7))
    (fun _ _ _ _ => (ISC_R_SUCCESS, true, mk_dispatch 2 false (Some 11)))
    (fun _ _ => (ISC_R_SUCCESS, 12))
    (fun _ _ => ISC_R_SUCCESS)
    (fun _ _ => (ISC_R_SUCCESS, mk_dispatch 3 false (Some 12)))
    (fun _ _ => (ISC_R_SUCCESS, mk_dispatch 4 false (Some 13)))
    (fun _ _ fixedid id =>
       (ISC_R_SUCCESS, if fixedid then id else 0x1234, mk_dispentry 5 None))
    (fun _ t => (ISC_R_SUCCESS, 1000 + t))
    (fun _ => ISC_R_SUCCESS)
    (fun _ => ISC_R_SUCCESS)
    (fun _ => ISC_R_SUCCESS)
    (fun _ => ISC_R_SUCCESS)
    (fun _ id _ =>
       (ISC_R_SUCCESS,
        [Z.shiftr id 8; Z.land id 255; 1; 0; 0; 1; 0; 0; 0; 0; 0; 0;
         7; 101; 120; 97; 109; 112; 108; 101; 0; 0; 1; 0; 1]))
    (fun _ => (ISC_R_SUCCESS, None)).

Definition dispatch_v4 : dns_dispatch_t := mk_dispatch 1 false (Some 10).

Definition mgr_idle : dns_requestmgr_t :=
  mk_requestmgr REQUESTMGR_MAGIC 1 0 (Some dispatch_v4) None false [] 0 [].

Definition addr_server : isc_sockaddr_t := mk_sockaddr PF_INET 0x7f000001 53000.

(** A 28 byte query for [example.] with id 0x1234. *)
Definition wire_query : list Z :=
  [0x12; 0x34; 1; 0; 0; 1; 0; 0; 0; 0; 0; 0;
   7; 101; 120; 97; 109; 112; 108; 101; 0; 0; 1; 0; 1; 0; 0; 0].

Definition msgbuf_query : isc_buffer_t := mk_buffer 512 wire_query.

Definition opts_none : options_t := mk_options false false false false.
Definition opts_tcp : options_t := mk_options true false false false.
Definition opts_tcp_share : options_t := mk_options true false false true.
Definition opts_tcp_fixedid : options_t := mk_options true false true false.

(** The world before any request exists: the request slot holds a dead
    structure. *)
Definition world_idle : world :=
  mk_world mgr_idle (with_magic 0 new_request) [].

(** A UDP request waiting for its response: created, sent, send completed. *)
Definition request_waiting : dns_request_t :=
  mk_request REQUEST_MAGIC 1 0 (Some (mk_buffer 28 wire_query)) None
    (Some (mk_requestevent 100 ISC_R_FAILURE)) (Some dispatch_v4)
    (Some (mk_dispentry 5 None)) (Some 7) true None None false addr_server 3 (-1).

Definition mgr_one : dns_requestmgr_t :=
  mk_requestmgr REQUESTMGR_MAGIC 1 1 (Some dispatch_v4) None false [] 1 [4096].

Definition world_waiting : world := mk_world mgr_one request_waiting [].

(** The same request with its send still in flight. *)
Definition world_sending : world :=
  mk_world mgr_one (with_flags DNS_REQUEST_F_SENDING request_waiting) [].

(** The same request after [dns_request_cancel] was called. *)
Definition world_canceling : world :=
  mk_world mgr_one (with_canceling true request_waiting) [].



(** [env_ok] with dispatches on which the first registration of a response
    finds the message id in use; later registrations succeed. *)
Definition env_collision : Env :=
  mk_env (e_blackhole env_ok)
    (e_socketevent env_ok) (e_mem_get env_ok) (e_timer_create env_ok)
    (e_gettcp env_ok) (e_socket_create env_ok) (e_socket_bind env_ok)
    (e_createtcp env_ok) (e_getudp env_ok)
    (fun h d fixedid id =>
       if existsb is_addresponse h then e_addresponse env_ok h d fixedid id
       else (ISC_R_NOMORE, id, mk_dispentry 0 None))
    (e_nowplusinterval env_ok) (e_timer_reset env_ok) (e_socket_connect env_ok)
    (e_settsigkey env_ok) (e_compress_init env_ok) (e_render env_ok)
    (e_getquerytsig env_ok).

(** [env_ok] with a message that renders to 600 bytes, too long for a UDP
    datagram. *)
Definition env_long : Env :=
  mk_env (e_blackhole env_ok)
    (e_socketevent env_ok) (e_mem_get env_ok) (e_timer_create env_ok)
    (e_gettcp env_ok) (e_socket_create env_ok) (e_socket_bind env_ok)
    (e_createtcp env_ok) (e_getudp env_ok) (e_addresponse env_ok)
    (e_nowplusinterval env_ok) (e_timer_reset env_ok) (e_socket_connect env_ok)
    (e_settsigkey env_ok) (e_compress_init env_ok)
    (fun _ id _ => (ISC_R_SUCCESS, Z.shiftr id 8 :: Z.land id 255 :: repeat 0 598))
    (e_getquerytsig env_ok).

(** A manager on which [dns_requestmgr_shutdown] was called. *)
Definition mgr_exiting : dns_requestmgr_t :=
  mk_requestmgr REQUESTMGR_MAGIC 1 0 (Some dispatch_v4) None true [] 0 [].

Definition world_exiting : world :=
  mk_world mgr_exiting (with_magic 0 new_request) [].

(** ** The rest of the public request interface *)

(** [dns_request_getanswer] *)
Definition dns_request_getanswer : M (option isc_buffer_t) :=
  r <- get_req ;;
  require (VALID_REQUEST r) ;;
  ret (answer r).

(** [dns_request_destroy], for the request at address [self]
    (request.c 1239-1268).  The manager lock is reached through
    [request->requestmgr], which must not be NULL. *)
Definition dns_request_destroy (self : Z) : M unit :=
  r <- get_req ;;
  require (VALID_REQUEST r) ;;
  require (requestmgr r) ;;
  emit A_lock_mgr ;;
  modify_mgr (fun m => with_requests (filter (Z_neqb self) (requests m)) m) ;;
  require (negb (DNS_REQUEST_CONNECTING r)) ;;
  require (negb (DNS_REQUEST_SENDING r)) ;;
  emit A_unlock_mgr ;;
  (* These should have been cleaned up by req_cancel() before the
     completion event was sent. *)
  require (negb (is_some (dispentry r))) ;;
  require (negb (is_some (dispatch r))) ;;
  require (negb (is_some (timer r))) ;;
  req_destroy.

(** ** Vocabulary of the further properties *)

(** The shape every live request has between two handlers: the query is
    there; a request that is not CANCELED still has its dispatch, its
    response slot and its completion event and has no answer yet; a
    CANCELED one has given up its timer, response slot and dispatch. *)
Definition request_ok (r : dns_request_t) : bool :=
  VALID_REQUEST r && is_some (query r) &&
  (if DNS_REQUEST_CANCELED r
   then negb (is_some (timer r)) && negb (is_some (dispentry r))
        && negb (is_some (dispatch r))
   else is_some (dispatch r) && is_some (dispentry r) && is_some (event r)
        && negb (is_some (answer r))).

(** The events the environment may deliver to a request in state [r]: the
    control event only while it is outstanding, a socket completion only
    for the operation in flight, responses and timer events only while the
    response slot and the timer are held, that is, before the cancel. *)
Definition ready (e : req_event) (r : dns_request_t) : bool :=
  match e with
  | E_cancel => true
  | E_control => canceling r
  | E_connect _ => DNS_REQUEST_CONNECTING r
  | E_senddone _ => DNS_REQUEST_SENDING r
  | E_response _ _ => negb (DNS_REQUEST_CANCELED r)
  | E_timer _ => negb (DNS_REQUEST_CANCELED r)
  end.

(** Everything of a manager but its hash counter is as before. *)
Definition manager_kept (m m' : dns_requestmgr_t) : Prop :=
  eref m' = eref m /\ iref m' = iref m /\
  dispatchv4 m' = dispatchv4 m /\ dispatchv6 m' = dispatchv6 m /\
  exiting m' = exiting m /\ whenshutdown m' = whenshutdown m /\
  requests m' = requests m.

(** The address is not that of a linked request. *)
Definition unlinked (self : Z) (m : dns_requestmgr_t) : bool :=
  negb (existsb (Z.eqb self) (requests m)).

(** ** Further concrete instances *)

(** [env_ok] with a timer manager whose [isc_timer_reset] fails. *)
Definition env_noreset : Env :=
  mk_env (e_blackhole env_ok)
    (e_socketevent env_ok) (e_mem_get env_ok) (e_timer_create env_ok)
    (e_gettcp env_ok) (e_socket_create env_ok) (e_socket_bind env_ok)
    (e_createtcp env_ok) (e_getudp env_ok) (e_addresponse env_ok)
    (e_nowplusinterval env_ok) (fun _ => ISC_R_UNEXPECTED) (e_socket_connect env_ok)
    (e_settsigkey env_ok) (e_compress_init env_ok) (e_render env_ok)
    (e_getquerytsig env_ok).

(** What a successful creation leaves: the manager has one more internal
    reference and the new request at the tail of its list; the request is
    live, not canceled, bound to the caller's task, waiting for the
    completion of exactly one socket operation, and its shard index is a
    valid index into the array of locks. *)
Definition admitted (env : Env) (task : Z) (dest : isc_sockaddr_t)
  (w w' : world) : Prop :=
  let m := w_mgr w in
  let r' := w_req w' in
  exiting m = false /\
  w_mgr w' = with_requests (requests m ++ [e_mem_get env (w_log w)])
               (with_mgr_hash (u32 (mgr_hash m + 1)) (with_iref (iref m + 1) m)) /\
  request_ok r' = true /\
  requestmgr r' = true /\
  canceling r' = false /\
  DNS_REQUEST_CANCELED r' = false /\
  DNS_REQUEST_TIMEDOUT r' = false /\
  DNS_REQUEST_CONNECTING r' = negb (DNS_REQUEST_SENDING r') /\
  event r' = Some (mk_requestevent task ISC_R_FAILURE) /\
  destaddr r' = dest /\
  req_hash r' = mgr_hash (w_mgr w') mod DNS_REQUEST_NLOCKS /\
  0 <= req_hash r' < DNS_REQUEST_NLOCKS.

(** No address occurs twice. *)
Fixpoint distinct (l : list Z) : bool :=
  match l with
  | [] => true
  | x :: l' => negb (existsb (Z.eqb x) l') && distinct l'
  end.

(** The manager between two calls: [iref] counts the linked requests, and
    no request is linked twice. *)
Definition mgr_ok (m : dns_requestmgr_t) : bool :=
  (iref m =? Z.of_nat (length (requests m))) && distinct (requests m).

Definition linked (self : Z) (m : dns_requestmgr_t) : bool :=
  existsb (Z.eqb self) (requests m).

Definition is_shutdown_event (a : action) : bool :=
  match a with A_task_shutdown_event _ _ => true | _ => false end.

Definition is_mgr_destroy (a : action) : bool :=
  match a with A_mgr_destroy => true | _ => false end.

(** The calls [mgr_destroy] makes. *)
Definition destroy_calls (m : dns_requestmgr_t) : list action :=
  A_mgr_destroy ::
  match dispatchv4 m with Some d => [A_dispatch_detach (disp_id d)] | None => [] end ++
  match dispatchv6 m with Some d => [A_dispatch_detach (disp_id d)] | None => [] end.

(** The shutdown events as [send_shutdown_events] sends them. *)
Definition shutdown_sends (l : list (Z * Z)) : list action :=
  map (fun te => A_task_shutdown_event (fst te) (snd te)) l.

(** A request whose completion event was sent: cancelled, nothing in
    flight, the answer kept for the caller. *)
Definition request_done : dns_request_t :=
  mk_request REQUEST_MAGIC 1 DNS_REQUEST_F_CANCELED (Some (mk_buffer 28 wire_query))
    (Some (mk_buffer 3 [1; 2; 3])) None None None None true None None false
    addr_server 3 (-1).



(** The request was cancelled and no control event is outstanding. *)
Definition settled (r : dns_request_t) : bool :=
  DNS_REQUEST_CANCELED r && negb (canceling r).

(** A settled request has handed its completion event over. *)
Definition delivered_if_settled (r : dns_request_t) : bool :=
  implb (settled r) (negb (is_some (event r))).

(** The part of a request that is fixed when it is created. *)
Definition same_identity (r r' : dns_request_t) : Prop :=
  magic r' = magic r /\ req_hash r' = req_hash r /\ query r' = query r /\
  requestmgr r' = requestmgr r /\ tsig r' = tsig r /\ tsigkey r' = tsigkey r /\
  destaddr r' = destaddr r /\ dscp r' = dscp r /\
  has_flag (flags r') DNS_REQUEST_F_TCP = has_flag (flags r) DNS_REQUEST_F_TCP.

(** The socket [req_getsocket] finds for [r]. *)
Definition socket_of (r : dns_request_t) : option Z :=
  match dispatch r with
  | Some d =>
      if disp_exclusive d
      then match dispentry r with Some e => de_socket e | None => None end
      else disp_socket d
  | None => None
  end.

(** The datagram a timer tick sends again: the query, to the saved
    destination, with the request's DSCP. *)
Definition retransmission (r : dns_request_t) : list action :=
  match query r with
  | Some q =>
      [A_socket_sendto (socket_of r) (isc_buffer_usedregion q) (Some (destaddr r))
         (if dscp r =? -1 then None else Some (dscp r))]
  | None => []
  end.

(** [n] timer ticks, each followed by the completion of the send it
    started. *)
Fixpoint retransmit_rounds (n : nat) : list req_event :=
  match n with
  | O => []
  | S k => E_timer ISC_TIMEREVENT_TICK :: E_senddone ISC_R_SUCCESS :: retransmit_rounds k
  end.

Fixpoint repeat_actions (n : nat) (l : list action) : list action :=
  match n with
  | O => []
  | S k => l ++ repeat_actions k l
  end.

(** What a creation that is refused before a dispatch is found leaves in
    the trace: the timer, the event and the task reference, each taken and
    given back. *)
Definition early_unwind (task t : Z) : list action :=
  [A_timer_create ISC_R_SUCCESS; A_event_allocate task; A_task_attach task;
   A_task_detach task; A_event_free; A_timer_detach t].

(** The manager's own dispatch for an address family. *)
Definition mgr_dispatch (m : dns_requestmgr_t) (pf : pf_t) : option dns_dispatch_t :=
  match pf with
  | PF_INET => dispatchv4 m
  | PF_INET6 => dispatchv6 m
  | PF_UNSPEC => None
  end.

(** * The request manager

    The manager with the requests it links.  A request is found in memory by
    its address; the functions of the request level run on the request they
    are given, against the manager and the trace of the engine.  The
    functions of the manager test its magic number on entry. *)

Record engine : Type := engine_of {
  en_mgr : dns_requestmgr_t;
  en_store : Z -> option dns_request_t;      (* the requests in memory *)
  en_log : list action
}.

(** [requestmgr->magic] *)
Definition en_magic (g : engine) : Z := mgr_magic (en_mgr g).

(** The engine whose manager has the fields of [m] under the magic [magic]. *)
Definition mk_engine (magic : Z) (m : dns_requestmgr_t)
  (store : Z -> option dns_request_t) (log : list action) : engine :=
  engine_of (with_mgr_magic magic m) store log.

Definition VALID_REQUESTMGR (g : engine) : bool := en_magic g =? REQUESTMGR_MAGIC.

Definition G (A : Type) : Type := engine -> option (A * engine).

Definition gret {A : Type} (a : A) : G A := fun g => Some (a, g).
Definition gabort {A : Type} : G A := fun _ => None.
Definition gbind {A B : Type} (m : G A) (k : A -> G B) : G B :=
  fun g => match m g with
           | Some (a, g') => k a g'
           | None => None
           end.

Declare Scope mgr_scope.
Delimit Scope mgr_scope with mgr.
Notation "x <- m ;; k" := (gbind m (fun x => k))
  (at level 61, m at next level, right associativity) : mgr_scope.
Notation "m ;; k" := (gbind m (fun _ => k))
  (at level 61, right associativity) : mgr_scope.

Definition grequire (b : bool) : G unit := if b then gret tt else gabort.
Definition gwhen (b : bool) (m : G unit) : G unit := if b then m else gret tt.
Definition gget_mgr : G dns_requestmgr_t := fun g => Some (en_mgr g, g).
Definition gmodify_mgr (f : dns_requestmgr_t -> dns_requestmgr_t) : G unit :=
  fun g => Some (tt, engine_of (f (en_mgr g)) (en_store g) (en_log g)).
Definition gput_magic (v : Z) : G unit := gmodify_mgr (with_mgr_magic v).
Definition grequire_valid : G unit :=
  fun g => if VALID_REQUESTMGR g then Some (tt, g) else None.
Definition gemit (a : action) : G unit :=
  fun g => Some (tt, engine_of (en_mgr g) (en_store g) (en_log g ++ [a])).

(** A step of the request level on the request at [self]: a request that
    is not in memory is a wild pointer. *)
Definition on_request {A : Type} (self : Z) (c : M A) : G A :=
  fun g =>
    match en_store g self with
    | None => None
    | Some r =>
        match c (mk_world (en_mgr g) r (en_log g)) with
        | None => None
        | Some (a, w') =>
            Some (a, engine_of (w_mgr w')
                       (fun x => if x =? self then Some (w_req w') else en_store g x)
                       (w_log w'))
        end
    end.

(** A step of the request level that concerns the manager alone. *)
Definition on_manager {A : Type} (c : M A) : G A :=
  fun g =>
    match c (mk_world (en_mgr g) (with_magic 0 new_request) (en_log g)) with
    | None => None
    | Some (a, w') =>
        Some (a, engine_of (w_mgr w') (en_store g) (w_log w'))
    end.

Section Manager.

Local Open Scope mgr_scope.

(** [dns_requestmgr_create] (request.c 145-205).  The managers of timers,
    sockets, tasks and dispatches are given by whether the pointer is
    non-null; [is_udp] answers [dns_dispatch_getattributes] for the UDP
    attribute.  The new manager replaces the one of [g]. *)
Definition dns_requestmgr_create (is_udp : dns_dispatch_t -> bool)
  (timermgr socketmgr taskmgr dispatchmgr : bool)
  (dispatchv4 dispatchv6 : option dns_dispatch_t)
  (requestmgrp : option (option Z)) : G isc_result_t :=
  match requestmgrp with
  | Some None =>
      grequire timermgr ;;
      grequire socketmgr ;;
      grequire taskmgr ;;
      grequire dispatchmgr ;;
      grequire (match dispatchv4 with Some d => is_udp d | None => true end) ;;
      grequire (match dispatchv6 with Some d => is_udp d | None => true end) ;;
      gmodify_mgr (fun _ => mk_requestmgr 0 0 0 None None false [] 0 []) ;;
      match dispatchv4 with
      | Some d => gemit (A_dispatch_attach (disp_id d)) ;;
                  gmodify_mgr (with_dispatchv4 (Some d))
      | None => gret tt
      end ;;
      match dispatchv6 with
      | Some d => gemit (A_dispatch_attach (disp_id d)) ;;
                  gmodify_mgr (with_dispatchv6 (Some d))
      | None => gret tt
      end ;;
      gmodify_mgr (with_eref 1) ;;                   (* implicit attach *)
      gmodify_mgr (with_iref 0) ;;
      gmodify_mgr (with_whenshutdown []) ;;
      gmodify_mgr (with_requests []) ;;
      gmodify_mgr (with_exiting false) ;;
      gmodify_mgr (with_mgr_hash 0) ;;
      gput_magic REQUESTMGR_MAGIC ;;
      gret ISC_R_SUCCESS
  | _ => gabort
  end.

(** [dns_requestmgr_whenshutdown] (request.c 207-236).  Yields the event
    that is sent at once with [isc_task_send], if any; otherwise the event
    is queued with a reference to its task. *)
Definition dns_requestmgr_whenshutdown (task : Z) (eventp : option (option Z))
  : G (option (Z * Z)) :=
  grequire_valid ;;
  match eventp with
  | Some (Some event) =>
      gemit A_lock_mgr ;;
      m <- gget_mgr ;;
      sent <- (if exiting m then
                 (* We're already shutdown.  Send the event. *)
                 gret (Some (task, event))
               else
                 gemit (A_task_attach task) ;;
                 gmodify_mgr (fun m => with_whenshutdown
                                         (whenshutdown m ++ [(task, event)]) m) ;;
                 gret None) ;;
      gemit A_unlock_mgr ;;
      gret sent
  | _ => gabort
  end.

(** The loop of [mgr_shutdown] over the linked requests. *)
Fixpoint cancel_all (l : list Z) : G unit :=
  match l with
  | [] => gret tt
  | self :: l' => on_request self dns_request_cancel ;; cancel_all l'
  end.

(** [mgr_shutdown] (request.c 249-268).  Caller holds lock. *)
Definition mgr_shutdown : G unit :=
  m <- gget_mgr ;;
  if exiting m then gret tt
  else
    gmodify_mgr (with_exiting true) ;;
    cancel_all (requests m) ;;
    m <- gget_mgr ;;
    if iref m =? 0 then
      grequire (match requests m with [] => true | _ => false end) ;;
      on_manager send_shutdown_events
    else gret tt.

(** [dns_requestmgr_shutdown] (request.c 238-247) *)
Definition dns_requestmgr_shutdown : G unit :=
  grequire_valid ;;
  gemit A_lock_mgr ;;
  mgr_shutdown ;;
  gemit A_unlock_mgr.

(** [dns_requestmgr_attach] (request.c 319-332).  [eref] is an [int32_t]:
    incrementing INT32_MAX is undefined. *)
Definition dns_requestmgr_attach (targetp : option (option Z)) : G unit :=
  grequire_valid ;;
  match targetp with
  | Some None =>
      m <- gget_mgr ;;
      grequire (negb (exiting m)) ;;
      gemit A_lock_mgr ;;
      m <- gget_mgr ;;
      grequire (eref m <? INT32_MAX) ;;
      gmodify_mgr (with_eref (eref m + 1)) ;;
      gemit A_unlock_mgr
  | _ => gabort
  end.

(** [dns_requestmgr_detach] (request.c 334-361) *)
Definition dns_requestmgr_detach (requestmgrp : bool) : G unit :=
  grequire requestmgrp ;;
  grequire_valid ;;
  gemit A_lock_mgr ;;
  m <- gget_mgr ;;
  grequire (0 <? eref m) ;;
  gmodify_mgr (with_eref (eref m - 1)) ;;
  m <- gget_mgr ;;
  need_destroy <-
    (if (eref m =? 0) && (iref m =? 0) then
       grequire (exiting m && match requests m with [] => true | _ => false end) ;;
       gret true
     else gret false) ;;
  gemit A_unlock_mgr ;;
  gwhen need_destroy (on_manager mgr_destroy).

End Manager.

(** ** Vocabulary of the manager's properties *)

(** What [dns_request_cancel] does to a request, and the control event it
    posts. *)
Definition cancel_mark (r : dns_request_t) : dns_request_t :=
  if cancel_seen r then r else with_canceling true r.

Definition cancel_post (r : dns_request_t) : list action :=
  if cancel_seen r then []
  else match event r with
       | Some ev => [A_task_send_ctlevent (ev_sender ev)]
       | None => []
       end.

Definition cancel_posts (store : Z -> option dns_request_t) (l : list Z) : list action :=
  flat_map (fun self => match store self with
                        | Some r => cancel_post r
                        | None => []
                        end) l.

(** A request that [dns_request_cancel] may be called on: it is live, and
    it still holds its completion event unless a cancel was seen. *)
Definition cancelable (r : dns_request_t) : bool :=
  VALID_REQUEST r && (cancel_seen r || is_some (event r)).

(** Every request of the list is in memory and [cancelable]. *)
Definition all_cancelable (store : Z -> option dns_request_t) (l : list Z) : bool :=
  forallb (fun self => match store self with
                       | Some r => cancelable r
                       | None => false
                       end) l.

(** A manager with two requests, one of them cancelled already, and a task
    waiting for the shutdown. *)
Definition mgr_two : dns_requestmgr_t :=
  mk_requestmgr REQUESTMGR_MAGIC 1 2 (Some dispatch_v4) None false [(100, 9)] 2
    [4096; 8192].

Definition store_two (x : Z) : option dns_request_t :=
  if x =? 4096 then Some request_waiting
  else if x =? 8192 then Some request_done
  else None.

Definition engine_two : engine := engine_of mgr_two store_two [].

(** A manager without requests, with a task waiting for the shutdown. *)
Definition engine_idle : engine :=
  engine_of
    (mk_requestmgr REQUESTMGR_MAGIC 1 0 (Some dispatch_v4) None false [(100, 9)] 0 [])
    (fun _ => None) [].

(** [n] times the same call. *)
Fixpoint repeat_call (n : nat) (c : G unit) : G unit :=
  match n with
  | O => gret tt
  | S k => gbind c (fun _ => repeat_call k c)
  end.

Definition is_dispatch_ref (a : action) : bool :=
  match a with
  | A_dispatch_attach _ | A_dispatch_detach _ => true
  | _ => false
  end.

Definition dispatch_ids (v4 v6 : option dns_dispatch_t) : list Z :=
  match v4 with Some d => [disp_id d] | None => [] end ++
  match v6 with Some d => [disp_id d] | None => [] end.

(** [dns_request_getresponse] (request.c 1196-1223).  The calls into the
    message library are given by their results: [dns_message_setquerytsig]
    on the request's TSIG, [dns_message_settsigkey] on its key,
    [dns_message_parse] and [dns_tsig_verify] on the answer buffer. *)
Definition dns_request_getresponse
  (setquerytsig : option (list Z) -> isc_result_t)
  (settsigkey : option Z -> isc_result_t)
  (parse verify : isc_buffer_t -> isc_result_t) : M isc_result_t :=
  r <- get_req ;;
  require (VALID_REQUEST r) ;;
  match answer r with
  | None => abort                              (* REQUIRE(request->answer != NULL) *)
  | Some ans =>
      let result := setquerytsig (tsig r) in
      if negb (is_success result) then ret result
      else
        let result := settsigkey (tsigkey r) in
        if negb (is_success result) then ret result
        else
          let result := parse ans in
          if negb (is_success result) then ret result
          else if is_some (tsigkey r) then ret (verify ans)
          else ret result
  end.

Definition is_success_completion (a : action) : bool :=
  match a with
  | A_task_sendanddetach _ ISC_R_SUCCESS => true
  | _ => false
  end.

(** The answer is held only once the response slot is gone. *)
Definition answer_settled (r : dns_request_t) : bool :=
  negb (is_some (answer r)) || negb (is_some (dispentry r)).

(** * Properties *)

#[local] Arguments Z.testbit : simpl never.
#[local] Arguments Z.land : simpl never.
#[local] Arguments Z.lor : simpl never.
#[local] Arguments Z.shiftl : simpl never.
#[local] Arguments Z.shiftr : simpl never.
#[local] Arguments Z.modulo : simpl never.
#[local] Arguments Z.div : simpl never.

(** ** Flag arithmetic *)

Lemma land_bit (f k : Z) :
  0 <= k -> Z.land f (bit k) = if Z.testbit f k then bit k else 0.
Proof.
  intros Hk. unfold bit. apply Z.bits_inj'. intros n Hn.
  rewrite Z.land_spec, Z.pow2_bits_eqb by lia.
  destruct (Z.eqb_spec k n) as [->|Hne].
  - destruct (Z.testbit f n) eqn:E; simpl.
    + rewrite Z.pow2_bits_eqb by lia. now rewrite Z.eqb_refl.
    + now rewrite Z.bits_0.
  - rewrite andb_false_r.
    destruct (Z.testbit f k).
    + rewrite Z.pow2_bits_eqb by lia. symmetry. now apply Z.eqb_neq.
    + now rewrite Z.bits_0.
Qed.

Lemma has_flag_bit (f k : Z) : 0 <= k -> has_flag f (bit k) = Z.testbit f k.
Proof.
  intros Hk. unfold has_flag. rewrite land_bit by assumption.
  destruct (Z.testbit f k); [|reflexivity].
  assert (0 < bit k) by (unfold bit; apply Z.pow_pos_nonneg; lia).
  destruct (Z.eqb_spec (bit k) 0); [lia|reflexivity].
Qed.

Lemma testbit_set_flag (f i j : Z) :
  0 <= i -> 0 <= j ->
  Z.testbit (set_flag f (bit i)) j = (i =? j) || Z.testbit f j.
Proof.
  intros Hi Hj. unfold set_flag, bit.
  rewrite Z.lor_spec, Z.pow2_bits_eqb by lia. apply orb_comm.
Qed.

Lemma testbit_clear_flag (f i j : Z) :
  0 <= i -> 0 <= j ->
  Z.testbit (clear_flag f (bit i)) j = negb (i =? j) && Z.testbit f j.
Proof.
  intros Hi Hj. unfold clear_flag, bit.
  rewrite Z.land_spec, Z.lnot_spec, Z.pow2_bits_eqb by lia. apply andb_comm.
Qed.

Lemma set_flag_lor (f a b : Z) : set_flag f (Z.lor a b) = set_flag (set_flag f a) b.
Proof. unfold set_flag. now rewrite Z.lor_assoc. Qed.

(** Rewrites every flag test into a [Z.testbit] of the original flag word. *)
Ltac flagbits :=
  unfold DNS_REQUEST_CANCELED, DNS_REQUEST_CONNECTING, DNS_REQUEST_SENDING,
    DNS_REQUEST_TIMEDOUT in *;
  change DNS_REQUEST_F_CONNECTING with (bit 0) in *;
  change DNS_REQUEST_F_SENDING with (bit 1) in *;
  change DNS_REQUEST_F_CANCELED with (bit 2) in *;
  change DNS_REQUEST_F_TIMEDOUT with (bit 3) in *;
  change DNS_REQUEST_F_TCP with (bit 4) in *;
  rewrite ?set_flag_lor in *;
  rewrite ?has_flag_bit in * by lia;
  rewrite ?testbit_set_flag, ?testbit_clear_flag in * by lia;
  cbn [Z.eqb Pos.eqb negb orb andb] in *.

(** ** Symbolic execution of a step *)

Ltac innermost T :=
  lazymatch T with
  | context [match ?X with _ => _ end] =>
      lazymatch X with
      | context [match _ with _ => _ end] => innermost X
      | _ => X
      end
  end.

Ltac munfold H :=
  unfold bind, ret, abort, get_req, get_mgr, get_log, modify_req, modify_mgr,
    put_mgr, emit, require, when in H.

Ltac mexec H :=
  repeat (munfold H; cbn in H;
          lazymatch type of H with
          | None = Some _ => discriminate H
          | Some _ = Some _ => fail
          | ?T => let X := innermost T in
                  first [ match goal with Hx : X = _ |- _ => rewrite Hx in H end
                        | is_var X; destruct X
                        | destruct X eqn:? ]
          end);
  munfold H; cbn in H;
  lazymatch type of H with
  | Some _ = Some _ => first [ discriminate H | injection H; clear H; intros; subst ]
  | _ => idtac
  end.

Lemma filter_app_single {A : Type} (f : A -> bool) (l : list A) (a : A) :
  filter f (l ++ [a]) = if f a then filter f l ++ [a] else filter f l.
Proof. rewrite filter_app. simpl. destruct (f a); [reflexivity|apply app_nil_r]. Qed.

Lemma filter_none {A : Type} (f g : A -> bool) (l : list A) :
  forallb g l = true -> (forall a, g a = true -> f a = false) -> filter f l = [].
Proof.
  induction l as [|a l IH]; simpl; [reflexivity|].
  intros H Hfg. apply andb_true_iff in H as [Ha Hl].
  rewrite (Hfg a Ha). now apply IH.
Qed.

Section Handlers.

Variable env : Env.

(** [req_cancel] as a state change: CANCELED is set, the timer, the response
    slot and the dispatch are released, and nothing but teardown calls
    leaves the engine. *)
Lemma req_cancel_effect (w w' : world) :
  req_cancel w = Some (tt, w') ->
  exists delta,
    w' = mk_world (w_mgr w)
           (with_dispatch None (with_dispentry None (with_timer None
              (with_flags (set_flag (flags (w_req w)) DNS_REQUEST_F_CANCELED)
                 (w_req w)))))
           (w_log w ++ delta)
    /\ forallb is_teardown delta = true
    /\ VALID_REQUEST (w_req w) = true.
Proof.
  intros H. unfold req_cancel in H. destruct w as [m r l].
  mexec H.
  all: rewrite <- ?app_assoc; cbn; eexists; split;
    [ apply (f_equal2 (mk_world m));
      [ unfold with_dispatch, with_dispentry, with_timer, with_flags; cbn; congruence
      | reflexivity ]
    | split; [reflexivity|assumption] ].
Qed.

Lemma teardown_no_completion (d : list action) :
  forallb is_teardown d = true -> filter is_completion d = [].
Proof. intros H. apply (filter_none _ _ _ H). now intros []. Qed.

Lemma teardown_no_ctlevent (d : list action) :
  forallb is_teardown d = true -> filter is_ctlevent_post d = [].
Proof. intros H. apply (filter_none _ _ _ H). now intros []. Qed.

Lemma teardown_no_sendto (d : list action) :
  forallb is_teardown d = true -> filter is_sendto d = [].
Proof. intros H. apply (filter_none _ _ _ H). now intros []. Qed.

Ltac use_cancel :=
  repeat match goal with
         | H : req_cancel _ = Some (?u, _) |- _ =>
             destruct u;
             let delta := fresh "delta" in
             let Hd := fresh "Hdelta" in
             let Hv := fresh "Hvalid" in
             apply req_cancel_effect in H;
             destruct H as (delta & -> & Hd & Hv)
         end.

Ltac log_filters :=
  unfold completions, ctlevent_posts in *;
  cbn [w_log w_req w_mgr] in *;
  rewrite ?filter_app in *;
  repeat match goal with
         | Hd : forallb is_teardown ?d = true |- _ =>
             rewrite ?(teardown_no_completion d Hd), ?(teardown_no_ctlevent d Hd),
               ?(teardown_no_sendto d Hd) in *
         end;
  cbn [filter is_completion is_ctlevent_post is_sendto] in *;
  rewrite ?app_nil_r in *.

Ltac frame_goal :=
  unfold handler_frame, cancel_seen, DNS_REQUEST_CANCELED, DNS_REQUEST_CONNECTING,
    DNS_REQUEST_SENDING, DNS_REQUEST_TIMEDOUT in *;
  log_filters; cbn in *; flagbits; cbn in *;
  repeat match goal with
         | |- _ /\ _ => split
         | |- ?x = ?x => reflexivity
         | |- _ -> _ => intro
         end;
  try assumption; try discriminate; try congruence;
  try solve [ left; split; congruence
            | right; do 2 eexists; repeat split; eauto; congruence
            | repeat match goal with
                     | |- context [canceling ?r] => destruct (canceling r)
                     | |- context [Z.testbit ?f 2] => destruct (Z.testbit f 2)
                     end; cbn in *; congruence ].

Ltac flag_goal :=
  unfold cancel_seen, DNS_REQUEST_CANCELED, DNS_REQUEST_CONNECTING,
    DNS_REQUEST_SENDING, DNS_REQUEST_TIMEDOUT in *;
  cbn in *; flagbits; cbn in *;
  try reflexivity; try assumption; try congruence;
  try solve [ repeat match goal with
                     | |- context [canceling ?r] => destruct (canceling r)
                     | |- context [Z.testbit ?f ?k] => destruct (Z.testbit f k)
                     | H : context [Z.testbit ?f ?k] |- _ => destruct (Z.testbit f k)
                     end; cbn in *; congruence ].

Lemma req_timeout_frame (ty : timer_eventtype) (w w' : world) :
  req_timeout env ty w = Some (tt, w') -> handler_frame w w'.
Proof.
  intros H. unfold req_timeout, req_send, req_getsocket, send_if_done, req_sendevent in H.
  destruct w as [m r l].
  mexec H; use_cancel; frame_goal.
Qed.

Lemma req_response_frame (res : isc_result_t) (buf : list Z) (w w' : world) :
  req_response res buf w = Some (tt, w') -> handler_frame w w'.
Proof.
  intros H. unfold req_response, send_if_done, req_sendevent, isc_buffer_copyregion in H.
  destruct w as [m r l].
  mexec H; use_cancel; frame_goal.
Qed.

Lemma req_senddone_frame (res : isc_result_t) (w w' : world) :
  req_senddone res w = Some (tt, w') -> handler_frame w w'.
Proof.
  intros H. unfold req_senddone, send_if_done, req_sendevent in H.
  destruct w as [m r l].
  mexec H; use_cancel; frame_goal.
Qed.

Lemma req_connected_frame (res : isc_result_t) (w w' : world) :
  req_connected env res w = Some (tt, w') -> handler_frame w w'.
Proof.
  intros H.
  unfold req_connected, req_send, req_getsocket, send_if_done, req_sendevent in H.
  destruct w as [m r l].
  mexec H; use_cancel; frame_goal.
Qed.

Lemma do_cancel_frame (w w' : world) :
  do_cancel w = Some (tt, w') ->
  handler_frame w w' /\ DNS_REQUEST_CANCELED (w_req w') = true.
Proof.
  intros H. unfold do_cancel, send_if_done, req_sendevent in H.
  destruct w as [m r l].
  mexec H; use_cancel; (split; [frame_goal|flag_goal]).
Qed.

(** The public cancel: one control event, posted when neither a cancel is
    outstanding nor the request is canceled; nothing otherwise. *)
Lemma dns_request_cancel_effect (w w' : world) :
  dns_request_cancel w = Some (tt, w') ->
  VALID_REQUEST (w_req w) = true /\
  w' = (if cancel_seen (w_req w) then w
        else mk_world (w_mgr w) (with_canceling true (w_req w))
               (w_log w ++ match event (w_req w) with
                           | Some ev => [A_task_send_ctlevent (ev_sender ev)]
                           | None => []
                           end)).
Proof.
  intros H. unfold dns_request_cancel in H. destruct w as [m r l].
  destruct r as [mg hs fl q a ev d de t rm ts tk c da uc ds].
  unfold cancel_seen, DNS_REQUEST_CANCELED in *. cbn in *.
  destruct c, (has_flag fl DNS_REQUEST_F_CANCELED); mexec H;
    unfold VALID_REQUEST in *; cbn in *.
  all: split; [first [assumption|reflexivity]|reflexivity].
Qed.

Lemma handle_frame (e : req_event) (w w' : world) :
  is_cancel_call e = false ->
  handle env e w = Some (tt, w') -> handler_frame w w'.
Proof.
  destruct e; cbn [is_cancel_call handle]; intros He H; try discriminate.
  - now apply do_cancel_frame in H.
  - now apply req_connected_frame in H.
  - now apply req_senddone_frame in H.
  - now apply req_response_frame in H.
  - now apply req_timeout_frame in H.
Qed.

Lemma frame_valid (w w' : world) :
  handler_frame w w' ->
  VALID_REQUEST (w_req w) = true -> VALID_REQUEST (w_req w') = true.
Proof. intros (Hm & _) H. unfold VALID_REQUEST in *. now rewrite Hm. Qed.

Lemma run_cons (e : req_event) (es : list req_event) (w : world) :
  run env (e :: es) w =
  match handle env e w with
  | Some (_, w1) => run env es w1
  | None => None
  end.
Proof. cbn [run]. unfold bind. destruct (handle env e w) as [[[] w1]|]; reflexivity. Qed.

Lemma cancel_again (w : world) :
  VALID_REQUEST (w_req w) = true -> cancel_seen (w_req w) = true ->
  dns_request_cancel w = Some (tt, w).
Proof.
  intros Hv Hs. unfold dns_request_cancel, cancel_seen in *.
  unfold bind, get_req, require, ret.
  rewrite Hv. cbn.
  destruct (canceling (w_req w)), (DNS_REQUEST_CANCELED (w_req w));
    cbn in *; try discriminate; reflexivity.
Qed.

(** Once a cancel was requested, further calls of [dns_request_cancel] are
    invisible. *)
Lemma run_drop_cancels (es : list req_event) :
  forall w,
    VALID_REQUEST (w_req w) = true -> cancel_seen (w_req w) = true ->
    run env (filter (fun e => negb (is_cancel_call e)) es) w = run env es w.
Proof.
  induction es as [|e es IH]; intros w Hv Hs; [reflexivity|].
  destruct (is_cancel_call e) eqn:He; cbn [filter]; rewrite He; cbn [negb].
  - destruct e; try discriminate. rewrite run_cons. cbn [handle].
    rewrite (cancel_again w Hv Hs). now apply IH.
  - rewrite !run_cons. destruct (handle env e w) as [[[] w1]|] eqn:Hh; [|reflexivity].
    pose proof (handle_frame e w w1 He Hh) as Hf.
    apply IH; [now apply (frame_valid w)|].
    now apply Hf.
Qed.

Lemma run_dedup_cancel (es : list req_event) :
  forall w, run env (dedup_cancel es) w = run env es w.
Proof.
  induction es as [|e es IH]; intros w; [reflexivity|].
  destruct (is_cancel_call e) eqn:He.
  - destruct e; try discriminate. cbn [dedup_cancel]. rewrite !run_cons. cbn [handle].
    destruct (dns_request_cancel w) as [[[] w1]|] eqn:Hc; [|reflexivity].
    apply dns_request_cancel_effect in Hc as (Hv & ->).
    destruct (cancel_seen (w_req w)) eqn:Hs.
    + now apply run_drop_cancels.
    + apply run_drop_cancels; [exact Hv|].
      unfold cancel_seen. reflexivity.
  - assert (dedup_cancel (e :: es) = e :: dedup_cancel es) as ->
      by (destruct e; try discriminate; reflexivity).
    rewrite !run_cons. destruct (handle env e w) as [[[] w1]|]; [apply IH|reflexivity].
Qed.

Lemma run_posts_seen (es : list req_event) :
  forall w w',
    VALID_REQUEST (w_req w) = true -> cancel_seen (w_req w) = true ->
    run env es w = Some (tt, w') ->
    ctlevent_posts (w_log w') = ctlevent_posts (w_log w).
Proof.
  induction es as [|e es IH]; intros w w' Hv Hs H.
  - cbn in H. injection H as <-. reflexivity.
  - rewrite run_cons in H.
    destruct (is_cancel_call e) eqn:He.
    + destruct e; try discriminate. cbn [handle] in H.
      rewrite (cancel_again w Hv Hs) in H. now apply IH.
    + destruct (handle env e w) as [[[] w1]|] eqn:Hh; [|discriminate].
      pose proof (handle_frame e w w1 He Hh) as Hf.
      rewrite (IH w1 w'); [apply Hf|now apply (frame_valid w)|now apply Hf|exact H].
Qed.

Lemma run_posts (es : list req_event) :
  forall w w',
    run env es w = Some (tt, w') ->
    exists posts,
      ctlevent_posts (w_log w') = ctlevent_posts (w_log w) ++ posts
      /\ (length posts <= 1)%nat.
Proof.
  induction es as [|e es IH]; intros w w' H.
  - cbn in H. injection H as <-. exists []. rewrite app_nil_r. auto.
  - rewrite run_cons in H.
    destruct (handle env e w) as [[[] w1]|] eqn:Hh; [|discriminate].
    destruct (is_cancel_call e) eqn:He.
    + destruct e; try discriminate. cbn [handle] in Hh.
      apply dns_request_cancel_effect in Hh as (Hv & ->).
      destruct (cancel_seen (w_req w)) eqn:Hs; [now apply IH|].
      apply run_posts_seen in H; [|exact Hv|reflexivity].
      rewrite H. cbn [w_log]. unfold ctlevent_posts. rewrite filter_app.
      eexists. split; [reflexivity|].
      destruct (event (w_req w)); cbn; lia.
    + pose proof (handle_frame e w w1 He Hh) as Hf.
      destruct (IH w1 w' H) as (p & Hp & Hl). exists p. split; [|exact Hl].
      rewrite Hp. f_equal. apply Hf.
Qed.

Lemma run_completions_none (es : list req_event) :
  forall w w',
    event (w_req w) = None ->
    run env es w = Some (tt, w') ->
    completions (w_log w') = completions (w_log w) /\ event (w_req w') = None.
Proof.
  induction es as [|e es IH]; intros w w' Hev H.
  - cbn in H. injection H as <-. auto.
  - rewrite run_cons in H.
    destruct (handle env e w) as [[[] w1]|] eqn:Hh; [|discriminate].
    destruct (is_cancel_call e) eqn:He.
    + destruct e; try discriminate. cbn [handle] in Hh.
      apply dns_request_cancel_effect in Hh as (Hv & ->).
      destruct (cancel_seen (w_req w)); [now apply IH|].
      apply IH in H; [|exact Hev].
      rewrite Hev in H. cbn [w_log] in H. now rewrite app_nil_r in H.
    + pose proof (handle_frame e w w1 He Hh) as Hf.
      destruct Hf as (_ & _ & _ & _ & _ & _ & _ & [[He1 Hc1]|(ev & res & Hsome & _)]);
        [|congruence].
      destruct (IH w1 w') as [Hc Hn]; [congruence|exact H|].
      split; [congruence|exact Hn].
Qed.

Lemma run_completions (es : list req_event) :
  forall w w',
    run env es w = Some (tt, w') ->
    exists sent,
      completions (w_log w') = completions (w_log w) ++ sent
      /\ (length sent <= 1)%nat.
Proof.
  induction es as [|e es IH]; intros w w' H.
  - cbn in H. injection H as <-. exists []. rewrite app_nil_r. auto.
  - rewrite run_cons in H.
    destruct (handle env e w) as [[[] w1]|] eqn:Hh; [|discriminate].
    destruct (is_cancel_call e) eqn:He.
    + destruct e; try discriminate. cbn [handle] in Hh.
      apply dns_request_cancel_effect in Hh as (Hv & ->).
      destruct (cancel_seen (w_req w)); [now apply IH|].
      destruct (IH _ _ H) as (p & Hp & Hl). exists p. split; [|exact Hl].
      rewrite Hp. cbn [w_log]. unfold completions. rewrite filter_app.
      destruct (event (w_req w)); cbn; now rewrite app_nil_r.
    + pose proof (handle_frame e w w1 He Hh) as Hf.
      destruct Hf as (_ & _ & _ & _ & _ & _ & _ & [[He1 Hc1]|(ev & res & _ & Hnone & Hc1)]).
      * destruct (IH w1 w' H) as (p & Hp & Hl). exists p. split; [congruence|exact Hl].
      * destruct (run_completions_none es w1 w' Hnone H) as [Hc _].
        eexists. split; [rewrite Hc, Hc1; reflexivity|cbn; lia].
Qed.

Ltac delivery_goal :=
  unfold delivery, DNS_REQUEST_CANCELED, DNS_REQUEST_CONNECTING,
    DNS_REQUEST_SENDING, DNS_REQUEST_TIMEDOUT in *;
  log_filters; cbn in *; flagbits; cbn in *;
  repeat match goal with
         | H : ?x = _ |- context [?x] => rewrite H
         end;
  cbn in *; rewrite ?app_nil_r; try reflexivity; try congruence.

Lemma send_if_done_log (result : isc_result_t) (w w' : world) :
  send_if_done result w = Some (tt, w') ->
  w_log w' = w_log w ++ delivery (w_req w) result.
Proof.
  intros H. unfold send_if_done, req_sendevent in H. destruct w as [m r l].
  destruct r as [mg hs fl q a ev d de t rm ts tk c da uc ds].
  unfold delivery. cbn in *. destruct ev, c; mexec H; cbn; rewrite ?app_nil_r; reflexivity.
Qed.

Lemma req_response_delivery (res : isc_result_t) (buf : list Z) (w w' : world) :
  req_response res buf w = Some (tt, w') ->
  completions (w_log w') = completions (w_log w) ++ delivery (w_req w) res.
Proof.
  intros H. unfold req_response, send_if_done, req_sendevent, isc_buffer_copyregion,
    isc_buffer_allocate, isc_buffer_availablelength in H.
  destruct w as [m r l].
  destruct r as [mg hs fl q a ev d de t rm ts tk c da uc ds].
  cbn in H. rewrite Z.sub_0_r, Z.leb_refl in H.
  destruct res, ev, c; unfold is_success in H; mexec H; use_cancel; delivery_goal.
Qed.

Lemma req_timeout_expiry_delivery (ty : timer_eventtype) (w w' : world) :
  req_timeout env ty w = Some (tt, w') ->
  is_tick ty && negb (udpcount (w_req w) =? 0) = false ->
  completions (w_log w') = completions (w_log w) ++ delivery (w_req w) ISC_R_TIMEDOUT.
Proof.
  intros H Hg. unfold req_timeout, send_if_done, req_sendevent in H.
  destruct w as [m r l].
  destruct r as [mg hs fl q a ev d de t rm ts tk c da uc ds].
  cbn in *.
  destruct (is_tick ty), (uc =? 0) eqn:Huc, ev, c; try discriminate;
    mexec H; use_cancel; delivery_goal.
Qed.

Lemma do_cancel_delivery (w w' : world) :
  do_cancel w = Some (tt, w') ->
  completions (w_log w') =
  completions (w_log w) ++ delivery (with_canceling false (w_req w)) ISC_R_CANCELED.
Proof.
  intros H. unfold do_cancel, send_if_done, req_sendevent in H.
  destruct w as [m r l].
  destruct r as [mg hs fl q a ev d de t rm ts tk c da uc ds].
  cbn in *.
  destruct ev; mexec H; use_cancel; delivery_goal.
Qed.

Lemma req_senddone_delayed_delivery (res : isc_result_t) (w w' : world) :
  req_senddone res w = Some (tt, w') ->
  DNS_REQUEST_CANCELED (w_req w) = true ->
  completions (w_log w') =
  completions (w_log w) ++
  delivery (w_req w)
    (if DNS_REQUEST_TIMEDOUT (w_req w) then ISC_R_TIMEDOUT else ISC_R_CANCELED).
Proof.
  intros H Hc. unfold req_senddone, send_if_done, req_sendevent in H.
  destruct w as [m r l].
  destruct r as [mg hs fl q a ev d de t rm ts tk c da uc ds].
  cbn in *.
  destruct ev, c; mexec H; use_cancel; delivery_goal.
Qed.

Lemma req_connected_delayed_delivery (res : isc_result_t) (w w' : world) :
  req_connected env res w = Some (tt, w') ->
  DNS_REQUEST_CANCELED (w_req w) = true ->
  completions (w_log w') =
  completions (w_log w) ++
  delivery (w_req w)
    (if DNS_REQUEST_TIMEDOUT (w_req w) then ISC_R_TIMEDOUT else ISC_R_CANCELED).
Proof.
  intros H Hc. unfold req_connected, send_if_done, req_sendevent in H.
  destruct w as [m r l].
  destruct r as [mg hs fl q a ev d de t rm ts tk c da uc ds].
  cbn in *.
  destruct ev, c; mexec H; use_cancel; delivery_goal.
Qed.

(** The send completion of a request that is not CANCELED: a failed send
    cancels the request and reaches [send_if_done]; a successful one sends
    nothing. *)
Lemma req_senddone_failure_delivery (res : isc_result_t) (w w' : world) :
  req_senddone res w = Some (tt, w') ->
  DNS_REQUEST_CANCELED (w_req w) = false ->
  completions (w_log w') =
  completions (w_log w) ++
  (if is_success res then [] else delivery (w_req w) ISC_R_CANCELED).
Proof.
  intros H Hc. unfold req_senddone, send_if_done, req_sendevent in H.
  destruct w as [m r l].
  destruct r as [mg hs fl q a ev d de t rm ts tk c da uc ds].
  cbn in *.
  destruct res, ev, c; unfold is_success in *; mexec H; use_cancel; delivery_goal.
Qed.

(** The connect completion of a request that is not CANCELED: when the
    connect failed, or the send that follows it could not be started, the
    request is cancelled and [send_if_done] is reached. *)
Lemma req_connected_failure_delivery (res : isc_result_t) (w w' : world) :
  req_connected env res w = Some (tt, w') ->
  DNS_REQUEST_CANCELED (w_req w) = false ->
  exists d,
    dispatch (w_req w) = Some d /\
    completions (w_log w') =
    completions (w_log w) ++
    (if is_success res
        && e_socketevent env (w_log w ++ [A_dispatch_starttcp (disp_id d)])
     then [] else delivery (w_req w) ISC_R_CANCELED).
Proof.
  intros H Hc.
  unfold req_connected, req_send, req_getsocket, send_if_done, req_sendevent in H.
  destruct w as [m r l].
  destruct r as [mg hs fl q a ev d de t rm ts tk c da uc ds].
  cbn in *.
  destruct res, ev, c; unfold is_success in *; mexec H; use_cancel.
  all: try solve [ exfalso; unfold DNS_REQUEST_CANCELED in *; cbn in *; flagbits;
                   cbn in *; congruence ].
  all: eexists; (split; [reflexivity|]); delivery_goal.
Qed.

(** A tick with retries left: nothing is sent to the caller unless the
    retransmission could not be started, in which case the request is
    cancelled and [send_if_done] is reached with the result of [req_send]. *)
Lemma req_timeout_resend_delivery (ty : timer_eventtype) (w w' : world) :
  req_timeout env ty w = Some (tt, w') ->
  is_tick ty && negb (udpcount (w_req w) =? 0) = true ->
  completions (w_log w') =
  completions (w_log w) ++
  (if DNS_REQUEST_SENDING (w_req w) || e_socketevent env (w_log w)
   then [] else delivery (w_req w) ISC_R_NOMEMORY).
Proof.
  intros H Hg.
  unfold req_timeout, req_send, req_getsocket, send_if_done, req_sendevent in H.
  destruct w as [m r l].
  destruct r as [mg hs fl q a ev d de t rm ts tk c da uc ds].
  cbn in *.
  destruct (is_tick ty), (uc =? 0) eqn:Huc, ev, c; try discriminate;
    mexec H; use_cancel; delivery_goal.
  all: try match goal with
           | Hb : negb (Z.testbit ?f ?k) = _ |- _ =>
               destruct (Z.testbit f k) eqn:?; cbn in Hb; try discriminate Hb
           end.
  all: cbn [orb]; rewrite ?orb_true_r.
  all: try match goal with |- context [if ?b then [] else []] => destruct b end.
  all: rewrite ?app_nil_r; try reflexivity; congruence.
Qed.

Lemma req_timeout_udpcount (ty : timer_eventtype) (w w' : world) :
  req_timeout env ty w = Some (tt, w') ->
  udpcount (w_req w') =
  if is_tick ty then u32 (udpcount (w_req w) - 1) else udpcount (w_req w).
Proof.
  intros H.
  unfold req_timeout, req_send, req_getsocket, send_if_done, req_sendevent in H.
  destruct w as [m r l].
  destruct r as [mg hs fl q a ev d de t rm ts tk c da uc ds].
  cbn in *.
  destruct (is_tick ty); mexec H; use_cancel; reflexivity.
Qed.

Lemma req_timeout_resend (ty : timer_eventtype) (w w' : world) :
  req_timeout env ty w = Some (tt, w') ->
  is_tick ty = true -> udpcount (w_req w) <> 0 ->
  if DNS_REQUEST_SENDING (w_req w)
  then w_log w' = w_log w /\ flags (w_req w') = flags (w_req w)
  else e_socketevent env (w_log w) = true ->
       exists sock q,
         query (w_req w) = Some q /\
         w_log w' = w_log w ++
                    [A_socket_sendto sock (isc_buffer_usedregion q)
                       (Some (destaddr (w_req w)))
                       (if dscp (w_req w) =? -1 then None else Some (dscp (w_req w)))] /\
         flags (w_req w') = set_flag (flags (w_req w)) DNS_REQUEST_F_SENDING /\
         event (w_req w') = event (w_req w).
Proof.
  intros H Ht Hu.
  unfold req_timeout, req_send, req_getsocket, send_if_done, req_sendevent in H.
  destruct w as [m r l].
  destruct r as [mg hs fl q a ev d de t rm ts tk c da uc ds].
  unfold DNS_REQUEST_SENDING in *. cbn in *.
  rewrite Ht in H. apply Z.eqb_neq in Hu.
  munfold H. cbn in H. rewrite Hu in H. cbn in H.
  destruct (has_flag fl DNS_REQUEST_F_SENDING) eqn:Hs; cbn in H.
  - mexec H; try (rewrite Hs in *; discriminate). split; reflexivity.
  - intros Halloc. mexec H; try (rewrite Hs in *; discriminate);
      try (rewrite Halloc in *; discriminate); cbn; eauto 10.
Qed.

Lemma req_timeout_expiry (ty : timer_eventtype) (w w' : world) :
  req_timeout env ty w = Some (tt, w') ->
  is_tick ty = false \/ udpcount (w_req w) = 0 ->
  DNS_REQUEST_TIMEDOUT (w_req w') = true /\
  DNS_REQUEST_CANCELED (w_req w') = true /\
  timer (w_req w') = None /\
  filter is_sendto (w_log w') = filter is_sendto (w_log w).
Proof.
  intros H Hg.
  assert (is_tick ty && negb (udpcount (w_req w) =? 0) = false) as Hb.
  { destruct Hg as [->| ->]; [reflexivity|]. apply andb_false_r. }
  clear Hg.
  unfold req_timeout, send_if_done, req_sendevent in H.
  destruct w as [m r l].
  destruct r as [mg hs fl q a ev d de t rm ts tk c da uc ds].
  cbn in *.
  destruct (is_tick ty), (uc =? 0) eqn:Huc, ev, c; try discriminate;
    mexec H; use_cancel.
  all: repeat split; try (log_filters; cbn; reflexivity); try reflexivity; flag_goal.
Qed.

Lemma run_keeps_tcp_flag (es : list req_event) :
  forall w w',
    run env es w = Some (tt, w') ->
    magic (w_req w') = magic (w_req w) /\
    has_flag (flags (w_req w')) DNS_REQUEST_F_TCP =
    has_flag (flags (w_req w)) DNS_REQUEST_F_TCP.
Proof.
  induction es as [|e es IH]; intros w w' H.
  - cbn in H. injection H as <-. auto.
  - rewrite run_cons in H.
    destruct (handle env e w) as [[[] w1]|] eqn:Hh; [|discriminate].
    destruct (IH _ _ H) as [Hm Hf]. rewrite Hm, Hf. clear IH H Hm Hf.
    destruct (is_cancel_call e) eqn:He.
    + destruct e; try discriminate. cbn [handle] in Hh.
      apply dns_request_cancel_effect in Hh as (_ & ->).
      destruct (cancel_seen (w_req w)); auto.
    + pose proof (handle_frame e w w1 He Hh) as Hf. split; apply Hf.
Qed.

End Handlers.

(** ** The completion rule *)

(** C1.  [send_if_done] sends the completion event exactly when
    the event pointer is non-null and no control event is outstanding
    ([canceling] clear); the CONNECTING and SENDING flags are not consulted.
    Every handler run that reaches [send_if_done] therefore sends
    [delivery r result] for the request [r] it was entered with: the
    response; the timer, on expiry with ISC_R_TIMEDOUT and on a tick whose
    retransmission could not be started with the result of [req_send]; the
    connect and send completions, as the delayed event of a request that
    was CANCELED already and with ISC_R_CANCELED when the connect or the
    send failed; and the posted cancel, which clears [canceling] itself
    and so sends whenever the event is still there.  The runs that do not
    reach it -- a successful connect or send completion, a tick that
    retransmits or finds the send in flight, the call of
    [dns_request_cancel] -- send nothing. *)
Theorem send_if_done_rule (env : Env) (w w' : world) (result : isc_result_t)
  (Hdone : send_if_done result w = Some (tt, w')) :
  w_log w' = w_log w ++ delivery (w_req w) result /\
  (delivery (w_req w) result <> [] <->
   event (w_req w) <> None /\ canceling (w_req w) = false) /\
  (forall res buf v v',
     req_response res buf v = Some (tt, v') ->
     completions (w_log v') = completions (w_log v) ++ delivery (w_req v) res) /\
  (forall ty v v',
     req_timeout env ty v = Some (tt, v') ->
     is_tick ty && negb (udpcount (w_req v) =? 0) = false ->
     completions (w_log v') =
     completions (w_log v) ++ delivery (w_req v) ISC_R_TIMEDOUT) /\
  (forall ty v v',
     req_timeout env ty v = Some (tt, v') ->
     is_tick ty && negb (udpcount (w_req v) =? 0) = true ->
     completions (w_log v') =
     completions (w_log v) ++
     (if DNS_REQUEST_SENDING (w_req v) || e_socketevent env (w_log v)
      then [] else delivery (w_req v) ISC_R_NOMEMORY)) /\
  (forall v v',
     do_cancel v = Some (tt, v') ->
     completions (w_log v') =
     completions (w_log v) ++
     delivery (with_canceling false (w_req v)) ISC_R_CANCELED) /\
  (forall res v v',
     DNS_REQUEST_CANCELED (w_req v) = true ->
     (req_senddone res v = Some (tt, v') \/ req_connected env res v = Some (tt, v')) ->
     completions (w_log v') =
     completions (w_log v) ++
     delivery (w_req v)
       (if DNS_REQUEST_TIMEDOUT (w_req v) then ISC_R_TIMEDOUT else ISC_R_CANCELED)) /\
  (forall res v v',
     DNS_REQUEST_CANCELED (w_req v) = false ->
     req_senddone res v = Some (tt, v') ->
     completions (w_log v') =
     completions (w_log v) ++
     (if is_success res then [] else delivery (w_req v) ISC_R_CANCELED)) /\
  (forall res v v',
     DNS_REQUEST_CANCELED (w_req v) = false ->
     req_connected env res v = Some (tt, v') ->
     exists d,
       dispatch (w_req v) = Some d /\
       completions (w_log v') =
       completions (w_log v) ++
       (if is_success res
           && e_socketevent env (w_log v ++ [A_dispatch_starttcp (disp_id d)])
        then [] else delivery (w_req v) ISC_R_CANCELED)) /\
  (forall v v',
     dns_request_cancel v = Some (tt, v') ->
     completions (w_log v') = completions (w_log v)).
Proof.
  split; [now apply send_if_done_log|].
  split.
  { unfold delivery. destruct (event (w_req w)), (canceling (w_req w)); split;
      intros; try tauto; try (split; congruence); try discriminate.
    all: destruct H; congruence. }
  split; [intros res buf v v' H; now apply (req_response_delivery res buf)|].
  split; [intros ty v v' H Hg; now apply (req_timeout_expiry_delivery env ty)|].
  split; [intros ty v v' H Hg; now apply (req_timeout_resend_delivery env ty)|].
  split; [intros v v' H; now apply do_cancel_delivery|].
  split.
  { intros res v v' Hc [H|H].
    - now apply (req_senddone_delayed_delivery res).
    - now apply (req_connected_delayed_delivery env res). }
  split; [intros res v v' Hc H; now apply (req_senddone_failure_delivery res)|].
  split; [intros res v v' Hc H; now apply (req_connected_failure_delivery env res)|].
  intros v v' H. apply dns_request_cancel_effect in H as (_ & ->).
  destruct (cancel_seen (w_req v)); [reflexivity|].
  unfold completions. cbn [w_log]. rewrite filter_app.
  destruct (event (w_req v)); cbn; now rewrite app_nil_r.
Qed.

Lemma send_if_done_rule_witness :
  exists w',
    send_if_done ISC_R_TIMEDOUT world_sending = Some (tt, w') /\
    w_log w' = w_log world_sending ++ delivery (w_req world_sending) ISC_R_TIMEDOUT.
Proof.
  eexists. split; [vm_compute; reflexivity|].
  apply (send_if_done_rule env_ok world_sending _ ISC_R_TIMEDOUT).
  vm_compute. reflexivity.
Defined.

(** The timer expires while the send of the request is still in flight:
    SENDING is set before and after the handler, and the completion event
    is sent all the same. *)
Lemma completion_sent_while_sending :
  DNS_REQUEST_SENDING (w_req world_sending) = true /\
  exists w',
    req_timeout env_ok ISC_TIMEREVENT_LIFE world_sending = Some (tt, w') /\
    DNS_REQUEST_SENDING (w_req w') = true /\
    completions (w_log w') = [A_task_sendanddetach 100 ISC_R_TIMEDOUT].
Proof.
  split; [reflexivity|].
  eexists. split; [vm_compute; reflexivity|].
  split; reflexivity.
Qed.

(** A connect that fails on a request that is not CANCELED: the handler
    cancels the request and hands ISC_R_CANCELED to the caller. *)
Lemma failed_connect_completes :
  exists w',
    req_connected env_ok ISC_R_FAILURE
      (mk_world mgr_one (with_flags DNS_REQUEST_F_CONNECTING request_waiting) [])
    = Some (tt, w') /\
    DNS_REQUEST_CANCELED (w_req w') = true /\
    completions (w_log w') = [A_task_sendanddetach 100 ISC_R_CANCELED].
Proof.
  eexists. split; [vm_compute; reflexivity|]. split; reflexivity.
Qed.

(** ** Cancellation *)

(** C2.  [dns_request_cancel] posts the control event only when neither
    [canceling] nor CANCELED is set, and sets [canceling] as it does so.
    Over any sequence of cancel calls and events on a request, at most one
    control event is posted and at most one completion event is sent; and
    every sequence that differs only in further cancel calls after the
    first one ends in the same state with the same trace, hence with the
    same completion. *)
Theorem dns_request_cancel_idempotent (env : Env) (es : list req_event)
  (w w' : world) (Hrun : run env es w = Some (tt, w')) :
  (exists posts,
     ctlevent_posts (w_log w') = ctlevent_posts (w_log w) ++ posts
     /\ (length posts <= 1)%nat) /\
  (exists sent,
     completions (w_log w') = completions (w_log w) ++ sent
     /\ (length sent <= 1)%nat) /\
  (forall es2, dedup_cancel es2 = dedup_cancel es -> run env es2 w = Some (tt, w')) /\
  (forall v v',
     dns_request_cancel v = Some (tt, v') ->
     if canceling (w_req v) || DNS_REQUEST_CANCELED (w_req v)
     then v' = v
     else exists ev,
         event (w_req v) = Some ev /\
         canceling (w_req v') = true /\
         w_log v' = w_log v ++ [A_task_send_ctlevent (ev_sender ev)]).
Proof.
  split; [now apply (run_posts env es)|].
  split; [now apply (run_completions env es)|].
  split.
  { intros es2 He. rewrite <- (run_dedup_cancel env es2), He, run_dedup_cancel.
    exact Hrun. }
  intros v v' Hc.
  pose proof (dns_request_cancel_effect v v' Hc) as (Hv & Heq).
  fold (cancel_seen (w_req v)). destruct (cancel_seen (w_req v)) eqn:Hs; [exact Heq|].
  unfold dns_request_cancel in Hc. unfold cancel_seen in Hs.
  destruct v as [m r l]. cbn in *.
  munfold Hc. cbn in Hc. rewrite Hv in Hc. cbn in Hc.
  apply orb_false_iff in Hs as [Hs1 Hs2]. rewrite Hs1, Hs2 in Hc. cbn in Hc.
  destruct (event r) as [ev|]; [|discriminate].
  exists ev. subst v'. cbn. auto.
Qed.

Lemma dns_request_cancel_idempotent_witness :
  exists w',
    run env_ok
      [E_cancel; E_cancel; E_response ISC_R_SUCCESS [1; 2; 3]; E_control; E_cancel]
      world_waiting = Some (tt, w') /\
    run env_ok [E_cancel; E_response ISC_R_SUCCESS [1; 2; 3]; E_control]
      world_waiting = Some (tt, w').
Proof.
  eexists. split; [vm_compute; reflexivity|].
  refine (proj1 (proj2 (proj2
    (dns_request_cancel_idempotent env_ok
       [E_cancel; E_cancel; E_response ISC_R_SUCCESS [1; 2; 3]; E_control; E_cancel]
       world_waiting _ _))) _ _).
  - vm_compute. reflexivity.
  - reflexivity.
Defined.

(** ** The timer handler *)

(** C4.  [req_timeout] decrements [udpcount] on every tick event, also on the
    tick that finds it at 0 (where it wraps), and never on another event.
    On a tick that finds the counter nonzero the request is not completed:
    if SENDING is set nothing else happens, otherwise the query is sent again
    to the saved destination (given that the send event can be allocated).
    On every other timer event TIMEDOUT and CANCELED are set, the request is
    torn down without a send, and ISC_R_TIMEDOUT goes to [send_if_done]. *)
Theorem req_timeout_guard (env : Env) (ty : timer_eventtype) (w w' : world)
  (Hrun : req_timeout env ty w = Some (tt, w')) :
  udpcount (w_req w') =
    (if is_tick ty then u32 (udpcount (w_req w) - 1) else udpcount (w_req w)) /\
  (is_tick ty = true -> udpcount (w_req w) <> 0 ->
   if DNS_REQUEST_SENDING (w_req w)
   then w_log w' = w_log w /\ flags (w_req w') = flags (w_req w)
   else e_socketevent env (w_log w) = true ->
        exists sock q,
          query (w_req w) = Some q /\
          w_log w' = w_log w ++
                     [A_socket_sendto sock (isc_buffer_usedregion q)
                        (Some (destaddr (w_req w)))
                        (if dscp (w_req w) =? -1 then None else Some (dscp (w_req w)))] /\
          flags (w_req w') = set_flag (flags (w_req w)) DNS_REQUEST_F_SENDING /\
          event (w_req w') = event (w_req w)) /\
  (is_tick ty = false \/ udpcount (w_req w) = 0 ->
   DNS_REQUEST_TIMEDOUT (w_req w') = true /\
   DNS_REQUEST_CANCELED (w_req w') = true /\
   timer (w_req w') = None /\
   filter is_sendto (w_log w') = filter is_sendto (w_log w) /\
   completions (w_log w') =
   completions (w_log w) ++ delivery (w_req w) ISC_R_TIMEDOUT).
Proof.
  split; [now apply (req_timeout_udpcount env)|].
  split; [now apply (req_timeout_resend env)|].
  intros Hg.
  destruct (req_timeout_expiry env ty w w' Hrun Hg) as (H1 & H2 & H3 & H4).
  repeat split; try assumption.
  apply (req_timeout_expiry_delivery env ty w w' Hrun).
  destruct Hg as [->| ->]; [reflexivity|apply andb_false_r].
Qed.

Lemma req_timeout_guard_witness :
  exists w',
    req_timeout env_ok ISC_TIMEREVENT_TICK world_waiting = Some (tt, w') /\
    udpcount (w_req w') = 2 /\
    DNS_REQUEST_SENDING (w_req w') = true /\
    completions (w_log w') = [].
Proof.
  eexists. split; [vm_compute; reflexivity|].
  match goal with
  | |- udpcount (w_req ?x) = _ /\ _ =>
      pose proof (req_timeout_guard env_ok ISC_TIMEREVENT_TICK world_waiting x) as H
  end.
  specialize (H ltac:(vm_compute; reflexivity)).
  destruct H as (Hc & _ & _).
  split; [rewrite Hc; reflexivity|].
  split; reflexivity.
Defined.


(** ** Request creation *)

Lemma forallb_weaken {A : Type} (f g : A -> bool) (l : list A) :
  (forall a, f a = true -> g a = true) -> forallb f l = true -> forallb g l = true.
Proof.
  intros Hfg. induction l as [|a l IH]; simpl; [reflexivity|].
  intros H. apply andb_true_iff in H as [Ha Hl].
  now rewrite (Hfg a Ha), IH.
Qed.

Lemma newconn_is_prep (l : list action) :
  forallb is_newconn l = true -> forallb is_prep l = true.
Proof. apply forallb_weaken. now intros []. Qed.

Ltac same_request :=
  repeat match goal with r : dns_request_t |- _ => destruct r end;
  unfold with_query, with_dispentry, with_dispatch, with_timer, with_flags,
    with_event, with_udpcount, with_dscp, with_destaddr, with_tsig, with_tsigkey,
    with_requestmgr, with_req_hash, with_magic, with_answer, with_canceling;
  cbn; congruence.

Ltac by_result :=
  let Hs := fresh "Hs" in
  intros Hs; cbn in *;
  first [ reflexivity
        | rewrite Hs in *; discriminate
        | congruence
        | unfold is_success in Hs; discriminate ].

(** Getting a fresh TCP connection: a socket is created first, and the
    dispatch manager's cache of connections is not consulted. *)
Lemma create_tcp_socket_dispatch_spec (env : Env) (srcaddr : option isc_sockaddr_t)
  (destaddr : isc_sockaddr_t) (dscp : Z) (w w' : world) (res : isc_result_t) :
  create_tcp_socket_dispatch env srcaddr destaddr dscp w = Some (res, w') ->
  w_mgr w' = w_mgr w /\
  w_req w' = with_dispatch (dispatch (w_req w')) (w_req w) /\
  (is_success res = true -> is_some (dispatch (w_req w')) = true) /\
  exists sres rest,
    w_log w' = w_log w ++ A_socket_create (isc_sockaddr_pf destaddr) sres :: rest /\
    forallb is_newconn rest = true.
Proof.
  intros H. unfold create_tcp_socket_dispatch in H. destruct w as [m r l].
  mexec H; cbn.
  all: rewrite <- ?app_assoc; cbn.
  all: split; [reflexivity|]; split; [same_request|]; split;
    [by_result|]; do 2 eexists; split; reflexivity.
Qed.


Lemma existsb_none {A : Type} (f g : A -> bool) (l : list A) :
  forallb g l = true -> (forall a, g a = true -> f a = false) -> existsb f l = false.
Proof.
  induction l as [|a l IH]; simpl; [reflexivity|].
  intros H Hfg. apply andb_true_iff in H as [Ha Hl].
  rewrite (Hfg a Ha). now apply IH.
Qed.

Lemma newconn_no_addresponse (l : list action) :
  forallb is_newconn l = true -> filter is_addresponse l = [].
Proof. intros H. apply (filter_none _ _ _ H). now intros []. Qed.

Lemma newconn_no_gettcp (l : list action) :
  forallb is_newconn l = true -> filter is_gettcp l = [].
Proof. intros H. apply (filter_none _ _ _ H). now intros []. Qed.

Lemma newconn_no_attach (l : list action) :
  forallb is_newconn l = true -> existsb is_attach_connected l = false.
Proof. intros H. apply (existsb_none _ _ _ H). now intros []. Qed.

Ltac use_newconn :=
  repeat match goal with
         | H : create_tcp_socket_dispatch _ _ _ _ _ = Some (_, _) |- _ =>
             let sres := fresh "sres" in
             let rest := fresh "rest" in
             let Hm := fresh "Hmgr" in
             let Hr := fresh "Hreq" in
             let Hd := fresh "Hdisp" in
             let Hl := fresh "Hlog" in
             let Hn := fresh "Hnew" in
             apply create_tcp_socket_dispatch_spec in H;
             destruct H as (Hm & Hr & Hd & sres & rest & Hl & Hn)
         end.

Ltac use_bools :=
  rewrite ?negb_true_iff, ?negb_false_iff in *;
  repeat match goal with
         | H : ?x = true |- context [?x] => rewrite H
         | H : ?x = false |- context [?x] => rewrite H
         end;
  cbn [andb orb negb] in *.

Ltac list_cbn :=
  cbn [forallb filter existsb app is_prep is_addresponse is_gettcp is_newconn
       is_attach_connected is_socket_create is_release is_timer_reset
       is_failed_addresponse is_connect is_mgr_lock is_completion is_sendto
       is_ctlevent_post andb orb negb length] in *.

Ltac list_norm :=
  cbn [w_log w_req w_mgr] in *;
  rewrite <- ?app_assoc in *; cbn [app] in *;
  repeat (progress (rewrite ?forallb_app, ?filter_app, ?existsb_app in *; list_cbn));
  repeat match goal with
         | Hn : forallb is_newconn ?l = true |- _ =>
             rewrite ?(newconn_is_prep l Hn), ?(newconn_no_addresponse l Hn),
               ?(newconn_no_gettcp l Hn), ?(newconn_no_attach l Hn) in *
         end;
  list_cbn.

Arguments create_tcp_socket_dispatch : simpl never.

Lemma get_dispatch_spec (env : Env) (tcp newtcp share : bool) (srcaddr : option isc_sockaddr_t)
  (destaddr : isc_sockaddr_t) (dscp : Z) (conn_in : bool) (w w' : world)
  (res : isc_result_t) (conn : bool) :
  get_dispatch env tcp newtcp share srcaddr destaddr dscp conn_in w
  = Some ((res, conn), w') ->
  w_mgr w' = w_mgr w /\
  w_req w' = with_dispatch (dispatch (w_req w')) (w_req w) /\
  (is_success res = true -> is_some (dispatch (w_req w')) = true) /\
  exists delta,
    w_log w' = w_log w ++ delta /\
    forallb is_prep delta = true /\
    filter is_addresponse delta = [] /\
    (tcp = false ->
     conn = conn_in /\ existsb is_attach_connected delta = false /\
     existsb is_socket_create delta = false) /\
    (newtcp = true ->
     conn = conn_in /\ filter is_gettcp delta = [] /\
     (tcp = true ->
      exists sres rest,
        delta = A_socket_create (isc_sockaddr_pf destaddr) sres :: rest)) /\
    (conn_in = false -> conn = existsb is_attach_connected delta) /\
    (existsb is_attach_connected delta = true ->
     existsb is_socket_create delta = false).
Proof.
  intros H. unfold get_dispatch, create_tcp_dispatch, find_udp_dispatch in H.
  destruct w as [m r l].
  mexec H; use_newconn; try (destruct w' as [m' r' l']; cbn in *; subst).
  all: cbn [w_mgr w_req w_log].
  all: split; [reflexivity|]; split; [first [assumption|same_request]|].
  all: split; [first [assumption|by_result]|].
  all: eexists; split; [first [list_norm; reflexivity|symmetry; apply app_nil_r]|].
  all: list_norm; use_bools.
  all: repeat match goal with
              | |- _ /\ _ => split
              | |- _ -> _ => intro
              end; subst; cbn in *; try discriminate; try reflexivity;
         rewrite ?orb_false_r; try reflexivity; eauto.
Qed.

Arguments get_dispatch : simpl never.

Ltac use_get_dispatch :=
  repeat match goal with
         | H : get_dispatch _ _ _ _ _ _ _ _ _ = Some (_, _) |- _ =>
             let gd := fresh "gd" in
             let Hm := fresh "Hmgr" in
             let Hr := fresh "Hreq" in
             let Hd := fresh "Hdisp" in
             let Hl := fresh "Hlog" in
             let Hp := fresh "Hprep" in
             let Ha := fresh "Hnoadd" in
             let Hu := fresh "Hudp" in
             let Hn := fresh "Hnewtcp" in
             let Hc := fresh "Hconn" in
             let Hs := fresh "Hnosock" in
             apply get_dispatch_spec in H;
             destruct H as (Hm & Hr & Hd & gd & Hl & Hp & Ha & Hu & Hn & Hc & Hs)
         end.

Ltac destruct_worlds :=
  repeat match goal with w : world |- _ => destruct w end;
  cbn [w_mgr w_req w_log] in *; subst.

(** Equations between requests that differ in a few fields: keep only the
    frame hypotheses, open the records, and let congruence closure finish. *)
Ltac solve_frame :=
  cbn [w_req w_mgr w_log] in *;
  repeat match goal with
         | H : _ = with_dispatch _ _ |- _ => revert H
         | H : _ = with_query _ _ |- _ => revert H
         | H : _ = with_dispentry _ _ |- _ => revert H
         | H : _ = with_flags _ _ |- _ => revert H
         | H : dispatch _ = _ |- _ => revert H
         | H : dispentry _ = _ |- _ => revert H
         | H : query _ = _ |- _ => revert H
         end;
  clear; intros;
  repeat match goal with r : dns_request_t |- _ => destruct r end;
  unfold with_query, with_dispentry, with_dispatch, with_timer, with_flags,
    with_event, with_udpcount, with_dscp, with_destaddr, with_tsig, with_tsigkey,
    with_requestmgr, with_req_hash, with_magic, with_answer, with_canceling in *;
  cbn in *;
  repeat match goal with
         | H : mk_request _ _ _ _ _ _ _ _ _ _ _ _ _ _ _ _ = _ |- _ =>
             injection H; clear H; intros; subst
         | H : Some _ = Some _ |- _ => injection H; clear H; intros; subst
         | H : None = Some _ |- _ => discriminate H
         | H : Some _ = None |- _ => discriminate H
         end;
  subst; reflexivity.

Ltac solve_request :=
  first [ assumption
        | reflexivity
        | repeat match goal with
                 | H : ?r = with_dispatch _ _ |- _ => rewrite H; clear H
                 | H : ?r = with_query _ _ |- _ => rewrite H; clear H
                 end; same_request
        | same_request ].

(** One pass through the label [again]. *)
Lemma raw_pass_spec (env : Env) (options : options_t) (tcp newtcp share : bool)
  (srcaddr : option isc_sockaddr_t) (destaddr : isc_sockaddr_t) (dscp : Z)
  (r : list Z) (conn_in : bool) (id_in : Z) (w w' : world)
  (res : isc_result_t) (conn : bool) (id : Z) (again : bool) :
  raw_pass env options tcp newtcp share srcaddr destaddr dscp r conn_in id_in w
  = Some ((res, conn, id, again), w') ->
  w_mgr w' = w_mgr w /\
  w_req w' = with_dispentry (dispentry (w_req w'))
               (with_dispatch (dispatch (w_req w')) (w_req w)) /\
  exists gd,
    forallb is_prep gd = true /\
    filter is_addresponse gd = [] /\
    (tcp = false -> existsb is_attach_connected gd = false) /\
    (newtcp = true ->
     filter is_gettcp gd = [] /\
     (tcp = true ->
      exists sres rest, gd = A_socket_create (isc_sockaddr_pf destaddr) sres :: rest)) /\
    (existsb is_attach_connected gd = true -> existsb is_socket_create gd = false) /\
    (newtcp = true -> conn = conn_in) /\
    ((w_log w' = w_log w ++ gd /\ is_success res = false /\ again = false) \/
     (exists d r1 id1 tail,
        w_log w' = w_log w ++ gd ++
                   A_dispatch_addresponse d (opt_fixedid options) r1 id1 :: tail /\
        res = r1 /\
        if is_success r1 then
          tail = [] /\ again = false /\ id = id1 /\
          (opt_fixedid options = true ->
           id = u16 (Z.lor (Z.shiftl (nth 0 r 0) 8) (nth 1 r 0))) /\
          is_some (dispatch (w_req w')) = true /\
          is_some (dispentry (w_req w')) = true /\
          (newtcp = true -> conn = conn_in) /\
          (conn_in = false -> conn = existsb is_attach_connected gd)
        else if opt_fixedid options && negb newtcp then
          tail = [A_dispatch_detach d] /\ again = true /\ conn = false
        else tail = [] /\ again = false)).
Proof.
  intros H. unfold raw_pass in H. destruct w as [m rq l].
  mexec H; use_get_dispatch; destruct_worlds.
  all: split; [reflexivity|]; split; [solve_request|].
  all: exists gd.
  all: split; [assumption|]; split; [assumption|].
  all: split; [intros ->; now apply Hudp|].
  all: split; [intros ->; now apply Hnewtcp|].
  all: split; [assumption|].
  all: use_bools.
  all: split; [let Hn := fresh "Hn" in
               intros Hn; cbn in *;
               first [ destruct Hnewtcp as (? & _); [congruence|assumption]
                     | congruence
                     | rewrite Hn in *; rewrite ?andb_false_r in *; congruence ]|].
  all: first [ left; split; [reflexivity|]; split; [first [assumption|reflexivity]|reflexivity]
             | right; do 4 eexists; split; [list_norm; reflexivity|];
               split; [reflexivity|] ].
  all: use_bools.
  all: repeat split; try assumption; cbn; try (rewrite Heqo0); try reflexivity;
    try congruence.
  all: intros ->; now apply Hnewtcp.
Qed.

Arguments raw_pass : simpl never.



Lemma dispatch_only_trans (a b c : dns_request_t) :
  b = with_dispentry (dispentry b) (with_dispatch (dispatch b) a) ->
  c = with_dispentry (dispentry c) (with_dispatch (dispatch c) b) ->
  c = with_dispentry (dispentry c) (with_dispatch (dispatch c) a).
Proof.
  destruct a, b, c. unfold with_dispentry, with_dispatch. cbn.
  intros H1 H2. injection H1 as -> -> -> -> -> -> -> -> -> -> -> -> -> ->.
  injection H2 as -> -> -> -> -> -> -> -> -> -> -> -> -> ->. reflexivity.
Qed.

Ltac use_raw_pass :=
  repeat match goal with
         | H : raw_pass _ _ _ _ _ _ _ _ _ _ _ _ = Some (_, _) |- _ =>
             let gd := fresh "gd" in
             let Hm := fresh "Hmgr" in
             let Hr := fresh "Hreq" in
             let Hp := fresh "Hprep" in
             let Ha := fresh "Hnoadd" in
             let Hu := fresh "Hudp" in
             let Hn := fresh "Hnewtcp" in
             let Hs := fresh "Hnosock" in
             let Hk := fresh "Hkeep" in
             let Hc := fresh "Hcases" in
             apply raw_pass_spec in H;
             destruct H as (Hm & Hr & gd & Hp & Ha & Hu & Hn & Hs & Hk & Hc)
         end.

(** The loop at [again]: what it leaves in the trace. *)
Lemma raw_again_spec (env : Env) (options : options_t) (tcp share : bool)
  (srcaddr : option isc_sockaddr_t) (destaddr : isc_sockaddr_t) (dscp : Z)
  (r : list Z) (w w' : world) (res : isc_result_t) (conn : bool) (id : Z) :
  raw_again env options tcp share srcaddr destaddr dscp r w
  = Some ((res, conn, id), w') ->
  w_mgr w' = w_mgr w /\
  w_req w' = with_dispentry (dispentry (w_req w'))
               (with_dispatch (dispatch (w_req w')) (w_req w)) /\
  (is_success res = true ->
   is_some (dispatch (w_req w')) = true /\ is_some (dispentry (w_req w')) = true /\
   (opt_fixedid options = true ->
    id = u16 (Z.lor (Z.shiftl (nth 0 r 0) 8) (nth 1 r 0)))) /\
  exists delta,
    w_log w' = w_log w ++ delta /\
    forallb is_prep delta = true /\
    (is_success res = true ->
     conn = existsb is_attach_connected delta
            && negb (existsb is_socket_create delta) && tcp) /\
    ((filter is_addresponse delta = [] /\ is_success res = false) \/
     (exists gd1 d1 r1 id1 post,
        delta = gd1 ++ A_dispatch_addresponse d1 (opt_fixedid options) r1 id1 :: post /\
        filter is_addresponse gd1 = [] /\
        if is_success r1 then post = [] /\ res = r1 /\ id = id1
        else if opt_fixedid options then
          exists rest,
            post = A_dispatch_detach d1 :: rest /\
            conn = false /\
            filter is_gettcp rest = [] /\
            (tcp = true ->
             exists sres rest',
               rest = A_socket_create (isc_sockaddr_pf destaddr) sres :: rest') /\
            ((filter is_addresponse rest = [] /\ is_success res = false) \/
             (exists gd2 d2 r2 id2,
                rest = gd2 ++ [A_dispatch_addresponse d2 (opt_fixedid options) r2 id2] /\
                filter is_addresponse gd2 = [] /\
                res = r2 /\ (is_success r2 = true -> id = id2)))
        else post = [] /\ res = r1)).
Proof.
  intros H. unfold raw_again in H. destruct w as [m rq l].
  mexec H; use_raw_pass; destruct_worlds.
  - (* the code jumped back to [again] *)
    destruct Hcases0 as [(_ & _ & Hf)|(d & r1 & id1 & tail & Hl0 & -> & Hif0)];
      [discriminate|].
    specialize (Hkeep eq_refl). clear Hkeep0.
    destruct (is_success r1) eqn:Hr1; [destruct Hif0 as (_ & Hf & _); discriminate|].
    destruct (opt_fixedid options) eqn:Hfx; cbn in Hif0; [|destruct Hif0; discriminate].
    destruct Hif0 as (-> & _ & ->).
    destruct (Hnewtcp eq_refl) as (Hng & Hsock). clear Hnewtcp Hnewtcp0.
    split; [reflexivity|]. split; [exact (dispatch_only_trans _ _ _ Hreq0 Hreq)|].
    destruct Hcases as [(Hl1 & Hres & _)|(d2 & r2 & id2 & tail2 & Hl1 & -> & Hif)].
    + split; [by_result|].
      exists (gd0 ++ A_dispatch_addresponse d true r1 id1 :: A_dispatch_detach d :: gd).
      subst. split; [list_norm; reflexivity|].
      split; [list_norm; now rewrite Hprep0, Hprep|].
      split; [by_result|].
      right. exists gd0, d, r1, id1, (A_dispatch_detach d :: gd).
      split; [reflexivity|]. split; [assumption|]. rewrite Hr1.
      exists gd. repeat split; try assumption. left. now split.
    + destruct (is_success r2) eqn:Hr2; cbn in Hif.
      * destruct Hif as (-> & _ & Hid & Hfid & Hd & He & _ & _).
        subst id2.
        split; [now intros _|].
        exists (gd0 ++ A_dispatch_addresponse d true r1 id1 :: A_dispatch_detach d
                  :: gd ++ [A_dispatch_addresponse d2 true r2 id]).
        subst. split; [list_norm; reflexivity|].
        split; [list_norm; now rewrite Hprep0, Hprep|].
        split.
        { intros _. destruct tcp; [|now rewrite andb_false_r].
          destruct (Hsock eq_refl) as (sres & rest & ->).
          list_norm. rewrite ?orb_true_r. cbn [negb andb].
          now rewrite ?andb_false_r. }
        right. exists gd0, d, r1, id1,
                 (A_dispatch_detach d :: gd ++ [A_dispatch_addresponse d2 true r2 id]).
        split; [reflexivity|]. split; [assumption|]. rewrite Hr1.
        eexists. repeat split; try assumption.
        { list_norm. now rewrite Hng. }
        { intros Ht. destruct (Hsock Ht) as (sres & rest & ->). cbn. eauto. }
        right. exists gd, d2, r2, id. repeat split; assumption.
      * destruct Hif as (-> & _).
        split; [by_result|].
        exists (gd0 ++ A_dispatch_addresponse d true r1 id1 :: A_dispatch_detach d
                  :: gd ++ [A_dispatch_addresponse d2 true r2 id2]).
        subst. split; [list_norm; reflexivity|].
        split; [list_norm; now rewrite Hprep0, Hprep|].
        split; [by_result|].
        right. exists gd0, d, r1, id1,
                 (A_dispatch_detach d :: gd ++ [A_dispatch_addresponse d2 true r2 id2]).
        split; [reflexivity|]. split; [assumption|]. rewrite Hr1.
        eexists. repeat split; try assumption.
        { list_norm. now rewrite Hng. }
        { intros Ht. destruct (Hsock Ht) as (sres & rest & ->). cbn. eauto. }
        right. exists gd, d2, r2, id2. repeat split; try assumption.
        intros Hs. congruence.
  - (* a single pass *)
    clear Hnewtcp Hkeep.
    split; [reflexivity|]. split; [assumption|].
    destruct Hcases as [(Hl1 & Hres & _)|(d & r1 & id1 & tail & Hl0 & -> & Hif)].
    + split; [by_result|]. exists gd. split; [assumption|]. split; [assumption|].
      split; [by_result|]. left. now split.
    + destruct (is_success r1) eqn:Hr1.
      * destruct Hif as (-> & _ & Hid & Hfid & Hd & He & _ & Hc). specialize (Hc eq_refl).
        subst id1.
        split; [now intros _|].
        exists (gd ++ [A_dispatch_addresponse d (opt_fixedid options) r1 id]).
        split; [assumption|].
        split; [list_norm; now rewrite Hprep|].
        split.
        { intros _. list_norm. rewrite orb_false_r. subst conn.
          destruct (existsb is_attach_connected gd) eqn:Ha; [|reflexivity].
          rewrite (Hnosock eq_refl). cbn.
          destruct tcp; [reflexivity|]. specialize (Hudp eq_refl). congruence. }
        right. exists gd, d, r1, id, []. split; [reflexivity|]. split; [assumption|].
        rewrite Hr1. auto.
      * destruct (opt_fixedid options) eqn:Hfx; cbn in Hif;
          [destruct Hif as (_ & Hf & _); discriminate|].
        destruct Hif as (-> & _).
        split; [by_result|].
        exists (gd ++ [A_dispatch_addresponse d false r1 id1]).
        split; [assumption|].
        split; [list_norm; now rewrite Hprep|].
        split; [by_result|].
        right. exists gd, d, r1, id1, []. split; [reflexivity|]. split; [assumption|].
        rewrite Hr1. auto.
Qed.

Arguments raw_again : simpl never.

(** [cleanup] on a request that holds no reference to the manager: the
    manager is untouched and the request is dead afterwards. *)
Lemma cleanup_spec (tclone : bool) (task : Z) (res res' : isc_result_t) (w w' : world) :
  cleanup tclone task res w = Some (res', w') ->
  requestmgr (w_req w) = false ->
  res' = res /\
  w_mgr w' = w_mgr w /\
  VALID_REQUEST (w_req w') = false /\
  event (w_req w') = None /\
  exists delta,
    w_log w' = w_log w ++ delta /\ forallb is_release delta = true.
Proof.
  intros H Hmgr. unfold cleanup, req_destroy in H. destruct w as [m r l].
  destruct r as [mg hs fl q a ev d de t rm ts tk c da uc ds].
  cbn in Hmgr. subst rm.
  destruct ev; mexec H.
  all: split; [reflexivity|]; split; [reflexivity|]; split; [reflexivity|];
    split; [reflexivity|].
  all: eexists; split; [first [list_norm; reflexivity|symmetry; apply app_nil_r]|reflexivity].
Qed.

Arguments cleanup : simpl never.

Lemma release_no_completion (d : list action) :
  forallb is_release d = true -> filter is_completion d = [].
Proof. intros H. apply (filter_none _ _ _ H). now intros []. Qed.

Lemma prep_no_completion (d : list action) :
  forallb is_prep d = true -> filter is_completion d = [].
Proof. intros H. apply (filter_none _ _ _ H). now intros []. Qed.

Lemma release_no_lock (d : list action) :
  forallb is_release d = true -> existsb is_mgr_lock d = false.
Proof. intros H. apply (existsb_none _ _ _ H). now intros []. Qed.

Lemma prep_no_lock (d : list action) :
  forallb is_prep d = true -> existsb is_mgr_lock d = false.
Proof. intros H. apply (existsb_none _ _ _ H). now intros []. Qed.

Lemma release_no_addresponse (d : list action) :
  forallb is_release d = true -> filter is_addresponse d = [].
Proof. intros H. apply (filter_none _ _ _ H). now intros []. Qed.

Lemma release_no_timer_reset (d : list action) :
  forallb is_release d = true -> filter is_timer_reset d = [].
Proof. intros H. apply (filter_none _ _ _ H). now intros []. Qed.

Lemma prep_no_timer_reset (d : list action) :
  forallb is_prep d = true -> filter is_timer_reset d = [].
Proof. intros H. apply (filter_none _ _ _ H). now intros []. Qed.

Lemma prep_no_sendto (d : list action) :
  forallb is_prep d = true -> filter is_sendto d = [].
Proof. intros H. apply (filter_none _ _ _ H). now intros []. Qed.

Lemma prep_no_connect (d : list action) :
  forallb is_prep d = true -> existsb is_connect d = false.
Proof. intros H. apply (existsb_none _ _ _ H). now intros []. Qed.

(** The registration block when the manager is shutting down. *)
Lemma admit_exiting (env : Env) (self task : Z) (tcp connected : bool)
  (destaddr : isc_sockaddr_t) (sock : option Z) (timeout udptimeout : Z)
  (res : isc_result_t) (w w' : world) :
  admit_and_start env self task tcp connected destaddr sock timeout udptimeout w
  = Some (res, w') ->
  exiting (w_mgr w) = true ->
  requestmgr (w_req w) = false ->
  res = ISC_R_SHUTTINGDOWN /\
  w_mgr w' = w_mgr w /\
  VALID_REQUEST (w_req w') = false /\
  event (w_req w') = None /\
  exists delta,
    w_log w' = w_log w ++ A_lock_mgr :: A_unlock_mgr :: delta /\
    forallb is_release delta = true.
Proof.
  intros H Hex Hmgr. unfold admit_and_start, register_request in H.
  destruct w as [m r l]. cbn in Hex, Hmgr.
  munfold H. cbn in H. rewrite Hex in H. cbn in H.
  change (is_success ISC_R_SHUTTINGDOWN) with false in H. cbn in H.
  apply cleanup_spec in H; [|exact Hmgr].
  destruct H as (-> & Hm & Hv & He & delta & Hl & Hd).
  repeat split; try assumption.
  exists delta. split; [|assumption]. rewrite Hl. cbn.
  rewrite <- !app_assoc. reflexivity.
Qed.

Lemma cleanup_result (tclone : bool) (task : Z) (res res' : isc_result_t) (w w' : world) :
  cleanup tclone task res w = Some (res', w') -> res' = res.
Proof.
  unfold cleanup. unfold bind, ret.
  destruct (when tclone (emit (A_task_detach task)) w) as [[u w1]|]; [|discriminate].
  destruct (req_destroy w1) as [[u' w2]|]; [|discriminate].
  now intros [= <- _].
Qed.

Lemma is_success_true (r : isc_result_t) : is_success r = true -> r = ISC_R_SUCCESS.
Proof. now destruct r. Qed.

Lemma is_usetcp_true (r : isc_result_t) : is_usetcp r = true -> r = DNS_R_USETCP.
Proof. now destruct r. Qed.

Ltac use_success :=
  rewrite ?negb_false_iff, ?negb_true_iff in *;
  repeat match goal with
         | H : is_success ?r = true |- _ =>
             apply is_success_true in H;
             first [ subst r | rewrite H in * ]
         end.

Ltac cleanup_contra :=
  match goal with
  | H : cleanup _ _ ?res _ = Some (ISC_R_SUCCESS, _), Hf : is_success ?res = false |- _ =>
      apply cleanup_result in H; rewrite <- H in Hf; discriminate Hf
  | H : cleanup _ _ ?res _ = Some (ISC_R_SUCCESS, _),
    Hf : negb (is_success ?res) = true |- _ =>
      apply cleanup_result in H; rewrite <- H in Hf; discriminate Hf
  | H : cleanup _ _ ?res _ = Some (ISC_R_SUCCESS, _) |- _ =>
      apply cleanup_result in H; discriminate H
  end.

(** The registration block, the timer and the first I/O, when all
    succeed. *)
Lemma admit_success (env : Env) (self task : Z) (tcp connected : bool)
  (destaddr : isc_sockaddr_t) (sock : option Z) (timeout udptimeout : Z)
  (w w' : world) :
  admit_and_start env self task tcp connected destaddr sock timeout udptimeout w
  = Some (ISC_R_SUCCESS, w') ->
  let m := w_mgr w in
  let r := w_req w in
  let interval := if tcp then 0 else udptimeout in
  let r1 := with_destaddr destaddr
              (with_req_hash (u32 (mgr_hash m + 1) mod DNS_REQUEST_NLOCKS)
                 (with_requestmgr true r)) in
  exiting m = false /\
  w_mgr w' = with_requests (requests m ++ [self])
               (with_mgr_hash (u32 (mgr_hash m + 1)) (with_iref (iref m + 1) m)) /\
  exists t expires start,
    timer r = Some t /\
    e_nowplusinterval env (w_log w ++ [A_lock_mgr; A_unlock_mgr]) timeout
    = (ISC_R_SUCCESS, expires) /\
    w_log w' = w_log w ++
               [A_lock_mgr; A_unlock_mgr;
                A_timer_reset t (timer_type_for interval) expires interval ISC_R_SUCCESS;
                start] /\
    if tcp && negb connected then
      start = A_socket_connect sock destaddr ISC_R_SUCCESS /\
      w_req w' = with_flags
                   (set_flag (flags r)
                      (Z.lor DNS_REQUEST_F_CONNECTING DNS_REQUEST_F_TCP)) r1
    else
      exists sk q,
        query r = Some q /\
        start = A_socket_sendto sk (isc_buffer_usedregion q)
                  (if connected then None else Some destaddr)
                  (if dscp r =? -1 then None else Some (dscp r)) /\
        w_req w' = with_flags (set_flag (flags r) DNS_REQUEST_F_SENDING) r1.
Proof.
  intros H. unfold admit_and_start, register_request, requestmgr_attach, mgr_gethash,
    set_timer, start_request, req_send, req_getsocket, unlink_request in H.
  destruct w as [m r l].
  destruct r as [mg hs fl q a ev d de t rm ts tk c da uc ds].
  destruct m as [mm er ir d4 d6 ex ws mh rqs].
  cbn in *.
  destruct ex, tcp, connected; mexec H; try cleanup_contra.
  all: use_success; rewrite <- ?app_assoc in *; cbn [app] in *.
  all: try match goal with
           | H : is_success ISC_R_SUCCESS = false |- _ => discriminate H
           end.
  all: split; [reflexivity|]; split; [reflexivity|].
  all: do 3 eexists; split; [reflexivity|]; split; [eassumption|].
  all: unfold timer_type_for; cbn [negb andb Z.eqb].
  all: try match goal with
           | |- context [?u =? 0] => is_var u; destruct (u =? 0)
           end; cbn [negb] in *; try discriminate.
  all: split; [reflexivity|].
  all: first [ split; reflexivity | do 2 eexists; repeat split; reflexivity ].
Qed.

Arguments admit_and_start : simpl never.

(** The query buffer of [dns_request_createraw]: always built, exactly
    sized, length prefix first on TCP, message id over the first two bytes
    of the header. *)
Lemma raw_build_query_spec (tcp : bool) (r : list Z) (id : Z) :
  raw_build_query tcp r id =
  Some (ISC_R_SUCCESS,
        mk_buffer (Z.of_nat (length r) + (if tcp then 2 else 0))
          ((if tcp then tcp_length_prefix (Z.of_nat (length r)) else []) ++
           poke2 0 (Z.land (Z.shiftr id 8) 0xff) (Z.land id 0xff) r)).
Proof.
  unfold raw_build_query, isc_buffer_putuint16, isc_buffer_copyregion,
    isc_buffer_allocate, isc_buffer_availablelength, tcp_length_prefix.
  destruct tcp; cbn [buf_length buf_used length app Z.of_nat].
  - destruct (Z.leb_spec 2 (Z.of_nat (length r) + 2 - 0)); [|lia].
    cbn [buf_length buf_used length app].
    destruct (Z.leb_spec (Z.of_nat (length r))
                (Z.of_nat (length r) + 2 - Z.of_nat 2)); [|lia].
    reflexivity.
  - destruct (Z.leb_spec (Z.of_nat (length r)) (Z.of_nat (length r) + 0 - 0)); [|lia].
    reflexivity.
Qed.

Arguments raw_build_query : simpl never.
Arguments derive_udptimeout : simpl never.
Arguments isblackholed : simpl never.

Ltac use_raw_again :=
  repeat match goal with
         | H : raw_again _ _ _ _ _ _ _ _ _ = Some (_, _) |- _ =>
             let delta := fresh "loop" in
             let Hm := fresh "Hmgr" in
             let Hr := fresh "Hreq" in
             let Hd := fresh "Hslot" in
             let Hl := fresh "Hlog" in
             let Hp := fresh "Hprep" in
             let Hc := fresh "Hconn" in
             let Hs := fresh "Hshape" in
             apply raw_again_spec in H;
             destruct H as (Hm & Hr & Hd & delta & Hl & Hp & Hc & Hs)
         end.

(** A successful [dns_request_createraw], end to end. *)
Lemma createraw_success (env : Env) (msgbuf : isc_buffer_t)
  (srcaddr : option isc_sockaddr_t) (destaddr : isc_sockaddr_t) (dscpv : Z)
  (options : options_t) (timeout udptimeout udpretries : Z) (task action : Z)
  (w w' : world) :
  dns_request_createraw env (Some msgbuf) srcaddr (Some destaddr) dscpv options
    timeout udptimeout udpretries (Some task) (Some action) (Some None) w
  = Some (ISC_R_SUCCESS, w') ->
  let r := isc_buffer_usedregion msgbuf in
  let len := Z.of_nat (length r) in
  let tcp := opt_tcp options || (512 <? len) in
  exists udpt id conn delta t expires start,
    derive_udptimeout timeout udptimeout udpretries = Some udpt /\
    DNS_MESSAGE_HEADERLEN <= len <= 65535 /\
    forallb is_prep delta = true /\
    conn = existsb is_attach_connected delta
           && negb (existsb is_socket_create delta) && tcp /\
    w_log w' = w_log w ++ delta ++
               [A_lock_mgr; A_unlock_mgr;
                A_timer_reset t (timer_type_for (if tcp then 0 else udpt)) expires
                  (if tcp then 0 else udpt) ISC_R_SUCCESS;
                start] /\
    e_nowplusinterval env (w_log w ++ delta ++ [A_lock_mgr; A_unlock_mgr]) timeout
    = (ISC_R_SUCCESS, expires) /\
    query (w_req w') =
      Some (mk_buffer (len + (if tcp then 2 else 0))
              ((if tcp then tcp_length_prefix len else []) ++
               poke2 0 (Z.land (Z.shiftr id 8) 0xff) (Z.land id 0xff) r)) /\
    (opt_fixedid options = true ->
     id = u16 (Z.lor (Z.shiftl (nth 0 r 0) 8) (nth 1 r 0))) /\
    udpcount (w_req w') = udpretries /\
    magic (w_req w') = REQUEST_MAGIC /\
    flags (w_req w') =
      (if tcp && negb conn
       then Z.lor DNS_REQUEST_F_CONNECTING DNS_REQUEST_F_TCP
       else DNS_REQUEST_F_SENDING) /\
    (if tcp && negb conn
     then exists sock, start = A_socket_connect sock destaddr ISC_R_SUCCESS
     else exists sock q,
         query (w_req w') = Some q /\
         start = A_socket_sendto sock (isc_buffer_usedregion q)
                   (if conn then None else Some destaddr)
                   (if dscpv =? -1 then None else Some dscpv)).
Proof.
  intros H r len tcp. unfold dns_request_createraw in H.
  unfold allocate_request, req_getsocket in H.
  destruct w as [m rq l].
  mexec H; try cleanup_contra.
  all: use_raw_again.
  all: try match goal with
           | H : admit_and_start _ _ _ _ _ _ _ _ _ _ = Some _ |- _ =>
               apply admit_success in H; cbn zeta in H;
               destruct H as (Hex & Hmgr' & t & expires & start & Ht & Hnow & Hlog' & Hstart)
           end.
  all: match goal with
       | Hq : raw_build_query _ _ _ = Some _ |- _ =>
           rewrite raw_build_query_spec in Hq; injection Hq as <- <-
       end.
  all: use_success.
  all: destruct (Hslot eq_refl) as (_ & _ & Hfid); specialize (Hconn eq_refl).
  all: destruct w as [m1 r1 l1]; destruct w' as [m' r' l']; cbn [w_mgr w_req w_log] in *.
  all: assert (Hfl : flags r1 = 0) by (rewrite Hreq; reflexivity).
  all: assert (Huc : udpcount r1 = udpretries) by (rewrite Hreq; reflexivity).
  all: assert (Hmg : magic r1 = REQUEST_MAGIC) by (rewrite Hreq; reflexivity).
  all: assert (Hds : dscp r1 = dscpv) by (rewrite Hreq; reflexivity).
  all: exists z, z1, b,
         ([A_timer_create ISC_R_SUCCESS; A_event_allocate task; A_task_attach task]
            ++ loop), t, expires, start.
  all: split; [reflexivity|].
  all: split; [match goal with
               | Hlen : (_ <? DNS_MESSAGE_HEADERLEN) || _ = false |- _ =>
                   apply orb_false_iff in Hlen as [H1 H2];
                   apply Z.ltb_ge in H1; apply Z.ltb_ge in H2; split; assumption
               end|].
  all: split; [cbn; exact Hprep|].
  all: split; [cbn; exact Hconn|].
  all: split; [rewrite Hlog', Hlog; rewrite <- !app_assoc; reflexivity|].
  all: split; [rewrite Hlog in Hnow; repeat rewrite <- app_assoc in Hnow;
               repeat rewrite <- app_assoc; exact Hnow|].
  all: fold r len tcp in Hstart |- *.
  all: destruct (tcp && negb b) eqn:Hsel.
  all: try (destruct Hstart as (-> & ->)); try (destruct Hstart as (sk & q & Hq & -> & ->)).
  all: cbn [query flags udpcount magic dscp with_flags with_destaddr with_req_hash
            with_requestmgr with_query] in *.
  all: try match goal with Hq : Some _ = Some ?q |- _ => injection Hq as <- end.
  all: rewrite ?Hfl, ?Huc, ?Hmg, ?Hds.
  all: repeat split; try reflexivity; try assumption; eauto.
Qed.

Arguments dns_request_createraw : simpl never.

(** [req_render]: on success the query buffer holds the rendered message,
    behind its length on TCP; without DNS_REQUESTOPT_TCP a message of more
    than 512 bytes is refused with DNS_R_USETCP. *)
Lemma req_render_spec (env : Env) (id : Z) (options : options_t)
  (res : isc_result_t) (w w' : world) :
  req_render env id options w = Some (res, w') ->
  w_mgr w' = w_mgr w /\
  w_req w' = with_query (query (w_req w')) (w_req w) /\
  query (w_req w) = None /\
  (exists delta, w_log w' = w_log w ++ delta /\ forallb is_prep delta = true /\
                 filter is_addresponse delta = [] /\
                 existsb is_attach_connected delta = false /\
                 existsb is_socket_create delta = false) /\
  (is_success res = true ->
   exists rendered,
     e_render env (w_log w) id (opt_case options) = (ISC_R_SUCCESS, rendered) /\
     Z.of_nat (length rendered) <= 65535 /\
     (opt_tcp options = false -> Z.of_nat (length rendered) <= 512) /\
     query (w_req w') =
       Some (mk_buffer
               (Z.of_nat (length rendered) + (if opt_tcp options then 2 else 0))
               ((if opt_tcp options
                 then tcp_length_prefix (Z.of_nat (length rendered)) else []) ++
                rendered))) /\
  (is_success res = false -> query (w_req w') = None).
Proof.
  intros H. unfold req_render in H. destruct w as [m r l].
  destruct r as [mg hs fl q a ev d de t rm ts tk c da uc ds].
  unfold isc_buffer_putuint16, isc_buffer_copyregion, isc_buffer_allocate,
    isc_buffer_availablelength in H.
  cbn in H.
  destruct q; [mexec H|].
  mexec H.
  all: cbn [w_mgr w_req w_log query with_query].
  all: split; [reflexivity|]; split; [reflexivity|]; split; [reflexivity|].
  all: split;
    [eexists; split; [first [list_norm; reflexivity|symmetry; apply app_nil_r]|];
     repeat split; reflexivity|].
  all: use_bools.
  all: split; [|try by_result].
  all: intros Hs; cbn in Hs; try discriminate Hs; try congruence.
  all: apply is_success_true in Heqb1; subst i; cbn in Heqb0.
  all: apply Z.ltb_ge in Heqb0.
  all: exists l0; split; [assumption|]; split; [assumption|].
  all: split; [intros Ht; try discriminate Ht|reflexivity].
  match goal with
  | Hle : (512 <? _) = false |- _ => now apply Z.ltb_ge in Hle
  end.
Qed.

Arguments req_render : simpl never.

Ltac use_req_render :=
  repeat match goal with
         | H : req_render _ _ _ _ = Some (_, _) |- _ =>
             let rd := fresh "rd" in
             let Hm := fresh "Hrmgr" in
             let Hr := fresh "Hrreq" in
             let Hq := fresh "Hrpre" in
             let Hl := fresh "Hrlog" in
             let Hp := fresh "Hrprep" in
             let Ha := fresh "Hrnoadd" in
             let Hc := fresh "Hrnoatt" in
             let Hk := fresh "Hrnosock" in
             let Hs := fresh "Hrok" in
             let Hf := fresh "Hrfail" in
             apply req_render_spec in H;
             destruct H as (Hm & Hr & Hq & (rd & Hl & Hp & Ha & Hc & Hk) & Hs & Hf)
         end.

(** One pass through the label [use_tcp]. *)
Lemma via_pass_spec (env : Env) (options : options_t) (settsigkey : bool)
  (srcaddr : option isc_sockaddr_t) (destaddr : isc_sockaddr_t) (dscpv : Z)
  (conn_in : bool) (w w' : world)
  (res : isc_result_t) (conn tcp : bool) (sock : option Z) (again : bool) :
  via_pass env options settsigkey srcaddr destaddr dscpv conn_in w
  = Some ((res, conn, tcp, sock, again), w') ->
  tcp = opt_tcp options /\
  w_mgr w' = w_mgr w /\
  w_req w' = with_query (query (w_req w'))
               (with_dispentry (dispentry (w_req w'))
                  (with_dispatch (dispatch (w_req w')) (w_req w))) /\
  exists delta,
    w_log w' = w_log w ++ delta /\
    forallb is_prep delta = true /\
    (opt_tcp options = false ->
     existsb is_attach_connected delta = false /\
     existsb is_socket_create delta = false) /\
    (existsb is_attach_connected delta = true ->
     existsb is_socket_create delta = false) /\
    (again = true ->
     opt_tcp options = false /\ conn = conn_in /\
     dispatch (w_req w') = None /\ dispentry (w_req w') = None /\
     query (w_req w') = None) /\
    (again = false -> is_success res = true ->
     is_some sock = true /\
     (conn_in = false -> conn = existsb is_attach_connected delta) /\
     exists rendered h id,
       e_render env h id (opt_case options) = (ISC_R_SUCCESS, rendered) /\
       Z.of_nat (length rendered) <= 65535 /\
       (opt_tcp options = false -> Z.of_nat (length rendered) <= 512) /\
       query (w_req w') =
         Some (mk_buffer
                 (Z.of_nat (length rendered) + (if opt_tcp options then 2 else 0))
                 ((if opt_tcp options
                   then tcp_length_prefix (Z.of_nat (length rendered)) else []) ++
                  rendered))).
Proof.
  intros H. unfold via_pass, req_getsocket in H. destruct w as [m rq l].
  mexec H; use_get_dispatch; use_req_render; destruct_worlds.
  all: split; [reflexivity|]; split; [reflexivity|]; split; [solve_frame|].
  all: eexists; split; [first [list_norm; reflexivity|symmetry; apply app_nil_r]|].
  all: list_norm; use_bools; rewrite ?orb_false_r.
  all: split; [first [assumption|reflexivity]|].
  all: split; [let Ho := fresh in intros Ho; destruct (Hudp Ho) as (_ & -> & ->); auto|].
  all: split; [assumption|].
  all: split; [let Ha := fresh in intros Ha; try discriminate Ha|].
  all: try (let Ha := fresh in let Hs := fresh "Hsucc" in
            intros Ha Hs; try discriminate Ha; try discriminate Hs;
            try (rewrite Hs in *; discriminate)).
  all: try match goal with
           | Hu : is_usetcp ?r && negb _ = true |- _ =>
               let Hn := fresh "Hn" in
               apply andb_true_iff in Hu as [Hu Hn]; apply negb_true_iff in Hn;
               apply is_usetcp_true in Hu; subst r;
               destruct (Hudp Hn) as (-> & _); repeat split; try reflexivity;
               try assumption; cbn; apply Hrfail; reflexivity
           end.
  all: try match goal with
           | Hs : is_success ?r = true, Hf : is_success ?r = false |- _ =>
               rewrite Hs in Hf; discriminate Hf
           end.
  all: try match goal with
           | Hs : is_success ?r = true, Hk : is_success ?r = true -> exists _, _ |- _ =>
               destruct (Hk Hs) as (rendered & Hren & Hlen & H512 & Hq);
               split; [first [assumption|reflexivity]|];
               split; [first [assumption|exact Hconn]|];
               exists rendered; do 2 eexists; split; [exact Hren|];
               split; [exact Hlen|]; split; [exact H512|exact Hq]
           end.
Qed.

Arguments via_pass : simpl never.

Lemma query_frame_trans (a b c : dns_request_t) :
  b = with_query (query b) (with_dispentry (dispentry b) (with_dispatch (dispatch b) a)) ->
  c = with_query (query c) (with_dispentry (dispentry c) (with_dispatch (dispatch c) b)) ->
  c = with_query (query c) (with_dispentry (dispentry c) (with_dispatch (dispatch c) a)).
Proof.
  destruct a, b, c. unfold with_query, with_dispentry, with_dispatch. cbn.
  intros H1 H2.
  injection H1; clear H1; intros; subst.
  injection H2; clear H2; intros; subst. reflexivity.
Qed.

Ltac use_via_pass :=
  repeat match goal with
         | H : via_pass _ _ _ _ _ _ _ _ = Some (_, _) |- _ =>
             let vd := fresh "vd" in
             let Ht := fresh "Htcp" in
             let Hm := fresh "Hmgr" in
             let Hr := fresh "Hreq" in
             let Hl := fresh "Hlog" in
             let Hp := fresh "Hprep" in
             let Hu := fresh "Hudp" in
             let Hs := fresh "Hnosock" in
             let Ha := fresh "Hagain" in
             let Hk := fresh "Hok" in
             apply via_pass_spec in H;
             destruct H as (Ht & Hm & Hr & vd & Hl & Hp & Hu & Hs & Ha & Hk)
         end.

(** The loop at [use_tcp]. *)
Lemma via_use_tcp_spec (env : Env) (options : options_t)
  (srcaddr : option isc_sockaddr_t) (destaddr : isc_sockaddr_t) (dscpv : Z)
  (w w' : world) (res : isc_result_t) (conn tcp : bool) (sock : option Z) :
  via_use_tcp env options srcaddr destaddr dscpv w = Some ((res, conn, tcp, sock), w') ->
  w_mgr w' = w_mgr w /\
  w_req w' = with_query (query (w_req w'))
               (with_dispentry (dispentry (w_req w'))
                  (with_dispatch (dispatch (w_req w')) (w_req w))) /\
  (opt_tcp options = true -> tcp = true) /\
  exists delta,
    w_log w' = w_log w ++ delta /\
    forallb is_prep delta = true /\
    (is_success res = true ->
     is_some sock = true /\
     conn = existsb is_attach_connected delta
            && negb (existsb is_socket_create delta) && tcp /\
     exists rendered h id,
       e_render env h id (opt_case options) = (ISC_R_SUCCESS, rendered) /\
       Z.of_nat (length rendered) <= 65535 /\
       (tcp = false -> Z.of_nat (length rendered) <= 512) /\
       query (w_req w') =
         Some (mk_buffer
                 (Z.of_nat (length rendered) + (if tcp then 2 else 0))
                 ((if tcp then tcp_length_prefix (Z.of_nat (length rendered)) else [])
                  ++ rendered))).
Proof.
  intros H. unfold via_use_tcp in H. destruct w as [m rq l].
  mexec H; use_via_pass; destruct_worlds.
  - (* promoted to TCP and rendered again *)
    destruct (Hagain0 eq_refl) as (Hopt & -> & _).
    destruct (Hudp0 Hopt) as (Ha0 & Hs0).
    clear Hagain0 Hok0 Hudp.
    match type of Hagain with
    | ?b = true -> _ =>
        destruct b; [destruct (Hagain eq_refl) as (Hx & _); discriminate Hx|]
    end.
    clear Hagain.
    split; [reflexivity|].
    split; [exact (query_frame_trans _ _ _ Hreq0 Hreq)|].
    split; [reflexivity|].
    exists (vd0 ++ vd). split; [now rewrite <- app_assoc|].
    split; [rewrite forallb_app; now rewrite Hprep0, Hprep|].
    intros Hs. destruct (Hok eq_refl Hs) as (Hsock & Hc & rendered & h & id & Hr & Hl & _ & Hq).
    split; [exact Hsock|].
    split.
    { rewrite !existsb_app, Ha0, Hs0. cbn [orb]. rewrite andb_true_r.
      rewrite (Hc eq_refl).
      destruct (existsb is_attach_connected vd) eqn:Ha; [|reflexivity].
      now rewrite (Hnosock eq_refl). }
    exists rendered, h, id. cbn in *. repeat split; try assumption. discriminate.
  - (* a single pass *)
    clear Hagain.
    split; [reflexivity|]. split; [assumption|].
    split; [now intros ->|].
    exists vd. split; [reflexivity|]. split; [assumption|].
    intros Hs. destruct (Hok eq_refl Hs) as (Hsock & Hc & rendered & h & id & Hr & Hl & H512 & Hq).
    split; [exact Hsock|].
    split.
    { rewrite (Hc eq_refl).
      destruct (opt_tcp options) eqn:Hopt.
      - rewrite andb_true_r.
        destruct (existsb is_attach_connected vd) eqn:Ha; [|reflexivity].
        now rewrite (Hnosock eq_refl).
      - destruct (Hudp eq_refl) as (-> & _). reflexivity. }
    exists rendered, h, id. repeat split; assumption.
Qed.

Arguments via_use_tcp : simpl never.

Ltac use_via_use_tcp :=
  repeat match goal with
         | H : via_use_tcp _ _ _ _ _ _ = Some (_, _) |- _ =>
             let delta := fresh "loop" in
             let Hm := fresh "Hmgr" in
             let Hr := fresh "Hreq" in
             let Ht := fresh "Hopt" in
             let Hl := fresh "Hlog" in
             let Hp := fresh "Hprep" in
             let Hk := fresh "Hok" in
             apply via_use_tcp_spec in H;
             destruct H as (Hm & Hr & Ht & delta & Hl & Hp & Hk)
         end.

(** A successful [dns_request_createvia], end to end. *)
Lemma createvia_success (env : Env) (message : Z)
  (srcaddr : option isc_sockaddr_t) (destaddr : isc_sockaddr_t) (dscpv : Z)
  (options : options_t) (key : option Z) (timeout udptimeout udpretries : Z)
  (task action : Z) (w w' : world) :
  dns_request_createvia env (Some message) srcaddr (Some destaddr) dscpv options key
    timeout udptimeout udpretries (Some task) (Some action) (Some None) w
  = Some (ISC_R_SUCCESS, w') ->
  exists udpt conn tcp delta t expires start rendered h id,
    derive_udptimeout timeout udptimeout udpretries = Some udpt /\
    (opt_tcp options = true -> tcp = true) /\
    forallb is_prep delta = true /\
    conn = existsb is_attach_connected delta
           && negb (existsb is_socket_create delta) && tcp /\
    w_log w' = w_log w ++ delta ++
               [A_lock_mgr; A_unlock_mgr;
                A_timer_reset t (timer_type_for (if tcp then 0 else udpt)) expires
                  (if tcp then 0 else udpt) ISC_R_SUCCESS;
                start] /\
    e_nowplusinterval env (w_log w ++ delta ++ [A_lock_mgr; A_unlock_mgr]) timeout
    = (ISC_R_SUCCESS, expires) /\
    e_render env h id (opt_case options) = (ISC_R_SUCCESS, rendered) /\
    Z.of_nat (length rendered) <= 65535 /\
    (tcp = false -> Z.of_nat (length rendered) <= 512) /\
    query (w_req w') =
      Some (mk_buffer (Z.of_nat (length rendered) + (if tcp then 2 else 0))
              ((if tcp then tcp_length_prefix (Z.of_nat (length rendered)) else [])
               ++ rendered)) /\
    udpcount (w_req w') = udpretries /\
    magic (w_req w') = REQUEST_MAGIC /\
    flags (w_req w') =
      (if tcp && negb conn
       then Z.lor DNS_REQUEST_F_CONNECTING DNS_REQUEST_F_TCP
       else DNS_REQUEST_F_SENDING) /\
    (if tcp && negb conn
     then exists sock, start = A_socket_connect sock destaddr ISC_R_SUCCESS
     else exists sock q,
         query (w_req w') = Some q /\
         start = A_socket_sendto sock (isc_buffer_usedregion q)
                   (if conn then None else Some destaddr)
                   (if dscpv =? -1 then None else Some dscpv)).
Proof.
  intros H. unfold dns_request_createvia in H.
  unfold allocate_request in H.
  destruct w as [m rq l].
  mexec H; try cleanup_contra.
  all: use_via_use_tcp.
  all: match goal with
       | H : admit_and_start _ _ _ ?tcp ?conn _ _ _ _ _ = Some _ |- _ =>
           apply admit_success in H; cbn zeta in H;
           destruct H as (Hex & Hmgr' & t & expires & start & Ht & Hnow & Hlog' & Hstart);
           rename tcp into tcpv; rename conn into connv
       end.
  all: use_success.
  all: destruct (Hok eq_refl) as (_ & Hconn & rendered & h & id & Hrender & Hlen & H512 & Hq).
  all: destruct w as [m1 r1 l1]; destruct w' as [m' r' l']; cbn [w_mgr w_req w_log] in *.
  all: assert (Hfl : flags r1 = 0) by (rewrite Hreq; reflexivity).
  all: assert (Huc : udpcount r1 = udpretries) by (rewrite Hreq; reflexivity).
  all: assert (Hmg : magic r1 = REQUEST_MAGIC) by (rewrite Hreq; reflexivity).
  all: assert (Hds : dscp r1 = dscpv) by (rewrite Hreq; reflexivity).
  all: match goal with
       | Hd : derive_udptimeout _ _ _ = Some ?u |- _ =>
           exists u, connv, tcpv,
             ([A_timer_create ISC_R_SUCCESS; A_event_allocate task; A_task_attach task]
                ++ loop), t, expires, start, rendered, h, id
       end.
  all: split; [reflexivity|].
  all: split; [exact Hopt|].
  all: split; [cbn; exact Hprep|].
  all: split; [cbn; exact Hconn|].
  all: split; [rewrite Hlog', Hlog; rewrite <- !app_assoc; reflexivity|].
  all: split; [rewrite Hlog in Hnow; repeat rewrite <- app_assoc in Hnow;
               repeat rewrite <- app_assoc; exact Hnow|].
  all: split; [exact Hrender|].
  all: split; [exact Hlen|].
  all: split; [exact H512|].
  all: destruct (tcpv && negb connv) eqn:Hsel.
  all: try (destruct Hstart as (-> & ->)); try (destruct Hstart as (sk & q & Hq' & -> & ->)).
  all: cbn [query flags udpcount magic dscp with_flags with_destaddr with_req_hash
            with_requestmgr with_query with_tsig] in *.
  all: rewrite ?Hfl, ?Huc, ?Hmg, ?Hds.
  all: repeat split; try reflexivity; try assumption; eauto.
Qed.

Arguments dns_request_createvia : simpl never.

Ltac suffix_of l t :=
  lazymatch t with
  | l => constr:(@nil action)
  | ?t1 ++ ?d => let s := suffix_of l t1 in constr:(s ++ d)
  end.

(** [dns_request_createraw] past the blackhole test, phase by phase. *)
Lemma createraw_inv (env : Env) (msgbuf : isc_buffer_t)
  (srcaddr : option isc_sockaddr_t) (destaddr : isc_sockaddr_t) (dscpv : Z)
  (options : options_t) (timeout udptimeout udpretries : Z) (task action : Z)
  (w w' : world) (res : isc_result_t) :
  dns_request_createraw env (Some msgbuf) srcaddr (Some destaddr) dscpv options
    timeout udptimeout udpretries (Some task) (Some action) (Some None) w
  = Some (res, w') ->
  isblackholed env destaddr = false ->
  let r := isc_buffer_usedregion msgbuf in
  let len := Z.of_nat (length r) in
  let tcp := opt_tcp options || (512 <? len) in
  exists udpt,
    derive_udptimeout timeout udptimeout udpretries = Some udpt /\
    ((is_success res = false /\ unadmitted w w' /\
      exists pre post,
        w_log w' = w_log w ++ pre ++ post /\
        forallb is_prep pre = true /\ filter is_addresponse pre = [] /\
        forallb is_release post = true)
     \/
     exists w0 w1 rres conn id,
       w_mgr w0 = w_mgr w /\
       w_log w0 = w_log w ++
                  [A_timer_create ISC_R_SUCCESS; A_event_allocate task;
                   A_task_attach task] /\
       requestmgr (w_req w0) = false /\
       (magic (w_req w0) = REQUEST_MAGIC /\ flags (w_req w0) = 0) /\
       raw_again env options tcp (opt_share options) srcaddr destaddr dscpv r w0
       = Some ((rres, conn, id), w1) /\
       if is_success rres then
         exists self sock,
           admit_and_start env self task tcp conn destaddr sock timeout udpt
             (mk_world (w_mgr w1)
                (with_query
                   (Some (mk_buffer (len + (if tcp then 2 else 0))
                            ((if tcp then tcp_length_prefix len else []) ++
                             poke2 0 (Z.land (Z.shiftr id 8) 0xff) (Z.land id 0xff) r)))
                   (w_req w1))
                (w_log w1))
           = Some (res, w')
       else cleanup true task rres w1 = Some (res, w')).
Proof.
  intros H Hbh r len tcp. unfold dns_request_createraw in H.
  unfold allocate_request, req_getsocket in H.
  destruct w as [m rq l].
  mexec H.
  all: match goal with
       | Hd : derive_udptimeout _ _ _ = Some ?u |- _ =>
           exists u; split; [reflexivity|]
       end.
  all: repeat match goal with
              | Hs : negb (is_success ?r) = false |- _ =>
                  apply negb_false_iff in Hs; apply is_success_true in Hs; subst r
              | Hs : negb (is_success ?r) = true |- _ =>
                  apply negb_true_iff in Hs
              end.
  all: try match goal with
           | Hr : raw_again _ _ _ _ _ _ _ _ ?w0 = Some ((?rres, ?conn, ?id), ?w1) |- _ =>
               right; exists w0, w1, rres, conn, id;
               split; [reflexivity|];
               split; [cbn [w_log]; rewrite <- !app_assoc; reflexivity|];
               split; [reflexivity|];
               split; [split; reflexivity|];
               split; [exact Hr|]
           end.
  all: try match goal with
           | Hs : is_success ?r = false |- context [if is_success ?r then _ else _] =>
               rewrite Hs; exact H
           end.
  all: try match goal with
           | Hq : raw_build_query _ _ _ = Some _ |- _ =>
               rewrite raw_build_query_spec in Hq;
               first [ injection Hq as <- <- | injection Hq as <- ]
           end.
  all: try match goal with
           | Hs : is_success ISC_R_SUCCESS = false |- _ => discriminate Hs
           end.
  all: try (cbn [is_success]; do 2 eexists; exact H).
  all: match goal with
           | H : cleanup _ _ _ (mk_world _ _ ?lg) = Some _ |- _ \/ _ =>
               left;
               apply cleanup_spec in H; [|reflexivity];
               let delta := fresh "delta" in
               destruct H as (-> & Hm & Hv & He & delta & Hl & Hd);
               split; [first [ reflexivity | assumption ]|];
               split; [repeat split; assumption|];
               let pre := suffix_of l lg in
               exists pre, delta;
               split; [rewrite Hl; cbn [w_log app]; rewrite <- ?app_assoc; reflexivity|];
               split; [reflexivity|]; split; [reflexivity|exact Hd]
           end.
Qed.

(** [dns_request_createvia] past the address family and blackhole tests,
    phase by phase. *)
Lemma createvia_inv (env : Env) (message : Z)
  (srcaddr : option isc_sockaddr_t) (destaddr : isc_sockaddr_t) (dscpv : Z)
  (options : options_t) (key : option Z) (timeout udptimeout udpretries : Z)
  (task action : Z) (w w' : world) (res : isc_result_t) :
  dns_request_createvia env (Some message) srcaddr (Some destaddr) dscpv options key
    timeout udptimeout udpretries (Some task) (Some action) (Some None) w
  = Some (res, w') ->
  same_family srcaddr destaddr = true ->
  isblackholed env destaddr = false ->
  exists udpt,
    derive_udptimeout timeout udptimeout udpretries = Some udpt /\
    ((is_success res = false /\ unadmitted w w' /\
      exists pre post,
        w_log w' = w_log w ++ pre ++ post /\
        forallb is_prep pre = true /\ filter is_addresponse pre = [] /\
        forallb is_release post = true)
     \/
     exists w0 w1 rres conn tcp sock,
       w_mgr w0 = w_mgr w /\
       w_log w0 = w_log w ++
                  [A_timer_create ISC_R_SUCCESS; A_event_allocate task;
                   A_task_attach task] /\
       requestmgr (w_req w0) = false /\
       via_use_tcp env options srcaddr destaddr dscpv w0
       = Some ((rres, conn, tcp, sock), w1) /\
       if is_success rres then
         (exists tres, is_success tres = false /\
                       cleanup true task tres w1 = Some (res, w'))
         \/
         (exists self qtsig,
            admit_and_start env self task tcp conn destaddr sock timeout udpt
              (mk_world (w_mgr w1) (with_tsig qtsig (w_req w1)) (w_log w1))
            = Some (res, w'))
       else cleanup true task rres w1 = Some (res, w')).
Proof.
  intros H Hfam Hbh. unfold dns_request_createvia in H.
  unfold allocate_request in H.
  destruct w as [m rq l].
  mexec H.
  all: try (unfold same_family in Hfam; cbn in Hfam; rewrite Hfam in *; discriminate).
  all: match goal with
       | Hd : derive_udptimeout _ _ _ = Some ?u |- _ =>
           exists u; split; [reflexivity|]
       end.
  all: repeat match goal with
              | Hs : negb (is_success ?r) = false |- _ =>
                  apply negb_false_iff in Hs; apply is_success_true in Hs; subst r
              | Hs : negb (is_success ?r) = true |- _ =>
                  apply negb_true_iff in Hs
              end.
  all: try match goal with
           | Hr : via_use_tcp _ _ _ _ _ ?w0 = Some ((?rres, ?conn, ?tcp, ?sock), ?w1) |- _ =>
               right; exists w0, w1, rres, conn, tcp, sock;
               split; [reflexivity|];
               split; [cbn [w_log]; rewrite <- !app_assoc; reflexivity|];
               split; [reflexivity|];
               split; [exact Hr|]
           end.
  all: try match goal with
           | Hs : is_success ?r = false |- context [if is_success ?r then _ else _] =>
               rewrite Hs; exact H
           end.
  all: try (cbn [is_success]; right; do 2 eexists; exact H).
  all: try (cbn [is_success]; left; eexists; split; [|exact H]; assumption).
  all: match goal with
       | H : cleanup _ _ _ (mk_world _ _ ?lg) = Some _ |- _ \/ _ =>
           left;
           apply cleanup_spec in H; [|reflexivity];
           let delta := fresh "delta" in
           destruct H as (-> & Hm & Hv & He & delta & Hl & Hd);
           split; [first [ reflexivity | assumption ]|];
           split; [repeat split; assumption|];
           let pre := suffix_of l lg in
           exists pre, delta;
           split; [rewrite Hl; cbn [w_log app]; rewrite <- ?app_assoc; reflexivity|];
           split; [reflexivity|]; split; [reflexivity|exact Hd]
       end.
Qed.

(** ** The blackhole and address family tests *)

Lemma createraw_blackholed (env : Env) (msgbuf : isc_buffer_t)
  (srcaddr : option isc_sockaddr_t) (destaddr : isc_sockaddr_t) (dscpv : Z)
  (options : options_t) (timeout udptimeout udpretries : Z) (task action : Z)
  (w w' : world) (res : isc_result_t) :
  isblackholed env destaddr = true ->
  dns_request_createraw env (Some msgbuf) srcaddr (Some destaddr) dscpv options
    timeout udptimeout udpretries (Some task) (Some action) (Some None) w
  = Some (res, w') ->
  res = DNS_R_BLACKHOLED /\ w' = w.
Proof.
  intros Hbh H. unfold dns_request_createraw in H. destruct w as [m rq l].
  mexec H. all: split; reflexivity.
Qed.

Lemma createvia_refused (env : Env) (message : Z)
  (srcaddr : option isc_sockaddr_t) (destaddr : isc_sockaddr_t) (dscpv : Z)
  (options : options_t) (key : option Z) (timeout udptimeout udpretries : Z)
  (task action : Z) (w w' : world) (res : isc_result_t) :
  same_family srcaddr destaddr && negb (isblackholed env destaddr) = false ->
  dns_request_createvia env (Some message) srcaddr (Some destaddr) dscpv options key
    timeout udptimeout udpretries (Some task) (Some action) (Some None) w
  = Some (res, w') ->
  res = (if same_family srcaddr destaddr then DNS_R_BLACKHOLED
         else ISC_R_FAMILYMISMATCH) /\ w' = w.
Proof.
  intros Hbh H. unfold dns_request_createvia in H. destruct w as [m rq l].
  unfold same_family in *.
  destruct srcaddr as [src|]; cbn [negb andb] in *.
  - destruct (pf_eqb (isc_sockaddr_pf src) (isc_sockaddr_pf destaddr)) eqn:Hpf;
      cbn [negb andb] in *.
    + apply negb_false_iff in Hbh. mexec H. split; reflexivity.
    + mexec H. split; reflexivity.
  - apply negb_false_iff in Hbh. mexec H. split; reflexivity.
Qed.

(** ** Creation while the manager is shutting down *)

Lemma app_inv_nil {A : Type} (l d : list A) : l = l ++ d -> d = [].
Proof.
  intros H. apply (app_inv_head l). rewrite app_nil_r. symmetry. exact H.
Qed.

Lemma frame_requestmgr (a b : dns_request_t) :
  b = with_query (query b) (with_dispentry (dispentry b) (with_dispatch (dispatch b) a)) ->
  requestmgr b = requestmgr a.
Proof. intros ->. reflexivity. Qed.

Lemma frame2_requestmgr (a b : dns_request_t) :
  b = with_dispentry (dispentry b) (with_dispatch (dispatch b) a) ->
  requestmgr b = requestmgr a.
Proof. intros ->. reflexivity. Qed.

(** What is left of a preparation that ended in [cleanup]. *)
Lemma cleanup_exiting (env : Env) (w w0 w1 w' : world) (task : Z)
  (r res : isc_result_t) (alloc loop : list action) :
  w_mgr w0 = w_mgr w -> w_log w0 = w_log w ++ alloc ->
  forallb is_prep alloc = true ->
  w_mgr w1 = w_mgr w0 -> w_log w1 = w_log w0 ++ loop ->
  forallb is_prep loop = true ->
  requestmgr (w_req w1) = false ->
  is_success r = false ->
  cleanup true task r w1 = Some (res, w') ->
  exiting_outcome w w' res.
Proof.
  intros Hm0 Hl0 Hp0 Hm1 Hl1 Hp1 Hrm Hr H.
  apply cleanup_spec in H; [|exact Hrm].
  destruct H as (-> & Hm & Hv & He & delta & Hl & Hd).
  split; [exact Hr|]. split; [congruence|].
  exists (alloc ++ loop ++ delta).
  split; [rewrite Hl, Hl1, Hl0; now rewrite <- !app_assoc|].
  split.
  - unfold completions. rewrite !filter_app.
    now rewrite (prep_no_completion _ Hp0), (prep_no_completion _ Hp1),
      (release_no_completion _ Hd).
  - rewrite !existsb_app.
    now rewrite (prep_no_lock _ Hp0), (prep_no_lock _ Hp1), (release_no_lock _ Hd).
Qed.

(** What is left when the registration block is reached. *)
Lemma admit_exiting_outcome (env : Env) (w w0 w1 w' : world) (self task : Z)
  (tcp conn : bool) (destaddr : isc_sockaddr_t) (sock : option Z)
  (timeout udpt : Z) (res : isc_result_t) (alloc loop : list action) :
  exiting (w_mgr w) = true ->
  w_mgr w0 = w_mgr w -> w_log w0 = w_log w ++ alloc ->
  forallb is_prep alloc = true ->
  w_mgr w1 = w_mgr w0 -> w_log w1 = w_log w0 ++ loop ->
  forallb is_prep loop = true ->
  requestmgr (w_req w1) = false ->
  admit_and_start env self task tcp conn destaddr sock timeout udpt w1 = Some (res, w') ->
  exiting_outcome w w' res.
Proof.
  intros Hex Hm0 Hl0 Hp0 Hm1 Hl1 Hp1 Hrm H.
  apply admit_exiting in H; [|congruence|exact Hrm].
  destruct H as (-> & Hm & Hv & He & delta & Hl & Hd).
  split; [reflexivity|]. split; [congruence|].
  exists (alloc ++ loop ++ A_lock_mgr :: A_unlock_mgr :: delta).
  split; [rewrite Hl, Hl1, Hl0; now rewrite <- !app_assoc|].
  split.
  - unfold completions. rewrite !filter_app. cbn [filter is_completion].
    now rewrite (prep_no_completion _ Hp0), (prep_no_completion _ Hp1),
      (release_no_completion _ Hd).
  - intros _. split; [reflexivity|]. split; [exact Hv|]. split; [exact He|].
    exists (alloc ++ loop), delta.
    split; [now rewrite <- !app_assoc|].
    split; [rewrite forallb_app; now rewrite Hp0, Hp1|exact Hd].
Qed.

Lemma createraw_exiting (env : Env) (msgbuf : isc_buffer_t)
  (srcaddr : option isc_sockaddr_t) (destaddr : isc_sockaddr_t) (dscpv : Z)
  (options : options_t) (timeout udptimeout udpretries : Z) (task action : Z)
  (w w' : world) (res : isc_result_t) :
  exiting (w_mgr w) = true ->
  dns_request_createraw env (Some msgbuf) srcaddr (Some destaddr) dscpv options
    timeout udptimeout udpretries (Some task) (Some action) (Some None) w
  = Some (res, w') ->
  exiting_outcome w w' res.
Proof.
  intros Hex H.
  destruct (isblackholed env destaddr) eqn:Hbh.
  - apply createraw_blackholed in H as (-> & ->); [|exact Hbh].
    split; [reflexivity|]. split; [reflexivity|].
    exists []. split; [now rewrite app_nil_r|]. split; [reflexivity|discriminate].
  - apply createraw_inv in H; [|exact Hbh]. cbn zeta in H.
    destruct H as (udpt & _ & [(Hf & (Hm & Hv & He) & pre & post & Hl & Hp & _ & Hd)
                              |(w0 & w1 & rres & conn & id & Hm0 & Hl0 & Hrm & _ & Hr & H)]).
    + split; [exact Hf|]. split; [exact Hm|].
      exists (pre ++ post). split; [exact Hl|]. split.
      * unfold completions. rewrite filter_app.
        now rewrite (prep_no_completion _ Hp), (release_no_completion _ Hd).
      * rewrite existsb_app.
        now rewrite (prep_no_lock _ Hp), (release_no_lock _ Hd).
    + apply raw_again_spec in Hr.
      destruct Hr as (Hm1 & Hreq & _ & loop & Hl1 & Hp1 & _).
      apply frame2_requestmgr in Hreq. rewrite Hrm in Hreq.
      destruct (is_success rres) eqn:Hs.
      * destruct H as (self & sock & H).
        match type of H with
        | admit_and_start _ _ _ _ _ _ _ _ _ ?x = _ =>
            eapply (admit_exiting_outcome env w w0 x)
        end; try eassumption; reflexivity.
      * eapply (cleanup_exiting env w w0 w1); try eassumption; reflexivity.
Qed.

Lemma createvia_exiting (env : Env) (message : Z)
  (srcaddr : option isc_sockaddr_t) (destaddr : isc_sockaddr_t) (dscpv : Z)
  (options : options_t) (key : option Z) (timeout udptimeout udpretries : Z)
  (task action : Z) (w w' : world) (res : isc_result_t) :
  exiting (w_mgr w) = true ->
  dns_request_createvia env (Some message) srcaddr (Some destaddr) dscpv options key
    timeout udptimeout udpretries (Some task) (Some action) (Some None) w
  = Some (res, w') ->
  exiting_outcome w w' res.
Proof.
  intros Hex H.
  destruct (same_family srcaddr destaddr && negb (isblackholed env destaddr)) eqn:Hbh.
  - apply andb_true_iff in Hbh as (Hfam & Hbh). apply negb_true_iff in Hbh.
    apply createvia_inv in H; [|exact Hfam|exact Hbh].
    destruct H as (udpt & _ & [(Hf & (Hm & Hv & He) & pre & post & Hl & Hp & _ & Hd)
                              |(w0 & w1 & rres & conn & tcp & sock & Hm0 & Hl0 & Hrm & Hr & H)]).
    + split; [exact Hf|]. split; [exact Hm|].
      exists (pre ++ post). split; [exact Hl|]. split.
      * unfold completions. rewrite filter_app.
        now rewrite (prep_no_completion _ Hp), (release_no_completion _ Hd).
      * rewrite existsb_app.
        now rewrite (prep_no_lock _ Hp), (release_no_lock _ Hd).
    + apply via_use_tcp_spec in Hr.
      destruct Hr as (Hm1 & Hreq & _ & loop & Hl1 & Hp1 & _).
      apply frame_requestmgr in Hreq. rewrite Hrm in Hreq.
      destruct (is_success rres) eqn:Hs.
      * destruct H as [(tres & Ht & H)|(self & qtsig & H)].
        -- eapply (cleanup_exiting env w w0 w1); try eassumption; reflexivity.
        -- eapply (admit_exiting_outcome env w w0
                     (mk_world (w_mgr w1) (with_tsig qtsig (w_req w1)) (w_log w1)));
             try eassumption; reflexivity.
      * eapply (cleanup_exiting env w w0 w1); try eassumption; reflexivity.
  - apply createvia_refused in H as (-> & ->); [|exact Hbh].
    split; [now destruct (same_family srcaddr destaddr)|]. split; [reflexivity|].
    exists []. split; [now rewrite app_nil_r|]. split; [reflexivity|discriminate].
Qed.

(** ** The trace only grows *)

Arguments send_shutdown_events : simpl never.

Lemma shutdown_loop_log (evs : list (Z * Z)) :
  forall w w',
    (fix loop (l : list (Z * Z)) : M unit :=
       match l with
       | [] => ret tt
       | (etask, ev) :: l' => emit (A_task_shutdown_event etask ev) ;; loop l'
       end) evs w = Some (tt, w') ->
    exists tail, w_log w' = w_log w ++ tail.
Proof.
  induction evs as [|[etask ev] evs IH]; intros w w' H.
  - injection H as <-. exists []. now rewrite app_nil_r.
  - unfold bind at 1 in H. unfold emit at 1 in H.
    apply IH in H. destruct H as (tail & ->). cbn [w_log].
    exists (A_task_shutdown_event etask ev :: tail). now rewrite <- app_assoc.
Qed.

Lemma send_shutdown_events_log (w w' : world) :
  send_shutdown_events w = Some (tt, w') ->
  exists tail, w_log w' = w_log w ++ tail.
Proof.
  unfold send_shutdown_events. unfold bind at 1 2. unfold get_mgr at 1.
  intros H.
  match type of H with
  | match ?X with _ => _ end = _ => destruct X as [[[] w1]|] eqn:Hloop; [|discriminate]
  end.
  apply shutdown_loop_log in Hloop. destruct Hloop as (tail & Hl).
  unfold modify_mgr, bind, get_mgr, put_mgr in H. injection H as <-.
  exists tail. exact Hl.
Qed.

Lemma requestmgr_detach_log (w w' : world) :
  requestmgr_detach w = Some (tt, w') ->
  exists tail, w_log w' = w_log w ++ tail.
Proof.
  intros H. unfold requestmgr_detach in H. destruct w as [m r l].
  mexec H.
  all: repeat match goal with
              | Hs : send_shutdown_events _ = Some (?u, _) |- _ =>
                  destruct u;
                  apply send_shutdown_events_log in Hs; destruct Hs as (? & Hs);
                  cbn [w_log] in Hs; rewrite Hs
              end.
  all: cbn [w_log]; rewrite <- ?app_assoc; eexists; reflexivity.
Qed.

Arguments requestmgr_detach : simpl never.

Lemma req_destroy_log (w w' : world) :
  req_destroy w = Some (tt, w') ->
  exists tail, w_log w' = w_log w ++ tail.
Proof.
  intros H. unfold req_destroy in H. destruct w as [m r l].
  destruct r as [mg hs fl q a ev d de t rm ts tk c da uc ds].
  mexec H.
  all: repeat match goal with
              | Hs : requestmgr_detach _ = Some (?u, _) |- _ =>
                  destruct u;
                  apply requestmgr_detach_log in Hs; destruct Hs as (? & Hs);
                  cbn [w_log] in Hs; rewrite Hs
              end.
  all: cbn [w_log]; rewrite <- ?app_assoc; eexists;
    first [reflexivity | symmetry; apply app_nil_r].
Qed.

Lemma cleanup_log (tclone : bool) (task : Z) (r res : isc_result_t) (w w' : world) :
  cleanup tclone task r w = Some (res, w') ->
  exists tail, w_log w' = w_log w ++ tail.
Proof.
  unfold cleanup, bind, ret. intros H.
  destruct (when tclone (emit (A_task_detach task)) w) as [[[] w1]|] eqn:H1; [|discriminate].
  destruct (req_destroy w1) as [[[] w2]|] eqn:H2; [|discriminate].
  injection H as _ <-.
  apply req_destroy_log in H2 as (t2 & ->).
  destruct tclone; unfold when, emit, ret in H1; injection H1 as <-; cbn [w_log].
  - rewrite <- app_assoc. eexists; reflexivity.
  - eexists; reflexivity.
Qed.

Lemma admit_log (env : Env) (self task : Z) (tcp connected : bool)
  (destaddr : isc_sockaddr_t) (sock : option Z) (timeout udptimeout : Z)
  (res : isc_result_t) (w w' : world) :
  admit_and_start env self task tcp connected destaddr sock timeout udptimeout w
  = Some (res, w') ->
  exists tail, w_log w' = w_log w ++ tail.
Proof.
  intros H. unfold admit_and_start, register_request, requestmgr_attach, mgr_gethash,
    set_timer, start_request, req_send, req_getsocket, unlink_request in H.
  destruct w as [m r l].
  destruct r as [mg hs fl q a ev d de t rm ts tk c da uc ds].
  destruct tcp, connected; mexec H.
  all: repeat match goal with
              | Hs : cleanup _ _ _ _ = Some (_, _) |- _ =>
                  apply cleanup_log in Hs; destruct Hs as (? & Hs);
                  cbn [w_log] in Hs; rewrite Hs
              end.
  all: cbn [w_log]; rewrite <- ?app_assoc; eexists; reflexivity.
Qed.

(** ** The UDP resend period *)

Lemma derive_udptimeout_given (timeout udptimeout udpretries : Z) :
  udptimeout <> 0 \/ udpretries = 0 ->
  derive_udptimeout timeout udptimeout udpretries = Some udptimeout.
Proof.
  unfold derive_udptimeout. intros [H| ->].
  - apply Z.eqb_neq in H. now rewrite H.
  - now rewrite andb_false_r.
Qed.

Lemma derive_udptimeout_divides (timeout udpretries : Z) :
  0 <= timeout -> 0 < udpretries < 4294967295 ->
  derive_udptimeout timeout 0 udpretries = Some (Z.max 1 (timeout / (udpretries + 1))).
Proof.
  intros Ht Hr. unfold derive_udptimeout, udiv, u32, UINT_MOD.
  assert (Hn : (udpretries =? 0) = false) by (apply Z.eqb_neq; lia).
  rewrite Hn. cbn [Z.eqb andb negb].
  rewrite (Z.mod_small (udpretries + 1)) by lia.
  assert (Hd : (udpretries + 1 =? 0) = false) by (apply Z.eqb_neq; lia).
  rewrite Hd.
  assert (Hq : 0 <= timeout / (udpretries + 1)) by (apply Z.div_pos; lia).
  destruct (Z.eqb_spec (timeout / (udpretries + 1)) 0) as [->|Hne].
  - reflexivity.
  - f_equal. lia.
Qed.

Lemma derive_udptimeout_wraps (timeout : Z) :
  derive_udptimeout timeout 0 4294967295 = None.
Proof. reflexivity. Qed.

(** C3. In both factories the resend period is the caller's [udptimeout]
    when that is nonzero (or when no retry is asked for); with
    [udptimeout = 0] and [0 < udpretries < UINT_MAX] it is
    [max (1, timeout / (udpretries + 1))]; a request that is created carries
    [udpretries] in [udpcount] and, on UDP, the period as the interval of
    its timer.  With [udpretries = UINT_MAX] the divisor [udpretries + 1]
    wraps to 0 in [unsigned int]: the division is undefined and neither
    factory returns. *)
Theorem derive_udptimeout_rule (timeout udptimeout udpretries : Z)
  (Htimeout : 0 <= timeout) (Hretries : 0 <= udpretries <= 4294967295) :
  (udptimeout <> 0 \/ udpretries = 0 ->
   derive_udptimeout timeout udptimeout udpretries = Some udptimeout) /\
  (udptimeout = 0 -> 0 < udpretries < 4294967295 ->
   derive_udptimeout timeout udptimeout udpretries
   = Some (Z.max 1 (timeout / (udpretries + 1)))) /\
  (udptimeout = 0 -> udpretries = 4294967295 ->
   derive_udptimeout timeout udptimeout udpretries = None) /\
  (forall (env : Env) (msgbuf : isc_buffer_t) (srcaddr : option isc_sockaddr_t)
          (destaddr : isc_sockaddr_t) (dscpv : Z) (options : options_t)
          (task action : Z) (w w' : world),
     dns_request_createraw env (Some msgbuf) srcaddr (Some destaddr) dscpv options
       timeout udptimeout udpretries (Some task) (Some action) (Some None) w
     = Some (ISC_R_SUCCESS, w') ->
     udpcount (w_req w') = udpretries /\
     exists udpt t ty expires,
       derive_udptimeout timeout udptimeout udpretries = Some udpt /\
       filter is_timer_reset (w_log w') = filter is_timer_reset (w_log w) ++
         [A_timer_reset t ty expires
            (if opt_tcp options
                || (512 <? Z.of_nat (length (isc_buffer_usedregion msgbuf)))
             then 0 else udpt) ISC_R_SUCCESS]) /\
  (forall (env : Env) (message : Z) (srcaddr : option isc_sockaddr_t)
          (destaddr : isc_sockaddr_t) (dscpv : Z) (options : options_t)
          (key : option Z) (task action : Z) (w w' : world),
     dns_request_createvia env (Some message) srcaddr (Some destaddr) dscpv options key
       timeout udptimeout udpretries (Some task) (Some action) (Some None) w
     = Some (ISC_R_SUCCESS, w') ->
     udpcount (w_req w') = udpretries /\
     exists udpt (tcp : bool) t ty expires,
       derive_udptimeout timeout udptimeout udpretries = Some udpt /\
       filter is_timer_reset (w_log w') = filter is_timer_reset (w_log w) ++
         [A_timer_reset t ty expires (if tcp then 0 else udpt) ISC_R_SUCCESS]) /\
  (udptimeout = 0 -> udpretries = 4294967295 ->
   forall (env : Env) (msgbuf : isc_buffer_t) (message : Z)
          (srcaddr : option isc_sockaddr_t) (destaddr : isc_sockaddr_t) (dscpv : Z)
          (options : options_t) (key : option Z) (task action : Z) (w : world),
     same_family srcaddr destaddr = true ->
     isblackholed env destaddr = false ->
     dns_request_createraw env (Some msgbuf) srcaddr (Some destaddr) dscpv options
       timeout udptimeout udpretries (Some task) (Some action) (Some None) w = None /\
     dns_request_createvia env (Some message) srcaddr (Some destaddr) dscpv options key
       timeout udptimeout udpretries (Some task) (Some action) (Some None) w = None).
Proof.
  split; [apply derive_udptimeout_given|].
  split; [intros ->; now apply derive_udptimeout_divides|].
  split; [intros -> ->; apply derive_udptimeout_wraps|].
  split; [|split].
  - intros env msgbuf srcaddr destaddr dscpv options task action w w' H.
    apply createraw_success in H. cbn zeta in H.
    destruct H as (udpt & id & conn & delta & t & expires & start & Hd & _ & Hp & _ &
                   Hl & _ & _ & _ & Hu & _ & _ & Hstart).
    split; [exact Hu|].
    do 2 eexists. exists (timer_type_for
      (if opt_tcp options || (512 <? Z.of_nat (length (isc_buffer_usedregion msgbuf)))
       then 0 else udpt)), expires. split; [exact Hd|].
    rewrite Hl, !filter_app, (prep_no_timer_reset _ Hp).
    destruct (_ && negb conn).
    + destruct Hstart as (sock & ->). reflexivity.
    + destruct Hstart as (sock & q & _ & ->). reflexivity.
  - intros env message srcaddr destaddr dscpv options key task action w w' H.
    apply createvia_success in H.
    destruct H as (udpt & conn & tcp & delta & t & expires & start & rendered & h & id &
                   Hd & _ & Hp & _ & Hl & _ & _ & _ & _ & _ & Hu & _ & _ & Hstart).
    split; [exact Hu|].
    exists udpt, tcp, t, (timer_type_for (if tcp then 0 else udpt)), expires.
    split; [exact Hd|].
    rewrite Hl, !filter_app, (prep_no_timer_reset _ Hp).
    destruct (_ && negb conn).
    + destruct Hstart as (sock & ->). reflexivity.
    + destruct Hstart as (sock & q & _ & ->). reflexivity.
  - intros -> -> env msgbuf message srcaddr destaddr dscpv options key task action w
      Hfam Hbh.
    split.
    + destruct (dns_request_createraw _ _ _ _ _ _ _ _ _ _ _ _ _) as [[res w']|] eqn:H;
        [|reflexivity].
      apply createraw_inv in H; [|exact Hbh].
      destruct H as (udpt & Hd & _). discriminate Hd.
    + destruct (dns_request_createvia _ _ _ _ _ _ _ _ _ _ _ _ _ _) as [[res w']|] eqn:H;
        [|reflexivity].
      apply createvia_inv in H; [|exact Hfam|exact Hbh].
      destruct H as (udpt & Hd & _). discriminate Hd.
Qed.

Lemma derive_udptimeout_rule_witness :
  derive_udptimeout 30 0 3 = Some 7 /\
  dns_request_createraw env_ok (Some msgbuf_query) None (Some addr_server) (-1)
    opts_none 30 0 4294967295 (Some 100) (Some 200) (Some None) world_idle = None.
Proof.
  split.
  - apply (proj1 (proj2 (derive_udptimeout_rule 30 0 3 ltac:(lia) ltac:(lia))));
      [reflexivity|lia].
  - apply (proj2 (proj2 (proj2 (proj2 (proj2
      (derive_udptimeout_rule 30 0 4294967295 ltac:(lia) ltac:(lia)))))) eq_refl eq_refl
      env_ok msgbuf_query 1 None addr_server (-1) opts_none None 100 200 world_idle
      eq_refl eq_refl).
Defined.

(** ** Blackholed destinations *)



(** ** Registration while the manager is shutting down *)

Lemma register_request_block (self : Z) (w w' : world) (res : isc_result_t) :
  register_request self w = Some (res, w') ->
  w_log w' = w_log w ++ [A_lock_mgr; A_unlock_mgr] /\
  if exiting (w_mgr w)
  then res = ISC_R_SHUTTINGDOWN /\ w_mgr w' = w_mgr w /\ w_req w' = w_req w
  else res = ISC_R_SUCCESS /\
       iref (w_mgr w') = iref (w_mgr w) + 1 /\
       requests (w_mgr w') = requests (w_mgr w) ++ [self] /\
       mgr_hash (w_mgr w') = u32 (mgr_hash (w_mgr w) + 1) /\
       req_hash (w_req w') = mgr_hash (w_mgr w') mod DNS_REQUEST_NLOCKS /\
       requestmgr (w_req w') = true.
Proof.
  intros H. unfold register_request, requestmgr_attach, mgr_gethash in H.
  destruct w as [m r l]. destruct m as [mm er ir d4 d6 ex ws mh rqs].
  cbn [w_mgr exiting]. destruct ex; mexec H; cbn.
  - rewrite <- app_assoc. repeat split; reflexivity.
  - rewrite <- app_assoc. repeat split; reflexivity.
Qed.

(** C9. The registration block of both factories runs between the taking
    and the release of the manager lock, and in it the test of [exiting],
    the increment of [iref], the shard assignment and the linking happen
    together or not at all.  When the manager is exiting, a factory that
    reaches the block returns ISC_R_SHUTTINGDOWN; the manager (its list of
    requests and [iref] included) is unchanged, the request is destroyed
    with its event freed, and no completion event is sent, neither by the
    factory nor by anything run on the request afterwards. *)
Theorem exiting_refuses_registration (env : Env) (msgbuf : isc_buffer_t) (message : Z)
  (srcaddr : option isc_sockaddr_t) (destaddr : isc_sockaddr_t) (dscpv : Z)
  (options : options_t) (key : option Z) (timeout udptimeout udpretries : Z)
  (task action : Z) (w : world)
  (Hexiting : exiting (w_mgr w) = true) :
  (forall w' res,
     dns_request_createraw env (Some msgbuf) srcaddr (Some destaddr) dscpv options
       timeout udptimeout udpretries (Some task) (Some action) (Some None) w
     = Some (res, w') ->
     exiting_outcome w w' res /\
     (event (w_req w') = None ->
      forall es w'', run env es w' = Some (tt, w'') ->
                     completions (w_log w'') = completions (w_log w'))) /\
  (forall w' res,
     dns_request_createvia env (Some message) srcaddr (Some destaddr) dscpv options key
       timeout udptimeout udpretries (Some task) (Some action) (Some None) w
     = Some (res, w') ->
     exiting_outcome w w' res /\
     (event (w_req w') = None ->
      forall es w'', run env es w' = Some (tt, w'') ->
                     completions (w_log w'') = completions (w_log w'))) /\
  (forall self v v' res,
     register_request self v = Some (res, v') ->
     w_log v' = w_log v ++ [A_lock_mgr; A_unlock_mgr] /\
     if exiting (w_mgr v)
     then res = ISC_R_SHUTTINGDOWN /\ w_mgr v' = w_mgr v /\ w_req v' = w_req v
     else res = ISC_R_SUCCESS /\
          iref (w_mgr v') = iref (w_mgr v) + 1 /\
          requests (w_mgr v') = requests (w_mgr v) ++ [self] /\
          mgr_hash (w_mgr v') = u32 (mgr_hash (w_mgr v) + 1) /\
          req_hash (w_req v') = mgr_hash (w_mgr v') mod DNS_REQUEST_NLOCKS /\
          requestmgr (w_req v') = true).
Proof.
  split; [|split].
  - intros w' res H. split.
    + now apply (createraw_exiting env) in H.
    + intros Hev es w'' Hrun. now apply (run_completions_none env es w' w'' Hev).
  - intros w' res H. split.
    + now apply (createvia_exiting env) in H.
    + intros Hev es w'' Hrun. now apply (run_completions_none env es w' w'' Hev).
  - intros self v v' res H. now apply register_request_block.
Qed.

Lemma exiting_refuses_registration_witness :
  exists w',
    dns_request_createraw env_ok (Some msgbuf_query) None (Some addr_server) (-1)
      opts_tcp 30 0 3 (Some 100) (Some 200) (Some None) world_exiting
    = Some (ISC_R_SHUTTINGDOWN, w') /\
    exiting_outcome world_exiting w' ISC_R_SHUTTINGDOWN.
Proof.
  eexists. split; [vm_compute; reflexivity|].
  refine (proj1 (proj1 (exiting_refuses_registration env_ok msgbuf_query 1 None
                          addr_server (-1) opts_tcp None 30 0 3 100 200 world_exiting
                          eq_refl) _ _ _)).
  vm_compute. reflexivity.
Defined.

(** ** The TCP flag *)

Lemma usedtcp_stable (env : Env) (es : list req_event) (w w' : world) :
  run env es w = Some (tt, w') ->
  dns_request_usedtcp (w_req w') = dns_request_usedtcp (w_req w).
Proof.
  intros H. apply run_keeps_tcp_flag in H as (Hm & Hf).
  unfold dns_request_usedtcp, VALID_REQUEST. now rewrite Hm, Hf.
Qed.

Lemma usedtcp_of_flags (r : dns_request_t) (sel : bool) :
  magic r = REQUEST_MAGIC ->
  flags r = (if sel then Z.lor DNS_REQUEST_F_CONNECTING DNS_REQUEST_F_TCP
             else DNS_REQUEST_F_SENDING) ->
  dns_request_usedtcp r = Some sel.
Proof.
  intros Hm Hf. unfold dns_request_usedtcp, VALID_REQUEST. rewrite Hm, Hf.
  now destruct sel.
Qed.

(** C10. Both factories set DNS_REQUEST_F_TCP only together with the
    connect they issue.  A request created over TCP on a dispatch that
    [dns_dispatch_gettcp] returned as connected (and that was not replaced
    by a new connection) starts with a send on the connected socket, of a
    query that carries the TCP length prefix, and [dns_request_usedtcp]
    answers false for it then and after every later event. *)
Theorem usedtcp_false_on_connected_dispatch (env : Env) (msgbuf : isc_buffer_t)
  (message : Z) (srcaddr : option isc_sockaddr_t) (destaddr : isc_sockaddr_t)
  (dscpv : Z) (options : options_t) (key : option Z)
  (timeout udptimeout udpretries : Z) (task action : Z) (w : world) :
  (forall w',
     dns_request_createraw env (Some msgbuf) srcaddr (Some destaddr) dscpv options
       timeout udptimeout udpretries (Some task) (Some action) (Some None) w
     = Some (ISC_R_SUCCESS, w') ->
     let len := Z.of_nat (length (isc_buffer_usedregion msgbuf)) in
     let tcp := opt_tcp options || (512 <? len) in
     exists delta t ty expires interval start,
       w_log w' = w_log w ++ delta ++
                  [A_lock_mgr; A_unlock_mgr;
                   A_timer_reset t ty expires interval ISC_R_SUCCESS; start] /\
       forallb is_prep delta = true /\
       let conn := existsb is_attach_connected delta
                   && negb (existsb is_socket_create delta) && tcp in
       is_connect start = tcp && negb conn /\
       dns_request_usedtcp (w_req w') = Some (is_connect start) /\
       (conn = true ->
        (exists sock q rest,
           query (w_req w') = Some q /\
           isc_buffer_usedregion q = tcp_length_prefix len ++ rest /\
           start = A_socket_sendto sock (isc_buffer_usedregion q) None
                     (if dscpv =? -1 then None else Some dscpv)) /\
        forall es w'', run env es w' = Some (tt, w'') ->
                       dns_request_usedtcp (w_req w'') = Some false)) /\
  (forall w',
     dns_request_createvia env (Some message) srcaddr (Some destaddr) dscpv options key
       timeout udptimeout udpretries (Some task) (Some action) (Some None) w
     = Some (ISC_R_SUCCESS, w') ->
     exists (tcp : bool) delta t ty expires interval start,
       w_log w' = w_log w ++ delta ++
                  [A_lock_mgr; A_unlock_mgr;
                   A_timer_reset t ty expires interval ISC_R_SUCCESS; start] /\
       forallb is_prep delta = true /\
       (opt_tcp options = true -> tcp = true) /\
       let conn := existsb is_attach_connected delta
                   && negb (existsb is_socket_create delta) && tcp in
       is_connect start = tcp && negb conn /\
       dns_request_usedtcp (w_req w') = Some (is_connect start) /\
       (conn = true ->
        (exists sock q rendered,
           query (w_req w') = Some q /\
           isc_buffer_usedregion q
           = tcp_length_prefix (Z.of_nat (length rendered)) ++ rendered /\
           start = A_socket_sendto sock (isc_buffer_usedregion q) None
                     (if dscpv =? -1 then None else Some dscpv)) /\
        forall es w'', run env es w' = Some (tt, w'') ->
                       dns_request_usedtcp (w_req w'') = Some false)).
Proof.
  split.
  - intros w' H len tcp.
    apply createraw_success in H. cbn zeta in H. fold len tcp in H.
    destruct H as (udpt & id & conn & delta & t & expires & start & _ & _ & Hp & Hc &
                   Hl & _ & Hq & _ & _ & Hm & Hf & Hstart).
    exists delta. do 4 eexists. exists start.
    split; [exact Hl|]. split; [exact Hp|]. cbn zeta. rewrite <- Hc.
    pose proof (usedtcp_of_flags _ _ Hm Hf) as Hu.
    destruct (tcp && negb conn) eqn:Hsel.
    + destruct Hstart as (sock & ->). cbn [is_connect].
      split; [reflexivity|]. split; [exact Hu|].
      intros ->. rewrite andb_false_r in Hsel. discriminate.
    + destruct Hstart as (sock & q & Hq' & ->). cbn [is_connect].
      split; [reflexivity|]. split; [exact Hu|].
      intros ->.
      assert (Ht : tcp = true) by (now destruct tcp; rewrite ?andb_false_r in Hc).
      split.
      * rewrite Hq in Hq'. injection Hq' as <-. rewrite Ht in *.
        do 3 eexists. split; [exact Hq|]. split; reflexivity.
      * intros es w'' Hrun. rewrite (usedtcp_stable env es w' w'' Hrun). exact Hu.
  - intros w' H.
    apply createvia_success in H.
    destruct H as (udpt & conn & tcp & delta & t & expires & start & rendered & h & id &
                   _ & Ht & Hp & Hc & Hl & _ & _ & _ & _ & Hq & _ & Hm & Hf & Hstart).
    exists tcp, delta. do 4 eexists. exists start.
    split; [exact Hl|]. split; [exact Hp|]. split; [exact Ht|]. cbn zeta. rewrite <- Hc.
    pose proof (usedtcp_of_flags _ _ Hm Hf) as Hu.
    destruct (tcp && negb conn) eqn:Hsel.
    + destruct Hstart as (sock & ->). cbn [is_connect].
      split; [reflexivity|]. split; [exact Hu|].
      intros ->. rewrite andb_false_r in Hsel. discriminate.
    + destruct Hstart as (sock & q & Hq' & ->). cbn [is_connect].
      split; [reflexivity|]. split; [exact Hu|].
      intros ->.
      assert (Htcp : tcp = true) by (now destruct tcp; rewrite ?andb_false_r in Hc).
      split.
      * rewrite Hq in Hq'. injection Hq' as <-. rewrite Htcp in *.
        do 3 eexists. split; [exact Hq|]. split; reflexivity.
      * intros es w'' Hrun. rewrite (usedtcp_stable env es w' w'' Hrun). exact Hu.
Qed.

Lemma usedtcp_false_on_connected_dispatch_witness :
  exists w' start,
    dns_request_createraw env_ok (Some msgbuf_query) None (Some addr_server) (-1)
      opts_tcp_share 30 0 3 (Some 100) (Some 200) (Some None) world_idle
    = Some (ISC_R_SUCCESS, w') /\
    dns_request_usedtcp (w_req w') = Some (is_connect start) /\
    dns_request_usedtcp (w_req w') = Some false /\
    exists q, query (w_req w') = Some q /\
              firstn 2 (isc_buffer_usedregion q) = [0; 28].
Proof.
  eexists.
  match goal with
  | |- exists start, _ = Some (_, ?x) /\ _ =>
      destruct (proj1 (usedtcp_false_on_connected_dispatch env_ok msgbuf_query 1 None
                         addr_server (-1) opts_tcp_share None 30 0 3 100 200
                         world_idle) x ltac:(vm_compute; reflexivity))
        as (delta & t & ty & expires & interval & start & _ & _ & _ & Hu & _)
  end.
  exists start.
  split; [reflexivity|]. split; [exact Hu|]. split; [reflexivity|].
  eexists. split; reflexivity.
Defined.

(** ** The query buffer *)

Lemma raw_again_last (env : Env) (options : options_t) (tcp share : bool)
  (srcaddr : option isc_sockaddr_t) (destaddr : isc_sockaddr_t) (dscpv : Z)
  (r : list Z) (w w' : world) (conn : bool) (id : Z) :
  raw_again env options tcp share srcaddr destaddr dscpv r w
  = Some ((ISC_R_SUCCESS, conn, id), w') ->
  exists pre d,
    w_log w' = w_log w ++ pre ++
               [A_dispatch_addresponse d (opt_fixedid options) ISC_R_SUCCESS id].
Proof.
  intros H. apply raw_again_spec in H.
  destruct H as (_ & _ & _ & delta & Hl & _ & _ & Hshape).
  destruct Hshape as [(_ & Hf)|(gd1 & d1 & r1 & id1 & post & -> & _ & Hif)];
    [discriminate|].
  destruct (is_success r1) eqn:Hr1.
  - destruct Hif as (-> & <- & <-). exists gd1, d1. exact Hl.
  - destruct (opt_fixedid options).
    + destruct Hif as (rest & -> & _ & _ & _ & [(_ & Hf)|(gd2 & d2 & r2 & id2 & -> & _ & <- & Hid)]);
        [discriminate|].
      rewrite (Hid eq_refl).
      exists (gd1 ++ A_dispatch_addresponse d1 true r1 id1 :: A_dispatch_detach d1 :: gd2), d2.
      rewrite Hl. rewrite <- !app_assoc. reflexivity.
    + destruct Hif as (_ & <-). discriminate.
Qed.

Lemma tcp_length_prefix_bytes (len : Z) :
  0 <= len <= 65535 -> tcp_length_prefix len = [len / 256; len mod 256].
Proof.
  intros H. unfold tcp_length_prefix, u8, u16.
  rewrite (Z.mod_small len 65536) by lia.
  rewrite Z.shiftr_div_pow2 by lia. change (2 ^ 8) with 256.
  rewrite (Z.mod_small (len / 256) 256); [reflexivity|].
  split; [apply Z.div_pos; lia|apply Z.div_lt_upper_bound; lia].
Qed.

Lemma poke2_head (a b : Z) (r : list Z) :
  (2 <= length r)%nat -> poke2 0 a b r = a :: b :: skipn 2 r.
Proof. destruct r as [|x [|y r]]; cbn; intros H; [lia|lia|reflexivity]. Qed.

Lemma req_send_buffer (env : Env) (address : option isc_sockaddr_t) (w w' : world) :
  req_send env address w = Some (ISC_R_SUCCESS, w') ->
  exists sock q,
    query (w_req w) = Some q /\
    query (w_req w') = Some q /\
    w_log w' = w_log w ++
               [A_socket_sendto sock (isc_buffer_usedregion q) address
                  (if dscp (w_req w) =? -1 then None else Some (dscp (w_req w)))].
Proof.
  intros H. unfold req_send, req_getsocket in H. destruct w as [m r l].
  destruct r as [mg hs fl q a ev d de t rm ts tk c da uc ds].
  mexec H.
  all: do 2 eexists; repeat split; reflexivity.
Qed.

(** The id that [dns_request_createraw] stores in the query is the one of
    the response slot it registered. *)
Lemma createraw_assigned_id (env : Env) (msgbuf : isc_buffer_t)
  (srcaddr : option isc_sockaddr_t) (destaddr : isc_sockaddr_t) (dscpv : Z)
  (options : options_t) (timeout udptimeout udpretries : Z) (task action : Z)
  (w w' : world) :
  dns_request_createraw env (Some msgbuf) srcaddr (Some destaddr) dscpv options
    timeout udptimeout udpretries (Some task) (Some action) (Some None) w
  = Some (ISC_R_SUCCESS, w') ->
  let r := isc_buffer_usedregion msgbuf in
  let len := Z.of_nat (length r) in
  let tcp := opt_tcp options || (512 <? len) in
  exists id pre d post,
    w_log w' = w_log w ++ pre ++
               A_dispatch_addresponse d (opt_fixedid options) ISC_R_SUCCESS id :: post /\
    filter is_addresponse post = [] /\
    query (w_req w') =
      Some (mk_buffer (len + (if tcp then 2 else 0))
              ((if tcp then tcp_length_prefix len else []) ++
               poke2 0 (Z.land (Z.shiftr id 8) 0xff) (Z.land id 0xff) r)).
Proof.
  intros H r len tcp.
  destruct (isblackholed env destaddr) eqn:Hbh;
    [apply createraw_blackholed in H as (Hr & _); [discriminate|exact Hbh]|].
  apply createraw_inv in H; [|exact Hbh]. cbn zeta in H. fold r len tcp in H.
  destruct H as (udpt & _ & [(Hf & _)|(w0 & w1 & rres & conn & id & Hm0 & Hl0 & Hrm & _ & Hr & H)]);
    [discriminate|].
  destruct (is_success rres) eqn:Hs;
    [|apply cleanup_result in H; subst rres; discriminate].
  apply is_success_true in Hs. subst rres.
  pose proof (raw_again_last _ _ _ _ _ _ _ _ _ _ _ _ Hr) as (pre & d & Hl1).
  destruct H as (self & sock & H).
  apply admit_success in H. cbn zeta in H.
  destruct H as (_ & _ & t & expires & start & _ & _ & Hl & Hstart).
  cbn [w_log w_req] in *.
  exists id, ([A_timer_create ISC_R_SUCCESS; A_event_allocate task; A_task_attach task]
                ++ pre), d.
  eexists. split; [rewrite Hl, Hl1, Hl0; rewrite <- !app_assoc; reflexivity|].
  destruct (tcp && negb conn).
  - destruct Hstart as (-> & ->). split; reflexivity.
  - destruct Hstart as (sk & q & _ & -> & ->). split; reflexivity.
Qed.

Lemma sends_of_start (start : action) (q : isc_buffer_t) (sel conn : bool)
  (destaddr : isc_sockaddr_t) (dscpv : Z) (qq : option isc_buffer_t) :
  qq = Some q ->
  (if sel
   then exists sock, start = A_socket_connect sock destaddr ISC_R_SUCCESS
   else exists sock q',
       qq = Some q' /\
       start = A_socket_sendto sock (isc_buffer_usedregion q')
                 (if conn then None else Some destaddr)
                 (if dscpv =? -1 then None else Some dscpv)) ->
  forall a, In a (filter is_sendto [start]) ->
            exists sock addr d, a = A_socket_sendto sock (isc_buffer_usedregion q) addr d.
Proof.
  intros Hq Hstart a Ha. destruct sel.
  - destruct Hstart as (sock & ->). destruct Ha.
  - destruct Hstart as (sock & q' & Hq' & ->). rewrite Hq in Hq'. injection Hq' as <-.
    destruct Ha as [<-|[]]. eauto.
Qed.

(** ** The transport chosen by [dns_request_createvia] *)

(** What [req_render] returns depends on the trace so far only. *)
Lemma req_render_renders (env : Env) (id : Z) (options : options_t)
  (res : isc_result_t) (w w' : world) :
  req_render env id options w = Some (res, w') ->
  renders env options (w_log w) id res.
Proof.
  intros H v Hl Hq. unfold req_render in *.
  destruct w as [m r l]. destruct v as [m2 r2 l2]. cbn [w_log w_req] in Hl, Hq. subst l2.
  unfold isc_buffer_putuint16, isc_buffer_copyregion, isc_buffer_allocate,
    isc_buffer_availablelength in *.
  cbn in H. destruct (query r); [mexec H|].
  unfold bind, ret, get_req, get_log, require, emit, modify_req, abort.
  cbn [w_req w_log w_mgr]. rewrite Hq. cbn [is_some negb].
  mexec H.
  all: cbn in *;
    repeat match goal with
           | Hx : ?X = _ |- context [?X] => rewrite Hx; cbn
           end;
    eexists; reflexivity.
Qed.

Lemma req_render_success (env : Env) (id : Z) (options : options_t) (w w' : world) :
  req_render env id options w = Some (ISC_R_SUCCESS, w') ->
  exists rendered,
    e_render env (w_log w) id (opt_case options) = (ISC_R_SUCCESS, rendered) /\
    w_log w' = w_log w ++ [A_message_render id ISC_R_SUCCESS] /\
    query (w_req w') =
      Some (mk_buffer
              (Z.of_nat (length rendered) + (if opt_tcp options then 2 else 0))
              ((if opt_tcp options
                then tcp_length_prefix (Z.of_nat (length rendered)) else []) ++
               rendered)) /\
    Z.of_nat (length rendered) <= 65535 /\
    (opt_tcp options = false -> Z.of_nat (length rendered) <= 512).
Proof.
  intros H.
  pose proof (req_render_spec _ _ _ _ _ _ H) as (_ & _ & _ & _ & Hok & _).
  destruct (Hok eq_refl) as (rendered0 & Hre0 & Hlen0 & H5120 & _). clear Hok.
  unfold req_render in H. destruct w as [m r l].
  destruct r as [mg hs fl q a ev d de t rm ts tk c da uc ds].
  unfold isc_buffer_putuint16, isc_buffer_copyregion, isc_buffer_allocate,
    isc_buffer_availablelength in H.
  cbn in H.
  destruct q; [mexec H|].
  mexec H.
  all: cbn [w_log w_req w_mgr query with_query] in *.
  all: try match goal with
           | Hx : ?X = ISC_R_SUCCESS |- _ => rewrite Hx in *; cbn in *; discriminate
           end.
  all: use_bools; use_success.
  all: try match goal with
           | Hx : is_success ISC_R_SUCCESS = false |- _ => discriminate Hx
           end.
  all: cbn [w_log] in Hre0.
  all: match goal with
       | Hp : e_render _ _ _ _ = _, Hq : e_render _ _ _ _ = _ |- _ =>
           rewrite Hp in Hq; injection Hq as <-
       end.
  all: eexists; split; [eassumption|]; split; [reflexivity|]; split; [reflexivity|].
  all: split; assumption.
Qed.

(** One pass through the label [use_tcp] that registers a response slot
    and renders the message: either the rendering gave DNS_R_USETCP without
    DNS_REQUESTOPT_TCP and the slot is given up, or the pass succeeded. *)
Lemma via_pass_renders (env : Env) (options : options_t) (settsigkey : bool)
  (srcaddr : option isc_sockaddr_t) (destaddr : isc_sockaddr_t) (dscpv : Z)
  (conn_in : bool) (w w' : world)
  (res : isc_result_t) (conn tcp : bool) (sock : option Z) (again : bool) :
  via_pass env options settsigkey srcaddr destaddr dscpv conn_in w
  = Some ((res, conn, tcp, sock, again), w') ->
  again = true \/ is_success res = true ->
  exists gd d id rres mid,
    w_log w' = w_log w ++ gd ++ A_dispatch_addresponse d false ISC_R_SUCCESS id :: mid /\
    filter is_addresponse gd = [] /\
    filter is_addresponse mid = [] /\
    forallb is_prep gd = true /\
    forallb is_prep mid = true /\
    renders env options
      (w_log w ++ gd ++ [A_dispatch_addresponse d false ISC_R_SUCCESS id]) id rres /\
    again = is_usetcp rres && negb (opt_tcp options) /\
    (again = false ->
     rres = ISC_R_SUCCESS /\ mid = [A_message_render id ISC_R_SUCCESS] /\
     exists rendered,
       e_render env (w_log w ++ gd ++ [A_dispatch_addresponse d false ISC_R_SUCCESS id])
         id (opt_case options) = (ISC_R_SUCCESS, rendered) /\
       query (w_req w') =
         Some (mk_buffer
                 (Z.of_nat (length rendered) + (if opt_tcp options then 2 else 0))
                 ((if opt_tcp options
                   then tcp_length_prefix (Z.of_nat (length rendered)) else []) ++
                  rendered)) /\
       Z.of_nat (length rendered) <= 65535 /\
       (opt_tcp options = false -> Z.of_nat (length rendered) <= 512)).
Proof.
  intros H Hcase. unfold via_pass, req_getsocket in H. destruct w as [m rq l].
  mexec H; use_get_dispatch.
  all: rewrite ?negb_true_iff, ?negb_false_iff in *.
  all: try solve [ destruct Hcase as [Hcase|Hcase]; [discriminate Hcase|congruence] ].
  all: match goal with
       | Hr : req_render _ _ _ _ = Some _ |- _ =>
           pose proof (req_render_renders _ _ _ _ _ _ Hr) as Hren;
           pose proof (req_render_spec _ _ _ _ _ _ Hr)
             as (_ & _ & _ & (rd & Hrl & Hrp & Hrna & _) & _)
       end.
  all: use_success.
  all: cbn [w_log w_req w_mgr] in *.
  all: match goal with
       | Hr : req_render _ ?z _ _ = Some (?rr, _), Hd : dispatch _ = Some ?d |- _ =>
           exists gd, (disp_id d), z, rr
       end.
  all: rewrite Hlog, <- app_assoc in Hren; cbn [app] in Hren.
  all: lazymatch goal with
       | |- exists mid, _ /\ _ /\ _ /\ _ /\ _ /\ _ /\ true = _ /\ _ =>
           match goal with
           | |- context [A_dispatch_removeresponse ?e] =>
               exists (rd ++ [A_message_renderreset; A_dispatch_removeresponse e;
                              A_dispatch_detach (disp_id d)])
           end;
           split; [rewrite Hrl, Hlog; rewrite <- ?app_assoc; reflexivity|];
           split; [exact Hnoadd|];
           split; [rewrite filter_app, Hrna; reflexivity|];
           split; [exact Hprep|];
           split; [rewrite forallb_app, Hrp; reflexivity|];
           split; [rewrite <- ?app_assoc; exact Hren|];
           split; [symmetry; assumption|];
           intros Hx; discriminate Hx
       | |- exists mid, _ /\ _ /\ _ /\ _ /\ _ /\ _ /\ false = _ /\ _ =>
           destruct Hcase as [Hcase|Hcase]; [discriminate Hcase|];
           apply is_success_true in Hcase; subst;
           match goal with
           | Hr : req_render _ _ _ _ = Some (ISC_R_SUCCESS, _) |- _ =>
               destruct (req_render_success _ _ _ _ _ Hr)
                 as (rendered & Hre & Hl & Hq & Hbound)
           end;
           cbn [w_log w_req w_mgr] in *;
           exists [A_message_render z ISC_R_SUCCESS];
           split; [rewrite Hl, Hlog; rewrite <- ?app_assoc; reflexivity|];
           split; [exact Hnoadd|];
           split; [reflexivity|];
           split; [exact Hprep|];
           split; [reflexivity|];
           split; [rewrite <- ?app_assoc; exact Hren|];
           split; [symmetry; assumption|];
           intros _; split; [reflexivity|]; split; [reflexivity|];
           exists rendered; split; [|split; [exact Hq|exact Hbound]];
           rewrite Hlog, <- ?app_assoc in Hre; rewrite <- ?app_assoc; exact Hre
       end.
Qed.

(** The loop at [use_tcp], when it succeeds: TCP is used when it was asked
    for or when the first rendering gave DNS_R_USETCP; the query buffer
    holds the message as rendered for the response slot registered last. *)
Lemma via_use_tcp_renders (env : Env) (options : options_t)
  (srcaddr : option isc_sockaddr_t) (destaddr : isc_sockaddr_t) (dscpv : Z)
  (w w' : world) (conn tcp : bool) (sock : option Z) :
  via_use_tcp env options srcaddr destaddr dscpv w
  = Some ((ISC_R_SUCCESS, conn, tcp, sock), w') ->
  exists pre1 d1 id1 post1 res1 pre d id rendered,
    w_log w' = w_log w ++ pre1 ++
               A_dispatch_addresponse d1 false ISC_R_SUCCESS id1 :: post1 /\
    filter is_addresponse pre1 = [] /\
    renders env options
      (w_log w ++ pre1 ++ [A_dispatch_addresponse d1 false ISC_R_SUCCESS id1])
      id1 res1 /\
    tcp = opt_tcp options || is_usetcp res1 /\
    w_log w' = w_log w ++ pre ++
               [A_dispatch_addresponse d false ISC_R_SUCCESS id;
                A_message_render id ISC_R_SUCCESS] /\
    forallb is_prep pre = true /\
    e_render env (w_log w ++ pre ++ [A_dispatch_addresponse d false ISC_R_SUCCESS id])
      id (opt_case options) = (ISC_R_SUCCESS, rendered) /\
    query (w_req w') =
      Some (mk_buffer (Z.of_nat (length rendered) + (if tcp then 2 else 0))
              ((if tcp then tcp_length_prefix (Z.of_nat (length rendered)) else [])
               ++ rendered)) /\
    Z.of_nat (length rendered) <= 65535 /\
    (tcp = false -> Z.of_nat (length rendered) <= 512).
Proof.
  intros H. unfold via_use_tcp in H. destruct w as [m rq l].
  mexec H.
  - (* the first rendering gave DNS_R_USETCP: a second pass over TCP *)
    match goal with
    | H1 : via_pass _ options _ _ _ _ _ _ = Some _,
      H2 : via_pass _ (options_set_tcp options) _ _ _ _ _ _ = Some _ |- _ =>
        pose proof (via_pass_spec _ _ _ _ _ _ _ _ _ _ _ _ _ _ H2) as (Htcp & _);
        apply via_pass_renders in H1; [|left; reflexivity];
        apply via_pass_renders in H2; [|right; reflexivity];
        destruct H1 as (gd1 & d1 & id1 & res1 & mid1 & Hl1 & Hn1 & _ & Hp1 & Hpm1 & Hr1 &
                        Ha1 & _);
        destruct H2 as (gd2 & d2 & id2 & res2 & mid2 & Hl2 & _ & _ & Hp2 & _ & _ & Ha2 &
                        Hok2)
    end.
    cbn [opt_tcp options_set_tcp negb] in Ha2, Htcp. rewrite andb_false_r in Ha2.
    subst. destruct (Hok2 eq_refl) as (_ & -> & rendered & Hre & Hq & Hlen & _).
    symmetry in Ha1. apply andb_true_iff in Ha1 as (Hu & Hopt).
    apply negb_true_iff in Hopt.
    cbn [w_log w_req w_mgr opt_tcp opt_case options_set_tcp] in *.
    exists gd1, d1, id1,
      (mid1 ++ gd2 ++ [A_dispatch_addresponse d2 false ISC_R_SUCCESS id2;
                       A_message_render id2 ISC_R_SUCCESS]),
      res1,
      (gd1 ++ A_dispatch_addresponse d1 false ISC_R_SUCCESS id1 :: mid1 ++ gd2),
      d2, id2, rendered.
    split; [rewrite Hl2, Hl1; rewrite <- ?app_assoc; cbn [app];
            rewrite <- ?app_assoc; reflexivity|].
    split; [exact Hn1|].
    split; [exact Hr1|].
    split; [rewrite Hu; symmetry; apply orb_true_r|].
    split; [rewrite Hl2, Hl1; rewrite <- ?app_assoc; cbn [app];
            rewrite <- ?app_assoc; reflexivity|].
    split.
    { rewrite !forallb_app. cbn [forallb is_prep]. rewrite forallb_app.
      now rewrite Hp1, Hpm1, Hp2. }
    split; [|split; [exact Hq|split; [exact Hlen|discriminate]]].
    rewrite Hl1 in Hre. rewrite <- ?app_assoc in Hre; cbn [app] in Hre.
    rewrite <- ?app_assoc in Hre. rewrite <- ?app_assoc; cbn [app].
    rewrite <- ?app_assoc. exact Hre.
  - (* a single pass *)
    match goal with
    | H1 : via_pass _ options _ _ _ _ _ _ = Some _ |- _ =>
        pose proof (via_pass_spec _ _ _ _ _ _ _ _ _ _ _ _ _ _ H1) as (Htcp & _);
        apply via_pass_renders in H1; [|right; reflexivity];
        destruct H1 as (gd1 & d1 & id1 & res1 & mid1 & Hl1 & Hn1 & _ & Hp1 & _ & Hr1 &
                        Ha1 & Hok1)
    end.
    destruct (Hok1 eq_refl) as (-> & -> & rendered & Hre & Hq & Hlen & H512).
    cbn [w_log w_req w_mgr] in *. subst tcp.
    exists gd1, d1, id1, [A_message_render id1 ISC_R_SUCCESS], ISC_R_SUCCESS,
      gd1, d1, id1, rendered.
    split; [exact Hl1|]. split; [exact Hn1|]. split; [exact Hr1|].
    split; [cbn; now rewrite orb_false_r|].
    split; [exact Hl1|]. split; [exact Hp1|]. split; [exact Hre|].
    split; [exact Hq|]. split; [exact Hlen|exact H512].
Qed.

(** A successful [dns_request_createvia], with the transport and the
    query tied to the trace: the first registration of a response slot and
    what [req_render] returned for it decide between UDP and TCP; the
    message rendered for the last registration is the query. *)
Lemma createvia_renders (env : Env) (message : Z)
  (srcaddr : option isc_sockaddr_t) (destaddr : isc_sockaddr_t) (dscpv : Z)
  (options : options_t) (key : option Z) (timeout udptimeout udpretries : Z)
  (task action : Z) (w w' : world) :
  dns_request_createvia env (Some message) srcaddr (Some destaddr) dscpv options key
    timeout udptimeout udpretries (Some task) (Some action) (Some None) w
  = Some (ISC_R_SUCCESS, w') ->
  exists (tcp : bool) udpt t expires start pre1 d1 id1 post1 res1 pre d id rendered,
    derive_udptimeout timeout udptimeout udpretries = Some udpt /\
    w_log w' = w_log w ++ pre1 ++
               A_dispatch_addresponse d1 false ISC_R_SUCCESS id1 :: post1 /\
    filter is_addresponse pre1 = [] /\
    renders env options
      (w_log w ++ pre1 ++ [A_dispatch_addresponse d1 false ISC_R_SUCCESS id1])
      id1 res1 /\
    tcp = opt_tcp options || is_usetcp res1 /\
    w_log w' = w_log w ++ pre ++
               [A_dispatch_addresponse d false ISC_R_SUCCESS id;
                A_message_render id ISC_R_SUCCESS;
                A_lock_mgr; A_unlock_mgr;
                A_timer_reset t (timer_type_for (if tcp then 0 else udpt)) expires
                  (if tcp then 0 else udpt) ISC_R_SUCCESS;
                start] /\
    forallb is_prep pre = true /\
    e_render env (w_log w ++ pre ++ [A_dispatch_addresponse d false ISC_R_SUCCESS id])
      id (opt_case options) = (ISC_R_SUCCESS, rendered) /\
    e_nowplusinterval env
      (w_log w ++ pre ++
       [A_dispatch_addresponse d false ISC_R_SUCCESS id;
        A_message_render id ISC_R_SUCCESS; A_lock_mgr; A_unlock_mgr]) timeout
    = (ISC_R_SUCCESS, expires) /\
    query (w_req w') =
      Some (mk_buffer (Z.of_nat (length rendered) + (if tcp then 2 else 0))
              ((if tcp then tcp_length_prefix (Z.of_nat (length rendered)) else [])
               ++ rendered)) /\
    (Z.of_nat (length rendered) <= 65535 /\
     (tcp = false -> Z.of_nat (length rendered) <= 512)) /\
    ((exists sock, start = A_socket_connect sock destaddr ISC_R_SUCCESS) \/
     (exists sock q addr ds,
        query (w_req w') = Some q /\
        start = A_socket_sendto sock (isc_buffer_usedregion q) addr ds)).
Proof.
  intros H.
  destruct (same_family srcaddr destaddr && negb (isblackholed env destaddr)) eqn:Hsb.
  2: { apply (createvia_refused _ _ _ _ _ _ _ _ _ _ _ _ _ _ _ Hsb) in H as (Hr & _).
       destruct (same_family srcaddr destaddr); discriminate Hr. }
  apply andb_true_iff in Hsb as (Hfam & Hbh). apply negb_true_iff in Hbh.
  apply createvia_inv in H; [|exact Hfam|exact Hbh].
  destruct H as (udpt & Hd & [(Hf & _)|(w0 & w1 & rres & conn & tcp & sock & Hm0 & Hl0 &
                                         Hrm & Hvia & H)]); [discriminate|].
  destruct (is_success rres) eqn:Hs;
    [|apply cleanup_result in H; subst rres; discriminate].
  apply is_success_true in Hs. subst rres.
  destruct H as [(tres & Htf & Hc)|(self & qtsig & Hadm)].
  { apply cleanup_result in Hc. subst tres. discriminate. }
  apply via_use_tcp_renders in Hvia.
  destruct Hvia as (pre1 & d1 & id1 & post1 & res1 & pre & d & id & rendered &
                    Hl1 & Hn1 & Hr1 & Htcp & Hl2 & Hpp & Hre & Hq & Hbytes).
  apply admit_success in Hadm. cbn zeta in Hadm.
  destruct Hadm as (_ & _ & t & expires & start & _ & Hnow & Hl & Hstart).
  cbn [w_log w_req w_mgr] in *.
  set (hd := [A_timer_create ISC_R_SUCCESS; A_event_allocate task; A_task_attach task])
    in *.
  assert (Hquery : query (w_req w') = query (w_req w1)).
  { destruct (tcp && negb conn).
    - destruct Hstart as (_ & ->). destruct (w_req w1). reflexivity.
    - destruct Hstart as (sk & q & _ & _ & ->). destruct (w_req w1). reflexivity. }
  exists tcp, udpt, t, expires, start, (hd ++ pre1), d1, id1,
    (post1 ++ [A_lock_mgr; A_unlock_mgr;
               A_timer_reset t (timer_type_for (if tcp then 0 else udpt)) expires
                 (if tcp then 0 else udpt) ISC_R_SUCCESS; start]),
    res1, (hd ++ pre), d, id, rendered.
  split; [exact Hd|].
  split; [rewrite Hl, Hl1, Hl0; rewrite <- ?app_assoc; reflexivity|].
  split; [rewrite filter_app, Hn1; reflexivity|].
  split; [rewrite Hl0 in Hr1; rewrite <- ?app_assoc in Hr1; rewrite <- ?app_assoc;
          exact Hr1|].
  split; [exact Htcp|].
  split; [rewrite Hl, Hl2, Hl0; rewrite <- ?app_assoc; reflexivity|].
  split; [rewrite forallb_app, Hpp; reflexivity|].
  split; [rewrite Hl0 in Hre; rewrite <- ?app_assoc in Hre; rewrite <- ?app_assoc;
          exact Hre|].
  split.
  { rewrite Hl2, Hl0 in Hnow. rewrite <- ?app_assoc in Hnow. cbn [app] in Hnow.
    rewrite <- ?app_assoc. exact Hnow. }
  split; [rewrite Hquery; exact Hq|].
  split; [exact Hbytes|].
  destruct (tcp && negb conn).
  - left. destruct Hstart as (-> & _). eauto.
  - right. destruct Hstart as (sk & q & Hqq & -> & _).
    exists sk, q. do 2 eexists. split; [|reflexivity].
    rewrite Hquery. cbn [query with_tsig] in Hqq.
    destruct (w_req w1); exact Hqq.
Qed.

(** C6. The query buffer of a created request holds the message, preceded
    on TCP by its length as two bytes, most significant first, and nothing
    else; whatever the engine sends for the request is the used region of
    that buffer.  In [dns_request_createraw] the message is the caller's
    with its first two bytes replaced by the id of the registered response
    slot, most significant byte first, and TCP is used when it is asked for
    or the message is longer than 512 bytes.  In [dns_request_createvia]
    the message is the one rendered for the response slot registered last,
    and TCP is used when it is asked for or when [req_render] returned
    DNS_R_USETCP for the slot registered first; over UDP the message has at
    most 512 bytes.  [req_render] itself puts the prefix exactly when
    DNS_REQUESTOPT_TCP is set. *)
Theorem query_wire_format (env : Env) (msgbuf : isc_buffer_t) (message : Z)
  (srcaddr : option isc_sockaddr_t) (destaddr : isc_sockaddr_t) (dscpv : Z)
  (options : options_t) (key : option Z) (timeout udptimeout udpretries : Z)
  (task action : Z) (w : world) :
  (forall w',
     dns_request_createraw env (Some msgbuf) srcaddr (Some destaddr) dscpv options
       timeout udptimeout udpretries (Some task) (Some action) (Some None) w
     = Some (ISC_R_SUCCESS, w') ->
     let r := isc_buffer_usedregion msgbuf in
     let len := Z.of_nat (length r) in
     let tcp := opt_tcp options || (512 <? len) in
     exists id q pre d post sends,
       w_log w' = w_log w ++ pre ++
                  A_dispatch_addresponse d (opt_fixedid options) ISC_R_SUCCESS id :: post /\
       filter is_addresponse post = [] /\
       query (w_req w') = Some q /\
       isc_buffer_usedregion q =
         (if tcp then [len / 256; len mod 256] else []) ++
         Z.land (Z.shiftr id 8) 0xff :: Z.land id 0xff :: skipn 2 r /\
       filter is_sendto (w_log w') = filter is_sendto (w_log w) ++ sends /\
       forall a, In a sends ->
                 exists sock addr ds,
                   a = A_socket_sendto sock (isc_buffer_usedregion q) addr ds) /\
  (forall w',
     dns_request_createvia env (Some message) srcaddr (Some destaddr) dscpv options key
       timeout udptimeout udpretries (Some task) (Some action) (Some None) w
     = Some (ISC_R_SUCCESS, w') ->
     exists (tcp : bool) pre1 d1 id1 post1 res1 pre d id post rendered q sends,
       w_log w' = w_log w ++ pre1 ++
                  A_dispatch_addresponse d1 false ISC_R_SUCCESS id1 :: post1 /\
       filter is_addresponse pre1 = [] /\
       renders env options
         (w_log w ++ pre1 ++ [A_dispatch_addresponse d1 false ISC_R_SUCCESS id1])
         id1 res1 /\
       tcp = opt_tcp options || is_usetcp res1 /\
       w_log w' = w_log w ++ pre ++
                  A_dispatch_addresponse d false ISC_R_SUCCESS id :: post /\
       filter is_addresponse post = [] /\
       e_render env (w_log w ++ pre ++ [A_dispatch_addresponse d false ISC_R_SUCCESS id])
         id (opt_case options) = (ISC_R_SUCCESS, rendered) /\
       (tcp = false -> Z.of_nat (length rendered) <= 512) /\
       query (w_req w') = Some q /\
       isc_buffer_usedregion q =
         (if tcp then [Z.of_nat (length rendered) / 256;
                       Z.of_nat (length rendered) mod 256] else []) ++ rendered /\
       filter is_sendto (w_log w') = filter is_sendto (w_log w) ++ sends /\
       forall a, In a sends ->
                 exists sock addr ds,
                   a = A_socket_sendto sock (isc_buffer_usedregion q) addr ds) /\
  (forall id opts v v',
     req_render env id opts v = Some (ISC_R_SUCCESS, v') ->
     exists rendered q,
       e_render env (w_log v) id (opt_case opts) = (ISC_R_SUCCESS, rendered) /\
       (opt_tcp opts = false -> Z.of_nat (length rendered) <= 512) /\
       query (w_req v') = Some q /\
       isc_buffer_usedregion q =
         (if opt_tcp opts then [Z.of_nat (length rendered) / 256;
                                Z.of_nat (length rendered) mod 256] else []) ++
         rendered) /\
  (forall address v v',
     req_send env address v = Some (ISC_R_SUCCESS, v') ->
     exists sock q,
       query (w_req v) = Some q /\
       query (w_req v') = Some q /\
       w_log v' = w_log v ++
                  [A_socket_sendto sock (isc_buffer_usedregion q) address
                     (if dscp (w_req v) =? -1 then None else Some (dscp (w_req v)))]).
Proof.
  split; [|split; [|split]].
  - intros w' H r len tcp.
    pose proof (createraw_assigned_id _ _ _ _ _ _ _ _ _ _ _ _ _ H) as Hid.
    cbn zeta in Hid. fold r len tcp in Hid.
    destruct Hid as (id & pre & d & post & Hl & Hpost & Hq).
    apply createraw_success in H. cbn zeta in H. fold r len tcp in H.
    destruct H as (udpt & id' & conn & delta & t & expires & start & _ & Hlen & Hp & _ &
                   Hl' & _ & _ & _ & _ & _ & _ & Hstart).
    exists id. eexists. exists pre, d, post, (filter is_sendto [start]).
    split; [exact Hl|]. split; [exact Hpost|]. split; [exact Hq|].
    split.
    { cbn [isc_buffer_usedregion buf_used].
      rewrite tcp_length_prefix_bytes by (unfold DNS_MESSAGE_HEADERLEN in Hlen; lia).
      rewrite poke2_head; [reflexivity|].
      unfold DNS_MESSAGE_HEADERLEN, len in Hlen. lia. }
    split.
    { rewrite Hl', !filter_app, (prep_no_sendto _ Hp). reflexivity. }
    exact (sends_of_start start _ _ conn destaddr dscpv _ Hq Hstart).
  - intros w' H.
    apply createvia_renders in H.
    destruct H as (tcp & udpt & t & expires & start & pre1 & d1 & id1 & post1 & res1 &
                   pre & d & id & rendered & _ & Hl1 & Hn1 & Hr1 & Htcp & Hl & Hp & Hre &
                   _ & Hq & (Hlen & H512) & Hstart).
    exists tcp, pre1, d1, id1, post1, res1, pre, d, id.
    eexists. exists rendered. eexists. exists (filter is_sendto [start]).
    split; [exact Hl1|]. split; [exact Hn1|]. split; [exact Hr1|]. split; [exact Htcp|].
    split; [exact Hl|].
    split; [destruct Hstart as [(sock & ->)|(sock & q & addr & ds & _ & ->)]; reflexivity|].
    split; [exact Hre|]. split; [exact H512|]. split; [exact Hq|].
    split.
    { cbn [isc_buffer_usedregion buf_used].
      rewrite tcp_length_prefix_bytes by lia. reflexivity. }
    split.
    { rewrite Hl, !filter_app, (prep_no_sendto _ Hp). reflexivity. }
    intros a Ha.
    destruct Hstart as [(sock & ->)|(sock & q & addr & ds & Hq' & ->)]; [destruct Ha|].
    rewrite Hq in Hq'. injection Hq' as <-.
    destruct Ha as [<-|[]]. eauto.
  - intros id opts v v' H.
    destruct (req_render_success _ _ _ _ _ H) as (rendered & Hre & _ & Hq & Hlen & H512).
    exists rendered. eexists.
    split; [exact Hre|]. split; [exact H512|]. split; [exact Hq|].
    cbn [isc_buffer_usedregion buf_used].
    rewrite tcp_length_prefix_bytes by lia. reflexivity.
  - intros address v v' H. now apply (req_send_buffer env).
Qed.

Lemma query_wire_format_witness :
  (exists w' q,
     dns_request_createraw env_ok (Some msgbuf_query) None (Some addr_server) (-1)
       opts_tcp_share 30 0 3 (Some 100) (Some 200) (Some None) world_idle
     = Some (ISC_R_SUCCESS, w') /\
     query (w_req w') = Some q /\
     isc_buffer_usedregion q = [0; 28; 0x12; 0x34] ++ skipn 2 wire_query) /\
  (exists w' q,
     dns_request_createraw env_ok (Some msgbuf_query) None (Some addr_server) (-1)
       opts_none 30 0 3 (Some 100) (Some 200) (Some None) world_idle
     = Some (ISC_R_SUCCESS, w') /\
     query (w_req w') = Some q /\
     isc_buffer_usedregion q = [0x12; 0x34] ++ skipn 2 wire_query /\
     filter is_sendto (w_log w') =
       [A_socket_sendto (Some 10) (isc_buffer_usedregion q) (Some addr_server) None]) /\
  (exists w' q,
     dns_request_createvia env_ok (Some 1) None (Some addr_server) (-1) opts_none None
       30 0 3 (Some 100) (Some 200) (Some None) world_idle
     = Some (ISC_R_SUCCESS, w') /\
     dns_request_usedtcp (w_req w') = Some false /\
     query (w_req w') = Some q /\
     isc_buffer_usedregion q = snd (e_render env_ok [] 0x1234 false) /\
     filter is_sendto (w_log w') =
       [A_socket_sendto (Some 10) (isc_buffer_usedregion q) (Some addr_server) None]) /\
  (exists w' q,
     dns_request_createvia env_long (Some 1) None (Some addr_server) (-1) opts_none None
       30 0 3 (Some 100) (Some 200) (Some None) world_idle
     = Some (ISC_R_SUCCESS, w') /\
     length (filter is_addresponse (w_log w')) = 2%nat /\
     query (w_req w') = Some q /\
     isc_buffer_usedregion q =
       [600 / 256; 600 mod 256] ++ snd (e_render env_long [] 0x1234 false) /\
     filter is_sendto (w_log w') =
       [A_socket_sendto (Some 11) (isc_buffer_usedregion q) None None]).
Proof.
  split; [|split; [|split]].
  - eexists.
    match goal with
    | |- exists q, _ = Some (_, ?x) /\ _ =>
        destruct (proj1 (query_wire_format env_ok msgbuf_query 1 None
                           addr_server (-1) opts_tcp_share None 30 0 3 100 200
                           world_idle) x ltac:(vm_compute; reflexivity))
          as (id & q & pre & d & post & sends & _ & _ & Hq & _)
    end.
    eexists. split; [reflexivity|]. split; reflexivity.
  - eexists.
    match goal with
    | |- exists q, _ = Some (_, ?x) /\ _ =>
        destruct (proj1 (query_wire_format env_ok msgbuf_query 1 None
                           addr_server (-1) opts_none None 30 0 3 100 200
                           world_idle) x ltac:(vm_compute; reflexivity))
          as (id & q & pre & d & post & sends & _ & _ & Hq & _)
    end.
    eexists. split; [reflexivity|]. repeat split; reflexivity.
  - eexists.
    match goal with
    | |- exists q, _ = Some (_, ?x) /\ _ =>
        destruct (proj1 (proj2 (query_wire_format env_ok msgbuf_query 1 None
                                  addr_server (-1) opts_none None 30 0 3 100 200
                                  world_idle)) x ltac:(vm_compute; reflexivity))
          as (tcp & pre1 & d1 & id1 & post1 & res1 & pre & d & id & post & rendered &
              q & sends & _)
    end.
    eexists. split; [reflexivity|]. repeat split; reflexivity.
  - eexists.
    match goal with
    | |- exists q, _ = Some (_, ?x) /\ _ =>
        destruct (proj1 (proj2 (query_wire_format env_long msgbuf_query 1 None
                                  addr_server (-1) opts_none None 30 0 3 100 200
                                  world_idle)) x ltac:(vm_compute; reflexivity))
          as (tcp & pre1 & d1 & id1 & post1 & res1 & pre & d & id & post & rendered &
              q & sends & _)
    end.
    eexists. split; [reflexivity|]. repeat split; vm_compute; reflexivity.
Defined.

(** ** The timer *)

Lemma set_timer_spec (env : Env) (timeout udpresend : Z) (w w' : world) :
  set_timer env timeout udpresend w = Some (ISC_R_SUCCESS, w') ->
  exists t expires,
    timer (w_req w) = Some t /\
    e_nowplusinterval env (w_log w) timeout = (ISC_R_SUCCESS, expires) /\
    w_log w' = w_log w ++
               [A_timer_reset t
                  (if udpresend =? 0 then isc_timertype_once else isc_timertype_limited)
                  expires udpresend ISC_R_SUCCESS].
Proof.
  intros H. unfold set_timer in H. destruct w as [m r l].
  destruct r as [mg hs fl q a ev d de t rm ts tk c da uc ds].
  mexec H; use_success.
  all: try match goal with
           | Hs : is_success ISC_R_SUCCESS = false |- _ => discriminate Hs
           end.
  all: do 2 eexists; split; [reflexivity|]; split; [eassumption|].
  all: match goal with
       | Hr : e_timer_reset _ _ = _ |- _ => cbn; rewrite ?Hr
       end.
  all: match goal with
       | |- context [?u =? 0] => destruct (u =? 0); reflexivity
       end.
Qed.

Lemma timer_type_for_transport (tcp : bool) (udpt : Z) :
  timer_type_for (if tcp then 0 else udpt) =
  if tcp || (udpt =? 0) then isc_timertype_once else isc_timertype_limited.
Proof. destruct tcp; reflexivity. Qed.

Lemma derive_udptimeout_zero (timeout udptimeout udpretries udpt : Z) :
  derive_udptimeout timeout udptimeout udpretries = Some udpt ->
  (udpt =? 0) = (udptimeout =? 0) && (udpretries =? 0).
Proof.
  unfold derive_udptimeout.
  destruct (udptimeout =? 0) eqn:Hu; destruct (udpretries =? 0) eqn:Hr; cbn [andb negb].
  - intros [= <-]. exact Hu.
  - destruct (udiv _ _) as [q|]; [|discriminate].
    intros [= <-]. destruct (q =? 0) eqn:Hq; [reflexivity|exact Hq].
  - intros [= <-]. exact Hu.
  - intros [= <-]. exact Hu.
Qed.

(** C5. [set_timer] asks for a limited timer exactly when the resend
    interval it is given is nonzero, and for a one-shot timer otherwise; the
    expiry is the current time plus [timeout].  The factories pass 0 on TCP
    and the derived [udptimeout] on UDP.  So the timer of a created request
    is one-shot on TCP, and on UDP it is limited with the interval
    [udptimeout] when that is nonzero and one-shot when it is 0, which is
    the case exactly when the caller passed [udptimeout = 0] and
    [udpretries = 0].  The transport is TCP in [dns_request_createraw] when
    DNS_REQUESTOPT_TCP is set or the message is longer than 512 bytes, and
    in [dns_request_createvia] when DNS_REQUESTOPT_TCP is set or
    [req_render] returned DNS_R_USETCP for the response slot registered
    first. *)
Theorem timer_armed_by_interval (env : Env) (msgbuf : isc_buffer_t) (message : Z)
  (srcaddr : option isc_sockaddr_t) (destaddr : isc_sockaddr_t) (dscpv : Z)
  (options : options_t) (key : option Z) (timeout udptimeout udpretries : Z)
  (task action : Z) (w : world) :
  (forall udpresend v v',
     set_timer env timeout udpresend v = Some (ISC_R_SUCCESS, v') ->
     exists t expires,
       timer (w_req v) = Some t /\
       e_nowplusinterval env (w_log v) timeout = (ISC_R_SUCCESS, expires) /\
       w_log v' = w_log v ++
                  [A_timer_reset t
                     (if udpresend =? 0 then isc_timertype_once
                      else isc_timertype_limited)
                     expires udpresend ISC_R_SUCCESS]) /\
  (forall w',
     dns_request_createraw env (Some msgbuf) srcaddr (Some destaddr) dscpv options
       timeout udptimeout udpretries (Some task) (Some action) (Some None) w
     = Some (ISC_R_SUCCESS, w') ->
     let tcp := opt_tcp options
                || (512 <? Z.of_nat (length (isc_buffer_usedregion msgbuf))) in
     exists udpt t expires h,
       derive_udptimeout timeout udptimeout udpretries = Some udpt /\
       (udpt =? 0) = (udptimeout =? 0) && (udpretries =? 0) /\
       e_nowplusinterval env h timeout = (ISC_R_SUCCESS, expires) /\
       filter is_timer_reset (w_log w') = filter is_timer_reset (w_log w) ++
         [A_timer_reset t
            (if tcp || (udpt =? 0) then isc_timertype_once else isc_timertype_limited)
            expires (if tcp then 0 else udpt) ISC_R_SUCCESS]) /\
  (forall w',
     dns_request_createvia env (Some message) srcaddr (Some destaddr) dscpv options key
       timeout udptimeout udpretries (Some task) (Some action) (Some None) w
     = Some (ISC_R_SUCCESS, w') ->
     exists (tcp : bool) udpt t expires h pre1 d1 id1 post1 res1,
       w_log w' = w_log w ++ pre1 ++
                  A_dispatch_addresponse d1 false ISC_R_SUCCESS id1 :: post1 /\
       filter is_addresponse pre1 = [] /\
       renders env options
         (w_log w ++ pre1 ++ [A_dispatch_addresponse d1 false ISC_R_SUCCESS id1])
         id1 res1 /\
       tcp = opt_tcp options || is_usetcp res1 /\
       derive_udptimeout timeout udptimeout udpretries = Some udpt /\
       (udpt =? 0) = (udptimeout =? 0) && (udpretries =? 0) /\
       e_nowplusinterval env h timeout = (ISC_R_SUCCESS, expires) /\
       filter is_timer_reset (w_log w') = filter is_timer_reset (w_log w) ++
         [A_timer_reset t
            (if tcp || (udpt =? 0) then isc_timertype_once else isc_timertype_limited)
            expires (if tcp then 0 else udpt) ISC_R_SUCCESS]).
Proof.
  split; [|split].
  - intros udpresend v v' H. now apply set_timer_spec.
  - intros w' H tcp.
    apply createraw_success in H. cbn zeta in H. fold tcp in H.
    destruct H as (udpt & id & conn & delta & t & expires & start & Hd & _ & Hp & _ &
                   Hl & Hnow & _ & _ & _ & _ & _ & Hstart).
    exists udpt, t, expires. eexists.
    split; [exact Hd|]. split; [exact (derive_udptimeout_zero _ _ _ _ Hd)|].
    split; [exact Hnow|].
    rewrite Hl, !filter_app, (prep_no_timer_reset _ Hp), timer_type_for_transport.
    destruct (tcp && negb conn).
    + destruct Hstart as (sock & ->). reflexivity.
    + destruct Hstart as (sock & q & _ & ->). reflexivity.
  - intros w' H.
    apply createvia_renders in H.
    destruct H as (tcp & udpt & t & expires & start & pre1 & d1 & id1 & post1 & res1 &
                   pre & d & id & rendered & Hd & Hl1 & Hn1 & Hr1 & Htcp & Hl & Hp & _ &
                   Hnow & _ & _ & Hstart).
    exists tcp, udpt, t, expires. eexists. exists pre1, d1, id1, post1, res1.
    split; [exact Hl1|]. split; [exact Hn1|]. split; [exact Hr1|]. split; [exact Htcp|].
    split; [exact Hd|]. split; [exact (derive_udptimeout_zero _ _ _ _ Hd)|].
    split; [exact Hnow|].
    rewrite Hl, !filter_app, (prep_no_timer_reset _ Hp), timer_type_for_transport.
    destruct Hstart as [(sock & ->)|(sock & q & addr & ds & _ & ->)]; reflexivity.
Qed.

Lemma timer_armed_by_interval_witness :
  (exists w' t expires,
     dns_request_createraw env_ok (Some msgbuf_query) None (Some addr_server) (-1)
       opts_none 30 0 3 (Some 100) (Some 200) (Some None) world_idle
     = Some (ISC_R_SUCCESS, w') /\
     filter is_timer_reset (w_log w') =
       [A_timer_reset t isc_timertype_limited expires 7 ISC_R_SUCCESS]) /\
  (exists w',
     dns_request_createvia env_ok (Some 1) None (Some addr_server) (-1) opts_none None
       30 0 3 (Some 100) (Some 200) (Some None) world_idle
     = Some (ISC_R_SUCCESS, w') /\
     dns_request_usedtcp (w_req w') = Some false /\
     filter is_timer_reset (w_log w') =
       [A_timer_reset 7 isc_timertype_limited 1030 7 ISC_R_SUCCESS]) /\
  (exists w',
     dns_request_createvia env_long (Some 1) None (Some addr_server) (-1) opts_none None
       30 0 3 (Some 100) (Some 200) (Some None) world_idle
     = Some (ISC_R_SUCCESS, w') /\
     length (filter is_addresponse (w_log w')) = 2%nat /\
     filter is_timer_reset (w_log w') =
       [A_timer_reset 7 isc_timertype_once 1030 0 ISC_R_SUCCESS]).
Proof.
  split; [|split].
  - eexists.
    match goal with
    | |- exists t expires, _ = Some (_, ?x) /\ _ =>
        destruct (proj1 (proj2 (timer_armed_by_interval env_ok msgbuf_query 1 None
                           addr_server (-1) opts_none None 30 0 3 100 200
                           world_idle)) x ltac:(vm_compute; reflexivity))
          as (udpt & t & expires & h & Hd & _ & _ & Hl)
    end.
    injection Hd as <-.
    exists t, expires. split; [reflexivity|]. exact Hl.
  - eexists.
    match goal with
    | |- _ = Some (_, ?x) /\ _ =>
        destruct (proj2 (proj2 (timer_armed_by_interval env_ok msgbuf_query 1 None
                           addr_server (-1) opts_none None 30 0 3 100 200
                           world_idle)) x ltac:(vm_compute; reflexivity))
          as (tcp & udpt & t & expires & h & pre1 & d1 & id1 & post1 & res1 & _)
    end.
    split; [reflexivity|]. split; reflexivity.
  - eexists.
    match goal with
    | |- _ = Some (_, ?x) /\ _ =>
        destruct (proj2 (proj2 (timer_armed_by_interval env_long msgbuf_query 1 None
                           addr_server (-1) opts_none None 30 0 3 100 200
                           world_idle)) x ltac:(vm_compute; reflexivity))
          as (tcp & udpt & t & expires & h & pre1 & d1 & id1 & post1 & res1 & _)
    end.
    split; [reflexivity|]. split; reflexivity.
Defined.

(** A UDP request created with [udptimeout = 0] and [udpretries = 0], as
    [dns_request_create] always does: the query goes out by [sendto] on the
    manager's UDP dispatch, and the timer is armed one-shot. *)
Lemma udp_timer_armed_once :
  exists w',
    dns_request_create env_ok (Some 1) (Some addr_server) opts_none None 30
      (Some 100) (Some 200) (Some None) world_idle
    = Some (ISC_R_SUCCESS, w') /\
    dispatch (w_req w') = dispatchv4 mgr_idle /\
    dns_request_usedtcp (w_req w') = Some false /\
    existsb is_connect (w_log w') = false /\
    filter is_timer_reset (w_log w') =
      [A_timer_reset 7 isc_timertype_once 1030 0 ISC_R_SUCCESS].
Proof.
  eexists. split; [vm_compute; reflexivity|].
  repeat split; reflexivity.
Qed.

(** ** The retry of [dns_request_createraw] *)

Lemma first_addresponse_unique (pre pre' post post' : list action) (a a' : action) :
  pre ++ a :: post = pre' ++ a' :: post' ->
  filter is_addresponse pre = [] -> filter is_addresponse pre' = [] ->
  is_addresponse a = true -> is_addresponse a' = true ->
  pre = pre' /\ a = a' /\ post = post'.
Proof.
  revert pre'. induction pre as [|x pre IH]; intros [|x' pre'] H Hp Hp' Ha Ha'; cbn in *.
  - injection H as <- <-. auto.
  - injection H as <- _. rewrite Ha in Hp'. discriminate.
  - injection H as -> _. rewrite Ha' in Hp. discriminate.
  - injection H as <- H.
    destruct (is_addresponse x); [discriminate|].
    destruct (IH pre' H Hp Hp' Ha Ha') as (-> & -> & ->). auto.
Qed.

Lemma no_addresponse_in (l pre post : list action) (a : action) :
  l = pre ++ a :: post -> is_addresponse a = true -> filter is_addresponse l <> [].
Proof.
  intros -> Ha. rewrite filter_app. cbn. rewrite Ha.
  destruct (filter is_addresponse pre); discriminate.
Qed.

(** C7. [dns_request_createraw] with DNS_REQUESTOPT_FIXEDID on TCP, when the
    first registration of the response slot fails: the dispatch is
    detached and the code goes back once, to a new socket and a new TCP
    dispatch ([dns_dispatch_gettcp] is not asked again).  If no dispatch
    comes of it, or the second registration fails too, the call fails with
    that result, nothing is registered with the manager and the request is
    destroyed; there is no third attempt.  If the second registration
    succeeds and so does the rest, the request starts with a connect on the
    new socket: it is not taken to be connected. *)
Theorem createraw_fixedid_retry (env : Env) (msgbuf : isc_buffer_t)
  (srcaddr : option isc_sockaddr_t) (destaddr : isc_sockaddr_t) (dscpv : Z)
  (options : options_t) (timeout udptimeout udpretries : Z)
  (pre post : list action) (d1 id1 : Z) (r1 : isc_result_t) (task action : Z)
  (w w' : world) (res : isc_result_t)
  (Hrun : dns_request_createraw env (Some msgbuf) srcaddr (Some destaddr) dscpv options
            timeout udptimeout udpretries (Some task) (Some action) (Some None) w
          = Some (res, w'))
  (Hfixedid : opt_fixedid options = true)
  (Htcp : opt_tcp options
          || (512 <? Z.of_nat (length (isc_buffer_usedregion msgbuf))) = true)
  (Hlog : w_log w' = w_log w ++ pre ++ A_dispatch_addresponse d1 true r1 id1 :: post)
  (Hfirst : filter is_addresponse pre = [])
  (Hfailed : is_success r1 = false) :
  exists sres rest tail,
    post = A_dispatch_detach d1
           :: A_socket_create (isc_sockaddr_pf destaddr) sres :: rest ++ tail /\
    forallb is_prep rest = true /\
    filter is_gettcp rest = [] /\
    ((filter is_addresponse rest = [] /\
      is_success res = false /\ unadmitted w w' /\ forallb is_release tail = true)
     \/
     exists gd2 d2 r2 id2,
       A_socket_create (isc_sockaddr_pf destaddr) sres :: rest
       = gd2 ++ [A_dispatch_addresponse d2 true r2 id2] /\
       filter is_addresponse gd2 = [] /\
       if is_success r2
       then res = ISC_R_SUCCESS ->
            exists t ty expires interval sock,
              tail = [A_lock_mgr; A_unlock_mgr;
                      A_timer_reset t ty expires interval ISC_R_SUCCESS;
                      A_socket_connect sock destaddr ISC_R_SUCCESS] /\
              dns_request_usedtcp (w_req w') = Some true
       else res = r2 /\ unadmitted w w' /\ forallb is_release tail = true).
Proof.
  destruct (isblackholed env destaddr) eqn:Hbh.
  { apply createraw_blackholed in Hrun as (_ & ->); [|exact Hbh].
    apply app_inv_nil in Hlog. destruct pre; discriminate. }
  apply createraw_inv in Hrun; [|exact Hbh]. cbn zeta in Hrun. rewrite Htcp in Hrun.
  destruct Hrun as (udpt & _ & [(Hf & Hun & pre0 & post0 & Hl & Hp & Hna & Hd)
                               |(w0 & w1 & rres & conn & id & Hm0 & Hl0 & Hrm &
                                 (Hmg & Hfl) & Hr & H)]).
  { exfalso. rewrite Hl in Hlog. apply app_inv_head in Hlog.
    apply (no_addresponse_in _ _ _ _ Hlog eq_refl).
    rewrite filter_app, Hna. now apply release_no_addresponse. }
  apply raw_again_spec in Hr. rewrite Hfixedid in Hr.
  destruct Hr as (Hm1 & Hreq & _ & loop & Hl1 & Hp1 & Hconn & Hshape).
  assert (Htail : exists tail, w_log w' = w_log w1 ++ tail).
  { destruct (is_success rres).
    - destruct H as (self & sock & H). apply admit_log in H. exact H.
    - apply cleanup_log in H. exact H. }
  destruct Htail as (tail & Hlt).
  rewrite Hlt, Hl1, Hl0 in Hlog. rewrite <- !app_assoc in Hlog.
  apply app_inv_head in Hlog.
  destruct Hshape as [(Hnone & Hf)|(gd1 & d & r & idx & post1 & -> & Hgd1 & Hif)].
  { exfalso. rewrite Hf in H. apply cleanup_spec in H.
    - destruct H as (_ & _ & _ & _ & delta & Hld & Hrel).
      rewrite Hlt in Hld. apply app_inv_head in Hld. subst tail.
      apply (no_addresponse_in _ _ _ _ Hlog eq_refl).
      cbn [app filter is_addresponse]. rewrite filter_app, Hnone.
      now apply release_no_addresponse.
    - apply frame2_requestmgr in Hreq. now rewrite Hreq. }
  rewrite <- !app_assoc in Hlog. cbn [app] in Hlog.
  change (A_timer_create ISC_R_SUCCESS :: A_event_allocate task :: A_task_attach task
          :: gd1 ++ A_dispatch_addresponse d true r idx :: post1 ++ tail)
    with (([A_timer_create ISC_R_SUCCESS; A_event_allocate task; A_task_attach task]
           ++ gd1) ++ A_dispatch_addresponse d true r idx :: post1 ++ tail) in Hlog.
  apply first_addresponse_unique in Hlog;
    [|cbn; exact Hgd1|exact Hfirst|reflexivity|reflexivity].
  destruct Hlog as (_ & Ha & <-). injection Ha as <- <- <-.
  rewrite Hfailed in Hif.
  destruct Hif as (rest & -> & -> & Hng & Hsock & Hsecond).
  destruct (Hsock eq_refl) as (sres & rest' & ->).
  exists sres, rest', tail.
  split; [reflexivity|].
  assert (Hprest : forallb is_prep rest' = true).
  { rewrite forallb_app in Hp1. apply andb_true_iff in Hp1 as (_ & Hp1).
    cbn in Hp1. exact Hp1. }
  split; [exact Hprest|].
  split; [exact Hng|].
  assert (Hrm1 : requestmgr (w_req w1) = false)
    by (apply frame2_requestmgr in Hreq; now rewrite Hreq).
  destruct Hsecond as [(Hnone & Hf)|(gd2 & d2 & r2 & id2 & Hrest & Hgd2 & <- & Hid)].
  - left. rewrite Hf in H. apply cleanup_spec in H; [|exact Hrm1].
    destruct H as (-> & Hm & Hv & He & delta & Hld & Hrel).
    rewrite Hlt in Hld. apply app_inv_head in Hld. subst tail.
    split; [exact Hnone|]. split; [exact Hf|].
    split; [|exact Hrel]. repeat split; [congruence|exact Hv|exact He].
  - right. exists gd2, d2, rres, id2.
    split; [exact Hrest|]. split; [exact Hgd2|].
    destruct (is_success rres) eqn:Hs.
    + intros ->. destruct H as (self & sock & H).
      apply admit_success in H. cbn zeta in H. cbn [andb negb] in H.
      destruct H as (_ & _ & t & expires & start & _ & _ & Hla & -> & Hw).
      cbn [w_log] in Hla. rewrite Hlt in Hla. apply app_inv_head in Hla. subst tail.
      do 5 eexists. split; [reflexivity|].
      rewrite Hw. unfold dns_request_usedtcp, VALID_REQUEST.
      cbn [w_req magic flags with_flags with_destaddr with_req_hash with_requestmgr
           with_query].
      rewrite Hreq.
      cbn [magic flags with_dispentry with_dispatch].
      rewrite Hmg, Hfl. reflexivity.
    + apply cleanup_spec in H; [|exact Hrm1].
      destruct H as (-> & Hm & Hv & He & delta & Hld & Hrel).
      rewrite Hlt in Hld. apply app_inv_head in Hld. subst tail.
      split; [reflexivity|].
      split; [|exact Hrel]. repeat split; [congruence|exact Hv|exact He].
Qed.

Lemma createraw_fixedid_retry_witness :
  exists w' sres rest tail,
    dns_request_createraw env_collision (Some msgbuf_query) None (Some addr_server)
      (-1) opts_tcp_fixedid 30 0 3 (Some 100) (Some 200) (Some None) world_idle
    = Some (ISC_R_SUCCESS, w') /\
    skipn 5 (w_log w') =
      A_dispatch_detach 2 :: A_socket_create PF_INET sres :: rest ++ tail /\
    filter is_gettcp rest = [].
Proof.
  eexists.
  match goal with
  | |- exists sres rest tail, _ = Some (_, ?x) /\ _ =>
      destruct (createraw_fixedid_retry env_collision msgbuf_query None addr_server
                  (-1) opts_tcp_fixedid 30 0 3
                  [A_timer_create ISC_R_SUCCESS; A_event_allocate 100;
                   A_task_attach 100; A_dispatch_gettcp false ISC_R_SUCCESS true]
                  [A_dispatch_detach 2; A_socket_create PF_INET ISC_R_SUCCESS;
                   A_socket_bind 12 (mk_sockaddr PF_INET 0 0) ISC_R_SUCCESS;
                   A_socket_dscp 12 (-1); A_dispatch_createtcp 12 ISC_R_SUCCESS;
                   A_socket_detach 12;
                   A_dispatch_addresponse 3 true ISC_R_SUCCESS 4660;
                   A_lock_mgr; A_unlock_mgr;
                   A_timer_reset 7 isc_timertype_once 1030 0 ISC_R_SUCCESS;
                   A_socket_connect (Some 12) addr_server ISC_R_SUCCESS]
                  2 4660 ISC_R_NOMORE 100 200 world_idle x ISC_R_SUCCESS
                  ltac:(vm_compute; reflexivity) eq_refl eq_refl eq_refl eq_refl eq_refl)
        as (sres & rest & tail & Hpost & _ & Hng & _)
  end.
  exists sres, rest, tail.
  split; [reflexivity|]. split; [exact Hpost|exact Hng].
Defined.

(** * Further properties of the request engine *)

Ltac mexec_any H :=
  repeat (munfold H; cbn in H;
          lazymatch type of H with
          | None = Some _ => discriminate H
          | Some _ = None => discriminate H
          | Some _ = Some _ => fail
          | None = None => fail
          | ?T => let X := innermost T in
                  first [ match goal with Hx : X = _ |- _ => rewrite Hx in H end
                        | is_var X; destruct X
                        | destruct X eqn:? ]
          end);
  munfold H; cbn in H;
  lazymatch type of H with
  | Some _ = Some _ => first [ discriminate H | injection H; clear H; intros; subst ]
  | _ => idtac
  end.

Ltac use_cancel :=
  repeat match goal with
         | H : req_cancel _ = Some (?u, _) |- _ =>
             destruct u;
             let delta := fresh "delta" in
             let Hd := fresh "Hdelta" in
             let Hv := fresh "Hvalid" in
             apply req_cancel_effect in H;
             destruct H as (delta & -> & Hd & Hv)
         end.

(** ** The handlers never trip an assertion *)

Lemma req_cancel_total (w : world) :
  VALID_REQUEST (w_req w) = true -> is_some (dispatch (w_req w)) = true ->
  exists w', req_cancel w = Some (tt, w').
Proof.
  intros Hv Hd. destruct w as [m r l].
  destruct r as [mg hs fl q a ev d de t rm ts tk c da uc ds].
  cbn in Hv, Hd. destruct d as [d|]; [|discriminate].
  destruct (req_cancel _) as [[[] w']|] eqn:H; [eauto|exfalso].
  unfold req_cancel in H. unfold VALID_REQUEST in *. cbn in *.
  mexec_any H.
Qed.

Ltac split_bits :=
  repeat match goal with
         | H : Z.testbit ?f ?k = _ |- context [Z.testbit ?f ?k] => rewrite H
         | H : Z.testbit ?f ?k = _, H2 : context [Z.testbit ?f ?k] |- _ =>
             lazymatch type of H2 with
             | Z.testbit f k = _ => fail
             | _ => rewrite H in H2
             end
         | H : context [Z.testbit ?f ?k] |- _ =>
             lazymatch type of H with
             | Z.testbit f k = _ => fail
             | _ => let E := fresh "Hbit" in destruct (Z.testbit f k) eqn:E
             end
         | |- context [Z.testbit ?f ?k] =>
             let E := fresh "Hbit" in destruct (Z.testbit f k) eqn:E
         end.

Ltac ok_goal :=
  unfold request_ok, ready, VALID_REQUEST, DNS_REQUEST_CANCELED, DNS_REQUEST_CONNECTING,
    DNS_REQUEST_SENDING, DNS_REQUEST_TIMEDOUT in *;
  cbn in *; flagbits; cbn in *;
  split_bits; cbn in *;
  repeat match goal with
         | H : _ && _ = true |- _ => apply andb_true_iff in H; destruct H
         end;
  cbn in *; try congruence; try reflexivity; try discriminate;
  try (repeat match goal with
              | H : ?x = true |- context [?x] => rewrite H
              | H : ?x = false |- context [?x] => rewrite H
              end; cbn; reflexivity);
  try (repeat match goal with
              | |- context [is_some ?o] => is_var o; destruct o
              | H : context [is_some ?o] |- _ => is_var o; destruct o
              end; cbn in *; congruence).

Lemma handle_keeps_ok (env : Env) (e : req_event) (w w' : world) :
  handle env e w = Some (tt, w') ->
  request_ok (w_req w) = true -> request_ok (w_req w') = true.
Proof.
  intros H Hok. destruct w as [m r l].
  destruct r as [mg hs fl q a ev d de t rm ts tk c da uc ds].
  destruct e; cbn [handle] in H.
  - unfold dns_request_cancel in H. mexec_any H; ok_goal.
  - unfold do_cancel, send_if_done, req_sendevent in H. mexec_any H; use_cancel; ok_goal.
  - unfold req_connected, req_send, req_getsocket, send_if_done, req_sendevent in H.
    mexec_any H; use_cancel; ok_goal.
  - unfold req_senddone, send_if_done, req_sendevent in H.
    mexec_any H; use_cancel; ok_goal.
  - unfold req_response, send_if_done, req_sendevent, isc_buffer_copyregion in H.
    mexec_any H; use_cancel; ok_goal.
  - unfold req_timeout, req_send, req_getsocket, send_if_done, req_sendevent in H.
    mexec_any H; use_cancel; ok_goal.
Qed.

Ltac cancel_total :=
  match goal with
  | H : req_cancel ?w = None |- _ =>
      let Hx := fresh in
      destruct (req_cancel_total w) as (? & Hx);
      [ | | rewrite Hx in H; discriminate H ]
  end.

Lemma handle_progress (env : Env) (e : req_event) (w : world) :
  request_ok (w_req w) = true -> ready e (w_req w) = true ->
  exists w', handle env e w = Some (tt, w').
Proof.
  intros Hok Hr. destruct (handle env e w) as [[[] w']|] eqn:H; [eauto|exfalso].
  destruct w as [m r l].
  destruct r as [mg hs fl q a ev d de t rm ts tk c da uc ds].
  destruct e; cbn [handle] in H.
  - unfold dns_request_cancel in H. mexec_any H; ok_goal.
  - unfold do_cancel, send_if_done, req_sendevent in H.
    mexec_any H; use_cancel; try cancel_total; ok_goal.
  - unfold req_connected, req_send, req_getsocket, send_if_done, req_sendevent in H.
    mexec_any H; use_cancel; try cancel_total; ok_goal.
  - unfold req_senddone, send_if_done, req_sendevent in H.
    mexec_any H; use_cancel; try cancel_total; ok_goal.
  - unfold req_response, send_if_done, req_sendevent, isc_buffer_copyregion,
      isc_buffer_allocate, isc_buffer_availablelength in H.
    mexec_any H; use_cancel; try cancel_total; ok_goal.
  - unfold req_timeout, req_send, req_getsocket, send_if_done, req_sendevent in H.
    mexec_any H; use_cancel; try cancel_total; ok_goal.
Qed.

(** ** The factories, step by step *)

Ltac norm_success :=
  repeat match goal with
         | Hs : negb (is_success ?r) = false |- _ =>
             apply negb_false_iff in Hs; apply is_success_true in Hs;
             first [ subst r | rewrite Hs in * ]
         | Hs : negb (is_success ?r) = true |- _ =>
             apply negb_true_iff in Hs
         end.

(** [dns_request_createraw] past the blackhole test: the worlds its
    phases run in. *)
Lemma createraw_steps (env : Env) (msgbuf : isc_buffer_t)
  (srcaddr : option isc_sockaddr_t) (destaddr : isc_sockaddr_t) (dscpv : Z)
  (options : options_t) (timeout udptimeout udpretries : Z) (task action : Z)
  (w w' : world) (res : isc_result_t) :
  dns_request_createraw env (Some msgbuf) srcaddr (Some destaddr) dscpv options
    timeout udptimeout udpretries (Some task) (Some action) (Some None) w
  = Some (res, w') ->
  isblackholed env destaddr = false ->
  let r := isc_buffer_usedregion msgbuf in
  let len := Z.of_nat (length r) in
  let tcp := opt_tcp options || (512 <? len) in
  let self := e_mem_get env (w_log w) in
  let r0 := with_dscp dscpv (with_udpcount udpretries new_request) in
  exists udpt tres t,
    derive_udptimeout timeout udptimeout udpretries = Some udpt /\
    e_timer_create env (w_log w) = (tres, t) /\
    if is_success tres then
      let w0 := mk_world (w_mgr w)
                  (with_event (Some (mk_requestevent task ISC_R_FAILURE))
                     (with_timer (Some t) r0))
                  (w_log w ++ [A_timer_create ISC_R_SUCCESS; A_event_allocate task;
                               A_task_attach task]) in
      if (len <? DNS_MESSAGE_HEADERLEN) || (65535 <? len) then
        cleanup true task DNS_R_FORMERR w0 = Some (res, w')
      else
        exists rres conn id w1,
          raw_again env options tcp (opt_share options) srcaddr destaddr dscpv r w0
          = Some ((rres, conn, id), w1) /\
          if is_success rres then
            exists sock,
              admit_and_start env self task tcp conn destaddr sock timeout udpt
                (mk_world (w_mgr w1)
                   (with_query
                      (Some (mk_buffer (len + (if tcp then 2 else 0))
                               ((if tcp then tcp_length_prefix len else []) ++
                                poke2 0 (Z.land (Z.shiftr id 8) 0xff)
                                  (Z.land id 0xff) r)))
                      (w_req w1))
                   (w_log w1))
              = Some (res, w')
          else cleanup true task rres w1 = Some (res, w')
    else
      cleanup false task tres
        (mk_world (w_mgr w) r0 (w_log w ++ [A_timer_create tres])) = Some (res, w').
Proof.
  intros H Hbh. cbv zeta. unfold dns_request_createraw in H.
  unfold allocate_request, req_getsocket in H.
  destruct w as [m rq l].
  mexec H.
  all: match goal with
       | Hd : derive_udptimeout _ _ _ = Some ?u, Ht : e_timer_create _ _ = (?tr, ?t) |- _ =>
           exists u, tr, t; split; [reflexivity|]; split; [exact Ht|]
       end.
  all: norm_success.
  all: cbn [w_mgr w_log is_success].
  all: try match goal with
           | Hs : is_success ?r = false |- context [if is_success ?r then _ else _] =>
               rewrite Hs
           end.
  all: try exact H.
  all: repeat match goal with
              | Hl : ?c = _ |- context [if ?c then _ else _] => rewrite Hl
              end.
  all: try (rewrite <- !app_assoc in H; exact H).
  all: try match goal with
           | Hr : raw_again _ _ _ _ _ _ _ _ _ = Some ((?rres, ?conn, ?id), ?w1) |- _ =>
               exists rres, conn, id, w1;
               split; [rewrite <- !app_assoc in Hr; exact Hr|]
           end.
  all: cbn [is_success].
  all: try match goal with
           | Hs : is_success ?r = false |- context [if is_success ?r then _ else _] =>
               rewrite Hs; exact H
           end.
  all: try match goal with
           | Hq : raw_build_query _ _ _ = Some _ |- _ =>
               rewrite raw_build_query_spec in Hq;
               first [ injection Hq as <- <- | injection Hq as <- ]
           end.
  all: try match goal with
           | Hs : is_success ISC_R_SUCCESS = false |- _ => discriminate Hs
           end.
  all: eexists; exact H.
Qed.

(** [dns_request_createvia] past the address family and blackhole tests:
    the worlds its phases run in. *)
Lemma createvia_steps (env : Env) (message : Z)
  (srcaddr : option isc_sockaddr_t) (destaddr : isc_sockaddr_t) (dscpv : Z)
  (options : options_t) (key : option Z) (timeout udptimeout udpretries : Z)
  (task action : Z) (w w' : world) (res : isc_result_t) :
  dns_request_createvia env (Some message) srcaddr (Some destaddr) dscpv options key
    timeout udptimeout udpretries (Some task) (Some action) (Some None) w
  = Some (res, w') ->
  same_family srcaddr destaddr = true ->
  isblackholed env destaddr = false ->
  let self := e_mem_get env (w_log w) in
  let r0 := with_dscp dscpv (with_udpcount udpretries new_request) in
  exists udpt tres t,
    derive_udptimeout timeout udptimeout udpretries = Some udpt /\
    e_timer_create env (w_log w) = (tres, t) /\
    if is_success tres then
      let w0 := mk_world (w_mgr w)
                  (with_tsigkey key
                     (with_event (Some (mk_requestevent task ISC_R_FAILURE))
                        (with_timer (Some t) r0)))
                  (w_log w ++ [A_timer_create ISC_R_SUCCESS; A_event_allocate task;
                               A_task_attach task]) in
      exists rres conn tcp sock w1,
        via_use_tcp env options srcaddr destaddr dscpv w0
        = Some ((rres, conn, tcp, sock), w1) /\
        if is_success rres then
          exists qres qtsig,
            e_getquerytsig env (w_log w1) = (qres, qtsig) /\
            if is_success qres then
              admit_and_start env self task tcp conn destaddr sock timeout udpt
                (mk_world (w_mgr w1) (with_tsig qtsig (w_req w1)) (w_log w1))
              = Some (res, w')
            else cleanup true task qres w1 = Some (res, w')
        else cleanup true task rres w1 = Some (res, w')
    else
      cleanup false task tres
        (mk_world (w_mgr w) r0 (w_log w ++ [A_timer_create tres])) = Some (res, w').
Proof.
  intros H Hfam Hbh. cbv zeta. unfold dns_request_createvia in H.
  unfold allocate_request in H.
  destruct w as [m rq l].
  mexec H.
  all: try (unfold same_family in Hfam; cbn in Hfam; rewrite Hfam in *; discriminate).
  all: match goal with
       | Hd : derive_udptimeout _ _ _ = Some ?u, Ht : e_timer_create _ _ = (?tr, ?t) |- _ =>
           exists u, tr, t; split; [reflexivity|]; split; [exact Ht|]
       end.
  all: norm_success.
  all: cbn [w_mgr w_log is_success].
  all: try match goal with
           | Hs : is_success ?r = false |- context [if is_success ?r then _ else _] =>
               rewrite Hs
           end.
  all: try exact H.
  all: match goal with
       | Hr : via_use_tcp _ _ _ _ _ _ = Some ((?rres, ?conn, ?tcp, ?sock), ?w1) |- _ =>
           exists rres, conn, tcp, sock, w1;
           split; [rewrite <- !app_assoc in Hr; exact Hr|]
       end.
  all: cbn [is_success].
  all: try match goal with
           | Hs : is_success ?r = false |- context [if is_success ?r then _ else _] =>
               rewrite Hs; exact H
           end.
  all: match goal with
       | Hq : e_getquerytsig _ _ = (?qres, ?qtsig) |- _ =>
           exists qres, qtsig; split; [exact Hq|]
       end.
  all: cbn [is_success].
  all: try match goal with
           | Hs : is_success ?r = false |- context [if is_success ?r then _ else _] =>
               rewrite Hs
           end.
  all: exact H.
Qed.

(** ** Creation that fails *)

Lemma filter_unlinked (self : Z) (l : list Z) :
  existsb (Z.eqb self) l = false -> filter (Z_neqb self) l = l.
Proof.
  induction l as [|x l IH]; cbn; [reflexivity|].
  intros H. apply orb_false_iff in H as (Hx & Hl).
  unfold Z_neqb at 1. rewrite Hx. cbn. now rewrite IH.
Qed.

Lemma filter_relinked (self : Z) (l : list Z) :
  existsb (Z.eqb self) l = false -> filter (Z_neqb self) (l ++ [self]) = l.
Proof.
  intros H. rewrite filter_app, (filter_unlinked _ _ H). cbn.
  unfold Z_neqb. rewrite Z.eqb_refl. cbn. apply app_nil_r.
Qed.

Lemma manager_kept_refl (m : dns_requestmgr_t) : manager_kept m m.
Proof. repeat split. Qed.

Lemma log_filter_step (f : action -> bool) (l l' d : list action) :
  l' = l ++ d -> filter f d = [] -> filter f l' = filter f l.
Proof. intros -> Hd. now rewrite filter_app, Hd, app_nil_r. Qed.

(** [cleanup] on a request that was never registered. *)
Lemma cleanup_unregistered (tclone : bool) (task : Z) (r res : isc_result_t)
  (w w' : world) :
  cleanup tclone task r w = Some (res, w') ->
  requestmgr (w_req w) = false ->
  res = r /\ w_mgr w' = w_mgr w /\
  VALID_REQUEST (w_req w') = false /\ event (w_req w') = None /\
  completions (w_log w') = completions (w_log w) /\
  filter is_sendto (w_log w') = filter is_sendto (w_log w).
Proof.
  intros H Hrm. apply cleanup_spec in H; [|exact Hrm].
  destruct H as (-> & Hm & Hv & He & delta & Hl & Hd).
  repeat split; try assumption.
  - apply (log_filter_step _ _ _ _ Hl). now apply release_no_completion.
  - apply (log_filter_step _ _ _ _ Hl). apply (filter_none _ _ _ Hd). now intros [].
Qed.

(** The registration block and what follows, when it fails. *)
Lemma admit_failure (env : Env) (self task : Z) (tcp connected : bool)
  (destaddr : isc_sockaddr_t) (sock : option Z) (timeout udptimeout : Z)
  (res : isc_result_t) (w w' : world) :
  admit_and_start env self task tcp connected destaddr sock timeout udptimeout w
  = Some (res, w') ->
  is_success res = false ->
  requestmgr (w_req w) = false ->
  unlinked self (w_mgr w) = true ->
  manager_kept (w_mgr w) (w_mgr w') /\
  VALID_REQUEST (w_req w') = false /\ event (w_req w') = None /\
  completions (w_log w') = completions (w_log w) /\
  filter is_sendto (w_log w') = filter is_sendto (w_log w).
Proof.
  intros H Hres Hrm Hun.
  unfold admit_and_start, register_request, requestmgr_attach, mgr_gethash,
    set_timer, start_request, req_send, req_getsocket, unlink_request in H.
  unfold cleanup, req_destroy, requestmgr_detach in H.
  destruct w as [m r l].
  destruct r as [mg hs fl q a ev d de t rm ts tk c da uc ds].
  destruct m as [mm er ir d4 d6 ex ws mh rqs].
  unfold unlinked in Hun. apply negb_true_iff in Hun.
  cbn [w_mgr requests] in Hun. cbn in Hrm. subst rm.
  destruct ex; mexec H.
  all: try (use_success; discriminate).
  all: try match goal with
           | Hs : is_success ISC_R_SUCCESS = false |- _ => discriminate Hs
           end.
  all: unfold manager_kept, completions, VALID_REQUEST;
    cbn [w_mgr w_req w_log eref iref dispatchv4 dispatchv6 exiting whenshutdown
         requests magic event with_tsigkey with_tsig with_timer with_dispatch
         with_dispentry with_event with_answer with_query with_magic with_requestmgr
         with_requests with_iref with_mgr_hash with_req_hash with_destaddr with_flags].
  all: rewrite ?(filter_relinked _ _ Hun).
  all: rewrite ?filter_app; cbn [filter is_completion is_sendto app];
    rewrite ?app_nil_r.
  all: repeat match goal with
              | Hs : is_some ?o = false |- _ => destruct o; [discriminate Hs|clear Hs]
              end.
  all: repeat split; try reflexivity; try lia.
Qed.

Lemma prep_filters (l l' d : list action) :
  l' = l ++ d -> forallb is_prep d = true ->
  completions l' = completions l /\ filter is_sendto l' = filter is_sendto l.
Proof.
  intros Hl Hp. split.
  - apply (log_filter_step _ _ _ _ Hl). now apply prep_no_completion.
  - apply (log_filter_step _ _ _ _ Hl). now apply prep_no_sendto.
Qed.

(** X1. A creation that fails leaves no trace in the manager: whatever the
    step at which [dns_request_createraw] or [dns_request_createvia] gives
    up, the list of requests, both reference counts, the dispatches, the
    shutdown flag and the shutdown events are as before the call (only the
    hash counter may have advanced); no completion event was sent and
    nothing was handed to a socket for sending; and the request, if one
    was allocated, is destroyed with its event freed. *)
Theorem failed_creation_unwinds (env : Env) (msgbuf : isc_buffer_t) (message : Z)
  (srcaddr : option isc_sockaddr_t) (destaddr : isc_sockaddr_t) (dscpv : Z)
  (options : options_t) (key : option Z) (timeout udptimeout udpretries : Z)
  (task action : Z) (w : world)
  (Hfresh : unlinked (e_mem_get env (w_log w)) (w_mgr w) = true) :
  (forall w' res,
     dns_request_createraw env (Some msgbuf) srcaddr (Some destaddr) dscpv options
       timeout udptimeout udpretries (Some task) (Some action) (Some None) w
     = Some (res, w') ->
     is_success res = false ->
     manager_kept (w_mgr w) (w_mgr w') /\
     completions (w_log w') = completions (w_log w) /\
     filter is_sendto (w_log w') = filter is_sendto (w_log w) /\
     (w' = w \/ (VALID_REQUEST (w_req w') = false /\ event (w_req w') = None))) /\
  (forall w' res,
     dns_request_createvia env (Some message) srcaddr (Some destaddr) dscpv options key
       timeout udptimeout udpretries (Some task) (Some action) (Some None) w
     = Some (res, w') ->
     is_success res = false ->
     manager_kept (w_mgr w) (w_mgr w') /\
     completions (w_log w') = completions (w_log w) /\
     filter is_sendto (w_log w') = filter is_sendto (w_log w) /\
     (w' = w \/ (VALID_REQUEST (w_req w') = false /\ event (w_req w') = None))).
Proof.
  assert (Hclean : forall tclone r res w0 w' d,
             cleanup tclone task r w0 = Some (res, w') ->
             requestmgr (w_req w0) = false ->
             w_mgr w0 = w_mgr w -> w_log w0 = w_log w ++ d ->
             forallb is_prep d = true ->
             manager_kept (w_mgr w) (w_mgr w') /\
             completions (w_log w') = completions (w_log w) /\
             filter is_sendto (w_log w') = filter is_sendto (w_log w) /\
             (w' = w \/ (VALID_REQUEST (w_req w') = false /\ event (w_req w') = None))).
  { intros tclone r res w0 w' d H Hrm Hm Hl Hp.
    apply cleanup_unregistered in H; [|exact Hrm].
    destruct H as (_ & Hm' & Hv & He & Hc & Hs).
    destruct (prep_filters _ _ _ Hl Hp) as (Hc0 & Hs0).
    split; [rewrite Hm', Hm; apply manager_kept_refl|].
    split; [congruence|]. split; [congruence|]. right. now split. }
  assert (Hadmit : forall self tcp conn sock udpt res w1 w' d,
             admit_and_start env self task tcp conn destaddr sock timeout udpt w1
             = Some (res, w') ->
             is_success res = false ->
             self = e_mem_get env (w_log w) ->
             requestmgr (w_req w1) = false ->
             w_mgr w1 = w_mgr w -> w_log w1 = w_log w ++ d ->
             forallb is_prep d = true ->
             manager_kept (w_mgr w) (w_mgr w') /\
             completions (w_log w') = completions (w_log w) /\
             filter is_sendto (w_log w') = filter is_sendto (w_log w) /\
             (w' = w \/ (VALID_REQUEST (w_req w') = false /\ event (w_req w') = None))).
  { intros self tcp conn sock udpt res w1 w' d H Hres -> Hrm Hm Hl Hp.
    apply admit_failure in H; [|exact Hres|exact Hrm|now rewrite Hm].
    destruct H as (Hk & Hv & He & Hc & Hs).
    destruct (prep_filters _ _ _ Hl Hp) as (Hc0 & Hs0).
    split; [now rewrite <- Hm|].
    split; [congruence|]. split; [congruence|]. right. now split. }
  split.
  - intros w' res H Hres.
    destruct (isblackholed env destaddr) eqn:Hbh.
    { apply createraw_blackholed in H as (_ & ->); [|exact Hbh].
      split; [apply manager_kept_refl|]. repeat split. now left. }
    apply createraw_steps in H; [|exact Hbh]. cbv zeta in H.
    destruct H as (udpt & tres & t & _ & _ & H).
    destruct (is_success tres).
    + destruct (_ || _).
      * eapply Hclean; [exact H|reflexivity|reflexivity|reflexivity|reflexivity].
      * destruct H as (rres & conn & id & w1 & Hr & H).
        apply raw_again_spec in Hr.
        destruct Hr as (Hm1 & Hreq & _ & loop & Hl1 & Hp1 & _).
        apply frame2_requestmgr in Hreq. cbn [w_mgr w_req w_log] in *.
        destruct (is_success rres).
        -- destruct H as (sock & H).
           eapply Hadmit; [exact H|exact Hres|reflexivity|exact Hreq|exact Hm1| |].
           ++ cbn [w_log]. rewrite Hl1, <- app_assoc. reflexivity.
           ++ rewrite forallb_app, Hp1. reflexivity.
        -- eapply Hclean; [exact H|exact Hreq|exact Hm1| |].
           ++ rewrite Hl1, <- app_assoc. reflexivity.
           ++ rewrite forallb_app, Hp1. reflexivity.
    + eapply Hclean; [exact H|reflexivity|reflexivity|reflexivity|reflexivity].
  - intros w' res H Hres.
    destruct (same_family srcaddr destaddr && negb (isblackholed env destaddr)) eqn:Hbh.
    2:{ apply createvia_refused in H as (_ & ->); [|exact Hbh].
        split; [apply manager_kept_refl|]. repeat split. now left. }
    apply andb_true_iff in Hbh as (Hfam & Hbh). apply negb_true_iff in Hbh.
    apply createvia_steps in H; [|exact Hfam|exact Hbh]. cbv zeta in H.
    destruct H as (udpt & tres & t & _ & _ & H).
    destruct (is_success tres).
    + destruct H as (rres & conn & tcp & sock & w1 & Hr & H).
      apply via_use_tcp_spec in Hr.
      destruct Hr as (Hm1 & Hreq & _ & loop & Hl1 & Hp1 & _).
      apply frame_requestmgr in Hreq. cbn [w_mgr w_req w_log] in *.
      assert (Hl : w_log w1 = w_log w ++
                    ([A_timer_create ISC_R_SUCCESS; A_event_allocate task;
                      A_task_attach task] ++ loop))
        by (rewrite Hl1, <- app_assoc; reflexivity).
      assert (Hp : forallb is_prep
                     ([A_timer_create ISC_R_SUCCESS; A_event_allocate task;
                       A_task_attach task] ++ loop) = true)
        by (rewrite forallb_app, Hp1; reflexivity).
      destruct (is_success rres).
      * destruct H as (qres & qtsig & _ & H).
        destruct (is_success qres).
        -- eapply Hadmit; [exact H|exact Hres|reflexivity|exact Hreq|exact Hm1
                           |exact Hl|exact Hp].
        -- eapply Hclean; [exact H|exact Hreq|exact Hm1|exact Hl|exact Hp].
      * eapply Hclean; [exact H|exact Hreq|exact Hm1|exact Hl|exact Hp].
    + eapply Hclean; [exact H|reflexivity|reflexivity|reflexivity|reflexivity].
Qed.

Lemma failed_creation_unwinds_witness :
  exists w',
    dns_request_createraw env_noreset (Some msgbuf_query) None (Some addr_server) (-1)
      opts_none 30 0 3 (Some 100) (Some 200) (Some None) world_idle
    = Some (ISC_R_UNEXPECTED, w') /\
    existsb is_mgr_lock (w_log w') = true /\
    manager_kept mgr_idle (w_mgr w').
Proof.
  eexists. split; [vm_compute; reflexivity|]. split; [reflexivity|].
  refine (proj1 (proj1 (failed_creation_unwinds env_noreset msgbuf_query 1 None
                          addr_server (-1) opts_none None 30 0 3 100 200 world_idle
                          eq_refl) _ _ _ _)).
  - vm_compute. reflexivity.
  - reflexivity.
Defined.

(** ** Creation that succeeds *)

Lemma admitted_after (env : Env) (self task : Z) (tcp conn : bool)
  (dest : isc_sockaddr_t) (sock : option Z) (timeout udpt : Z)
  (w w1 w' : world) (r0 : dns_request_t) (q : isc_buffer_t) :
  admit_and_start env self task tcp conn dest sock timeout udpt w1
  = Some (ISC_R_SUCCESS, w') ->
  self = e_mem_get env (w_log w) ->
  w_mgr w1 = w_mgr w ->
  magic r0 = REQUEST_MAGIC -> flags r0 = 0 -> canceling r0 = false ->
  answer r0 = None -> event r0 = Some (mk_requestevent task ISC_R_FAILURE) ->
  is_some (dispatch (w_req w1)) = true -> is_some (dispentry (w_req w1)) = true ->
  query (w_req w1) = Some q ->
  w_req w1 = with_tsig (tsig (w_req w1))
               (with_query (query (w_req w1))
                  (with_dispentry (dispentry (w_req w1))
                     (with_dispatch (dispatch (w_req w1)) r0))) ->
  admitted env task dest w w'.
Proof.
  intros H -> Hm Hmg Hfl Hc Ha He Hd Hde Hq Hreq.
  apply admit_success in H. cbn zeta in H.
  destruct H as (Hex & Hmgr & t & expires & start & _ & _ & _ & Hstart).
  rewrite Hm in *.
  assert (Hbound : forall x, 0 <= x mod DNS_REQUEST_NLOCKS < DNS_REQUEST_NLOCKS)
    by (intros x; apply Z.mod_pos_bound; reflexivity).
  destruct (dispatch (w_req w1)) as [d|]; [|discriminate].
  destruct (dispentry (w_req w1)) as [de|]; [|discriminate].
  rewrite Hq in Hreq.
  destruct r0 as [mg hs fl q0 a ev d0 de0 t0 rm ts tk c da uc ds].
  cbn in Hmg, Hfl, Hc, Ha, He. subst mg fl c a ev.
  unfold admitted. cbn zeta.
  split; [exact Hex|]. split; [exact Hmgr|].
  destruct (tcp && negb conn).
  - destruct Hstart as (_ & ->). rewrite Hreq, Hmgr.
    repeat split; try reflexivity; apply Hbound.
  - destruct Hstart as (sk & q' & _ & _ & ->). rewrite Hreq, Hmgr.
    repeat split; try reflexivity; apply Hbound.
Qed.

Lemma frame_with_query (a b : dns_request_t) (q : option isc_buffer_t) :
  b = with_dispentry (dispentry b) (with_dispatch (dispatch b) a) ->
  with_query q b =
  with_tsig (tsig (with_query q b))
    (with_query (query (with_query q b))
       (with_dispentry (dispentry (with_query q b))
          (with_dispatch (dispatch (with_query q b)) a))).
Proof.
  destruct a, b. unfold with_query, with_dispentry, with_dispatch, with_tsig. cbn.
  intros H. injection H; clear H; intros; subst. reflexivity.
Qed.

Lemma frame_with_tsig (a b : dns_request_t) (ts : option (list Z)) :
  b = with_query (query b) (with_dispentry (dispentry b) (with_dispatch (dispatch b) a)) ->
  with_tsig ts b =
  with_tsig (tsig (with_tsig ts b))
    (with_query (query (with_tsig ts b))
       (with_dispentry (dispentry (with_tsig ts b))
          (with_dispatch (dispatch (with_tsig ts b)) a))).
Proof.
  destruct a, b. unfold with_query, with_dispentry, with_dispatch, with_tsig. cbn.
  intros H. injection H; clear H; intros; subst. reflexivity.
Qed.

Lemma via_pass_slot (env : Env) (options : options_t) (settsigkey : bool)
  (srcaddr : option isc_sockaddr_t) (destaddr : isc_sockaddr_t) (dscpv : Z)
  (conn_in : bool) (w w' : world)
  (res : isc_result_t) (conn tcp : bool) (sock : option Z) :
  via_pass env options settsigkey srcaddr destaddr dscpv conn_in w
  = Some ((res, conn, tcp, sock, false), w') ->
  is_success res = true ->
  is_some (dispatch (w_req w')) = true /\ is_some (dispentry (w_req w')) = true.
Proof.
  intros H Hs. unfold via_pass, req_getsocket in H. destruct w as [m rq l].
  mexec H; use_get_dispatch; use_req_render; destruct_worlds.
  all: try discriminate Hs.
  all: try (rewrite Hs in *; discriminate).
  all: rewrite Hrreq; cbn [dispatch dispentry with_query with_dispentry];
    rewrite Heqo0; split; reflexivity.
Qed.

Lemma via_use_tcp_slot (env : Env) (options : options_t)
  (srcaddr : option isc_sockaddr_t) (destaddr : isc_sockaddr_t) (dscpv : Z)
  (w w' : world) (res : isc_result_t) (conn tcp : bool) (sock : option Z) :
  via_use_tcp env options srcaddr destaddr dscpv w = Some ((res, conn, tcp, sock), w') ->
  is_success res = true ->
  is_some (dispatch (w_req w')) = true /\ is_some (dispentry (w_req w')) = true.
Proof.
  intros H Hs. unfold via_use_tcp, bind, ret in H.
  destruct (via_pass env options true _ _ _ false w)
    as [[[[[[r1 c1] t1] s1] again] w1]|] eqn:H1; [|discriminate].
  destruct again.
  - destruct (via_pass env (options_set_tcp options) false _ _ _ c1 w1)
      as [[[[[[r2 c2] t2] s2] again2] w2]|] eqn:H2; [|discriminate].
    injection H as <- <- <- <- <-.
    destruct again2.
    + apply via_pass_spec in H2.
      destruct H2 as (_ & _ & _ & delta & _ & _ & _ & _ & Ha & _).
      destruct (Ha eq_refl) as (Hx & _). discriminate Hx.
    + exact (via_pass_slot _ _ _ _ _ _ _ _ _ _ _ _ _ H2 Hs).
  - injection H as <- <- <- <- <-.
    exact (via_pass_slot _ _ _ _ _ _ _ _ _ _ _ _ _ H1 Hs).
Qed.

Lemma createraw_admits (env : Env) (msgbuf : isc_buffer_t)
  (srcaddr : option isc_sockaddr_t) (destaddr : isc_sockaddr_t) (dscpv : Z)
  (options : options_t) (timeout udptimeout udpretries : Z)
  (task action : Z) (w w' : world) :
  dns_request_createraw env (Some msgbuf) srcaddr (Some destaddr) dscpv options
    timeout udptimeout udpretries (Some task) (Some action) (Some None) w
  = Some (ISC_R_SUCCESS, w') ->
  admitted env task destaddr w w'.
Proof.
  intros H.
  destruct (isblackholed env destaddr) eqn:Hbh;
    [apply createraw_blackholed in H as (Hr & _); [discriminate|exact Hbh]|].
  apply createraw_steps in H; [|exact Hbh]. cbv zeta in H.
  destruct H as (udpt & tres & t & _ & _ & H).
  destruct (is_success tres) eqn:Ht;
    [|apply cleanup_result in H; rewrite <- H in Ht; discriminate].
  destruct (_ || _); [apply cleanup_result in H; discriminate|].
  destruct H as (rres & conn & id & w1 & Hr & H).
  destruct (is_success rres) eqn:Hs;
    [|apply cleanup_result in H; rewrite <- H in Hs; discriminate].
  destruct H as (sock & H).
  apply raw_again_spec in Hr.
  destruct Hr as (Hm1 & Hreq & Hslot & _).
  destruct (Hslot Hs) as (Hd & Hde & _).
  cbn [w_mgr w_req w_log] in *.
  eapply (admitted_after env _ task _ _ _ _ _ _ w _ w' _ _ H);
    [reflexivity|exact Hm1| | | | | |exact Hd|exact Hde|reflexivity
    |exact (frame_with_query _ _ _ Hreq)]; reflexivity.
Qed.

Lemma createvia_admits (env : Env) (message : Z)
  (srcaddr : option isc_sockaddr_t) (destaddr : isc_sockaddr_t) (dscpv : Z)
  (options : options_t) (key : option Z) (timeout udptimeout udpretries : Z)
  (task action : Z) (w w' : world) :
  dns_request_createvia env (Some message) srcaddr (Some destaddr) dscpv options key
    timeout udptimeout udpretries (Some task) (Some action) (Some None) w
  = Some (ISC_R_SUCCESS, w') ->
  admitted env task destaddr w w'.
Proof.
  intros H.
  destruct (same_family srcaddr destaddr && negb (isblackholed env destaddr)) eqn:Hbh.
  2:{ apply createvia_refused in H as (Hr & _); [|exact Hbh].
      destruct (same_family srcaddr destaddr); discriminate. }
  apply andb_true_iff in Hbh as (Hfam & Hbh). apply negb_true_iff in Hbh.
  apply createvia_steps in H; [|exact Hfam|exact Hbh]. cbv zeta in H.
  destruct H as (udpt & tres & t & _ & _ & H).
  destruct (is_success tres) eqn:Ht;
    [|apply cleanup_result in H; rewrite <- H in Ht; discriminate].
  destruct H as (rres & conn & tcp & sock & w1 & Hr & H).
  destruct (is_success rres) eqn:Hs;
    [|apply cleanup_result in H; rewrite <- H in Hs; discriminate].
  destruct H as (qres & qtsig & _ & H).
  destruct (is_success qres) eqn:Hq;
    [|apply cleanup_result in H; rewrite <- H in Hq; discriminate].
  pose proof Hr as Hr0.
  apply via_use_tcp_spec in Hr.
  destruct Hr as (Hm1 & Hreq & _ & loop & Hl1 & Hp1 & Hok).
  destruct (Hok Hs) as (_ & _ & rendered & h & id & _ & _ & _ & Hquery).
  destruct (via_use_tcp_slot _ _ _ _ _ _ _ _ _ _ _ Hr0 Hs) as (Hd & Hde).
  cbn [w_mgr w_req w_log] in *.
  eapply (admitted_after env _ task _ _ _ _ _ _ w _ w' _ _ H);
    [reflexivity|exact Hm1| | | | | |exact Hd|exact Hde|exact Hquery
    |exact (frame_with_tsig _ _ _ Hreq)]; reflexivity.
Qed.

(** X2. A creation that succeeds admits exactly the new request: in both
    factories the manager ends with [iref] one higher, the hash counter
    advanced by one and the request appended at the tail of its list, all
    else untouched; the request is live and not canceled, holds the
    caller's event, the destination, a dispatch and a response slot, has
    exactly one of CONNECTING and SENDING set, and its shard index is the
    new hash counter modulo DNS_REQUEST_NLOCKS, a valid index into the
    array of locks. *)
Theorem successful_creation_admits (env : Env) (msgbuf : isc_buffer_t) (message : Z)
  (srcaddr : option isc_sockaddr_t) (destaddr : isc_sockaddr_t) (dscpv : Z)
  (options : options_t) (key : option Z) (timeout udptimeout udpretries : Z)
  (task action : Z) (w : world) :
  (forall w',
     dns_request_createraw env (Some msgbuf) srcaddr (Some destaddr) dscpv options
       timeout udptimeout udpretries (Some task) (Some action) (Some None) w
     = Some (ISC_R_SUCCESS, w') ->
     admitted env task destaddr w w') /\
  (forall w',
     dns_request_createvia env (Some message) srcaddr (Some destaddr) dscpv options key
       timeout udptimeout udpretries (Some task) (Some action) (Some None) w
     = Some (ISC_R_SUCCESS, w') ->
     admitted env task destaddr w w').
Proof.
  split; intros w' H.
  - exact (createraw_admits _ _ _ _ _ _ _ _ _ _ _ _ _ H).
  - exact (createvia_admits _ _ _ _ _ _ _ _ _ _ _ _ _ _ H).
Qed.

Lemma successful_creation_admits_witness :
  exists w',
    dns_request_createvia env_ok (Some 1) None (Some addr_server) (-1) opts_tcp None
      30 0 3 (Some 100) (Some 200) (Some None) world_idle
    = Some (ISC_R_SUCCESS, w') /\
    requests (w_mgr w') = [4096] /\ iref (w_mgr w') = 1 /\
    request_ok (w_req w') = true.
Proof.
  eexists. split; [vm_compute; reflexivity|].
  match goal with
  | |- requests (w_mgr ?x) = _ /\ _ =>
      destruct (proj2 (successful_creation_admits env_ok msgbuf_query 1 None
                         addr_server (-1) opts_tcp None 30 0 3 100 200 world_idle)
                  x ltac:(vm_compute; reflexivity))
        as (_ & _ & Hok & _)
  end.
  split; [reflexivity|]. split; [reflexivity|exact Hok].
Defined.

(** ** The handlers never trip an assertion *)

(** X3. No handler aborts on an event the environment may deliver.  A
    request that is [request_ok] stays so under every handler, and every
    event that is [ready] in its state is handled without a failed REQUIRE
    or INSIST and without a NULL dereference.  So a sequence of events on
    such a request can only abort at an event that arrived out of turn: a
    control event that was not posted, the completion of a socket
    operation that is not in flight, or a response or timer event for a
    request that was already canceled. *)
Theorem handlers_never_abort (env : Env) (es : list req_event) (w : world)
  (Hok : request_ok (w_req w) = true) :
  (forall w', run env es w = Some (tt, w') -> request_ok (w_req w') = true) /\
  (run env es w = None ->
   exists es1 e es2 w1,
     es = es1 ++ e :: es2 /\
     run env es1 w = Some (tt, w1) /\
     ready e (w_req w1) = false).
Proof.
  revert w Hok. induction es as [|e es IH]; intros w Hok.
  - split; [intros w' [= <-]; exact Hok|discriminate].
  - rewrite run_cons.
    destruct (ready e (w_req w)) eqn:Hr.
    + destruct (handle_progress env e w Hok Hr) as (w1 & Hh). rewrite Hh.
      pose proof (handle_keeps_ok env e w w1 Hh Hok) as Hok1.
      destruct (IH w1 Hok1) as (IH1 & IH2).
      split; [exact IH1|].
      intros Hn. destruct (IH2 Hn) as (es1 & e' & es2 & w2 & -> & Hrun & Hnr).
      exists (e :: es1), e', es2, w2.
      split; [reflexivity|]. split; [|exact Hnr].
      rewrite run_cons, Hh. exact Hrun.
    + split.
      * destruct (handle env e w) as [[[] w1]|] eqn:Hh; [|discriminate].
        intros w' Hrun.
        pose proof (handle_keeps_ok env e w w1 Hh Hok) as Hok1.
        exact (proj1 (IH w1 Hok1) w' Hrun).
      * intros _. exists [], e, es, w. repeat split. exact Hr.
Qed.

Lemma handlers_never_abort_witness :
  exists w',
    run env_ok [E_timer ISC_TIMEREVENT_TICK; E_senddone ISC_R_SUCCESS;
                E_response ISC_R_SUCCESS [1; 2; 3]] world_waiting = Some (tt, w') /\
    request_ok (w_req w') = true.
Proof.
  eexists. split; [vm_compute; reflexivity|].
  refine (proj1 (handlers_never_abort env_ok
                   [E_timer ISC_TIMEREVENT_TICK; E_senddone ISC_R_SUCCESS;
                    E_response ISC_R_SUCCESS [1; 2; 3]] world_waiting eq_refl) _ _).
  vm_compute. reflexivity.
Defined.

(** ** Destruction of a request *)



Lemma unlink_linked (self : Z) (l : list Z) :
  distinct l = true -> existsb (Z.eqb self) l = true ->
  Z.of_nat (length (filter (Z_neqb self) l)) = Z.of_nat (length l) - 1 /\
  existsb (Z.eqb self) (filter (Z_neqb self) l) = false.
Proof.
  induction l as [|y l IH]; [discriminate|].
  intros Hd Hin.
  assert (Hf : filter (Z_neqb self) (y :: l) =
               if self =? y then filter (Z_neqb self) l
               else y :: filter (Z_neqb self) l).
  { cbn [filter]. unfold Z_neqb at 1. now destruct (self =? y). }
  rewrite Hf. clear Hf.
  cbn [distinct] in Hd. cbn [existsb] in Hin.
  apply andb_true_iff in Hd as (Hy & Hd). apply negb_true_iff in Hy.
  destruct (Z.eqb_spec self y) as [Heq|Hne].
  - subst y. rewrite (filter_unlinked _ _ Hy). split; [|exact Hy].
    cbn [length]. lia.
  - cbn [orb] in Hin. destruct (IH Hd Hin) as (Hlen & Hnot).
    cbn [length existsb]. split; [lia|].
    apply Z.eqb_neq in Hne. rewrite Hne. exact Hnot.
Qed.

Lemma send_shutdown_events_spec (w : world) :
  send_shutdown_events w =
  Some (tt, mk_world (with_whenshutdown [] (w_mgr w)) (w_req w)
              (w_log w ++ shutdown_sends (whenshutdown (w_mgr w)))).
Proof.
  unfold send_shutdown_events. unfold bind at 1 2. unfold get_mgr at 1.
  destruct w as [m r l]. cbn [w_mgr w_req w_log].
  assert (Hloop : forall evs l0,
             (fix loop (l : list (Z * Z)) : M unit :=
                match l with
                | [] => ret tt
                | (etask, ev) :: l' => emit (A_task_shutdown_event etask ev) ;; loop l'
                end) evs (mk_world m r l0)
             = Some (tt, mk_world m r (l0 ++ shutdown_sends evs))).
  { induction evs as [|[etask ev] evs IH]; intros l0.
    - cbn. now rewrite app_nil_r.
    - unfold bind at 1. unfold emit at 1. cbn [w_mgr w_req w_log].
      rewrite IH. cbn. now rewrite <- app_assoc. }
  rewrite Hloop. reflexivity.
Qed.

Ltac arith_hyps :=
  repeat match goal with
         | H : _ && _ = true |- _ => apply andb_true_iff in H; destruct H
         | H : _ && _ = false |- _ => apply andb_false_iff in H
         | H : (_ =? _) = true |- _ => apply Z.eqb_eq in H
         | H : (_ =? _) = false |- _ => apply Z.eqb_neq in H
         | H : (_ <? _) = true |- _ => apply Z.ltb_lt in H
         | H : (_ <? _) = false |- _ => apply Z.ltb_ge in H
         end.

Lemma destroy_spec (self : Z) (w : world)
  (Hok : request_ok (w_req w) = true)
  (Hcan : DNS_REQUEST_CANCELED (w_req w) = true)
  (Hconn : DNS_REQUEST_CONNECTING (w_req w) = false)
  (Hsend : DNS_REQUEST_SENDING (w_req w) = false)
  (Hmgr : requestmgr (w_req w) = true)
  (Hm : mgr_ok (w_mgr w) = true)
  (Hin : linked self (w_mgr w) = true) :
  let m := w_mgr w in
  let last := exiting m && (iref m =? 1) in
  let destroyed := last && (eref m =? 0) in
  exists w',
    dns_request_destroy self w = Some (tt, w') /\
    requests (w_mgr w') = filter (Z_neqb self) (requests m) /\
    iref (w_mgr w') = iref m - 1 /\
    whenshutdown (w_mgr w') = (if last then [] else whenshutdown m) /\
    (eref (w_mgr w') = eref m /\ exiting (w_mgr w') = exiting m /\
     dispatchv4 (w_mgr w') = (if destroyed then None else dispatchv4 m) /\
     dispatchv6 (w_mgr w') = (if destroyed then None else dispatchv6 m) /\
     mgr_hash (w_mgr w') = mgr_hash m /\
     mgr_magic (w_mgr w') = (if destroyed then 0 else mgr_magic m)) /\
    (VALID_REQUEST (w_req w') = false /\ requestmgr (w_req w') = false /\
     query (w_req w') = None /\ answer (w_req w') = None /\
     event (w_req w') = None /\ tsig (w_req w') = None /\
     tsigkey (w_req w') = None) /\
    w_log w' =
      w_log w ++ [A_lock_mgr; A_unlock_mgr] ++
      (if is_some (event (w_req w)) then [A_event_free] else []) ++
      [A_lock_mgr] ++
      (if last then shutdown_sends (whenshutdown m) else []) ++
      [A_unlock_mgr] ++
      (if destroyed then destroy_calls m else []).
Proof.
  destruct w as [m r l].
  destruct r as [mg hs fl q a ev d de t rm ts tk c da uc ds].
  destruct m as [mm er ir d4 d6 ex ws mh rqs].
  unfold mgr_ok, linked in *. cbn [w_mgr w_req w_log requestmgr iref requests] in *.
  subst rm.
  apply andb_true_iff in Hm as (Hir & Hdis). apply Z.eqb_eq in Hir.
  destruct (unlink_linked self rqs Hdis Hin) as (Hlen & Hout).
  unfold request_ok in Hok. rewrite Hcan in Hok.
  cbn [query timer dispentry dispatch] in Hok.
  destruct t; [rewrite ?andb_false_r in Hok; cbn in Hok; rewrite ?andb_false_r in Hok; discriminate|].
  destruct de; [rewrite ?andb_false_r in Hok; cbn in Hok; rewrite ?andb_false_r in Hok; discriminate|].
  destruct d; [rewrite ?andb_false_r in Hok; cbn in Hok; rewrite ?andb_false_r in Hok; discriminate|].
  cbn [is_some negb] in Hok. rewrite !andb_true_r in Hok.
  apply andb_true_iff in Hok as (Hv & Hq).
  cbv zeta.
  cbn [exiting iref eref whenshutdown dispatchv4 dispatchv6 mgr_hash mgr_magic event].
  destruct (dns_request_destroy self _) as [[[] w']|] eqn:H.
  - exists w'. split; [reflexivity|].
    unfold dns_request_destroy, req_destroy, requestmgr_detach, mgr_destroy in H.
    mexec_any H.
    all: repeat match goal with
           | Hs : send_shutdown_events _ = _ |- _ =>
               rewrite send_shutdown_events_spec in Hs;
               first [ discriminate Hs | injection Hs; clear Hs; intros; subst ]
           end.
    all: cbn in *.
    all: repeat match goal with
                | Hd : ?x = Some _ |- _ => is_var x; subst x
                | Hd : ?x = None |- _ => is_var x; subst x
                end.
    all: arith_hyps.
    all: destruct ev; cbn in *; try discriminate.
    all: destruct ex; cbn in *; try discriminate.
    all: try match goal with H : _ :: _ = [] |- _ => discriminate H end.
    all: repeat match goal with
                | |- context [?a =? ?b] => destruct (Z.eqb_spec a b); try lia
                end.
    all: cbn; repeat rewrite <- app_assoc; cbn; repeat split; try reflexivity; try lia.
    all: try match goal with
             | H : ?A \/ ?B |- _ => destruct H; try lia; try discriminate
             end.
  - exfalso.
    unfold dns_request_destroy, req_destroy, requestmgr_detach, mgr_destroy in H.
    mexec_any H.
    all: repeat match goal with
           | Hs : send_shutdown_events _ = _ |- _ =>
               rewrite send_shutdown_events_spec in Hs;
               first [ discriminate Hs | injection Hs; clear Hs; intros; subst ]
           end.
    all: unfold VALID_REQUEST in *; cbn in *; flagbits; cbn in *.
    all: try congruence.
    all: repeat match goal with
                | Hb : Z.testbit ?f ?k = _, H2 : context [Z.testbit ?f ?k] |- _ =>
                    lazymatch type of H2 with
                    | Z.testbit f k = _ => fail
                    | _ => rewrite Hb in H2
                    end
                end; cbn in *; try discriminate.
    all: arith_hyps; try lia.
Qed.





(** ** The completion event is never lost *)

Ltac completion_goal :=
  unfold completions in *; rewrite ?filter_app; cbn [filter is_completion];
  repeat match goal with
         | Hd : forallb is_teardown ?d = true |- context [filter is_completion ?d] =>
             rewrite (teardown_no_completion d Hd)
         end;
  rewrite ?app_nil_r.

Ltac delivery_goal :=
  cbn in *; flagbits; cbn in *; split_bits; cbn in *;
  repeat match goal with
         | c : bool |- _ => destruct c; cbn in *; try discriminate
         end;
  repeat match goal with
         | |- context [match ?o with Some _ => _ | None => _ end] =>
             is_var o; destruct o; cbn in *; try discriminate
         | H : context [is_some ?o] |- _ => is_var o; destruct o; cbn in *; try discriminate
         end;
  repeat match goal with
         | H : Some _ = Some _ |- _ => injection H as H; try subst
         end;
  flagbits; split_bits; cbn in *; try congruence;
  (split; [first [reflexivity|assumption]|]);
  completion_goal;
  first [ split; reflexivity
        | left; split; reflexivity
        | right; split; [reflexivity|eexists; reflexivity] ].

Lemma handle_delivery (env : Env) (e : req_event) (w w' : world) :
  handle env e w = Some (tt, w') ->
  delivered_if_settled (w_req w) = true ->
  delivered_if_settled (w_req w') = true /\
  match event (w_req w) with
  | Some ev =>
      (event (w_req w') = Some ev /\ completions (w_log w') = completions (w_log w)) \/
      (event (w_req w') = None /\
       exists res, completions (w_log w') =
                   completions (w_log w) ++ [A_task_sendanddetach (ev_sender ev) res])
  | None => event (w_req w') = None /\ completions (w_log w') = completions (w_log w)
  end.
Proof.
  intros H Hj. destruct w as [m r l].
  destruct r as [mg hs fl q a ev d de t rm ts tk c da uc ds].
  unfold delivered_if_settled, settled in *.
  destruct e; cbn [handle] in H.
  - unfold dns_request_cancel in H. mexec_any H; delivery_goal.
  - unfold do_cancel, send_if_done, req_sendevent in H.
    mexec_any H; use_cancel; delivery_goal.
  - unfold req_connected, req_send, req_getsocket, send_if_done, req_sendevent in H.
    mexec_any H; use_cancel; delivery_goal.
  - unfold req_senddone, send_if_done, req_sendevent in H.
    mexec_any H; use_cancel; delivery_goal.
  - unfold req_response, send_if_done, req_sendevent, isc_buffer_copyregion in H.
    mexec_any H; use_cancel; delivery_goal.
  - unfold req_timeout, req_send, req_getsocket, send_if_done, req_sendevent in H.
    mexec_any H; use_cancel; delivery_goal.
Qed.

(** X5.  The completion event is sent exactly once and is never lost.
    From a request that still holds its completion event [ev], after any
    events: either the request still holds [ev], nothing was sent and the
    request is not settled; or the event pointer is null and exactly one
    completion was sent, to the task of [ev].  So a request that is CANCELED
    with no control event outstanding has delivered its completion. *)
Theorem completion_never_lost (env : Env) (es : list req_event) (w w' : world)
  (ev : dns_requestevent_t)
  (Hev : event (w_req w) = Some ev)
  (Hj : delivered_if_settled (w_req w) = true)
  (Hrun : run env es w = Some (tt, w')) :
  if is_some (event (w_req w'))
  then event (w_req w') = Some ev /\ settled (w_req w') = false /\
       completions (w_log w') = completions (w_log w)
  else exists res,
      completions (w_log w') =
      completions (w_log w) ++ [A_task_sendanddetach (ev_sender ev) res].
Proof.
  revert w Hev Hj Hrun. induction es as [|e es IH]; intros w Hev Hj Hrun.
  - cbn in Hrun. injection Hrun as <-. rewrite Hev. cbn.
    unfold delivered_if_settled in Hj. rewrite Hev in Hj. cbn in Hj.
    destruct (settled (w_req w)); [discriminate|auto].
  - rewrite run_cons in Hrun.
    destruct (handle env e w) as [[[] w1]|] eqn:Hh; [|discriminate].
    destruct (handle_delivery env e w w1 Hh Hj) as (Hj1 & Hstep).
    rewrite Hev in Hstep. destruct Hstep as [(Hev1 & Hc1)|(Hev1 & res & Hc1)].
    + specialize (IH w1 Hev1 Hj1 Hrun). rewrite Hc1 in IH. exact IH.
    + destruct (run_completions_none env es w1 w' Hev1 Hrun) as (Hc & Hn).
      rewrite Hn. cbn. exists res. now rewrite Hc, Hc1.
Qed.

Lemma completion_never_lost_witness :
  exists w',
    run env_ok [E_cancel; E_response ISC_R_SUCCESS [1; 2; 3]; E_control] world_waiting
    = Some (tt, w') /\
    exists res, completions (w_log w') = [A_task_sendanddetach 100 res].
Proof.
  eexists. split; [vm_compute; reflexivity|].
  match goal with
  | |- exists res, completions (w_log ?x) = _ =>
      exact (completion_never_lost env_ok
               [E_cancel; E_response ISC_R_SUCCESS [1; 2; 3]; E_control] world_waiting x
               (mk_requestevent 100 ISC_R_FAILURE) ltac:(vm_compute; reflexivity)
               ltac:(vm_compute; reflexivity) ltac:(vm_compute; reflexivity))
  end.
Defined.

(** ** What the handlers leave alone *)

Ltac static_goal :=
  unfold same_identity; cbn in *; flagbits; cbn in *;
  repeat split; try reflexivity; try congruence.

Lemma handle_static (env : Env) (e : req_event) (w w' : world) :
  handle env e w = Some (tt, w') ->
  w_mgr w' = w_mgr w /\ same_identity (w_req w) (w_req w').
Proof.
  intros H. destruct w as [m r l].
  destruct r as [mg hs fl q a ev d de t rm ts tk c da uc ds].
  destruct e; cbn [handle] in H.
  - unfold dns_request_cancel in H. mexec_any H; static_goal.
  - unfold do_cancel, send_if_done, req_sendevent in H.
    mexec_any H; use_cancel; static_goal.
  - unfold req_connected, req_send, req_getsocket, send_if_done, req_sendevent in H.
    mexec_any H; use_cancel; static_goal.
  - unfold req_senddone, send_if_done, req_sendevent in H.
    mexec_any H; use_cancel; static_goal.
  - unfold req_response, send_if_done, req_sendevent, isc_buffer_copyregion in H.
    mexec_any H; use_cancel; static_goal.
  - unfold req_timeout, req_send, req_getsocket, send_if_done, req_sendevent in H.
    mexec_any H; use_cancel; static_goal.
Qed.

Lemma run_static (env : Env) (es : list req_event) (w w' : world) :
  run env es w = Some (tt, w') ->
  w_mgr w' = w_mgr w /\ same_identity (w_req w) (w_req w').
Proof.
  revert w. induction es as [|e es IH]; intros w H.
  - cbn in H. injection H as <-. unfold same_identity. repeat split; reflexivity.
  - rewrite run_cons in H.
    destruct (handle env e w) as [[[] w1]|] eqn:Hh; [|discriminate].
    destruct (handle_static env e w w1 Hh) as (Hm1 & Hs1).
    destruct (IH w1 H) as (Hm & Hs).
    split; [congruence|].
    unfold same_identity in *.
    destruct Hs1 as (? & ? & ? & ? & ? & ? & ? & ? & ?).
    destruct Hs as (? & ? & ? & ? & ? & ? & ? & ? & ?).
    repeat split; congruence.
Qed.

Lemma run_keeps_ok (env : Env) (es : list req_event) (w w' : world) :
  run env es w = Some (tt, w') ->
  request_ok (w_req w) = true -> request_ok (w_req w') = true.
Proof.
  revert w. induction es as [|e es IH]; intros w H Hok.
  - cbn in H. injection H as <-. exact Hok.
  - rewrite run_cons in H.
    destruct (handle env e w) as [[[] w1]|] eqn:Hh; [|discriminate].
    exact (IH w1 H (handle_keeps_ok env e w w1 Hh Hok)).
Qed.

(** ** A request from creation to destruction *)

Lemma existsb_snoc (x self : Z) (l : list Z) :
  existsb (Z.eqb x) (l ++ [self]) = existsb (Z.eqb x) l || (x =? self).
Proof. rewrite existsb_app. cbn. now rewrite orb_false_r. Qed.

Lemma distinct_snoc (self : Z) (l : list Z) :
  distinct l = true -> existsb (Z.eqb self) l = false ->
  distinct (l ++ [self]) = true.
Proof.
  induction l as [|x l IH]; cbn [app distinct existsb]; [reflexivity|].
  intros Hd Hn. apply andb_true_iff in Hd as (Hx & Hd).
  apply orb_false_iff in Hn as (Hsx & Hn).
  rewrite existsb_snoc, (IH Hd Hn), andb_true_r.
  apply negb_true_iff in Hx. rewrite Hx. cbn.
  rewrite Z.eqb_sym. now rewrite Hsx.
Qed.

Lemma lifecycle_after_admission (env : Env) (task : Z) (dest : isc_sockaddr_t)
  (es : list req_event) (w w1 w2 : world) :
  mgr_ok (w_mgr w) = true ->
  unlinked (e_mem_get env (w_log w)) (w_mgr w) = true ->
  admitted env task dest w w1 ->
  run env es w1 = Some (tt, w2) ->
  DNS_REQUEST_CANCELED (w_req w2) = true ->
  DNS_REQUEST_CONNECTING (w_req w2) = false ->
  DNS_REQUEST_SENDING (w_req w2) = false ->
  exists w3,
    dns_request_destroy (e_mem_get env (w_log w)) w2 = Some (tt, w3) /\
    manager_kept (w_mgr w) (w_mgr w3) /\
    mgr_ok (w_mgr w3) = true /\
    VALID_REQUEST (w_req w3) = false /\
    completions (w_log w3) = completions (w_log w2).
Proof.
  intros Hm Hun Hadm Hrun Hcan Hconn Hsend.
  destruct Hadm as (Hex & Hm1 & Hok1 & Hrm1 & _).
  destruct (run_static env es w1 w2 Hrun) as (Hm2 & Hid).
  destruct Hid as (_ & _ & _ & Hrm2 & _).
  pose proof (run_keeps_ok env es w1 w2 Hrun Hok1) as Hok2.
  unfold mgr_ok, unlinked in *.
  apply andb_true_iff in Hm as (Hir & Hdis). apply Z.eqb_eq in Hir.
  apply negb_true_iff in Hun.
  set (self := e_mem_get env (w_log w)) in *.
  assert (Hmgr2 : mgr_ok (w_mgr w2) = true).
  { unfold mgr_ok. rewrite Hm2, Hm1. cbn.
    rewrite length_app, (distinct_snoc _ _ Hdis Hun), andb_true_r. cbn [length].
    apply Z.eqb_eq. lia. }
  assert (Hin2 : linked self (w_mgr w2) = true).
  { unfold linked. rewrite Hm2, Hm1. cbn. rewrite existsb_snoc, Z.eqb_refl.
    apply orb_true_r. }
  assert (Hrm : requestmgr (w_req w2) = true) by congruence.
  destruct (destroy_spec self w2 Hok2 Hcan Hconn Hsend Hrm Hmgr2 Hin2)
    as (w3 & Hd & Hreq & Hiref & Hws & (He & Hx & H4 & H6 & _) & (Hv & _) & Hlog).
  cbv zeta in *.
  exists w3. split; [exact Hd|].
  assert (Hex2 : exiting (w_mgr w2) = false) by (rewrite Hm2, Hm1; exact Hex).
  rewrite Hex2 in *. cbn [andb] in *.
  split; [|split; [|split]].
  - unfold manager_kept. rewrite He, Hiref, H4, H6, Hx, Hws, Hreq, Hm2, Hm1. cbn.
    rewrite (filter_relinked _ _ Hun). repeat split; try reflexivity; try lia.
    now rewrite Hex.
  - unfold mgr_ok. rewrite Hiref, Hreq, Hm2, Hm1. cbn.
    rewrite (filter_relinked _ _ Hun), Hdis, andb_true_r. apply Z.eqb_eq. lia.
  - exact Hv.
  - rewrite Hlog. unfold completions. rewrite !filter_app.
    destruct (is_some (event (w_req w2))); cbn; now rewrite app_nil_r.
Qed.

(** X6.  Creating a request, delivering it events and destroying it is a
    round trip on the manager.  When the address the allocator hands out is
    not linked yet and [iref] counts the linked requests, a successful
    creation by either factory, followed by any events that leave the
    request CANCELED with nothing in flight, can be followed by
    [dns_request_destroy]: it returns, and the manager is as it was before
    the creation, but for its hash counter; the request is invalid and the
    destruction itself sends no completion. *)
Theorem creation_to_destruction (env : Env) (msgbuf : isc_buffer_t) (message : Z)
  (srcaddr : option isc_sockaddr_t) (destaddr : isc_sockaddr_t) (dscpv : Z)
  (options : options_t) (key : option Z) (timeout udptimeout udpretries : Z)
  (task action : Z) (es : list req_event) (w w1 w2 : world)
  (Hm : mgr_ok (w_mgr w) = true)
  (Hfresh : unlinked (e_mem_get env (w_log w)) (w_mgr w) = true)
  (Hcreate :
     dns_request_createraw env (Some msgbuf) srcaddr (Some destaddr) dscpv options
       timeout udptimeout udpretries (Some task) (Some action) (Some None) w
     = Some (ISC_R_SUCCESS, w1) \/
     dns_request_createvia env (Some message) srcaddr (Some destaddr) dscpv options key
       timeout udptimeout udpretries (Some task) (Some action) (Some None) w
     = Some (ISC_R_SUCCESS, w1))
  (Hrun : run env es w1 = Some (tt, w2))
  (Hcan : DNS_REQUEST_CANCELED (w_req w2) = true)
  (Hconn : DNS_REQUEST_CONNECTING (w_req w2) = false)
  (Hsend : DNS_REQUEST_SENDING (w_req w2) = false) :
  exists w3,
    dns_request_destroy (e_mem_get env (w_log w)) w2 = Some (tt, w3) /\
    manager_kept (w_mgr w) (w_mgr w3) /\
    mgr_ok (w_mgr w3) = true /\
    VALID_REQUEST (w_req w3) = false /\
    completions (w_log w3) = completions (w_log w2).
Proof.
  assert (Hadm : admitted env task destaddr w w1).
  { destruct Hcreate as [H|H].
    - exact (createraw_admits _ _ _ _ _ _ _ _ _ _ _ _ _ H).
    - exact (createvia_admits _ _ _ _ _ _ _ _ _ _ _ _ _ _ H). }
  exact (lifecycle_after_admission env task destaddr es w w1 w2 Hm Hfresh Hadm Hrun
           Hcan Hconn Hsend).
Qed.

Lemma creation_to_destruction_witness :
  exists w1 w2 w3,
    dns_request_createvia env_ok (Some 1) None (Some addr_server) (-1) opts_tcp None
      30 0 3 (Some 100) (Some 200) (Some None) world_idle = Some (ISC_R_SUCCESS, w1) /\
    run env_ok [E_senddone ISC_R_SUCCESS; E_response ISC_R_SUCCESS [1; 2; 3]] w1
    = Some (tt, w2) /\
    dns_request_destroy 4096 w2 = Some (tt, w3) /\
    manager_kept mgr_idle (w_mgr w3).
Proof.
  do 2 eexists.
  match goal with
  | |- exists w3, ?c = Some (_, ?x1) /\ ?r = Some (_, ?x2) /\ _ =>
      assert (Hc : c = Some (ISC_R_SUCCESS, x1)) by (vm_compute; reflexivity);
      assert (Hr : r = Some (tt, x2)) by (vm_compute; reflexivity)
  end.
  destruct (creation_to_destruction env_ok msgbuf_query 1 None addr_server (-1) opts_tcp
              None 30 0 3 100 200 _ world_idle _ _
              ltac:(vm_compute; reflexivity) ltac:(vm_compute; reflexivity)
              (or_intror Hc) Hr
              ltac:(vm_compute; reflexivity) ltac:(vm_compute; reflexivity)
              ltac:(vm_compute; reflexivity))
    as (w3 & Hd & Hk & _).
  exists w3. split; [exact Hc|]. split; [exact Hr|]. split; [exact Hd|exact Hk].
Defined.

(** ** Retransmission over UDP *)

Ltac bits_hyps :=
  repeat match goal with
         | H : context [Z.testbit (set_flag _ (bit _)) _] |- _ =>
             rewrite testbit_set_flag in H by lia;
             cbn [Z.eqb Pos.eqb negb orb andb] in H
         | H : context [Z.testbit (clear_flag _ (bit _)) _] |- _ =>
             rewrite testbit_clear_flag in H by lia;
             cbn [Z.eqb Pos.eqb negb orb andb] in H
         | |- context [Z.testbit (set_flag _ (bit _)) _] =>
             rewrite testbit_set_flag by lia; cbn [Z.eqb Pos.eqb negb orb andb]
         | |- context [Z.testbit (clear_flag _ (bit _)) _] =>
             rewrite testbit_clear_flag by lia; cbn [Z.eqb Pos.eqb negb orb andb]
         end.

Lemma retransmit_round (env : Env) (w : world) :
  (forall h, e_socketevent env h = true) ->
  request_ok (w_req w) = true ->
  DNS_REQUEST_CANCELED (w_req w) = false ->
  DNS_REQUEST_SENDING (w_req w) = false ->
  udpcount (w_req w) <> 0 ->
  exists w2,
    run env [E_timer ISC_TIMEREVENT_TICK; E_senddone ISC_R_SUCCESS] w = Some (tt, w2) /\
    w_log w2 = w_log w ++ retransmission (w_req w) /\
    udpcount (w_req w2) = u32 (udpcount (w_req w) - 1) /\
    DNS_REQUEST_CANCELED (w_req w2) = false /\
    DNS_REQUEST_SENDING (w_req w2) = false /\
    (query (w_req w2) = query (w_req w) /\ dispatch (w_req w2) = dispatch (w_req w) /\
     dispentry (w_req w2) = dispentry (w_req w) /\ destaddr (w_req w2) = destaddr (w_req w) /\
     dscp (w_req w2) = dscp (w_req w) /\ event (w_req w2) = event (w_req w) /\
     canceling (w_req w2) = canceling (w_req w)).
Proof.
  intros Hevt Hok Hcan Hsend Hcount.
  destruct (run env _ w) as [[[] w2]|] eqn:H.
  - exists w2. split; [reflexivity|].
    destruct w as [m r l].
    destruct r as [mg hs fl q a ev d de t rm ts tk c da uc ds].
    cbn [run handle] in H.
    unfold req_timeout, req_senddone, req_send, req_getsocket, send_if_done,
      req_sendevent in H.
    mexec_any H; use_cancel.
    all: unfold retransmission, socket_of, request_ok, VALID_REQUEST in *.
    all: cbn in *; flagbits; cbn in *; split_bits; cbn in *; flagbits; split_bits.
    all: try congruence.
    all: bits_hyps; split_bits.
    all: try congruence.
    all: try (exfalso; arith_hyps; congruence).
    all: try match goal with H : e_socketevent _ _ = false |- _ =>
               rewrite Hevt in H; discriminate H end.
    all: repeat match goal with
                | H : ?x = true |- context [?x] => rewrite H
                | H : ?x = false |- context [?x] => rewrite H
                end.
    all: repeat split; try reflexivity.
  - exfalso.
    destruct w as [m r l].
    destruct r as [mg hs fl q a ev d de t rm ts tk c da uc ds].
    cbn [run handle] in H.
    unfold req_timeout, req_senddone, req_send, req_getsocket, send_if_done,
      req_sendevent in H.
    mexec_any H; use_cancel; try cancel_total.
    all: unfold request_ok, VALID_REQUEST in *.
    all: cbn in *; flagbits; cbn in *; split_bits; cbn in *; flagbits; split_bits.
    all: try congruence.
    all: bits_hyps; split_bits.
    all: try congruence.
    all: try (arith_hyps; congruence).
    all: try match goal with H : e_socketevent _ _ = false |- _ =>
               rewrite Hevt in H; discriminate H end.
    all: repeat match goal with
                | H : negb _ = false |- _ => apply negb_false_iff in H
                | H : negb _ = true |- _ => apply negb_true_iff in H
                end; arith_hyps; congruence.
Qed.

Lemma run_app (env : Env) (es1 es2 : list req_event) (w : world) :
  run env (es1 ++ es2) w =
  match run env es1 w with
  | Some (_, w1) => run env es2 w1
  | None => None
  end.
Proof.
  revert w. induction es1 as [|e es1 IH]; intros w; [reflexivity|].
  cbn [app]. rewrite !run_cons.
  destruct (handle env e w) as [[[] w1]|]; [apply IH|reflexivity].
Qed.

Lemma retransmission_filters (r : dns_request_t) :
  filter is_sendto (retransmission r) = retransmission r /\
  filter is_completion (retransmission r) = [].
Proof. unfold retransmission. destruct (query r); split; reflexivity. Qed.

Lemma timer_expiry_step (env : Env) (w : world) :
  request_ok (w_req w) = true ->
  DNS_REQUEST_CANCELED (w_req w) = false ->
  udpcount (w_req w) = 0 ->
  exists w',
    handle env (E_timer ISC_TIMEREVENT_TICK) w = Some (tt, w') /\
    filter is_sendto (w_log w') = filter is_sendto (w_log w) /\
    completions (w_log w') = completions (w_log w) ++ delivery (w_req w) ISC_R_TIMEDOUT /\
    DNS_REQUEST_TIMEDOUT (w_req w') = true /\
    DNS_REQUEST_CANCELED (w_req w') = true.
Proof.
  intros Hok Hcan Hcount.
  destruct (handle_progress env (E_timer ISC_TIMEREVENT_TICK) w Hok) as (w' & H).
  { cbn. now rewrite Hcan. }
  exists w'. split; [exact H|]. cbn [handle] in H.
  destruct (req_timeout_expiry env _ w w' H (or_intror Hcount)) as (Ht & Hc & _ & Hs).
  repeat split; try assumption.
  apply (req_timeout_expiry_delivery env _ w w' H).
  rewrite Hcount. reflexivity.
Qed.

(** X7.  The retransmission schedule.  A live request that is not sending,
    with [udpcount] at [n] and send events available, given [n] timer ticks
    (each send completing before the next tick) and then one more tick:
    no handler aborts; the query is sent again exactly [n] times, each time
    the same bytes to the saved destination on the request's socket; the
    last tick sets TIMEDOUT and CANCELED and hands ISC_R_TIMEDOUT to
    [send_if_done]. *)
Theorem udp_retransmission_schedule (env : Env) (n : nat) (w : world)
  (Hevt : forall h, e_socketevent env h = true)
  (Hok : request_ok (w_req w) = true)
  (Hcan : DNS_REQUEST_CANCELED (w_req w) = false)
  (Hsend : DNS_REQUEST_SENDING (w_req w) = false)
  (Hcount : udpcount (w_req w) = Z.of_nat n)
  (Hrange : Z.of_nat n < UINT_MOD) :
  exists w',
    run env (retransmit_rounds n ++ [E_timer ISC_TIMEREVENT_TICK]) w = Some (tt, w') /\
    filter is_sendto (w_log w') =
      filter is_sendto (w_log w) ++ repeat_actions n (retransmission (w_req w)) /\
    completions (w_log w') =
      completions (w_log w) ++ delivery (w_req w) ISC_R_TIMEDOUT /\
    DNS_REQUEST_TIMEDOUT (w_req w') = true /\
    DNS_REQUEST_CANCELED (w_req w') = true.
Proof.
  revert w Hok Hcan Hsend Hcount Hrange.
  induction n as [|n IH]; intros w Hok Hcan Hsend Hcount Hrange.
  - cbn [retransmit_rounds app repeat_actions]. rewrite app_nil_r.
    destruct (timer_expiry_step env w Hok Hcan Hcount) as (w' & H & Hs & Hc & Ht & Hx).
    exists w'. rewrite run_cons, H. cbn. auto.
  - assert (Hnz : udpcount (w_req w) <> 0) by lia.
    destruct (retransmit_round env w Hevt Hok Hcan Hsend Hnz)
      as (w2 & Hround & Hlog & Hcnt & Hcan2 & Hsend2 &
          Hq & Hd & Hde & Hda & Hds & Hev & Hcg).
    pose proof (run_keeps_ok env _ w w2 Hround Hok) as Hok2.
    assert (Hcnt2 : udpcount (w_req w2) = Z.of_nat n).
    { rewrite Hcnt, Hcount. unfold u32. rewrite Z.mod_small; lia. }
    destruct (IH w2 Hok2 Hcan2 Hsend2 Hcnt2 ltac:(lia)) as (w' & Hrun & Hs & Hc & Ht & Hx).
    exists w'.
    assert (Hre : retransmission (w_req w2) = retransmission (w_req w)).
    { unfold retransmission, socket_of. now rewrite Hq, Hd, Hde, Hda, Hds. }
    assert (Hdl : delivery (w_req w2) ISC_R_TIMEDOUT = delivery (w_req w) ISC_R_TIMEDOUT).
    { unfold delivery. now rewrite Hev, Hcg. }
    destruct (retransmission_filters (w_req w)) as (Hf1 & Hf2).
    split; [|split; [|split; [|split]]].
    + cbn [retransmit_rounds app].
      change (E_timer ISC_TIMEREVENT_TICK :: E_senddone ISC_R_SUCCESS ::
                retransmit_rounds n ++ [E_timer ISC_TIMEREVENT_TICK])
        with ([E_timer ISC_TIMEREVENT_TICK; E_senddone ISC_R_SUCCESS] ++
              (retransmit_rounds n ++ [E_timer ISC_TIMEREVENT_TICK])).
      rewrite run_app, Hround. exact Hrun.
    + rewrite Hs, Hre, Hlog, filter_app, Hf1. cbn [repeat_actions].
      now rewrite app_assoc.
    + rewrite Hc, Hdl, Hlog. unfold completions. rewrite filter_app, Hf2.
      now rewrite app_nil_r.
    + exact Ht.
    + exact Hx.
Qed.

Lemma udp_retransmission_schedule_witness :
  exists w',
    run env_ok (retransmit_rounds 3 ++ [E_timer ISC_TIMEREVENT_TICK]) world_waiting
    = Some (tt, w') /\
    filter is_sendto (w_log w') =
      repeat_actions 3 [A_socket_sendto (Some 10) wire_query (Some addr_server) None] /\
    completions (w_log w') = [A_task_sendanddetach 100 ISC_R_TIMEDOUT].
Proof.
  destruct (udp_retransmission_schedule env_ok 3 world_waiting (fun _ => eq_refl)
              eq_refl eq_refl eq_refl eq_refl eq_refl)
    as (w' & Hrun & Hs & Hc & _).
  exists w'. split; [exact Hrun|]. split; [exact Hs|exact Hc].
Defined.

(** ** The response reaches the caller *)

Lemma handle_keeps_answer (env : Env) (e : req_event) (w w' : world) :
  handle env e w = Some (tt, w') ->
  dispentry (w_req w) = None ->
  answer (w_req w') = answer (w_req w) /\ dispentry (w_req w') = None.
Proof.
  intros H Hde. destruct w as [m r l].
  destruct r as [mg hs fl q a ev d de t rm ts tk c da uc ds].
  cbn in Hde. subst de.
  destruct e; cbn [handle] in H.
  - unfold dns_request_cancel in H. mexec_any H; split; reflexivity.
  - unfold do_cancel, send_if_done, req_sendevent in H.
    mexec_any H; use_cancel; split; reflexivity.
  - unfold req_connected, req_send, req_getsocket, send_if_done, req_sendevent in H.
    mexec_any H; use_cancel; split; reflexivity.
  - unfold req_senddone, send_if_done, req_sendevent in H.
    mexec_any H; use_cancel; split; reflexivity.
  - unfold req_response, send_if_done, req_sendevent, isc_buffer_copyregion in H.
    mexec_any H; use_cancel; split; reflexivity.
  - unfold req_timeout, req_send, req_getsocket, send_if_done, req_sendevent in H.
    mexec_any H; use_cancel; split; reflexivity.
Qed.

Lemma run_keeps_answer (env : Env) (es : list req_event) (w w' : world) :
  run env es w = Some (tt, w') ->
  dispentry (w_req w) = None ->
  answer (w_req w') = answer (w_req w).
Proof.
  revert w. induction es as [|e es IH]; intros w H Hde.
  - cbn in H. now injection H as <-.
  - rewrite run_cons in H.
    destruct (handle env e w) as [[[] w1]|] eqn:Hh; [|discriminate].
    destruct (handle_keeps_answer env e w w1 Hh Hde) as (Ha & Hde1).
    rewrite (IH w1 H Hde1). exact Ha.
Qed.

Lemma response_step (env : Env) (res : isc_result_t) (buf : list Z) (w : world) :
  request_ok (w_req w) = true ->
  DNS_REQUEST_CANCELED (w_req w) = false ->
  exists w',
    handle env (E_response res buf) w = Some (tt, w') /\
    answer (w_req w') =
      (if is_success res then Some (mk_buffer (Z.of_nat (length buf)) buf) else None) /\
    dispentry (w_req w') = None /\
    DNS_REQUEST_CANCELED (w_req w') = true.
Proof.
  intros Hok Hcan.
  destruct (handle_progress env (E_response res buf) w Hok) as (w' & H).
  { cbn. now rewrite Hcan. }
  exists w'. split; [exact H|].
  destruct w as [m r l].
  destruct r as [mg hs fl q a ev d de t rm ts tk c da uc ds].
  cbn [handle] in H.
  unfold req_response, send_if_done, req_sendevent, isc_buffer_copyregion,
    isc_buffer_allocate, isc_buffer_availablelength in H.
  cbn in H. rewrite ?Z.sub_0_r, ?Z.leb_refl in H.
  mexec_any H; use_cancel.
  all: unfold request_ok, VALID_REQUEST in *.
  all: cbn in *; flagbits; cbn in *; bits_hyps; cbn in *.
  all: try congruence.
  all: arith_hyps.
  all: repeat match goal with
              | o : option _ |- _ => destruct o; cbn in *; try discriminate
              end.
  all: try match goal with
           | H : (if ?b then false else false) = true |- _ => destruct b; discriminate H
           end.
  all: repeat split; reflexivity.
Qed.

(** X8.  A response reaches the caller unchanged.  On a live request that
    is not CANCELED, [req_response] never aborts; when the dispatcher
    reports success the answer buffer holds exactly the bytes delivered
    (the copy cannot fail, the buffer being allocated to their length), and
    otherwise the answer stays null; the request is CANCELED and its
    response slot is gone.  After any further events [dns_request_getanswer]
    still returns that buffer. *)
Theorem response_round_trip (env : Env) (res : isc_result_t) (buf : list Z)
  (es : list req_event) (w : world)
  (Hok : request_ok (w_req w) = true)
  (Hcan : DNS_REQUEST_CANCELED (w_req w) = false) :
  exists w1,
    handle env (E_response res buf) w = Some (tt, w1) /\
    DNS_REQUEST_CANCELED (w_req w1) = true /\
    dispentry (w_req w1) = None /\
    completions (w_log w1) = completions (w_log w) ++ delivery (w_req w) res /\
    forall w2,
      run env es w1 = Some (tt, w2) ->
      dns_request_getanswer w2 =
      Some (if is_success res then Some (mk_buffer (Z.of_nat (length buf)) buf) else None,
            w2).
Proof.
  destruct (response_step env res buf w Hok Hcan) as (w1 & H & Ha & Hde & Hc).
  exists w1. split; [exact H|]. split; [exact Hc|]. split; [exact Hde|].
  split; [exact (req_response_delivery res buf w w1 H)|].
  intros w2 Hrun.
  pose proof (run_keeps_answer env es w1 w2 Hrun Hde) as Ha2.
  pose proof (handle_keeps_ok env _ w w1 H Hok) as Hok1.
  pose proof (run_keeps_ok env es w1 w2 Hrun Hok1) as Hok2.
  unfold request_ok in Hok2.
  apply andb_true_iff in Hok2 as (Hv & _). apply andb_true_iff in Hv as (Hv & _).
  unfold dns_request_getanswer, bind, get_req, require, ret.
  rewrite Hv, Ha2, Ha. reflexivity.
Qed.

Lemma response_round_trip_witness :
  exists w1 w2,
    handle env_ok (E_response ISC_R_SUCCESS [1; 2; 3]) world_sending = Some (tt, w1) /\
    run env_ok [E_senddone ISC_R_SUCCESS] w1 = Some (tt, w2) /\
    dns_request_getanswer w2 = Some (Some (mk_buffer 3 [1; 2; 3]), w2).
Proof.
  destruct (response_round_trip env_ok ISC_R_SUCCESS [1; 2; 3] [E_senddone ISC_R_SUCCESS]
              world_sending eq_refl eq_refl) as (w1 & H & _ & _ & _ & Hget).
  exists w1.
  vm_compute in H. injection H as <-.
  eexists. split; [reflexivity|].
  split; [vm_compute; reflexivity|].
  apply Hget. vm_compute. reflexivity.
Defined.

(** ** Requests refused before a dispatch is found *)

Lemma early_cleanup (task t : Z) (res res' : isc_result_t) (m : dns_requestmgr_t)
  (r0 : dns_request_t) (l : list action) (w' : world) :
  cleanup true task res
    (mk_world m (with_event (Some (mk_requestevent task ISC_R_FAILURE))
                   (with_timer (Some t) r0))
       (l ++ [A_timer_create ISC_R_SUCCESS; A_event_allocate task; A_task_attach task]))
  = Some (res', w') ->
  VALID_REQUEST r0 = true -> dispatch r0 = None -> dispentry r0 = None ->
  requestmgr r0 = false ->
  res' = res /\ w_log w' = l ++ early_unwind task t.
Proof.
  intros H Hv Hd Hde Hrm.
  destruct r0 as [mg hs fl q a ev d de t0 rm ts tk c da uc ds].
  cbn in Hv, Hd, Hde, Hrm. subst d de rm.
  unfold cleanup, req_destroy in H. unfold VALID_REQUEST in *. cbn in H.
  mexec_any H. split; [reflexivity|].
  cbn. repeat rewrite <- app_assoc. reflexivity.
Qed.

(** X9.  What [dns_request_createraw] refuses before it has a dispatch.
    Past the blackhole test and with its timer created: a message shorter
    than the DNS header or longer than 65535 bytes gives DNS_R_FORMERR; a
    message of at most 512 bytes without the TCP option and without a
    source address is sent through the manager's own dispatch of the
    destination's family, so an unknown family gives ISC_R_NOTIMPLEMENTED
    and a family the manager has no dispatch for gives
    ISC_R_FAMILYNOSUPPORT.  In all three cases the dispatch manager is
    never asked: the only calls are those that take and give back the
    timer, the event and the task reference. *)
Theorem createraw_refused_early (env : Env) (msgbuf : isc_buffer_t)
  (destaddr : isc_sockaddr_t) (srcaddr : option isc_sockaddr_t) (dscpv : Z)
  (options : options_t) (timeout udptimeout udpretries : Z) (task action t : Z)
  (w w' : world) (res : isc_result_t)
  (Hrun : dns_request_createraw env (Some msgbuf) srcaddr (Some destaddr) dscpv options
            timeout udptimeout udpretries (Some task) (Some action) (Some None) w
          = Some (res, w'))
  (Hbh : isblackholed env destaddr = false)
  (Htimer : e_timer_create env (w_log w) = (ISC_R_SUCCESS, t)) :
  let len := Z.of_nat (length (isc_buffer_usedregion msgbuf)) in
  (len < DNS_MESSAGE_HEADERLEN \/ 65535 < len ->
   res = DNS_R_FORMERR /\ w_log w' = w_log w ++ early_unwind task t) /\
  (DNS_MESSAGE_HEADERLEN <= len <= 512 -> opt_tcp options = false -> srcaddr = None ->
   mgr_dispatch (w_mgr w) (isc_sockaddr_pf destaddr) = None ->
   res = (match isc_sockaddr_pf destaddr with
          | PF_UNSPEC => ISC_R_NOTIMPLEMENTED
          | _ => ISC_R_FAMILYNOSUPPORT
          end) /\
   w_log w' = w_log w ++ early_unwind task t).
Proof.
  cbv zeta.
  apply createraw_steps in Hrun; [|exact Hbh]. cbv zeta in Hrun.
  destruct Hrun as (udpt & tres & t' & _ & Ht & H).
  rewrite Htimer in Ht. injection Ht as <- <-. cbn [is_success] in H.
  split.
  - intros Hlen.
    assert (Hb : (Z.of_nat (length (isc_buffer_usedregion msgbuf)) <? DNS_MESSAGE_HEADERLEN)
                 || (65535 <? Z.of_nat (length (isc_buffer_usedregion msgbuf))) = true).
    { apply orb_true_iff. destruct Hlen; [left; apply Z.ltb_lt|right; apply Z.ltb_lt]; lia. }
    rewrite Hb in H.
    apply early_cleanup in H; [exact H|reflexivity..].
  - intros Hlen Htcp -> Hnone.
    assert (Hb : (Z.of_nat (length (isc_buffer_usedregion msgbuf)) <? DNS_MESSAGE_HEADERLEN)
                 || (65535 <? Z.of_nat (length (isc_buffer_usedregion msgbuf))) = false).
    { apply orb_false_iff. split; apply Z.ltb_ge; lia. }
    rewrite Hb in H.
    assert (Hudp : opt_tcp options
                   || (512 <? Z.of_nat (length (isc_buffer_usedregion msgbuf))) = false).
    { rewrite Htcp. cbn. apply Z.ltb_ge. lia. }
    rewrite Hudp in H.
    destruct H as (rres & conn & id & w1 & Hr & H).
    unfold raw_again, raw_pass, get_dispatch, find_udp_dispatch in Hr.
    unfold mgr_dispatch in Hnone.
    destruct w as [m rq l]. cbn [w_mgr w_log] in *.
    destruct (isc_sockaddr_pf destaddr); cbn in Hnone; munfold Hr; cbn in Hr;
      try rewrite Hnone in Hr; mexec_any Hr; cbn [is_success] in H;
      (apply early_cleanup in H; [exact H|reflexivity..]).
Qed.

Lemma createraw_refused_early_witness :
  exists w',
    dns_request_createraw env_ok (Some msgbuf_query) None
      (Some (mk_sockaddr PF_INET6 1 53)) (-1) opts_none 30 0 3 (Some 100) (Some 200)
      (Some None) world_idle = Some (ISC_R_FAMILYNOSUPPORT, w') /\
    w_log w' = early_unwind 100 7.
Proof.
  eexists. split; [vm_compute; reflexivity|].
  match goal with
  | |- w_log ?x = _ =>
      exact (proj2 (proj2 (createraw_refused_early env_ok msgbuf_query
                             (mk_sockaddr PF_INET6 1 53) None (-1) opts_none 30 0 3
                             100 200 7 world_idle x ISC_R_FAMILYNOSUPPORT
                             ltac:(vm_compute; reflexivity) eq_refl eq_refl)
                      ltac:(vm_compute; split; discriminate) eq_refl eq_refl eq_refl))
  end.
Defined.

(** * The request manager *)

Ltac gunfold :=
  unfold gbind, gret, gabort, grequire, gwhen, gget_mgr, gmodify_mgr, gput_magic,
    grequire_valid, gemit in *.

Lemma dns_request_cancel_total (w : world) :
  cancelable (w_req w) = true ->
  dns_request_cancel w =
  Some (tt, mk_world (w_mgr w) (cancel_mark (w_req w)) (w_log w ++ cancel_post (w_req w))).
Proof.
  intros Hc. unfold cancelable in Hc. apply andb_true_iff in Hc as (Hv & Hc).
  unfold dns_request_cancel, cancel_mark, cancel_post, cancel_seen in *.
  destruct w as [m r l]. cbn [w_req w_mgr w_log] in *.
  unfold bind, get_req, require, ret, abort, emit, modify_req. cbn [w_req w_mgr w_log].
  rewrite Hv.
  destruct (canceling r) eqn:Hcg; cbn [negb andb orb].
  - now rewrite app_nil_r.
  - destruct (DNS_REQUEST_CANCELED r) eqn:Hcd; cbn [negb orb andb] in *.
    + now rewrite app_nil_r.
    + destruct (event r); [reflexivity|discriminate].
Qed.

Lemma all_cancelable_ext (st st' : Z -> option dns_request_t) (l : list Z) :
  (forall x, existsb (Z.eqb x) l = true -> st' x = st x) ->
  all_cancelable st' l = all_cancelable st l /\ cancel_posts st' l = cancel_posts st l.
Proof.
  induction l as [|y l IH]; intros Hext; [split; reflexivity|].
  unfold all_cancelable, cancel_posts in *. cbn [forallb flat_map].
  rewrite (Hext y) by (cbn; now rewrite Z.eqb_refl).
  destruct IH as (IH1 & IH2).
  { intros x Hx. apply Hext. cbn. rewrite Hx. apply orb_true_r. }
  now rewrite IH1, IH2.
Qed.

Lemma cancel_all_spec (l : list Z) :
  forall g,
    distinct l = true ->
    all_cancelable (en_store g) l = true ->
    exists st',
      cancel_all l g =
      Some (tt, engine_of (en_mgr g) st' (en_log g ++ cancel_posts (en_store g) l)) /\
      forall x, st' x = if existsb (Z.eqb x) l
                        then option_map cancel_mark (en_store g x)
                        else en_store g x.
Proof.
  induction l as [|self l IH]; intros g Hd Hc.
  - exists (en_store g). cbn. rewrite app_nil_r. destruct g; auto.
  - cbn [distinct] in Hd. apply andb_true_iff in Hd as (Hself & Hd).
    apply negb_true_iff in Hself.
    unfold all_cancelable in Hc. cbn [forallb] in Hc.
    apply andb_true_iff in Hc as (Hr & Hc).
    destruct (en_store g self) as [r|] eqn:Hst; [|discriminate].
    set (g1 := engine_of (en_mgr g)
                 (fun x => if x =? self then Some (cancel_mark r) else en_store g x)
                 (en_log g ++ cancel_post r)).
    assert (Hext : forall x, existsb (Z.eqb x) l = true -> en_store g1 x = en_store g x).
    { intros x Hx. cbn. destruct (Z.eqb_spec x self) as [->|]; [congruence|reflexivity]. }
    destruct (all_cancelable_ext _ _ _ Hext) as (Hc1 & Hp1).
    destruct (IH g1 Hd) as (st' & Hrun & Hst').
    { rewrite Hc1. exact Hc. }
    exists st'. split.
    + cbn [cancel_all]. unfold gbind, on_request. rewrite Hst.
      rewrite (dns_request_cancel_total (mk_world (en_mgr g) r (en_log g)) Hr).
      cbn [w_mgr w_req w_log].
      fold g1. rewrite Hrun. cbn [en_mgr en_log g1].
      rewrite Hp1. unfold cancel_posts. cbn [flat_map]. rewrite Hst.
      now rewrite app_assoc.
    + intros x. rewrite Hst'. cbn [existsb en_store g1].
      destruct (Z.eqb_spec x self) as [->|Hne]; cbn [orb].
      * rewrite Hself, Hst. reflexivity.
      * reflexivity.
Qed.

(** X10.  [dns_requestmgr_shutdown] cancels every linked request, once.
    On a valid manager that is not exiting, whose [iref] counts its linked
    requests, all of them live and still holding their completion event
    unless a cancel was seen: the call returns with [exiting] set; every
    linked request that has seen no cancel gets its control event posted,
    in list order, and [canceling] set, all other requests are untouched;
    when no request is left ([iref] 0) the queued shutdown events are sent
    and the queue is emptied, otherwise they stay queued.  A second call
    only takes and releases the lock. *)
Theorem shutdown_cancels_every_request (g : engine)
  (Hv : VALID_REQUESTMGR g = true)
  (Hex : exiting (en_mgr g) = false)
  (Hm : mgr_ok (en_mgr g) = true)
  (Hst : all_cancelable (en_store g) (requests (en_mgr g)) = true) :
  let m := en_mgr g in
  exists g',
    dns_requestmgr_shutdown g = Some (tt, g') /\
    en_magic g' = en_magic g /\
    en_mgr g' = with_whenshutdown (if iref m =? 0 then [] else whenshutdown m)
                  (with_exiting true m) /\
    (forall x, en_store g' x = if linked x m
                               then option_map cancel_mark (en_store g x)
                               else en_store g x) /\
    en_log g' = en_log g ++ [A_lock_mgr] ++ cancel_posts (en_store g) (requests m) ++
                (if iref m =? 0 then shutdown_sends (whenshutdown m) else []) ++
                [A_unlock_mgr] /\
    dns_requestmgr_shutdown g' =
    Some (tt, mk_engine (en_magic g') (en_mgr g') (en_store g')
                (en_log g' ++ [A_lock_mgr; A_unlock_mgr])).
Proof.
  cbv zeta. destruct g as [m st l]. destruct m as [mg er ir d4 d6 ex ws mh rqs].
  unfold VALID_REQUESTMGR, en_magic, mgr_ok in *.
  cbn [en_mgr en_store en_log mgr_magic iref requests exiting] in *.
  apply andb_true_iff in Hm as (Hir & Hdis). apply Z.eqb_eq in Hir.
  assert (Hidem : forall m1 st1 l1,
             exiting m1 = true -> mgr_magic m1 = mg ->
             dns_requestmgr_shutdown (engine_of m1 st1 l1) =
             Some (tt, engine_of m1 st1 (l1 ++ [A_lock_mgr; A_unlock_mgr]))).
  { intros m1 st1 l1 Hx Hmg. unfold dns_requestmgr_shutdown, mgr_shutdown. gunfold.
    unfold VALID_REQUESTMGR, en_magic. cbn [en_mgr en_store en_log].
    rewrite Hmg, Hv. cbn [en_mgr en_store en_log]. rewrite Hx.
    cbn [en_mgr en_store en_log].
    now rewrite <- app_assoc. }
  subst ex.
  destruct (cancel_all_spec rqs
              (engine_of (mk_requestmgr mg er ir d4 d6 true ws mh rqs) st
                 (l ++ [A_lock_mgr])) Hdis Hst) as (st' & Hrun & Hst').
  cbn [en_mgr en_store en_log] in Hrun, Hst'.
  set (g' := engine_of
               (with_whenshutdown (if ir =? 0 then [] else ws)
                  (with_exiting true (mk_requestmgr mg er ir d4 d6 false ws mh rqs)))
               st'
               (l ++ [A_lock_mgr] ++ cancel_posts st rqs ++
                (if ir =? 0 then shutdown_sends ws else []) ++ [A_unlock_mgr])).
  exists g'. split.
  { unfold dns_requestmgr_shutdown, mgr_shutdown. gunfold.
    unfold VALID_REQUESTMGR, en_magic, with_exiting.
    cbn [en_mgr en_store en_log mgr_magic iref requests eref dispatchv4 dispatchv6
           exiting whenshutdown mgr_hash].
    rewrite Hv.
    cbn [en_mgr en_store en_log mgr_magic iref requests eref dispatchv4 dispatchv6
           exiting whenshutdown mgr_hash].
    rewrite Hrun.
    cbn [en_mgr en_store en_log mgr_magic iref requests eref dispatchv4 dispatchv6
           exiting whenshutdown mgr_hash].
    subst g'. unfold with_exiting.
    cbn [mgr_magic iref requests eref dispatchv4 dispatchv6 exiting whenshutdown
           mgr_hash].
    destruct (Z.eqb_spec ir 0) as [Hz|Hnz].
    - assert (rqs = []) by (destruct rqs; [reflexivity|cbn in Hir; lia]). subst rqs.
      cbn. unfold on_manager. rewrite send_shutdown_events_spec. cbn.
      now rewrite <- !app_assoc.
    - cbn. now rewrite <- !app_assoc. }
  split; [reflexivity|]. split; [reflexivity|].
  split; [intros x; unfold linked; cbn [requests]; now rewrite <- Hst'|].
  split; [reflexivity|].
  unfold mk_engine, with_mgr_magic, en_magic. subst g'.
  unfold with_whenshutdown, with_exiting.
  cbn [en_mgr en_store en_log mgr_magic iref requests eref dispatchv4 dispatchv6
         exiting whenshutdown mgr_hash].
  apply Hidem; reflexivity.
Qed.

Lemma shutdown_cancels_every_request_witness :
  exists g',
    dns_requestmgr_shutdown engine_two = Some (tt, g') /\
    exiting (en_mgr g') = true /\
    en_store g' 4096 = Some (with_canceling true request_waiting) /\
    en_store g' 8192 = Some request_done /\
    en_log g' = [A_lock_mgr; A_task_send_ctlevent 100; A_unlock_mgr].
Proof.
  destruct (shutdown_cancels_every_request engine_two eq_refl eq_refl eq_refl eq_refl)
    as (g' & Hrun & _ & Hmgr & Hstore & Hlog & _).
  exists g'. split; [exact Hrun|].
  split; [rewrite Hmgr; reflexivity|].
  split; [rewrite Hstore; reflexivity|].
  split; [rewrite Hstore; reflexivity|].
  rewrite Hlog. reflexivity.
Defined.

(** X11.  An event given to [dns_requestmgr_whenshutdown] is delivered
    exactly once.  On a manager that is exiting it is sent at once and
    nothing is queued; otherwise a reference to the task is taken and the
    event is queued at the tail, nothing being sent; and when such a
    manager has no request, [dns_requestmgr_shutdown] sends the queue, in
    order and ending with the new event, and leaves it empty. *)
Theorem whenshutdown_delivered_once (task event : Z) (g : engine)
  (Hv : VALID_REQUESTMGR g = true) :
  let m := en_mgr g in
  (exiting m = true ->
   dns_requestmgr_whenshutdown task (Some (Some event)) g =
   Some (Some (task, event),
         mk_engine (en_magic g) m (en_store g) (en_log g ++ [A_lock_mgr; A_unlock_mgr]))) /\
  (exiting m = false ->
   let g1 := mk_engine (en_magic g)
               (with_whenshutdown (whenshutdown m ++ [(task, event)]) m) (en_store g)
               (en_log g ++ [A_lock_mgr; A_task_attach task; A_unlock_mgr]) in
   dns_requestmgr_whenshutdown task (Some (Some event)) g = Some (None, g1) /\
   (iref m = 0 -> requests m = [] ->
    exists g2,
      dns_requestmgr_shutdown g1 = Some (tt, g2) /\
      whenshutdown (en_mgr g2) = [] /\
      en_log g2 = en_log g1 ++ [A_lock_mgr] ++
                  shutdown_sends (whenshutdown m ++ [(task, event)]) ++ [A_unlock_mgr])).
Proof.
  cbv zeta. destruct g as [m st l]. destruct m as [mg er ir d4 d6 ex ws mh rqs].
  unfold VALID_REQUESTMGR, en_magic, mk_engine, with_mgr_magic, with_whenshutdown in *.
  cbn [en_mgr en_store en_log mgr_magic iref requests eref dispatchv4 dispatchv6
         exiting whenshutdown mgr_hash] in *.
  split.
  - intros Hex. unfold dns_requestmgr_whenshutdown. gunfold.
    unfold VALID_REQUESTMGR, en_magic. cbn [en_mgr en_store en_log mgr_magic].
    rewrite Hv. cbn [en_mgr en_store en_log exiting]. rewrite Hex.
    cbn [en_mgr en_store en_log]. now rewrite <- app_assoc.
  - intros Hex. split.
    + unfold dns_requestmgr_whenshutdown. gunfold.
      unfold VALID_REQUESTMGR, en_magic, with_whenshutdown.
      cbn [en_mgr en_store en_log mgr_magic].
      rewrite Hv. cbn [en_mgr en_store en_log exiting]. rewrite Hex.
      cbn [en_mgr en_store en_log mgr_magic iref requests eref dispatchv4 dispatchv6
             exiting whenshutdown mgr_hash].
      now rewrite <- !app_assoc.
    + intros Hir Hrq. subst ex ir rqs.
      unfold dns_requestmgr_shutdown, mgr_shutdown, on_manager. gunfold.
      unfold VALID_REQUESTMGR, en_magic, with_exiting, with_whenshutdown.
      cbn [en_mgr en_store en_log mgr_magic iref requests eref dispatchv4 dispatchv6
             exiting whenshutdown mgr_hash cancel_all].
      rewrite Hv.
      do 3 (gunfold;
            cbn [en_mgr en_store en_log mgr_magic iref requests eref dispatchv4
                   dispatchv6 exiting whenshutdown mgr_hash cancel_all Z.eqb]).
      rewrite send_shutdown_events_spec. cbn.
      eexists. split; [reflexivity|]. cbn. split; [reflexivity|].
      now rewrite <- !app_assoc.
Qed.

Lemma whenshutdown_delivered_once_witness :
  exists g1 g2,
    dns_requestmgr_whenshutdown 101 (Some (Some 10)) engine_idle = Some (None, g1) /\
    dns_requestmgr_shutdown g1 = Some (tt, g2) /\
    filter is_shutdown_event (en_log g2) =
      [A_task_shutdown_event 100 9; A_task_shutdown_event 101 10].
Proof.
  destruct (proj2 (whenshutdown_delivered_once 101 10 engine_idle eq_refl) eq_refl)
    as (H1 & H2).
  destruct (H2 eq_refl eq_refl) as (g2 & Hrun & _ & Hlog).
  eexists. exists g2. split; [exact H1|]. split; [exact Hrun|].
  rewrite Hlog. reflexivity.
Defined.

Ltac gstep :=
  repeat (progress
            (unfold gbind, gret, gabort, grequire, gwhen, gget_mgr, gmodify_mgr,
               gput_magic, grequire_valid, gemit, VALID_REQUESTMGR, en_magic, mk_engine,
               with_eref, with_iref, with_dispatchv4, with_dispatchv6, with_exiting,
               with_mgr_magic, with_whenshutdown, with_requests, with_mgr_hash;
             cbn [en_mgr en_store en_log mgr_magic iref requests eref dispatchv4
                    dispatchv6 exiting whenshutdown mgr_hash cancel_all negb andb])).

(** [mgr_destroy], run for the manager of an engine. *)
Lemma on_manager_mgr_destroy (m : dns_requestmgr_t) (st : Z -> option dns_request_t)
  (l : list action) :
  eref m = 0 -> iref m = 0 ->
  on_manager mgr_destroy (engine_of m st l) =
  Some (tt, engine_of (with_mgr_magic 0 (with_dispatchv6 None (with_dispatchv4 None m)))
              st (l ++ destroy_calls m)).
Proof.
  intros He Hi. destruct m as [mg er ir d4 d6 ex ws mh rqs]. cbn in He, Hi. subst er ir.
  unfold on_manager, mgr_destroy, destroy_calls, modify_mgr, bind, get_mgr, put_mgr,
    require, emit, ret.
  cbn [w_mgr w_req w_log eref iref dispatchv4 dispatchv6 Z.eqb].
  destruct d4 as [v4|], d6 as [v6|]; cbn; rewrite <- ?app_assoc; reflexivity.
Qed.

(** X12.  [dns_requestmgr_detach] and the last external reference.  While
    another external reference or a request is left, the call only drops
    [eref] by one.  When it drops the last reference of a manager without
    requests, the manager must be exiting: then it is destroyed, giving up
    the dispatches it holds and losing its magic number; a manager that
    was never shut down trips the assertion instead.  Detaching without a
    reference trips an assertion as well. *)
Theorem detach_last_reference (g : engine)
  (Hv : VALID_REQUESTMGR g = true) :
  let m := en_mgr g in
  (1 < eref m \/ (eref m = 1 /\ iref m <> 0) ->
   dns_requestmgr_detach true g =
   Some (tt, mk_engine (en_magic g) (with_eref (eref m - 1) m) (en_store g)
               (en_log g ++ [A_lock_mgr; A_unlock_mgr]))) /\
  (eref m = 1 -> iref m = 0 -> exiting m = true -> requests m = [] ->
   exists g',
     dns_requestmgr_detach true g = Some (tt, g') /\
     VALID_REQUESTMGR g' = false /\
     dispatchv4 (en_mgr g') = None /\ dispatchv6 (en_mgr g') = None /\
     en_log g' = en_log g ++ [A_lock_mgr; A_unlock_mgr] ++ destroy_calls m) /\
  (eref m = 1 -> iref m = 0 -> exiting m = false ->
   dns_requestmgr_detach true g = None) /\
  (eref m <= 0 -> dns_requestmgr_detach true g = None).
Proof.
  cbv zeta. destruct g as [m st l]. destruct m as [mg er ir d4 d6 ex ws mh rqs].
  unfold VALID_REQUESTMGR, en_magic in *.
  cbn [en_mgr en_store en_log mgr_magic iref requests eref dispatchv4 dispatchv6
         exiting whenshutdown mgr_hash] in *.
  unfold dns_requestmgr_detach.
  repeat split.
  - intros Hcase. gstep. rewrite Hv. gstep.
    assert (H1 : (0 <? er) = true) by (apply Z.ltb_lt; lia). rewrite H1. gstep.
    assert (H2 : (er - 1 =? 0) && (ir =? 0) = false).
    { apply andb_false_iff. destruct Hcase as [H|(H & H')];
        [left|right]; apply Z.eqb_neq; lia. }
    rewrite H2. gstep. now rewrite <- app_assoc.
  - intros -> -> -> ->. gstep. rewrite Hv.
    repeat (gstep; cbn [Z.ltb Z.compare Z.sub Z.add Z.opp Z.pos_sub Z.eqb andb]).
    rewrite on_manager_mgr_destroy by reflexivity.
    eexists. split; [reflexivity|]. gstep. cbn [Z.eqb].
    repeat split. rewrite <- !app_assoc. reflexivity.
  - intros -> -> ->. gstep. rewrite Hv. gstep. reflexivity.
  - intros Hle. gstep. rewrite Hv. gstep.
    assert (H1 : (0 <? er) = false) by (apply Z.ltb_ge; lia). now rewrite H1.
Qed.

Lemma detach_last_reference_witness :
  dns_requestmgr_detach true engine_idle = None /\
  exists g1 g2,
    dns_requestmgr_shutdown engine_idle = Some (tt, g1) /\
    dns_requestmgr_detach true g1 = Some (tt, g2) /\
    VALID_REQUESTMGR g2 = false.
Proof.
  split.
  - exact (proj1 (proj2 (proj2 (detach_last_reference engine_idle eq_refl)))
             eq_refl eq_refl eq_refl).
  - eexists. 
    assert (Hs : dns_requestmgr_shutdown engine_idle = Some (tt, _))
      by (vm_compute; reflexivity).
    match type of Hs with
    | _ = Some (_, ?x) =>
        destruct (proj1 (proj2 (detach_last_reference x eq_refl))
                    eq_refl eq_refl eq_refl eq_refl) as (g2 & Hd & Hinv & _);
        exists g2; split; [exact Hs|]; split; [exact Hd|exact Hinv]
    end.
Defined.

(** ** The manager from creation to destruction *)

Lemma repeat_attach (mg : Z) (st : Z -> option dns_request_t) (d4 d6 : option dns_dispatch_t)
  (ws : list (Z * Z)) (mh ir : Z) (rqs : list Z) (n : nat) :
  forall er l,
    mg = REQUESTMGR_MAGIC ->
    er + Z.of_nat n <= INT32_MAX ->
    repeat_call n (dns_requestmgr_attach (Some None))
      (engine_of (mk_requestmgr mg er ir d4 d6 false ws mh rqs) st l) =
    Some (tt, engine_of (mk_requestmgr mg (er + Z.of_nat n) ir d4 d6 false ws mh rqs) st
                (l ++ repeat_actions n [A_lock_mgr; A_unlock_mgr])).
Proof.
  induction n as [|n IH]; intros er l Hmg Hle.
  - cbn. now rewrite Z.add_0_r, app_nil_r.
  - cbn [repeat_call]. unfold gbind at 1.
    remember (repeat_call n (dns_requestmgr_attach (Some None))) as rest eqn:Hrest.
    unfold dns_requestmgr_attach. gstep.
    subst mg rest. cbn [Z.eqb Pos.eqb REQUESTMGR_MAGIC]. gstep.
    assert (H1 : (er <? INT32_MAX) = true) by (apply Z.ltb_lt; lia).
    rewrite H1. gstep.
    rewrite IH by (reflexivity || lia).
    replace (er + 1 + Z.of_nat n) with (er + Z.of_nat (S n)) by lia.
    cbn [repeat_actions]. now rewrite <- !app_assoc.
Qed.

Lemma repeat_detach (mg : Z) (st : Z -> option dns_request_t) (d4 d6 : option dns_dispatch_t)
  (ws : list (Z * Z)) (mh ir : Z) (ex : bool) (rqs : list Z) (n : nat) :
  forall er l,
    mg = REQUESTMGR_MAGIC ->
    1 <= er ->
    repeat_call n (dns_requestmgr_detach true)
      (engine_of (mk_requestmgr mg (er + Z.of_nat n) ir d4 d6 ex ws mh rqs) st l) =
    Some (tt, engine_of (mk_requestmgr mg er ir d4 d6 ex ws mh rqs) st
                (l ++ repeat_actions n [A_lock_mgr; A_unlock_mgr])).
Proof.
  induction n as [|n IH]; intros er l Hmg Hle.
  - cbn. now rewrite Z.add_0_r, app_nil_r.
  - cbn [repeat_call]. unfold gbind at 1.
    remember (repeat_call n (dns_requestmgr_detach true)) as rest eqn:Hrest.
    unfold dns_requestmgr_detach. gstep.
    subst mg rest. cbn [Z.eqb Pos.eqb REQUESTMGR_MAGIC]. gstep.
    assert (H1 : (0 <? er + Z.of_nat (S n)) = true) by (apply Z.ltb_lt; lia).
    rewrite H1. gstep.
    assert (H2 : (er + Z.of_nat (S n) - 1 =? 0) = false) by (apply Z.eqb_neq; lia).
    rewrite H2. cbn [andb]. gstep.
    replace (er + Z.of_nat (S n) - 1) with (er + Z.of_nat n) by lia.
    rewrite IH by (reflexivity || lia).
    cbn [repeat_actions]. now rewrite <- !app_assoc.
Qed.

Lemma lock_noise_filtered (f : action -> bool) (n : nat) :
  f A_lock_mgr = false -> f A_unlock_mgr = false ->
  filter f (repeat_actions n [A_lock_mgr; A_unlock_mgr]) = [].
Proof.
  intros H1 H2. induction n as [|n IH]; [reflexivity|].
  cbn [repeat_actions app filter]. now rewrite H1, H2.
Qed.

(** X13.  The manager's external references balance.  A manager created
    with UDP dispatches, attached [n] more times, shut down while it has no
    request, and detached [n] times is still valid and holds one reference;
    the next detach destroys it.  Over the whole life each dispatch given
    at creation is attached once and detached once, and [mgr_destroy] runs
    once. *)
Theorem manager_references_balance (is_udp : dns_dispatch_t -> bool)
  (v4 v6 : option dns_dispatch_t) (n : nat) (g0 : engine)
  (H4 : match v4 with Some d => is_udp d | None => true end = true)
  (H6 : match v6 with Some d => is_udp d | None => true end = true)
  (Hn : Z.of_nat n < INT32_MAX) :
  exists g1 g2 g3 g4 g5,
    dns_requestmgr_create is_udp true true true true v4 v6 (Some None) g0
    = Some (ISC_R_SUCCESS, g1) /\
    repeat_call n (dns_requestmgr_attach (Some None)) g1 = Some (tt, g2) /\
    dns_requestmgr_shutdown g2 = Some (tt, g3) /\
    repeat_call n (dns_requestmgr_detach true) g3 = Some (tt, g4) /\
    dns_requestmgr_detach true g4 = Some (tt, g5) /\
    eref (en_mgr g2) = 1 + Z.of_nat n /\
    VALID_REQUESTMGR g4 = true /\ eref (en_mgr g4) = 1 /\
    VALID_REQUESTMGR g5 = false /\
    filter is_dispatch_ref (en_log g5) =
      filter is_dispatch_ref (en_log g0) ++
      map A_dispatch_attach (dispatch_ids v4 v6) ++
      map A_dispatch_detach (dispatch_ids v4 v6) /\
    filter is_mgr_destroy (en_log g5) = filter is_mgr_destroy (en_log g0) ++ [A_mgr_destroy].
Proof.
  destruct g0 as [m0 st l].
  pose (la := l ++ map A_dispatch_attach (dispatch_ids v4 v6)).
  pose (noise := repeat_actions n [A_lock_mgr; A_unlock_mgr]).
  pose (mg := REQUESTMGR_MAGIC).
  exists (engine_of (mk_requestmgr mg 1 0 v4 v6 false [] 0 []) st la).
  exists (engine_of (mk_requestmgr mg (1 + Z.of_nat n) 0 v4 v6 false [] 0 []) st
            (la ++ noise)).
  exists (engine_of (mk_requestmgr mg (1 + Z.of_nat n) 0 v4 v6 true [] 0 []) st
            ((la ++ noise) ++ [A_lock_mgr; A_unlock_mgr])).
  exists (engine_of (mk_requestmgr mg 1 0 v4 v6 true [] 0 []) st
            (((la ++ noise) ++ [A_lock_mgr; A_unlock_mgr]) ++ noise)).
  exists (engine_of (mk_requestmgr 0 0 0 None None true [] 0 []) st
            ((((la ++ noise) ++ [A_lock_mgr; A_unlock_mgr]) ++ noise) ++
             [A_lock_mgr; A_unlock_mgr] ++
             destroy_calls (mk_requestmgr mg 1 0 v4 v6 true [] 0 []))).
  subst mg.
  split; [|split; [|split; [|split; [|split]]]].
  - unfold dns_requestmgr_create. gstep. rewrite H4, H6. gstep.
    unfold la, dispatch_ids.
    destruct v4, v6; gstep; cbn; rewrite <- ?app_assoc; cbn; rewrite ?app_nil_r;
      reflexivity.
  - apply repeat_attach; [reflexivity|lia].
  - unfold dns_requestmgr_shutdown, mgr_shutdown, on_manager. gstep. cbn [Z.eqb Pos.eqb REQUESTMGR_MAGIC].
    gstep. cbn [Z.eqb]. gstep.
    rewrite send_shutdown_events_spec. cbn. now rewrite app_nil_r, <- !app_assoc.
  - apply repeat_detach; [reflexivity|lia].
  - unfold dns_requestmgr_detach.
    repeat (gstep;
            cbn [Z.eqb Pos.eqb REQUESTMGR_MAGIC Z.ltb Z.compare Z.sub Z.add Z.opp
                   Z.pos_sub andb]).
    rewrite on_manager_mgr_destroy by reflexivity.
    gstep. now rewrite <- !app_assoc.
  - unfold VALID_REQUESTMGR, en_magic. cbn [en_mgr en_log eref mgr_magic].
    split; [reflexivity|]. split; [reflexivity|]. split; [reflexivity|].
    split; [reflexivity|].
    pose proof (lock_noise_filtered is_dispatch_ref n eq_refl eq_refl) as Hn1.
    pose proof (lock_noise_filtered is_mgr_destroy n eq_refl eq_refl) as Hn2.
    fold noise in Hn1, Hn2. unfold la, destroy_calls, dispatch_ids.
    cbn [dispatchv4 dispatchv6].
    split; rewrite !filter_app, ?Hn1, ?Hn2; destruct v4, v6; cbn;
      rewrite ?app_nil_r, <- ?app_assoc; reflexivity.
Qed.

Lemma manager_references_balance_witness :
  exists g1 g5,
    dns_requestmgr_create (fun _ => true) true true true true (Some dispatch_v4) None
      (Some None) engine_idle = Some (ISC_R_SUCCESS, g1) /\
    VALID_REQUESTMGR g5 = false /\
    filter is_dispatch_ref (en_log g5) = [A_dispatch_attach 1; A_dispatch_detach 1].
Proof.
  destruct (manager_references_balance (fun _ => true) (Some dispatch_v4) None 2
              engine_idle eq_refl eq_refl eq_refl)
    as (g1 & g2 & g3 & g4 & g5 & H1 & _ & _ & _ & _ & _ & _ & _ & Hv & Hd & _).
  exists g1, g5. split; [exact H1|]. split; [exact Hv|exact Hd].
Defined.

(** ** Destruction only of a finished request *)




(** ** Requests made with [dns_request_create] *)

(** X15.  A request made with [dns_request_create] is never sent twice.
    The call is [dns_request_createvia] without source address, DSCP or
    resend period, so a request it creates has [udpcount] 0 and a one-shot
    timer; and whichever timer event arrives first, tick or not, the
    handler sends nothing: it sets TIMEDOUT and hands ISC_R_TIMEDOUT to the
    task given at creation. *)
Theorem dns_request_create_single_shot (env : Env) (message : Z)
  (address : isc_sockaddr_t) (options : options_t) (key : option Z) (timeout : Z)
  (task action : Z) (ty : timer_eventtype) (w w' : world)
  (Hrun : dns_request_create env (Some message) (Some address) options key timeout
            (Some task) (Some action) (Some None) w = Some (ISC_R_SUCCESS, w')) :
  udpcount (w_req w') = 0 /\
  (exists t expires,
     filter is_timer_reset (w_log w') =
     filter is_timer_reset (w_log w) ++
     [A_timer_reset t isc_timertype_once expires 0 ISC_R_SUCCESS]) /\
  exists w2,
    handle env (E_timer ty) w' = Some (tt, w2) /\
    DNS_REQUEST_TIMEDOUT (w_req w2) = true /\
    filter is_sendto (w_log w2) = filter is_sendto (w_log w') /\
    completions (w_log w2) =
    completions (w_log w') ++ [A_task_sendanddetach task ISC_R_TIMEDOUT].
Proof.
  unfold dns_request_create in Hrun.
  pose proof (createvia_admits _ _ _ _ _ _ _ _ _ _ _ _ _ _ Hrun) as Hadm.
  apply createvia_success in Hrun.
  destruct Hrun as (udpt & conn & tcp & delta & t & expires & start & rendered & h & id &
                    Hd & _ & Hp & _ & Hl & _ & _ & _ & _ & _ & Huc & _ & _ & Hstart).
  cbn in Hd. injection Hd as <-.
  destruct Hadm as (_ & _ & Hok & _ & Hcg & Hcan & _ & _ & Hev & _).
  split; [exact Huc|]. split.
  - exists t, expires. rewrite Hl, !filter_app, (prep_no_timer_reset _ Hp).
    assert (Hty : timer_type_for (if tcp then 0 else 0) = isc_timertype_once)
      by (destruct tcp; reflexivity).
    rewrite Hty.
    destruct (tcp && negb conn).
    + destruct Hstart as (sock & ->). destruct tcp; reflexivity.
    + destruct Hstart as (sock & q & _ & ->). destruct tcp; reflexivity.
  - destruct (handle_progress env (E_timer ty) w' Hok) as (w2 & H).
    { cbn. now rewrite Hcan. }
    exists w2. split; [exact H|]. cbn [handle] in H.
    destruct (req_timeout_expiry env ty w' w2 H (or_intror Huc)) as (Ht & _ & _ & Hs).
    split; [exact Ht|]. split; [exact Hs|].
    rewrite (req_timeout_expiry_delivery env ty w' w2 H)
      by (rewrite Huc; apply andb_false_r).
    unfold delivery. now rewrite Hev, Hcg.
Qed.

Lemma dns_request_create_single_shot_witness :
  exists w1 w2,
    dns_request_create env_ok (Some 1) (Some addr_server) opts_none None 30
      (Some 100) (Some 200) (Some None) world_idle = Some (ISC_R_SUCCESS, w1) /\
    handle env_ok (E_timer ISC_TIMEREVENT_TICK) w1 = Some (tt, w2) /\
    completions (w_log w2) = [A_task_sendanddetach 100 ISC_R_TIMEDOUT].
Proof.
  eexists.
  assert (Hc : dns_request_create env_ok (Some 1) (Some addr_server) opts_none None 30
                 (Some 100) (Some 200) (Some None) world_idle = Some (ISC_R_SUCCESS, _))
    by (vm_compute; reflexivity).
  destruct (dns_request_create_single_shot env_ok 1 addr_server opts_none None 30 100 200
              ISC_TIMEREVENT_TICK world_idle _ Hc) as (_ & _ & w2 & H & _ & _ & Hcomp).
  exists w2. split; [exact Hc|]. split; [exact H|exact Hcomp].
Defined.

(** ** A successful completion carries an answer *)

Ltac answer_goal :=
  unfold answer_settled in *; cbn in *;
  repeat match goal with
         | H : Some _ = Some _ |- _ => injection H as H; try subst
         end;
  rewrite ?filter_app; cbn [filter];
  repeat match goal with
         | Hd : forallb is_teardown ?d = true |- context [filter is_success_completion ?d] =>
             rewrite (filter_none is_success_completion is_teardown d Hd)
               by (now intros [])
         end;
  repeat match goal with
         | Hs : is_success ?r = _ |- context [is_success_completion (A_task_sendanddetach _ ?r)] =>
             is_var r; destruct r; try discriminate Hs
         end;
  cbn [is_success_completion];
  rewrite ?app_nil_r;
  repeat match goal with
         | |- context [is_some ?o] => is_var o; destruct o
         | Hx : context [is_some ?o] |- _ => is_var o; destruct o
         end;
  cbn in *; try discriminate;
  (split; [|split]);
  try reflexivity; try assumption; try apply orb_true_r;
  try congruence; try (intros; congruence);
  try (left; reflexivity); try (right; reflexivity).

Lemma handle_answer (env : Env) (e : req_event) (w w' : world) :
  handle env e w = Some (tt, w') ->
  answer_settled (w_req w) = true ->
  answer_settled (w_req w') = true /\
  (is_some (answer (w_req w)) = true -> answer (w_req w') = answer (w_req w)) /\
  (filter is_success_completion (w_log w') = filter is_success_completion (w_log w) \/
   is_some (answer (w_req w')) = true).
Proof.
  intros H Hs. destruct w as [m r l].
  destruct r as [mg hs fl q a ev d de t rm ts tk c da uc ds].
  destruct e; cbn [handle] in H.
  - unfold dns_request_cancel in H. mexec_any H; answer_goal.
  - unfold do_cancel, send_if_done, req_sendevent in H.
    mexec_any H; use_cancel; answer_goal.
  - unfold req_connected, req_send, req_getsocket, send_if_done, req_sendevent in H.
    mexec_any H; use_cancel; answer_goal.
  - unfold req_senddone, send_if_done, req_sendevent in H.
    mexec_any H; use_cancel; answer_goal.
  - unfold req_response, send_if_done, req_sendevent, isc_buffer_copyregion in H.
    mexec_any H; use_cancel; answer_goal.
  - unfold req_timeout, req_send, req_getsocket, send_if_done, req_sendevent in H.
    mexec_any H; use_cancel; answer_goal.
Qed.

Lemma run_answer (env : Env) (es : list req_event) :
  forall w w',
    run env es w = Some (tt, w') ->
    answer_settled (w_req w) = true ->
    answer_settled (w_req w') = true /\
    (is_some (answer (w_req w)) = true -> answer (w_req w') = answer (w_req w)) /\
    (filter is_success_completion (w_log w') = filter is_success_completion (w_log w) \/
     is_some (answer (w_req w')) = true).
Proof.
  induction es as [|e es IH]; intros w w' H Hs.
  - cbn in H. injection H as <-. auto.
  - rewrite run_cons in H.
    destruct (handle env e w) as [[[] w1]|] eqn:Hh; [|discriminate].
    destruct (handle_answer env e w w1 Hh Hs) as (Hs1 & Hk1 & Hc1).
    destruct (IH w1 w' H Hs1) as (Hs' & Hk' & Hc').
    split; [exact Hs'|]. split.
    + intros Ha. rewrite <- (Hk1 Ha). apply Hk'. rewrite (Hk1 Ha). exact Ha.
    + destruct Hc' as [Hc'|Hc']; [|right; exact Hc'].
      destruct Hc1 as [Hc1|Hc1]; [left; congruence|].
      right. rewrite (Hk' Hc1). exact Hc1.
Qed.

(** X16.  A completion with ISC_R_SUCCESS carries an answer.  Over any
    events on a request that starts without an answer, ISC_R_SUCCESS is
    sent as the completion only when the answer buffer holds a response;
    [dns_request_getresponse] can then be called: its precondition holds
    and it returns the first failure among setting the query TSIG, setting
    the key and parsing the answer, and otherwise the result of the TSIG
    verification when the request has a key, ISC_R_SUCCESS when it has
    none.  On a request without an answer it trips its precondition. *)
Theorem success_completion_has_answer (env : Env) (es : list req_event) (w w' : world)
  (setquerytsig : option (list Z) -> isc_result_t)
  (settsigkey : option Z -> isc_result_t)
  (parse verify : isc_buffer_t -> isc_result_t)
  (Hv : VALID_REQUEST (w_req w) = true)
  (Hfresh : answer (w_req w) = None)
  (Hrun : run env es w = Some (tt, w')) :
  (filter is_success_completion (w_log w') <> filter is_success_completion (w_log w) ->
   exists ans,
     answer (w_req w') = Some ans /\
     dns_request_getresponse setquerytsig settsigkey parse verify w' =
     Some (if negb (is_success (setquerytsig (tsig (w_req w'))))
           then setquerytsig (tsig (w_req w'))
           else if negb (is_success (settsigkey (tsigkey (w_req w'))))
                then settsigkey (tsigkey (w_req w'))
                else if negb (is_success (parse ans)) then parse ans
                     else if is_some (tsigkey (w_req w')) then verify ans
                          else ISC_R_SUCCESS,
           w')) /\
  (answer (w_req w') = None ->
   dns_request_getresponse setquerytsig settsigkey parse verify w' = None).
Proof.
  assert (Hs : answer_settled (w_req w) = true)
    by (unfold answer_settled; now rewrite Hfresh).
  destruct (run_answer env es w w' Hrun Hs) as (_ & _ & Hc).
  assert (Hv' : VALID_REQUEST (w_req w') = true).
  { destruct (run_static env es w w' Hrun) as (_ & Hmg & _).
    unfold VALID_REQUEST in *. now rewrite Hmg. }
  unfold dns_request_getresponse, bind, get_req, require, ret, abort. rewrite Hv'.
  split.
  - intros Hne. destruct Hc as [Hc|Hc]; [contradiction|].
    destruct (answer (w_req w')) as [ans|]; [|discriminate].
    exists ans. split; [reflexivity|].
    destruct (is_success (setquerytsig _)); cbn [negb]; [|reflexivity].
    destruct (is_success (settsigkey _)); cbn [negb]; [|reflexivity].
    destruct (is_success (parse ans)) eqn:Hp; cbn [negb]; [|reflexivity].
    destruct (is_some (tsigkey (w_req w'))); [reflexivity|].
    apply is_success_true in Hp. now rewrite Hp.
  - intros ->. reflexivity.
Qed.

Lemma success_completion_has_answer_witness :
  exists w',
    run env_ok [E_response ISC_R_SUCCESS [1; 2; 3]] world_waiting = Some (tt, w') /\
    dns_request_getresponse (fun _ => ISC_R_SUCCESS) (fun _ => ISC_R_SUCCESS)
      (fun _ => ISC_R_SUCCESS) (fun _ => ISC_R_FAILURE) w' = Some (ISC_R_SUCCESS, w').
Proof.
  eexists. split; [vm_compute; reflexivity|].
  match goal with
  | |- dns_request_getresponse _ _ _ _ ?x = _ =>
      destruct (proj1 (success_completion_has_answer env_ok
                         [E_response ISC_R_SUCCESS [1; 2; 3]] world_waiting x
                         (fun _ => ISC_R_SUCCESS) (fun _ => ISC_R_SUCCESS)
                         (fun _ => ISC_R_SUCCESS) (fun _ => ISC_R_FAILURE)
                         eq_refl eq_refl ltac:(vm_compute; reflexivity))
                  ltac:(vm_compute; discriminate)) as (ans & _ & Hget)
  end.
  exact Hget.
Defined.
